(** * A shallow embedding of [SyncthingConnection]

    The development follows [connector/syncthingconnection.cpp].  The member
    variables of the connection object become one record, every slot and
    helper becomes a function from connection state to connection state,
    and the signals the object emits (together with the HTTP requests and
    single-shot timers it starts) are appended to a trace kept next to the
    member variables.

    Qt's JSON values, the tick-based [DateTime] of c++utilities and the
    machine integers of the code are modelled as the code uses them:
    a [double] is an IEEE 754 binary64 number, [int] is a 32 bit integer,
    [uint64] a 64 bit one. *)

From Stdlib Require Import ZArith Lia Sorted.
From Stdlib Require Import Floats.PrimFloat Floats.SpecFloat Floats.FloatOps.
From Stdlib Require Import DecimalString.
From stdpp Require Import base list strings.

Local Open Scope string_scope.
Local Open Scope list_scope.
Local Open Scope Z_scope.

(** ** Machine numbers *)

Definition INT_MIN : Z := - 2 ^ 31.
Definition INT_MAX : Z := 2 ^ 31 - 1.

(** Wrap-around of a 32 bit [unsigned int] and a 64 bit [uint64]. *)
Definition wrap_uint32 (z : Z) : Z := z mod 2 ^ 32.
Definition wrap_uint64 (z : Z) : Z := z mod 2 ^ 64.

(** Two's complement wrap-around of an [int] and an [int64]. *)
Definition wrap_int32 (z : Z) : Z := (z + 2 ^ 31) mod 2 ^ 32 - 2 ^ 31.
Definition wrap_int64 (z : Z) : Z := (z + 2 ^ 63) mod 2 ^ 64 - 2 ^ 63.

Definition in_int_range (z : Z) : bool := (INT_MIN <=? z) && (z <=? INT_MAX).

(** The [double] nearest to an integer (round to nearest, ties to even), as
    the conversions [static_cast<double>(n)] compute it. *)
Definition double_of_Z (z : Z) : float :=
  SF2Prim (binary_normalize 53 1024 z 0 false).

(** The integral part of a finite [double] (rounding toward zero); [None]
    for infinities and NaN. *)
Definition double_trunc (f : float) : option Z :=
  match Prim2SF f with
  | S754_zero _ => Some 0
  | S754_finite s m e =>
      let v := if 0 <=? e then Z.pos m * 2 ^ e else Z.pos m / 2 ^ (- e) in
      Some (if s then - v else v)
  | _ => None
  end.

(** Whether a [double] holds an integer. *)
Definition double_is_integral (f : float) : bool :=
  match Prim2SF f with
  | S754_zero _ => true
  | S754_finite _ m e => (0 <=? e) || (Z.pos m mod 2 ^ (- e) =? 0)
  | _ => false
  end.

(** [static_cast<uint64>(d)].  The conversion truncates.  C++ defines it
    only when the truncated value fits [uint64] ([castsToUint64] below);
    for any other [double] (negative, too large, infinite, NaN) the
    standard leaves the result open and compilers differ, so the [0] given
    here for them stands for no value of the program: what is proved of a
    converted value assumes [castsToUint64]. *)
Definition double_to_uint64 (f : float) : Z :=
  match double_trunc f with
  | Some z => if (0 <=? z) && (z <? 2 ^ 64) then z else 0
  | None => 0
  end.

(** The [double] [f] is one that [static_cast<uint64>] converts, and [z] is
    the result: the integral part of [f], which fits. *)
Definition castsToUint64 (f : float) (z : Z) : Prop :=
  double_trunc f = Some z /\ 0 <= z < 2 ^ 64.

Lemma double_to_uint64_defined (f : float) (z : Z) :
  castsToUint64 f z -> double_to_uint64 f = z.
Proof.
  intros [Htrunc [Hlow Hhigh]]. unfold double_to_uint64. rewrite Htrunc.
  apply Z.leb_le in Hlow. apply Z.ltb_lt in Hhigh. rewrite Hlow, Hhigh. reflexivity.
Qed.

(** ** Qt's JSON values *)

#[local] Set Warnings "-register-all".

Inductive QJsonValue : Type :=
| JUndefined
| JNull
| JBool (b : bool)
| JDouble (d : float)
| JString (s : string)
| JArray (a : list QJsonValue)
| JObject (o : list (string * QJsonValue)).

(** A [QJsonObject] lists its members in key order; [QJsonArray] is a list. *)
Definition QJsonObject : Type := list (string * QJsonValue).
Definition QJsonArray : Type := list QJsonValue.

Module Json.

(** [QJsonObject::value(key)]: the member, or [Undefined]. *)
Fixpoint value (o : QJsonObject) (key : string) : QJsonValue :=
  match o with
  | [] => JUndefined
  | (k, v) :: rest => if String.eqb k key then v else value rest key
  end.

Definition toObject (v : QJsonValue) : QJsonObject :=
  match v with JObject o => o | _ => [] end.

Definition toArray (v : QJsonValue) : QJsonArray :=
  match v with JArray a => a | _ => [] end.

(** [QJsonValue::toString()]: a null (hence empty) string unless the value
    is a string. *)
Definition toString (v : QJsonValue) : string :=
  match v with JString s => s | _ => "" end.

Definition toBool (v : QJsonValue) (defaultValue : bool) : bool :=
  match v with JBool b => b | _ => defaultValue end.

Definition toDouble (v : QJsonValue) (defaultValue : float) : float :=
  match v with JDouble d => d | _ => defaultValue end.

(** The [int] a value holds: it is a double, integral and in the range of
    [int]. *)
Definition asInt (v : QJsonValue) : option Z :=
  match v with
  | JDouble d =>
      match double_trunc d with
      | Some z => if double_is_integral d && in_int_range z then Some z else None
      | None => None
      end
  | _ => None
  end.

(** [QJsonValue::toInt(defaultValue)]: the number when it is a double that
    holds an [int], the default otherwise. *)
Definition toInt (v : QJsonValue) (defaultValue : Z) : Z :=
  match asInt v with
  | Some z => z
  | None => defaultValue
  end.

(** [QJsonObject::isEmpty()] and [QString::isEmpty()]. *)
Definition isEmptyObject (o : QJsonObject) : bool :=
  match o with [] => true | _ => false end.

(** [value != QLatin1String(s)]: the right operand converts to a JSON
    string, so the comparison holds unless the value is that very string. *)
Definition neqLatin1 (v : QJsonValue) (s : string) : bool :=
  match v with JString t => negb (String.eqb t s) | _ => true end.

End Json.

Definition isEmpty (s : string) : bool :=
  match s with EmptyString => true | _ => false end.

(** ** [ChronoUtilities::DateTime] and [TimeSpan]

    Both count ticks of 100 nanoseconds; a [DateTime] holds an unsigned 64
    bit count and is null when the count is zero, the difference of two
    of them is a [TimeSpan] holding a signed count. *)

Definition DateTime : Type := Z.

Module Chrono.

Definition null : DateTime := 0.
Definition isNull (t : DateTime) : bool := t =? 0.
Definition ticksPerSecond : Z := 10000000.

(** [(a - b).totalSeconds()] *)
Definition secondsBetween (a b : DateTime) : float :=
  (double_of_Z (wrap_int64 (a - b)) / double_of_Z ticksPerSecond)%float.

End Chrono.

(** ** Enumerations *)

Module SyncthingStatus.
Inductive t : Type :=
| Disconnected | Reconnecting | Idle | Scanning | Paused | Synchronizing | BeingDestroyed.

Definition eqb (a b : t) : bool :=
  match a, b with
  | Disconnected, Disconnected | Reconnecting, Reconnecting | Idle, Idle
  | Scanning, Scanning | Paused, Paused | Synchronizing, Synchronizing
  | BeingDestroyed, BeingDestroyed => true
  | _, _ => false
  end.
#[global] Arguments eqb !a !b /.

Lemma status_eqb_eq (a b : t) : eqb a b = true <-> a = b.
Proof. destruct a, b; simpl; split; intros H; try reflexivity; discriminate H. Qed.

Lemma status_eqb_neq (a b : t) : eqb a b = false <-> a <> b.
Proof. rewrite <- status_eqb_eq. destruct (eqb a b); split; intros H; congruence. Qed.
End SyncthingStatus.

Module SyncthingDirStatus.
Inductive t : Type :=
| Unknown | Idle | Unshared | Scanning | Synchronizing | Paused | OutOfSync.

Definition eqb (a b : t) : bool :=
  match a, b with
  | Unknown, Unknown | Idle, Idle | Unshared, Unshared | Scanning, Scanning
  | Synchronizing, Synchronizing | Paused, Paused | OutOfSync, OutOfSync => true
  | _, _ => false
  end.
#[global] Arguments eqb !a !b /.

Lemma dirStatus_eqb_eq (a b : t) : eqb a b = true <-> a = b.
Proof. destruct a, b; simpl; split; intros H; try reflexivity; discriminate H. Qed.

Lemma dirStatus_eqb_neq (a b : t) : eqb a b = false <-> a <> b.
Proof. rewrite <- dirStatus_eqb_eq. destruct (eqb a b); split; intros H; congruence. Qed.
End SyncthingDirStatus.

Module SyncthingDevStatus.
Inductive t : Type :=
| Unknown | Disconnected | OwnDevice | Idle | Synchronizing | OutOfSync | Rejected.

Definition eqb (a b : t) : bool :=
  match a, b with
  | Unknown, Unknown | Disconnected, Disconnected | OwnDevice, OwnDevice | Idle, Idle
  | Synchronizing, Synchronizing | OutOfSync, OutOfSync | Rejected, Rejected => true
  | _, _ => false
  end.
#[global] Arguments eqb !a !b /.

Lemma devStatus_eqb_eq (a b : t) : eqb a b = true <-> a = b.
Proof. destruct a, b; simpl; split; intros H; try reflexivity; discriminate H. Qed.

Lemma devStatus_eqb_neq (a b : t) : eqb a b = false <-> a <> b.
Proof. rewrite <- devStatus_eqb_eq. destruct (eqb a b); split; intros H; congruence. Qed.
End SyncthingDevStatus.

Inductive SyncthingErrorCategory : Type :=
| OverallConnection | SpecificRequest | Parsing.

(** ** Entities *)

Module SyncthingDirError.
Record t : Type := mk {
  message : string;
  path : string
}.

#[global] Instance eq_dec : EqDecision t.
Proof. solve_decision. Defined.
End SyncthingDirError.

(** A file being downloaded.  The connection code reads the two block
    counts only; the record is filled by a constructor declared with the
    struct. *)
Module SyncthingItemDownloadProgress.
Record t : Type := mk {
  relativePath : string;
  blocksAlreadyDownloaded : Z;
  totalNumberOfBlocks : Z
}.
End SyncthingItemDownloadProgress.

Module SyncthingDir.
(** [struct SyncthingDir]: one synchronised folder. *)
Record t : Type := mk {
  id : string;
  label : string;
  path : string;
  devices : list string;
  readOnly : bool;
  ignorePermissions : bool;
  autoNormalize : bool;
  rescanInterval : Z;
  minDiskFreePercentage : Z;
  status : SyncthingDirStatus.t;
  lastStatusUpdate : DateTime;
  progressPercentage : Z;
  progressRate : Z;
  errors : list SyncthingDirError.t;
  previousErrors : list SyncthingDirError.t;
  globalBytes : Z;
  globalDeleted : Z;
  globalFiles : Z;
  localBytes : Z;
  localDeleted : Z;
  localFiles : Z;
  neededByted : Z;
  neededFiles : Z;
  lastScanTime : DateTime;
  lastFileTime : DateTime;
  lastFileName : string;
  lastFileDeleted : bool;
  downloadingItems : list SyncthingItemDownloadProgress.t;
  blocksAlreadyDownloaded : Z;
  blocksToBeDownloaded : Z;
  downloadPercentage : Z;
  downloadLabel : string
}.

Definition set_id (v : string) (r : t) : t :=
  {| id := v; label := label r; path := path r; devices := devices r; readOnly := readOnly r;
     ignorePermissions := ignorePermissions r; autoNormalize := autoNormalize r;
     rescanInterval := rescanInterval r; minDiskFreePercentage := minDiskFreePercentage r;
     status := status r; lastStatusUpdate := lastStatusUpdate r;
     progressPercentage := progressPercentage r; progressRate := progressRate r;
     errors := errors r; previousErrors := previousErrors r; globalBytes := globalBytes r;
     globalDeleted := globalDeleted r; globalFiles := globalFiles r;
     localBytes := localBytes r; localDeleted := localDeleted r; localFiles := localFiles r;
     neededByted := neededByted r; neededFiles := neededFiles r;
     lastScanTime := lastScanTime r; lastFileTime := lastFileTime r;
     lastFileName := lastFileName r; lastFileDeleted := lastFileDeleted r;
     downloadingItems := downloadingItems r;
     blocksAlreadyDownloaded := blocksAlreadyDownloaded r;
     blocksToBeDownloaded := blocksToBeDownloaded r;
     downloadPercentage := downloadPercentage r; downloadLabel := downloadLabel r |}.
Definition set_label (v : string) (r : t) : t :=
  {| id := id r; label := v; path := path r; devices := devices r; readOnly := readOnly r;
     ignorePermissions := ignorePermissions r; autoNormalize := autoNormalize r;
     rescanInterval := rescanInterval r; minDiskFreePercentage := minDiskFreePercentage r;
     status := status r; lastStatusUpdate := lastStatusUpdate r;
     progressPercentage := progressPercentage r; progressRate := progressRate r;
     errors := errors r; previousErrors := previousErrors r; globalBytes := globalBytes r;
     globalDeleted := globalDeleted r; globalFiles := globalFiles r;
     localBytes := localBytes r; localDeleted := localDeleted r; localFiles := localFiles r;
     neededByted := neededByted r; neededFiles := neededFiles r;
     lastScanTime := lastScanTime r; lastFileTime := lastFileTime r;
     lastFileName := lastFileName r; lastFileDeleted := lastFileDeleted r;
     downloadingItems := downloadingItems r;
     blocksAlreadyDownloaded := blocksAlreadyDownloaded r;
     blocksToBeDownloaded := blocksToBeDownloaded r;
     downloadPercentage := downloadPercentage r; downloadLabel := downloadLabel r |}.
Definition set_path (v : string) (r : t) : t :=
  {| id := id r; label := label r; path := v; devices := devices r; readOnly := readOnly r;
     ignorePermissions := ignorePermissions r; autoNormalize := autoNormalize r;
     rescanInterval := rescanInterval r; minDiskFreePercentage := minDiskFreePercentage r;
     status := status r; lastStatusUpdate := lastStatusUpdate r;
     progressPercentage := progressPercentage r; progressRate := progressRate r;
     errors := errors r; previousErrors := previousErrors r; globalBytes := globalBytes r;
     globalDeleted := globalDeleted r; globalFiles := globalFiles r;
     localBytes := localBytes r; localDeleted := localDeleted r; localFiles := localFiles r;
     neededByted := neededByted r; neededFiles := neededFiles r;
     lastScanTime := lastScanTime r; lastFileTime := lastFileTime r;
     lastFileName := lastFileName r; lastFileDeleted := lastFileDeleted r;
     downloadingItems := downloadingItems r;
     blocksAlreadyDownloaded := blocksAlreadyDownloaded r;
     blocksToBeDownloaded := blocksToBeDownloaded r;
     downloadPercentage := downloadPercentage r; downloadLabel := downloadLabel r |}.
Definition set_devices (v : list string) (r : t) : t :=
  {| id := id r; label := label r; path := path r; devices := v; readOnly := readOnly r;
     ignorePermissions := ignorePermissions r; autoNormalize := autoNormalize r;
     rescanInterval := rescanInterval r; minDiskFreePercentage := minDiskFreePercentage r;
     status := status r; lastStatusUpdate := lastStatusUpdate r;
     progressPercentage := progressPercentage r; progressRate := progressRate r;
     errors := errors r; previousErrors := previousErrors r; globalBytes := globalBytes r;
     globalDeleted := globalDeleted r; globalFiles := globalFiles r;
     localBytes := localBytes r; localDeleted := localDeleted r; localFiles := localFiles r;
     neededByted := neededByted r; neededFiles := neededFiles r;
     lastScanTime := lastScanTime r; lastFileTime := lastFileTime r;
     lastFileName := lastFileName r; lastFileDeleted := lastFileDeleted r;
     downloadingItems := downloadingItems r;
     blocksAlreadyDownloaded := blocksAlreadyDownloaded r;
     blocksToBeDownloaded := blocksToBeDownloaded r;
     downloadPercentage := downloadPercentage r; downloadLabel := downloadLabel r |}.
Definition set_readOnly (v : bool) (r : t) : t :=
  {| id := id r; label := label r; path := path r; devices := devices r; readOnly := v;
     ignorePermissions := ignorePermissions r; autoNormalize := autoNormalize r;
     rescanInterval := rescanInterval r; minDiskFreePercentage := minDiskFreePercentage r;
     status := status r; lastStatusUpdate := lastStatusUpdate r;
     progressPercentage := progressPercentage r; progressRate := progressRate r;
     errors := errors r; previousErrors := previousErrors r; globalBytes := globalBytes r;
     globalDeleted := globalDeleted r; globalFiles := globalFiles r;
     localBytes := localBytes r; localDeleted := localDeleted r; localFiles := localFiles r;
     neededByted := neededByted r; neededFiles := neededFiles r;
     lastScanTime := lastScanTime r; lastFileTime := lastFileTime r;
     lastFileName := lastFileName r; lastFileDeleted := lastFileDeleted r;
     downloadingItems := downloadingItems r;
     blocksAlreadyDownloaded := blocksAlreadyDownloaded r;
     blocksToBeDownloaded := blocksToBeDownloaded r;
     downloadPercentage := downloadPercentage r; downloadLabel := downloadLabel r |}.
Definition set_ignorePermissions (v : bool) (r : t) : t :=
  {| id := id r; label := label r; path := path r; devices := devices r;
     readOnly := readOnly r; ignorePermissions := v; autoNormalize := autoNormalize r;
     rescanInterval := rescanInterval r; minDiskFreePercentage := minDiskFreePercentage r;
     status := status r; lastStatusUpdate := lastStatusUpdate r;
     progressPercentage := progressPercentage r; progressRate := progressRate r;
     errors := errors r; previousErrors := previousErrors r; globalBytes := globalBytes r;
     globalDeleted := globalDeleted r; globalFiles := globalFiles r;
     localBytes := localBytes r; localDeleted := localDeleted r; localFiles := localFiles r;
     neededByted := neededByted r; neededFiles := neededFiles r;
     lastScanTime := lastScanTime r; lastFileTime := lastFileTime r;
     lastFileName := lastFileName r; lastFileDeleted := lastFileDeleted r;
     downloadingItems := downloadingItems r;
     blocksAlreadyDownloaded := blocksAlreadyDownloaded r;
     blocksToBeDownloaded := blocksToBeDownloaded r;
     downloadPercentage := downloadPercentage r; downloadLabel := downloadLabel r |}.
Definition set_autoNormalize (v : bool) (r : t) : t :=
  {| id := id r; label := label r; path := path r; devices := devices r;
     readOnly := readOnly r; ignorePermissions := ignorePermissions r; autoNormalize := v;
     rescanInterval := rescanInterval r; minDiskFreePercentage := minDiskFreePercentage r;
     status := status r; lastStatusUpdate := lastStatusUpdate r;
     progressPercentage := progressPercentage r; progressRate := progressRate r;
     errors := errors r; previousErrors := previousErrors r; globalBytes := globalBytes r;
     globalDeleted := globalDeleted r; globalFiles := globalFiles r;
     localBytes := localBytes r; localDeleted := localDeleted r; localFiles := localFiles r;
     neededByted := neededByted r; neededFiles := neededFiles r;
     lastScanTime := lastScanTime r; lastFileTime := lastFileTime r;
     lastFileName := lastFileName r; lastFileDeleted := lastFileDeleted r;
     downloadingItems := downloadingItems r;
     blocksAlreadyDownloaded := blocksAlreadyDownloaded r;
     blocksToBeDownloaded := blocksToBeDownloaded r;
     downloadPercentage := downloadPercentage r; downloadLabel := downloadLabel r |}.
Definition set_rescanInterval (v : Z) (r : t) : t :=
  {| id := id r; label := label r; path := path r; devices := devices r;
     readOnly := readOnly r; ignorePermissions := ignorePermissions r;
     autoNormalize := autoNormalize r; rescanInterval := v;
     minDiskFreePercentage := minDiskFreePercentage r; status := status r;
     lastStatusUpdate := lastStatusUpdate r; progressPercentage := progressPercentage r;
     progressRate := progressRate r; errors := errors r; previousErrors := previousErrors r;
     globalBytes := globalBytes r; globalDeleted := globalDeleted r;
     globalFiles := globalFiles r; localBytes := localBytes r; localDeleted := localDeleted r;
     localFiles := localFiles r; neededByted := neededByted r; neededFiles := neededFiles r;
     lastScanTime := lastScanTime r; lastFileTime := lastFileTime r;
     lastFileName := lastFileName r; lastFileDeleted := lastFileDeleted r;
     downloadingItems := downloadingItems r;
     blocksAlreadyDownloaded := blocksAlreadyDownloaded r;
     blocksToBeDownloaded := blocksToBeDownloaded r;
     downloadPercentage := downloadPercentage r; downloadLabel := downloadLabel r |}.
Definition set_minDiskFreePercentage (v : Z) (r : t) : t :=
  {| id := id r; label := label r; path := path r; devices := devices r;
     readOnly := readOnly r; ignorePermissions := ignorePermissions r;
     autoNormalize := autoNormalize r; rescanInterval := rescanInterval r;
     minDiskFreePercentage := v; status := status r; lastStatusUpdate := lastStatusUpdate r;
     progressPercentage := progressPercentage r; progressRate := progressRate r;
     errors := errors r; previousErrors := previousErrors r; globalBytes := globalBytes r;
     globalDeleted := globalDeleted r; globalFiles := globalFiles r;
     localBytes := localBytes r; localDeleted := localDeleted r; localFiles := localFiles r;
     neededByted := neededByted r; neededFiles := neededFiles r;
     lastScanTime := lastScanTime r; lastFileTime := lastFileTime r;
     lastFileName := lastFileName r; lastFileDeleted := lastFileDeleted r;
     downloadingItems := downloadingItems r;
     blocksAlreadyDownloaded := blocksAlreadyDownloaded r;
     blocksToBeDownloaded := blocksToBeDownloaded r;
     downloadPercentage := downloadPercentage r; downloadLabel := downloadLabel r |}.
Definition set_status (v : SyncthingDirStatus.t) (r : t) : t :=
  {| id := id r; label := label r; path := path r; devices := devices r;
     readOnly := readOnly r; ignorePermissions := ignorePermissions r;
     autoNormalize := autoNormalize r; rescanInterval := rescanInterval r;
     minDiskFreePercentage := minDiskFreePercentage r; status := v;
     lastStatusUpdate := lastStatusUpdate r; progressPercentage := progressPercentage r;
     progressRate := progressRate r; errors := errors r; previousErrors := previousErrors r;
     globalBytes := globalBytes r; globalDeleted := globalDeleted r;
     globalFiles := globalFiles r; localBytes := localBytes r; localDeleted := localDeleted r;
     localFiles := localFiles r; neededByted := neededByted r; neededFiles := neededFiles r;
     lastScanTime := lastScanTime r; lastFileTime := lastFileTime r;
     lastFileName := lastFileName r; lastFileDeleted := lastFileDeleted r;
     downloadingItems := downloadingItems r;
     blocksAlreadyDownloaded := blocksAlreadyDownloaded r;
     blocksToBeDownloaded := blocksToBeDownloaded r;
     downloadPercentage := downloadPercentage r; downloadLabel := downloadLabel r |}.
Definition set_lastStatusUpdate (v : DateTime) (r : t) : t :=
  {| id := id r; label := label r; path := path r; devices := devices r;
     readOnly := readOnly r; ignorePermissions := ignorePermissions r;
     autoNormalize := autoNormalize r; rescanInterval := rescanInterval r;
     minDiskFreePercentage := minDiskFreePercentage r; status := status r;
     lastStatusUpdate := v; progressPercentage := progressPercentage r;
     progressRate := progressRate r; errors := errors r; previousErrors := previousErrors r;
     globalBytes := globalBytes r; globalDeleted := globalDeleted r;
     globalFiles := globalFiles r; localBytes := localBytes r; localDeleted := localDeleted r;
     localFiles := localFiles r; neededByted := neededByted r; neededFiles := neededFiles r;
     lastScanTime := lastScanTime r; lastFileTime := lastFileTime r;
     lastFileName := lastFileName r; lastFileDeleted := lastFileDeleted r;
     downloadingItems := downloadingItems r;
     blocksAlreadyDownloaded := blocksAlreadyDownloaded r;
     blocksToBeDownloaded := blocksToBeDownloaded r;
     downloadPercentage := downloadPercentage r; downloadLabel := downloadLabel r |}.
Definition set_progressPercentage (v : Z) (r : t) : t :=
  {| id := id r; label := label r; path := path r; devices := devices r;
     readOnly := readOnly r; ignorePermissions := ignorePermissions r;
     autoNormalize := autoNormalize r; rescanInterval := rescanInterval r;
     minDiskFreePercentage := minDiskFreePercentage r; status := status r;
     lastStatusUpdate := lastStatusUpdate r; progressPercentage := v;
     progressRate := progressRate r; errors := errors r; previousErrors := previousErrors r;
     globalBytes := globalBytes r; globalDeleted := globalDeleted r;
     globalFiles := globalFiles r; localBytes := localBytes r; localDeleted := localDeleted r;
     localFiles := localFiles r; neededByted := neededByted r; neededFiles := neededFiles r;
     lastScanTime := lastScanTime r; lastFileTime := lastFileTime r;
     lastFileName := lastFileName r; lastFileDeleted := lastFileDeleted r;
     downloadingItems := downloadingItems r;
     blocksAlreadyDownloaded := blocksAlreadyDownloaded r;
     blocksToBeDownloaded := blocksToBeDownloaded r;
     downloadPercentage := downloadPercentage r; downloadLabel := downloadLabel r |}.
Definition set_progressRate (v : Z) (r : t) : t :=
  {| id := id r; label := label r; path := path r; devices := devices r;
     readOnly := readOnly r; ignorePermissions := ignorePermissions r;
     autoNormalize := autoNormalize r; rescanInterval := rescanInterval r;
     minDiskFreePercentage := minDiskFreePercentage r; status := status r;
     lastStatusUpdate := lastStatusUpdate r; progressPercentage := progressPercentage r;
     progressRate := v; errors := errors r; previousErrors := previousErrors r;
     globalBytes := globalBytes r; globalDeleted := globalDeleted r;
     globalFiles := globalFiles r; localBytes := localBytes r; localDeleted := localDeleted r;
     localFiles := localFiles r; neededByted := neededByted r; neededFiles := neededFiles r;
     lastScanTime := lastScanTime r; lastFileTime := lastFileTime r;
     lastFileName := lastFileName r; lastFileDeleted := lastFileDeleted r;
     downloadingItems := downloadingItems r;
     blocksAlreadyDownloaded := blocksAlreadyDownloaded r;
     blocksToBeDownloaded := blocksToBeDownloaded r;
     downloadPercentage := downloadPercentage r; downloadLabel := downloadLabel r |}.
Definition set_errors (v : list SyncthingDirError.t) (r : t) : t :=
  {| id := id r; label := label r; path := path r; devices := devices r;
     readOnly := readOnly r; ignorePermissions := ignorePermissions r;
     autoNormalize := autoNormalize r; rescanInterval := rescanInterval r;
     minDiskFreePercentage := minDiskFreePercentage r; status := status r;
     lastStatusUpdate := lastStatusUpdate r; progressPercentage := progressPercentage r;
     progressRate := progressRate r; errors := v; previousErrors := previousErrors r;
     globalBytes := globalBytes r; globalDeleted := globalDeleted r;
     globalFiles := globalFiles r; localBytes := localBytes r; localDeleted := localDeleted r;
     localFiles := localFiles r; neededByted := neededByted r; neededFiles := neededFiles r;
     lastScanTime := lastScanTime r; lastFileTime := lastFileTime r;
     lastFileName := lastFileName r; lastFileDeleted := lastFileDeleted r;
     downloadingItems := downloadingItems r;
     blocksAlreadyDownloaded := blocksAlreadyDownloaded r;
     blocksToBeDownloaded := blocksToBeDownloaded r;
     downloadPercentage := downloadPercentage r; downloadLabel := downloadLabel r |}.
Definition set_previousErrors (v : list SyncthingDirError.t) (r : t) : t :=
  {| id := id r; label := label r; path := path r; devices := devices r;
     readOnly := readOnly r; ignorePermissions := ignorePermissions r;
     autoNormalize := autoNormalize r; rescanInterval := rescanInterval r;
     minDiskFreePercentage := minDiskFreePercentage r; status := status r;
     lastStatusUpdate := lastStatusUpdate r; progressPercentage := progressPercentage r;
     progressRate := progressRate r; errors := errors r; previousErrors := v;
     globalBytes := globalBytes r; globalDeleted := globalDeleted r;
     globalFiles := globalFiles r; localBytes := localBytes r; localDeleted := localDeleted r;
     localFiles := localFiles r; neededByted := neededByted r; neededFiles := neededFiles r;
     lastScanTime := lastScanTime r; lastFileTime := lastFileTime r;
     lastFileName := lastFileName r; lastFileDeleted := lastFileDeleted r;
     downloadingItems := downloadingItems r;
     blocksAlreadyDownloaded := blocksAlreadyDownloaded r;
     blocksToBeDownloaded := blocksToBeDownloaded r;
     downloadPercentage := downloadPercentage r; downloadLabel := downloadLabel r |}.
Definition set_globalBytes (v : Z) (r : t) : t :=
  {| id := id r; label := label r; path := path r; devices := devices r;
     readOnly := readOnly r; ignorePermissions := ignorePermissions r;
     autoNormalize := autoNormalize r; rescanInterval := rescanInterval r;
     minDiskFreePercentage := minDiskFreePercentage r; status := status r;
     lastStatusUpdate := lastStatusUpdate r; progressPercentage := progressPercentage r;
     progressRate := progressRate r; errors := errors r; previousErrors := previousErrors r;
     globalBytes := v; globalDeleted := globalDeleted r; globalFiles := globalFiles r;
     localBytes := localBytes r; localDeleted := localDeleted r; localFiles := localFiles r;
     neededByted := neededByted r; neededFiles := neededFiles r;
     lastScanTime := lastScanTime r; lastFileTime := lastFileTime r;
     lastFileName := lastFileName r; lastFileDeleted := lastFileDeleted r;
     downloadingItems := downloadingItems r;
     blocksAlreadyDownloaded := blocksAlreadyDownloaded r;
     blocksToBeDownloaded := blocksToBeDownloaded r;
     downloadPercentage := downloadPercentage r; downloadLabel := downloadLabel r |}.
Definition set_globalDeleted (v : Z) (r : t) : t :=
  {| id := id r; label := label r; path := path r; devices := devices r;
     readOnly := readOnly r; ignorePermissions := ignorePermissions r;
     autoNormalize := autoNormalize r; rescanInterval := rescanInterval r;
     minDiskFreePercentage := minDiskFreePercentage r; status := status r;
     lastStatusUpdate := lastStatusUpdate r; progressPercentage := progressPercentage r;
     progressRate := progressRate r; errors := errors r; previousErrors := previousErrors r;
     globalBytes := globalBytes r; globalDeleted := v; globalFiles := globalFiles r;
     localBytes := localBytes r; localDeleted := localDeleted r; localFiles := localFiles r;
     neededByted := neededByted r; neededFiles := neededFiles r;
     lastScanTime := lastScanTime r; lastFileTime := lastFileTime r;
     lastFileName := lastFileName r; lastFileDeleted := lastFileDeleted r;
     downloadingItems := downloadingItems r;
     blocksAlreadyDownloaded := blocksAlreadyDownloaded r;
     blocksToBeDownloaded := blocksToBeDownloaded r;
     downloadPercentage := downloadPercentage r; downloadLabel := downloadLabel r |}.
Definition set_globalFiles (v : Z) (r : t) : t :=
  {| id := id r; label := label r; path := path r; devices := devices r;
     readOnly := readOnly r; ignorePermissions := ignorePermissions r;
     autoNormalize := autoNormalize r; rescanInterval := rescanInterval r;
     minDiskFreePercentage := minDiskFreePercentage r; status := status r;
     lastStatusUpdate := lastStatusUpdate r; progressPercentage := progressPercentage r;
     progressRate := progressRate r; errors := errors r; previousErrors := previousErrors r;
     globalBytes := globalBytes r; globalDeleted := globalDeleted r; globalFiles := v;
     localBytes := localBytes r; localDeleted := localDeleted r; localFiles := localFiles r;
     neededByted := neededByted r; neededFiles := neededFiles r;
     lastScanTime := lastScanTime r; lastFileTime := lastFileTime r;
     lastFileName := lastFileName r; lastFileDeleted := lastFileDeleted r;
     downloadingItems := downloadingItems r;
     blocksAlreadyDownloaded := blocksAlreadyDownloaded r;
     blocksToBeDownloaded := blocksToBeDownloaded r;
     downloadPercentage := downloadPercentage r; downloadLabel := downloadLabel r |}.
Definition set_localBytes (v : Z) (r : t) : t :=
  {| id := id r; label := label r; path := path r; devices := devices r;
     readOnly := readOnly r; ignorePermissions := ignorePermissions r;
     autoNormalize := autoNormalize r; rescanInterval := rescanInterval r;
     minDiskFreePercentage := minDiskFreePercentage r; status := status r;
     lastStatusUpdate := lastStatusUpdate r; progressPercentage := progressPercentage r;
     progressRate := progressRate r; errors := errors r; previousErrors := previousErrors r;
     globalBytes := globalBytes r; globalDeleted := globalDeleted r;
     globalFiles := globalFiles r; localBytes := v; localDeleted := localDeleted r;
     localFiles := localFiles r; neededByted := neededByted r; neededFiles := neededFiles r;
     lastScanTime := lastScanTime r; lastFileTime := lastFileTime r;
     lastFileName := lastFileName r; lastFileDeleted := lastFileDeleted r;
     downloadingItems := downloadingItems r;
     blocksAlreadyDownloaded := blocksAlreadyDownloaded r;
     blocksToBeDownloaded := blocksToBeDownloaded r;
     downloadPercentage := downloadPercentage r; downloadLabel := downloadLabel r |}.
Definition set_localDeleted (v : Z) (r : t) : t :=
  {| id := id r; label := label r; path := path r; devices := devices r;
     readOnly := readOnly r; ignorePermissions := ignorePermissions r;
     autoNormalize := autoNormalize r; rescanInterval := rescanInterval r;
     minDiskFreePercentage := minDiskFreePercentage r; status := status r;
     lastStatusUpdate := lastStatusUpdate r; progressPercentage := progressPercentage r;
     progressRate := progressRate r; errors := errors r; previousErrors := previousErrors r;
     globalBytes := globalBytes r; globalDeleted := globalDeleted r;
     globalFiles := globalFiles r; localBytes := localBytes r; localDeleted := v;
     localFiles := localFiles r; neededByted := neededByted r; neededFiles := neededFiles r;
     lastScanTime := lastScanTime r; lastFileTime := lastFileTime r;
     lastFileName := lastFileName r; lastFileDeleted := lastFileDeleted r;
     downloadingItems := downloadingItems r;
     blocksAlreadyDownloaded := blocksAlreadyDownloaded r;
     blocksToBeDownloaded := blocksToBeDownloaded r;
     downloadPercentage := downloadPercentage r; downloadLabel := downloadLabel r |}.
Definition set_localFiles (v : Z) (r : t) : t :=
  {| id := id r; label := label r; path := path r; devices := devices r;
     readOnly := readOnly r; ignorePermissions := ignorePermissions r;
     autoNormalize := autoNormalize r; rescanInterval := rescanInterval r;
     minDiskFreePercentage := minDiskFreePercentage r; status := status r;
     lastStatusUpdate := lastStatusUpdate r; progressPercentage := progressPercentage r;
     progressRate := progressRate r; errors := errors r; previousErrors := previousErrors r;
     globalBytes := globalBytes r; globalDeleted := globalDeleted r;
     globalFiles := globalFiles r; localBytes := localBytes r; localDeleted := localDeleted r;
     localFiles := v; neededByted := neededByted r; neededFiles := neededFiles r;
     lastScanTime := lastScanTime r; lastFileTime := lastFileTime r;
     lastFileName := lastFileName r; lastFileDeleted := lastFileDeleted r;
     downloadingItems := downloadingItems r;
     blocksAlreadyDownloaded := blocksAlreadyDownloaded r;
     blocksToBeDownloaded := blocksToBeDownloaded r;
     downloadPercentage := downloadPercentage r; downloadLabel := downloadLabel r |}.
Definition set_neededByted (v : Z) (r : t) : t :=
  {| id := id r; label := label r; path := path r; devices := devices r;
     readOnly := readOnly r; ignorePermissions := ignorePermissions r;
     autoNormalize := autoNormalize r; rescanInterval := rescanInterval r;
     minDiskFreePercentage := minDiskFreePercentage r; status := status r;
     lastStatusUpdate := lastStatusUpdate r; progressPercentage := progressPercentage r;
     progressRate := progressRate r; errors := errors r; previousErrors := previousErrors r;
     globalBytes := globalBytes r; globalDeleted := globalDeleted r;
     globalFiles := globalFiles r; localBytes := localBytes r; localDeleted := localDeleted r;
     localFiles := localFiles r; neededByted := v; neededFiles := neededFiles r;
     lastScanTime := lastScanTime r; lastFileTime := lastFileTime r;
     lastFileName := lastFileName r; lastFileDeleted := lastFileDeleted r;
     downloadingItems := downloadingItems r;
     blocksAlreadyDownloaded := blocksAlreadyDownloaded r;
     blocksToBeDownloaded := blocksToBeDownloaded r;
     downloadPercentage := downloadPercentage r; downloadLabel := downloadLabel r |}.
Definition set_neededFiles (v : Z) (r : t) : t :=
  {| id := id r; label := label r; path := path r; devices := devices r;
     readOnly := readOnly r; ignorePermissions := ignorePermissions r;
     autoNormalize := autoNormalize r; rescanInterval := rescanInterval r;
     minDiskFreePercentage := minDiskFreePercentage r; status := status r;
     lastStatusUpdate := lastStatusUpdate r; progressPercentage := progressPercentage r;
     progressRate := progressRate r; errors := errors r; previousErrors := previousErrors r;
     globalBytes := globalBytes r; globalDeleted := globalDeleted r;
     globalFiles := globalFiles r; localBytes := localBytes r; localDeleted := localDeleted r;
     localFiles := localFiles r; neededByted := neededByted r; neededFiles := v;
     lastScanTime := lastScanTime r; lastFileTime := lastFileTime r;
     lastFileName := lastFileName r; lastFileDeleted := lastFileDeleted r;
     downloadingItems := downloadingItems r;
     blocksAlreadyDownloaded := blocksAlreadyDownloaded r;
     blocksToBeDownloaded := blocksToBeDownloaded r;
     downloadPercentage := downloadPercentage r; downloadLabel := downloadLabel r |}.
Definition set_lastScanTime (v : DateTime) (r : t) : t :=
  {| id := id r; label := label r; path := path r; devices := devices r;
     readOnly := readOnly r; ignorePermissions := ignorePermissions r;
     autoNormalize := autoNormalize r; rescanInterval := rescanInterval r;
     minDiskFreePercentage := minDiskFreePercentage r; status := status r;
     lastStatusUpdate := lastStatusUpdate r; progressPercentage := progressPercentage r;
     progressRate := progressRate r; errors := errors r; previousErrors := previousErrors r;
     globalBytes := globalBytes r; globalDeleted := globalDeleted r;
     globalFiles := globalFiles r; localBytes := localBytes r; localDeleted := localDeleted r;
     localFiles := localFiles r; neededByted := neededByted r; neededFiles := neededFiles r;
     lastScanTime := v; lastFileTime := lastFileTime r; lastFileName := lastFileName r;
     lastFileDeleted := lastFileDeleted r; downloadingItems := downloadingItems r;
     blocksAlreadyDownloaded := blocksAlreadyDownloaded r;
     blocksToBeDownloaded := blocksToBeDownloaded r;
     downloadPercentage := downloadPercentage r; downloadLabel := downloadLabel r |}.
Definition set_lastFileTime (v : DateTime) (r : t) : t :=
  {| id := id r; label := label r; path := path r; devices := devices r;
     readOnly := readOnly r; ignorePermissions := ignorePermissions r;
     autoNormalize := autoNormalize r; rescanInterval := rescanInterval r;
     minDiskFreePercentage := minDiskFreePercentage r; status := status r;
     lastStatusUpdate := lastStatusUpdate r; progressPercentage := progressPercentage r;
     progressRate := progressRate r; errors := errors r; previousErrors := previousErrors r;
     globalBytes := globalBytes r; globalDeleted := globalDeleted r;
     globalFiles := globalFiles r; localBytes := localBytes r; localDeleted := localDeleted r;
     localFiles := localFiles r; neededByted := neededByted r; neededFiles := neededFiles r;
     lastScanTime := lastScanTime r; lastFileTime := v; lastFileName := lastFileName r;
     lastFileDeleted := lastFileDeleted r; downloadingItems := downloadingItems r;
     blocksAlreadyDownloaded := blocksAlreadyDownloaded r;
     blocksToBeDownloaded := blocksToBeDownloaded r;
     downloadPercentage := downloadPercentage r; downloadLabel := downloadLabel r |}.
Definition set_lastFileName (v : string) (r : t) : t :=
  {| id := id r; label := label r; path := path r; devices := devices r;
     readOnly := readOnly r; ignorePermissions := ignorePermissions r;
     autoNormalize := autoNormalize r; rescanInterval := rescanInterval r;
     minDiskFreePercentage := minDiskFreePercentage r; status := status r;
     lastStatusUpdate := lastStatusUpdate r; progressPercentage := progressPercentage r;
     progressRate := progressRate r; errors := errors r; previousErrors := previousErrors r;
     globalBytes := globalBytes r; globalDeleted := globalDeleted r;
     globalFiles := globalFiles r; localBytes := localBytes r; localDeleted := localDeleted r;
     localFiles := localFiles r; neededByted := neededByted r; neededFiles := neededFiles r;
     lastScanTime := lastScanTime r; lastFileTime := lastFileTime r; lastFileName := v;
     lastFileDeleted := lastFileDeleted r; downloadingItems := downloadingItems r;
     blocksAlreadyDownloaded := blocksAlreadyDownloaded r;
     blocksToBeDownloaded := blocksToBeDownloaded r;
     downloadPercentage := downloadPercentage r; downloadLabel := downloadLabel r |}.
Definition set_lastFileDeleted (v : bool) (r : t) : t :=
  {| id := id r; label := label r; path := path r; devices := devices r;
     readOnly := readOnly r; ignorePermissions := ignorePermissions r;
     autoNormalize := autoNormalize r; rescanInterval := rescanInterval r;
     minDiskFreePercentage := minDiskFreePercentage r; status := status r;
     lastStatusUpdate := lastStatusUpdate r; progressPercentage := progressPercentage r;
     progressRate := progressRate r; errors := errors r; previousErrors := previousErrors r;
     globalBytes := globalBytes r; globalDeleted := globalDeleted r;
     globalFiles := globalFiles r; localBytes := localBytes r; localDeleted := localDeleted r;
     localFiles := localFiles r; neededByted := neededByted r; neededFiles := neededFiles r;
     lastScanTime := lastScanTime r; lastFileTime := lastFileTime r;
     lastFileName := lastFileName r; lastFileDeleted := v;
     downloadingItems := downloadingItems r;
     blocksAlreadyDownloaded := blocksAlreadyDownloaded r;
     blocksToBeDownloaded := blocksToBeDownloaded r;
     downloadPercentage := downloadPercentage r; downloadLabel := downloadLabel r |}.
Definition set_downloadingItems (v : list SyncthingItemDownloadProgress.t) (r : t) : t :=
  {| id := id r; label := label r; path := path r; devices := devices r;
     readOnly := readOnly r; ignorePermissions := ignorePermissions r;
     autoNormalize := autoNormalize r; rescanInterval := rescanInterval r;
     minDiskFreePercentage := minDiskFreePercentage r; status := status r;
     lastStatusUpdate := lastStatusUpdate r; progressPercentage := progressPercentage r;
     progressRate := progressRate r; errors := errors r; previousErrors := previousErrors r;
     globalBytes := globalBytes r; globalDeleted := globalDeleted r;
     globalFiles := globalFiles r; localBytes := localBytes r; localDeleted := localDeleted r;
     localFiles := localFiles r; neededByted := neededByted r; neededFiles := neededFiles r;
     lastScanTime := lastScanTime r; lastFileTime := lastFileTime r;
     lastFileName := lastFileName r; lastFileDeleted := lastFileDeleted r;
     downloadingItems := v; blocksAlreadyDownloaded := blocksAlreadyDownloaded r;
     blocksToBeDownloaded := blocksToBeDownloaded r;
     downloadPercentage := downloadPercentage r; downloadLabel := downloadLabel r |}.
Definition set_blocksAlreadyDownloaded (v : Z) (r : t) : t :=
  {| id := id r; label := label r; path := path r; devices := devices r;
     readOnly := readOnly r; ignorePermissions := ignorePermissions r;
     autoNormalize := autoNormalize r; rescanInterval := rescanInterval r;
     minDiskFreePercentage := minDiskFreePercentage r; status := status r;
     lastStatusUpdate := lastStatusUpdate r; progressPercentage := progressPercentage r;
     progressRate := progressRate r; errors := errors r; previousErrors := previousErrors r;
     globalBytes := globalBytes r; globalDeleted := globalDeleted r;
     globalFiles := globalFiles r; localBytes := localBytes r; localDeleted := localDeleted r;
     localFiles := localFiles r; neededByted := neededByted r; neededFiles := neededFiles r;
     lastScanTime := lastScanTime r; lastFileTime := lastFileTime r;
     lastFileName := lastFileName r; lastFileDeleted := lastFileDeleted r;
     downloadingItems := downloadingItems r; blocksAlreadyDownloaded := v;
     blocksToBeDownloaded := blocksToBeDownloaded r;
     downloadPercentage := downloadPercentage r; downloadLabel := downloadLabel r |}.
Definition set_blocksToBeDownloaded (v : Z) (r : t) : t :=
  {| id := id r; label := label r; path := path r; devices := devices r;
     readOnly := readOnly r; ignorePermissions := ignorePermissions r;
     autoNormalize := autoNormalize r; rescanInterval := rescanInterval r;
     minDiskFreePercentage := minDiskFreePercentage r; status := status r;
     lastStatusUpdate := lastStatusUpdate r; progressPercentage := progressPercentage r;
     progressRate := progressRate r; errors := errors r; previousErrors := previousErrors r;
     globalBytes := globalBytes r; globalDeleted := globalDeleted r;
     globalFiles := globalFiles r; localBytes := localBytes r; localDeleted := localDeleted r;
     localFiles := localFiles r; neededByted := neededByted r; neededFiles := neededFiles r;
     lastScanTime := lastScanTime r; lastFileTime := lastFileTime r;
     lastFileName := lastFileName r; lastFileDeleted := lastFileDeleted r;
     downloadingItems := downloadingItems r;
     blocksAlreadyDownloaded := blocksAlreadyDownloaded r; blocksToBeDownloaded := v;
     downloadPercentage := downloadPercentage r; downloadLabel := downloadLabel r |}.
Definition set_downloadPercentage (v : Z) (r : t) : t :=
  {| id := id r; label := label r; path := path r; devices := devices r;
     readOnly := readOnly r; ignorePermissions := ignorePermissions r;
     autoNormalize := autoNormalize r; rescanInterval := rescanInterval r;
     minDiskFreePercentage := minDiskFreePercentage r; status := status r;
     lastStatusUpdate := lastStatusUpdate r; progressPercentage := progressPercentage r;
     progressRate := progressRate r; errors := errors r; previousErrors := previousErrors r;
     globalBytes := globalBytes r; globalDeleted := globalDeleted r;
     globalFiles := globalFiles r; localBytes := localBytes r; localDeleted := localDeleted r;
     localFiles := localFiles r; neededByted := neededByted r; neededFiles := neededFiles r;
     lastScanTime := lastScanTime r; lastFileTime := lastFileTime r;
     lastFileName := lastFileName r; lastFileDeleted := lastFileDeleted r;
     downloadingItems := downloadingItems r;
     blocksAlreadyDownloaded := blocksAlreadyDownloaded r;
     blocksToBeDownloaded := blocksToBeDownloaded r; downloadPercentage := v;
     downloadLabel := downloadLabel r |}.
Definition set_downloadLabel (v : string) (r : t) : t :=
  {| id := id r; label := label r; path := path r; devices := devices r;
     readOnly := readOnly r; ignorePermissions := ignorePermissions r;
     autoNormalize := autoNormalize r; rescanInterval := rescanInterval r;
     minDiskFreePercentage := minDiskFreePercentage r; status := status r;
     lastStatusUpdate := lastStatusUpdate r; progressPercentage := progressPercentage r;
     progressRate := progressRate r; errors := errors r; previousErrors := previousErrors r;
     globalBytes := globalBytes r; globalDeleted := globalDeleted r;
     globalFiles := globalFiles r; localBytes := localBytes r; localDeleted := localDeleted r;
     localFiles := localFiles r; neededByted := neededByted r; neededFiles := neededFiles r;
     lastScanTime := lastScanTime r; lastFileTime := lastFileTime r;
     lastFileName := lastFileName r; lastFileDeleted := lastFileDeleted r;
     downloadingItems := downloadingItems r;
     blocksAlreadyDownloaded := blocksAlreadyDownloaded r;
     blocksToBeDownloaded := blocksToBeDownloaded r;
     downloadPercentage := downloadPercentage r; downloadLabel := v |}.

End SyncthingDir.

Module SyncthingDev.
(** [struct SyncthingDev]: one peer device. *)
Record t : Type := mk {
  id : string;
  name : string;
  addresses : list string;
  compression : string;
  certName : string;
  introducer : bool;
  status : SyncthingDevStatus.t;
  paused : bool;
  totalIncomingTraffic : Z;
  totalOutgoingTraffic : Z;
  connectionAddress : string;
  connectionType : string;
  clientVersion : string;
  lastSeen : DateTime
}.

Definition set_id (v : string) (r : t) : t :=
  {| id := v; name := name r; addresses := addresses r; compression := compression r;
     certName := certName r; introducer := introducer r; status := status r;
     paused := paused r; totalIncomingTraffic := totalIncomingTraffic r;
     totalOutgoingTraffic := totalOutgoingTraffic r; connectionAddress := connectionAddress r;
     connectionType := connectionType r; clientVersion := clientVersion r;
     lastSeen := lastSeen r |}.
Definition set_name (v : string) (r : t) : t :=
  {| id := id r; name := v; addresses := addresses r; compression := compression r;
     certName := certName r; introducer := introducer r; status := status r;
     paused := paused r; totalIncomingTraffic := totalIncomingTraffic r;
     totalOutgoingTraffic := totalOutgoingTraffic r; connectionAddress := connectionAddress r;
     connectionType := connectionType r; clientVersion := clientVersion r;
     lastSeen := lastSeen r |}.
Definition set_addresses (v : list string) (r : t) : t :=
  {| id := id r; name := name r; addresses := v; compression := compression r;
     certName := certName r; introducer := introducer r; status := status r;
     paused := paused r; totalIncomingTraffic := totalIncomingTraffic r;
     totalOutgoingTraffic := totalOutgoingTraffic r; connectionAddress := connectionAddress r;
     connectionType := connectionType r; clientVersion := clientVersion r;
     lastSeen := lastSeen r |}.
Definition set_compression (v : string) (r : t) : t :=
  {| id := id r; name := name r; addresses := addresses r; compression := v;
     certName := certName r; introducer := introducer r; status := status r;
     paused := paused r; totalIncomingTraffic := totalIncomingTraffic r;
     totalOutgoingTraffic := totalOutgoingTraffic r; connectionAddress := connectionAddress r;
     connectionType := connectionType r; clientVersion := clientVersion r;
     lastSeen := lastSeen r |}.
Definition set_certName (v : string) (r : t) : t :=
  {| id := id r; name := name r; addresses := addresses r; compression := compression r;
     certName := v; introducer := introducer r; status := status r; paused := paused r;
     totalIncomingTraffic := totalIncomingTraffic r;
     totalOutgoingTraffic := totalOutgoingTraffic r; connectionAddress := connectionAddress r;
     connectionType := connectionType r; clientVersion := clientVersion r;
     lastSeen := lastSeen r |}.
Definition set_introducer (v : bool) (r : t) : t :=
  {| id := id r; name := name r; addresses := addresses r; compression := compression r;
     certName := certName r; introducer := v; status := status r; paused := paused r;
     totalIncomingTraffic := totalIncomingTraffic r;
     totalOutgoingTraffic := totalOutgoingTraffic r; connectionAddress := connectionAddress r;
     connectionType := connectionType r; clientVersion := clientVersion r;
     lastSeen := lastSeen r |}.
Definition set_status (v : SyncthingDevStatus.t) (r : t) : t :=
  {| id := id r; name := name r; addresses := addresses r; compression := compression r;
     certName := certName r; introducer := introducer r; status := v; paused := paused r;
     totalIncomingTraffic := totalIncomingTraffic r;
     totalOutgoingTraffic := totalOutgoingTraffic r; connectionAddress := connectionAddress r;
     connectionType := connectionType r; clientVersion := clientVersion r;
     lastSeen := lastSeen r |}.
Definition set_paused (v : bool) (r : t) : t :=
  {| id := id r; name := name r; addresses := addresses r; compression := compression r;
     certName := certName r; introducer := introducer r; status := status r; paused := v;
     totalIncomingTraffic := totalIncomingTraffic r;
     totalOutgoingTraffic := totalOutgoingTraffic r; connectionAddress := connectionAddress r;
     connectionType := connectionType r; clientVersion := clientVersion r;
     lastSeen := lastSeen r |}.
Definition set_totalIncomingTraffic (v : Z) (r : t) : t :=
  {| id := id r; name := name r; addresses := addresses r; compression := compression r;
     certName := certName r; introducer := introducer r; status := status r;
     paused := paused r; totalIncomingTraffic := v;
     totalOutgoingTraffic := totalOutgoingTraffic r; connectionAddress := connectionAddress r;
     connectionType := connectionType r; clientVersion := clientVersion r;
     lastSeen := lastSeen r |}.
Definition set_totalOutgoingTraffic (v : Z) (r : t) : t :=
  {| id := id r; name := name r; addresses := addresses r; compression := compression r;
     certName := certName r; introducer := introducer r; status := status r;
     paused := paused r; totalIncomingTraffic := totalIncomingTraffic r;
     totalOutgoingTraffic := v; connectionAddress := connectionAddress r;
     connectionType := connectionType r; clientVersion := clientVersion r;
     lastSeen := lastSeen r |}.
Definition set_connectionAddress (v : string) (r : t) : t :=
  {| id := id r; name := name r; addresses := addresses r; compression := compression r;
     certName := certName r; introducer := introducer r; status := status r;
     paused := paused r; totalIncomingTraffic := totalIncomingTraffic r;
     totalOutgoingTraffic := totalOutgoingTraffic r; connectionAddress := v;
     connectionType := connectionType r; clientVersion := clientVersion r;
     lastSeen := lastSeen r |}.
Definition set_connectionType (v : string) (r : t) : t :=
  {| id := id r; name := name r; addresses := addresses r; compression := compression r;
     certName := certName r; introducer := introducer r; status := status r;
     paused := paused r; totalIncomingTraffic := totalIncomingTraffic r;
     totalOutgoingTraffic := totalOutgoingTraffic r; connectionAddress := connectionAddress r;
     connectionType := v; clientVersion := clientVersion r; lastSeen := lastSeen r |}.
Definition set_clientVersion (v : string) (r : t) : t :=
  {| id := id r; name := name r; addresses := addresses r; compression := compression r;
     certName := certName r; introducer := introducer r; status := status r;
     paused := paused r; totalIncomingTraffic := totalIncomingTraffic r;
     totalOutgoingTraffic := totalOutgoingTraffic r; connectionAddress := connectionAddress r;
     connectionType := connectionType r; clientVersion := v; lastSeen := lastSeen r |}.
Definition set_lastSeen (v : DateTime) (r : t) : t :=
  {| id := id r; name := name r; addresses := addresses r; compression := compression r;
     certName := certName r; introducer := introducer r; status := status r;
     paused := paused r; totalIncomingTraffic := totalIncomingTraffic r;
     totalOutgoingTraffic := totalOutgoingTraffic r; connectionAddress := connectionAddress r;
     connectionType := connectionType r; clientVersion := clientVersion r; lastSeen := v |}.

End SyncthingDev.


(** ** What the connection object does to its surroundings

    A [QNetworkReply] is identified by the number of the request that
    created it. *)

Definition ReplyId : Type := nat.

Inductive Slot : Type :=
| requestConnectionsSlot | requestDeviceStatisticsSlot | requestErrorsSlot.

Module Signal.
Inductive t : Type :=
| newConfig (config : QJsonObject)
| newDirs
| newDevices
| newEvents (events : QJsonArray)
| dirStatusChanged (index : nat)
| devStatusChanged (index : nat)
| downloadProgressChanged
| newNotification (when : DateTime) (msg : string)
| error (msg : string) (category : SyncthingErrorCategory)
| statusChanged (newStatus : SyncthingStatus.t)
| configDirChanged (newConfigDir : string)
| myIdChanged (newId : string)
| trafficChanged (totalIncoming totalOutgoing : Z)
| httpGet (reply : ReplyId) (path : string) (query : list (string * string))
| singleShot (msec : Z) (slot : Slot).

Definition isError (s : t) : bool :=
  match s with error _ _ => true | _ => false end.

Definition isRequest (s : t) : bool :=
  match s with httpGet _ _ _ => true | _ => false end.
End Signal.

Module Conn.
(** The member variables of [SyncthingConnection].  The timer
    [m_autoReconnectTimer] is its interval and whether it runs;
    [m_syncedDirs] and [m_completedDirs] hold pointers into [m_dirs], here
    the rows pointed to.  Two members are the model's own: the number of
    the next reply and the signals emitted so far, oldest first. *)
Record t : Type := mk {
  m_syncthingUrl : string;
  m_apiKey : string;
  m_status : SyncthingStatus.t;
  m_keepPolling : bool;
  m_reconnecting : bool;
  m_lastEventId : Z;
  m_trafficPollInterval : Z;
  m_devStatsPollInterval : Z;
  m_autoReconnectInterval : Z;
  m_autoReconnectTimerActive : bool;
  m_autoReconnectTries : Z;
  m_totalIncomingTraffic : Z;
  m_totalOutgoingTraffic : Z;
  m_totalIncomingRate : float;
  m_totalOutgoingRate : float;
  m_configReply : option ReplyId;
  m_statusReply : option ReplyId;
  m_connectionsReply : option ReplyId;
  m_errorsReply : option ReplyId;
  m_eventsReply : option ReplyId;
  m_unreadNotifications : bool;
  m_hasConfig : bool;
  m_hasStatus : bool;
  m_dirs : list SyncthingDir.t;
  m_devs : list SyncthingDev.t;
  m_syncedDirs : list nat;
  m_completedDirs : list nat;
  m_configDir : string;
  m_myId : string;
  m_lastConnectionsUpdate : DateTime;
  m_lastFileTime : DateTime;
  m_lastErrorTime : DateTime;
  m_lastFileName : string;
  m_lastFileDeleted : bool;
  nextReply : ReplyId;
  emitted : list Signal.t
}.

Definition set_m_apiKey (v : string) (r : t) : t :=
  {| m_syncthingUrl := m_syncthingUrl r; m_apiKey := v; m_status := m_status r;
     m_keepPolling := m_keepPolling r; m_reconnecting := m_reconnecting r;
     m_lastEventId := m_lastEventId r; m_trafficPollInterval := m_trafficPollInterval r;
     m_devStatsPollInterval := m_devStatsPollInterval r;
     m_autoReconnectInterval := m_autoReconnectInterval r;
     m_autoReconnectTimerActive := m_autoReconnectTimerActive r;
     m_autoReconnectTries := m_autoReconnectTries r;
     m_totalIncomingTraffic := m_totalIncomingTraffic r;
     m_totalOutgoingTraffic := m_totalOutgoingTraffic r;
     m_totalIncomingRate := m_totalIncomingRate r;
     m_totalOutgoingRate := m_totalOutgoingRate r; m_configReply := m_configReply r;
     m_statusReply := m_statusReply r; m_connectionsReply := m_connectionsReply r;
     m_errorsReply := m_errorsReply r; m_eventsReply := m_eventsReply r;
     m_unreadNotifications := m_unreadNotifications r; m_hasConfig := m_hasConfig r;
     m_hasStatus := m_hasStatus r; m_dirs := m_dirs r; m_devs := m_devs r;
     m_syncedDirs := m_syncedDirs r; m_completedDirs := m_completedDirs r;
     m_configDir := m_configDir r; m_myId := m_myId r;
     m_lastConnectionsUpdate := m_lastConnectionsUpdate r; m_lastFileTime := m_lastFileTime r;
     m_lastErrorTime := m_lastErrorTime r; m_lastFileName := m_lastFileName r;
     m_lastFileDeleted := m_lastFileDeleted r; nextReply := nextReply r;
     emitted := emitted r |}.
Definition set_m_status (v : SyncthingStatus.t) (r : t) : t :=
  {| m_syncthingUrl := m_syncthingUrl r; m_apiKey := m_apiKey r; m_status := v;
     m_keepPolling := m_keepPolling r; m_reconnecting := m_reconnecting r;
     m_lastEventId := m_lastEventId r; m_trafficPollInterval := m_trafficPollInterval r;
     m_devStatsPollInterval := m_devStatsPollInterval r;
     m_autoReconnectInterval := m_autoReconnectInterval r;
     m_autoReconnectTimerActive := m_autoReconnectTimerActive r;
     m_autoReconnectTries := m_autoReconnectTries r;
     m_totalIncomingTraffic := m_totalIncomingTraffic r;
     m_totalOutgoingTraffic := m_totalOutgoingTraffic r;
     m_totalIncomingRate := m_totalIncomingRate r;
     m_totalOutgoingRate := m_totalOutgoingRate r; m_configReply := m_configReply r;
     m_statusReply := m_statusReply r; m_connectionsReply := m_connectionsReply r;
     m_errorsReply := m_errorsReply r; m_eventsReply := m_eventsReply r;
     m_unreadNotifications := m_unreadNotifications r; m_hasConfig := m_hasConfig r;
     m_hasStatus := m_hasStatus r; m_dirs := m_dirs r; m_devs := m_devs r;
     m_syncedDirs := m_syncedDirs r; m_completedDirs := m_completedDirs r;
     m_configDir := m_configDir r; m_myId := m_myId r;
     m_lastConnectionsUpdate := m_lastConnectionsUpdate r; m_lastFileTime := m_lastFileTime r;
     m_lastErrorTime := m_lastErrorTime r; m_lastFileName := m_lastFileName r;
     m_lastFileDeleted := m_lastFileDeleted r; nextReply := nextReply r;
     emitted := emitted r |}.
Definition set_m_keepPolling (v : bool) (r : t) : t :=
  {| m_syncthingUrl := m_syncthingUrl r; m_apiKey := m_apiKey r; m_status := m_status r;
     m_keepPolling := v; m_reconnecting := m_reconnecting r; m_lastEventId := m_lastEventId r;
     m_trafficPollInterval := m_trafficPollInterval r;
     m_devStatsPollInterval := m_devStatsPollInterval r;
     m_autoReconnectInterval := m_autoReconnectInterval r;
     m_autoReconnectTimerActive := m_autoReconnectTimerActive r;
     m_autoReconnectTries := m_autoReconnectTries r;
     m_totalIncomingTraffic := m_totalIncomingTraffic r;
     m_totalOutgoingTraffic := m_totalOutgoingTraffic r;
     m_totalIncomingRate := m_totalIncomingRate r;
     m_totalOutgoingRate := m_totalOutgoingRate r; m_configReply := m_configReply r;
     m_statusReply := m_statusReply r; m_connectionsReply := m_connectionsReply r;
     m_errorsReply := m_errorsReply r; m_eventsReply := m_eventsReply r;
     m_unreadNotifications := m_unreadNotifications r; m_hasConfig := m_hasConfig r;
     m_hasStatus := m_hasStatus r; m_dirs := m_dirs r; m_devs := m_devs r;
     m_syncedDirs := m_syncedDirs r; m_completedDirs := m_completedDirs r;
     m_configDir := m_configDir r; m_myId := m_myId r;
     m_lastConnectionsUpdate := m_lastConnectionsUpdate r; m_lastFileTime := m_lastFileTime r;
     m_lastErrorTime := m_lastErrorTime r; m_lastFileName := m_lastFileName r;
     m_lastFileDeleted := m_lastFileDeleted r; nextReply := nextReply r;
     emitted := emitted r |}.
Definition set_m_reconnecting (v : bool) (r : t) : t :=
  {| m_syncthingUrl := m_syncthingUrl r; m_apiKey := m_apiKey r; m_status := m_status r;
     m_keepPolling := m_keepPolling r; m_reconnecting := v; m_lastEventId := m_lastEventId r;
     m_trafficPollInterval := m_trafficPollInterval r;
     m_devStatsPollInterval := m_devStatsPollInterval r;
     m_autoReconnectInterval := m_autoReconnectInterval r;
     m_autoReconnectTimerActive := m_autoReconnectTimerActive r;
     m_autoReconnectTries := m_autoReconnectTries r;
     m_totalIncomingTraffic := m_totalIncomingTraffic r;
     m_totalOutgoingTraffic := m_totalOutgoingTraffic r;
     m_totalIncomingRate := m_totalIncomingRate r;
     m_totalOutgoingRate := m_totalOutgoingRate r; m_configReply := m_configReply r;
     m_statusReply := m_statusReply r; m_connectionsReply := m_connectionsReply r;
     m_errorsReply := m_errorsReply r; m_eventsReply := m_eventsReply r;
     m_unreadNotifications := m_unreadNotifications r; m_hasConfig := m_hasConfig r;
     m_hasStatus := m_hasStatus r; m_dirs := m_dirs r; m_devs := m_devs r;
     m_syncedDirs := m_syncedDirs r; m_completedDirs := m_completedDirs r;
     m_configDir := m_configDir r; m_myId := m_myId r;
     m_lastConnectionsUpdate := m_lastConnectionsUpdate r; m_lastFileTime := m_lastFileTime r;
     m_lastErrorTime := m_lastErrorTime r; m_lastFileName := m_lastFileName r;
     m_lastFileDeleted := m_lastFileDeleted r; nextReply := nextReply r;
     emitted := emitted r |}.
Definition set_m_lastEventId (v : Z) (r : t) : t :=
  {| m_syncthingUrl := m_syncthingUrl r; m_apiKey := m_apiKey r; m_status := m_status r;
     m_keepPolling := m_keepPolling r; m_reconnecting := m_reconnecting r; m_lastEventId := v;
     m_trafficPollInterval := m_trafficPollInterval r;
     m_devStatsPollInterval := m_devStatsPollInterval r;
     m_autoReconnectInterval := m_autoReconnectInterval r;
     m_autoReconnectTimerActive := m_autoReconnectTimerActive r;
     m_autoReconnectTries := m_autoReconnectTries r;
     m_totalIncomingTraffic := m_totalIncomingTraffic r;
     m_totalOutgoingTraffic := m_totalOutgoingTraffic r;
     m_totalIncomingRate := m_totalIncomingRate r;
     m_totalOutgoingRate := m_totalOutgoingRate r; m_configReply := m_configReply r;
     m_statusReply := m_statusReply r; m_connectionsReply := m_connectionsReply r;
     m_errorsReply := m_errorsReply r; m_eventsReply := m_eventsReply r;
     m_unreadNotifications := m_unreadNotifications r; m_hasConfig := m_hasConfig r;
     m_hasStatus := m_hasStatus r; m_dirs := m_dirs r; m_devs := m_devs r;
     m_syncedDirs := m_syncedDirs r; m_completedDirs := m_completedDirs r;
     m_configDir := m_configDir r; m_myId := m_myId r;
     m_lastConnectionsUpdate := m_lastConnectionsUpdate r; m_lastFileTime := m_lastFileTime r;
     m_lastErrorTime := m_lastErrorTime r; m_lastFileName := m_lastFileName r;
     m_lastFileDeleted := m_lastFileDeleted r; nextReply := nextReply r;
     emitted := emitted r |}.
Definition set_m_autoReconnectTimerActive (v : bool) (r : t) : t :=
  {| m_syncthingUrl := m_syncthingUrl r; m_apiKey := m_apiKey r; m_status := m_status r;
     m_keepPolling := m_keepPolling r; m_reconnecting := m_reconnecting r;
     m_lastEventId := m_lastEventId r; m_trafficPollInterval := m_trafficPollInterval r;
     m_devStatsPollInterval := m_devStatsPollInterval r;
     m_autoReconnectInterval := m_autoReconnectInterval r; m_autoReconnectTimerActive := v;
     m_autoReconnectTries := m_autoReconnectTries r;
     m_totalIncomingTraffic := m_totalIncomingTraffic r;
     m_totalOutgoingTraffic := m_totalOutgoingTraffic r;
     m_totalIncomingRate := m_totalIncomingRate r;
     m_totalOutgoingRate := m_totalOutgoingRate r; m_configReply := m_configReply r;
     m_statusReply := m_statusReply r; m_connectionsReply := m_connectionsReply r;
     m_errorsReply := m_errorsReply r; m_eventsReply := m_eventsReply r;
     m_unreadNotifications := m_unreadNotifications r; m_hasConfig := m_hasConfig r;
     m_hasStatus := m_hasStatus r; m_dirs := m_dirs r; m_devs := m_devs r;
     m_syncedDirs := m_syncedDirs r; m_completedDirs := m_completedDirs r;
     m_configDir := m_configDir r; m_myId := m_myId r;
     m_lastConnectionsUpdate := m_lastConnectionsUpdate r; m_lastFileTime := m_lastFileTime r;
     m_lastErrorTime := m_lastErrorTime r; m_lastFileName := m_lastFileName r;
     m_lastFileDeleted := m_lastFileDeleted r; nextReply := nextReply r;
     emitted := emitted r |}.
Definition set_m_autoReconnectTries (v : Z) (r : t) : t :=
  {| m_syncthingUrl := m_syncthingUrl r; m_apiKey := m_apiKey r; m_status := m_status r;
     m_keepPolling := m_keepPolling r; m_reconnecting := m_reconnecting r;
     m_lastEventId := m_lastEventId r; m_trafficPollInterval := m_trafficPollInterval r;
     m_devStatsPollInterval := m_devStatsPollInterval r;
     m_autoReconnectInterval := m_autoReconnectInterval r;
     m_autoReconnectTimerActive := m_autoReconnectTimerActive r; m_autoReconnectTries := v;
     m_totalIncomingTraffic := m_totalIncomingTraffic r;
     m_totalOutgoingTraffic := m_totalOutgoingTraffic r;
     m_totalIncomingRate := m_totalIncomingRate r;
     m_totalOutgoingRate := m_totalOutgoingRate r; m_configReply := m_configReply r;
     m_statusReply := m_statusReply r; m_connectionsReply := m_connectionsReply r;
     m_errorsReply := m_errorsReply r; m_eventsReply := m_eventsReply r;
     m_unreadNotifications := m_unreadNotifications r; m_hasConfig := m_hasConfig r;
     m_hasStatus := m_hasStatus r; m_dirs := m_dirs r; m_devs := m_devs r;
     m_syncedDirs := m_syncedDirs r; m_completedDirs := m_completedDirs r;
     m_configDir := m_configDir r; m_myId := m_myId r;
     m_lastConnectionsUpdate := m_lastConnectionsUpdate r; m_lastFileTime := m_lastFileTime r;
     m_lastErrorTime := m_lastErrorTime r; m_lastFileName := m_lastFileName r;
     m_lastFileDeleted := m_lastFileDeleted r; nextReply := nextReply r;
     emitted := emitted r |}.
Definition set_m_totalIncomingTraffic (v : Z) (r : t) : t :=
  {| m_syncthingUrl := m_syncthingUrl r; m_apiKey := m_apiKey r; m_status := m_status r;
     m_keepPolling := m_keepPolling r; m_reconnecting := m_reconnecting r;
     m_lastEventId := m_lastEventId r; m_trafficPollInterval := m_trafficPollInterval r;
     m_devStatsPollInterval := m_devStatsPollInterval r;
     m_autoReconnectInterval := m_autoReconnectInterval r;
     m_autoReconnectTimerActive := m_autoReconnectTimerActive r;
     m_autoReconnectTries := m_autoReconnectTries r; m_totalIncomingTraffic := v;
     m_totalOutgoingTraffic := m_totalOutgoingTraffic r;
     m_totalIncomingRate := m_totalIncomingRate r;
     m_totalOutgoingRate := m_totalOutgoingRate r; m_configReply := m_configReply r;
     m_statusReply := m_statusReply r; m_connectionsReply := m_connectionsReply r;
     m_errorsReply := m_errorsReply r; m_eventsReply := m_eventsReply r;
     m_unreadNotifications := m_unreadNotifications r; m_hasConfig := m_hasConfig r;
     m_hasStatus := m_hasStatus r; m_dirs := m_dirs r; m_devs := m_devs r;
     m_syncedDirs := m_syncedDirs r; m_completedDirs := m_completedDirs r;
     m_configDir := m_configDir r; m_myId := m_myId r;
     m_lastConnectionsUpdate := m_lastConnectionsUpdate r; m_lastFileTime := m_lastFileTime r;
     m_lastErrorTime := m_lastErrorTime r; m_lastFileName := m_lastFileName r;
     m_lastFileDeleted := m_lastFileDeleted r; nextReply := nextReply r;
     emitted := emitted r |}.
Definition set_m_totalOutgoingTraffic (v : Z) (r : t) : t :=
  {| m_syncthingUrl := m_syncthingUrl r; m_apiKey := m_apiKey r; m_status := m_status r;
     m_keepPolling := m_keepPolling r; m_reconnecting := m_reconnecting r;
     m_lastEventId := m_lastEventId r; m_trafficPollInterval := m_trafficPollInterval r;
     m_devStatsPollInterval := m_devStatsPollInterval r;
     m_autoReconnectInterval := m_autoReconnectInterval r;
     m_autoReconnectTimerActive := m_autoReconnectTimerActive r;
     m_autoReconnectTries := m_autoReconnectTries r;
     m_totalIncomingTraffic := m_totalIncomingTraffic r; m_totalOutgoingTraffic := v;
     m_totalIncomingRate := m_totalIncomingRate r;
     m_totalOutgoingRate := m_totalOutgoingRate r; m_configReply := m_configReply r;
     m_statusReply := m_statusReply r; m_connectionsReply := m_connectionsReply r;
     m_errorsReply := m_errorsReply r; m_eventsReply := m_eventsReply r;
     m_unreadNotifications := m_unreadNotifications r; m_hasConfig := m_hasConfig r;
     m_hasStatus := m_hasStatus r; m_dirs := m_dirs r; m_devs := m_devs r;
     m_syncedDirs := m_syncedDirs r; m_completedDirs := m_completedDirs r;
     m_configDir := m_configDir r; m_myId := m_myId r;
     m_lastConnectionsUpdate := m_lastConnectionsUpdate r; m_lastFileTime := m_lastFileTime r;
     m_lastErrorTime := m_lastErrorTime r; m_lastFileName := m_lastFileName r;
     m_lastFileDeleted := m_lastFileDeleted r; nextReply := nextReply r;
     emitted := emitted r |}.
Definition set_m_totalIncomingRate (v : float) (r : t) : t :=
  {| m_syncthingUrl := m_syncthingUrl r; m_apiKey := m_apiKey r; m_status := m_status r;
     m_keepPolling := m_keepPolling r; m_reconnecting := m_reconnecting r;
     m_lastEventId := m_lastEventId r; m_trafficPollInterval := m_trafficPollInterval r;
     m_devStatsPollInterval := m_devStatsPollInterval r;
     m_autoReconnectInterval := m_autoReconnectInterval r;
     m_autoReconnectTimerActive := m_autoReconnectTimerActive r;
     m_autoReconnectTries := m_autoReconnectTries r;
     m_totalIncomingTraffic := m_totalIncomingTraffic r;
     m_totalOutgoingTraffic := m_totalOutgoingTraffic r; m_totalIncomingRate := v;
     m_totalOutgoingRate := m_totalOutgoingRate r; m_configReply := m_configReply r;
     m_statusReply := m_statusReply r; m_connectionsReply := m_connectionsReply r;
     m_errorsReply := m_errorsReply r; m_eventsReply := m_eventsReply r;
     m_unreadNotifications := m_unreadNotifications r; m_hasConfig := m_hasConfig r;
     m_hasStatus := m_hasStatus r; m_dirs := m_dirs r; m_devs := m_devs r;
     m_syncedDirs := m_syncedDirs r; m_completedDirs := m_completedDirs r;
     m_configDir := m_configDir r; m_myId := m_myId r;
     m_lastConnectionsUpdate := m_lastConnectionsUpdate r; m_lastFileTime := m_lastFileTime r;
     m_lastErrorTime := m_lastErrorTime r; m_lastFileName := m_lastFileName r;
     m_lastFileDeleted := m_lastFileDeleted r; nextReply := nextReply r;
     emitted := emitted r |}.
Definition set_m_totalOutgoingRate (v : float) (r : t) : t :=
  {| m_syncthingUrl := m_syncthingUrl r; m_apiKey := m_apiKey r; m_status := m_status r;
     m_keepPolling := m_keepPolling r; m_reconnecting := m_reconnecting r;
     m_lastEventId := m_lastEventId r; m_trafficPollInterval := m_trafficPollInterval r;
     m_devStatsPollInterval := m_devStatsPollInterval r;
     m_autoReconnectInterval := m_autoReconnectInterval r;
     m_autoReconnectTimerActive := m_autoReconnectTimerActive r;
     m_autoReconnectTries := m_autoReconnectTries r;
     m_totalIncomingTraffic := m_totalIncomingTraffic r;
     m_totalOutgoingTraffic := m_totalOutgoingTraffic r;
     m_totalIncomingRate := m_totalIncomingRate r; m_totalOutgoingRate := v;
     m_configReply := m_configReply r; m_statusReply := m_statusReply r;
     m_connectionsReply := m_connectionsReply r; m_errorsReply := m_errorsReply r;
     m_eventsReply := m_eventsReply r; m_unreadNotifications := m_unreadNotifications r;
     m_hasConfig := m_hasConfig r; m_hasStatus := m_hasStatus r; m_dirs := m_dirs r;
     m_devs := m_devs r; m_syncedDirs := m_syncedDirs r; m_completedDirs := m_completedDirs r;
     m_configDir := m_configDir r; m_myId := m_myId r;
     m_lastConnectionsUpdate := m_lastConnectionsUpdate r; m_lastFileTime := m_lastFileTime r;
     m_lastErrorTime := m_lastErrorTime r; m_lastFileName := m_lastFileName r;
     m_lastFileDeleted := m_lastFileDeleted r; nextReply := nextReply r;
     emitted := emitted r |}.
Definition set_m_configReply (v : option ReplyId) (r : t) : t :=
  {| m_syncthingUrl := m_syncthingUrl r; m_apiKey := m_apiKey r; m_status := m_status r;
     m_keepPolling := m_keepPolling r; m_reconnecting := m_reconnecting r;
     m_lastEventId := m_lastEventId r; m_trafficPollInterval := m_trafficPollInterval r;
     m_devStatsPollInterval := m_devStatsPollInterval r;
     m_autoReconnectInterval := m_autoReconnectInterval r;
     m_autoReconnectTimerActive := m_autoReconnectTimerActive r;
     m_autoReconnectTries := m_autoReconnectTries r;
     m_totalIncomingTraffic := m_totalIncomingTraffic r;
     m_totalOutgoingTraffic := m_totalOutgoingTraffic r;
     m_totalIncomingRate := m_totalIncomingRate r;
     m_totalOutgoingRate := m_totalOutgoingRate r; m_configReply := v;
     m_statusReply := m_statusReply r; m_connectionsReply := m_connectionsReply r;
     m_errorsReply := m_errorsReply r; m_eventsReply := m_eventsReply r;
     m_unreadNotifications := m_unreadNotifications r; m_hasConfig := m_hasConfig r;
     m_hasStatus := m_hasStatus r; m_dirs := m_dirs r; m_devs := m_devs r;
     m_syncedDirs := m_syncedDirs r; m_completedDirs := m_completedDirs r;
     m_configDir := m_configDir r; m_myId := m_myId r;
     m_lastConnectionsUpdate := m_lastConnectionsUpdate r; m_lastFileTime := m_lastFileTime r;
     m_lastErrorTime := m_lastErrorTime r; m_lastFileName := m_lastFileName r;
     m_lastFileDeleted := m_lastFileDeleted r; nextReply := nextReply r;
     emitted := emitted r |}.
Definition set_m_statusReply (v : option ReplyId) (r : t) : t :=
  {| m_syncthingUrl := m_syncthingUrl r; m_apiKey := m_apiKey r; m_status := m_status r;
     m_keepPolling := m_keepPolling r; m_reconnecting := m_reconnecting r;
     m_lastEventId := m_lastEventId r; m_trafficPollInterval := m_trafficPollInterval r;
     m_devStatsPollInterval := m_devStatsPollInterval r;
     m_autoReconnectInterval := m_autoReconnectInterval r;
     m_autoReconnectTimerActive := m_autoReconnectTimerActive r;
     m_autoReconnectTries := m_autoReconnectTries r;
     m_totalIncomingTraffic := m_totalIncomingTraffic r;
     m_totalOutgoingTraffic := m_totalOutgoingTraffic r;
     m_totalIncomingRate := m_totalIncomingRate r;
     m_totalOutgoingRate := m_totalOutgoingRate r; m_configReply := m_configReply r;
     m_statusReply := v; m_connectionsReply := m_connectionsReply r;
     m_errorsReply := m_errorsReply r; m_eventsReply := m_eventsReply r;
     m_unreadNotifications := m_unreadNotifications r; m_hasConfig := m_hasConfig r;
     m_hasStatus := m_hasStatus r; m_dirs := m_dirs r; m_devs := m_devs r;
     m_syncedDirs := m_syncedDirs r; m_completedDirs := m_completedDirs r;
     m_configDir := m_configDir r; m_myId := m_myId r;
     m_lastConnectionsUpdate := m_lastConnectionsUpdate r; m_lastFileTime := m_lastFileTime r;
     m_lastErrorTime := m_lastErrorTime r; m_lastFileName := m_lastFileName r;
     m_lastFileDeleted := m_lastFileDeleted r; nextReply := nextReply r;
     emitted := emitted r |}.
Definition set_m_connectionsReply (v : option ReplyId) (r : t) : t :=
  {| m_syncthingUrl := m_syncthingUrl r; m_apiKey := m_apiKey r; m_status := m_status r;
     m_keepPolling := m_keepPolling r; m_reconnecting := m_reconnecting r;
     m_lastEventId := m_lastEventId r; m_trafficPollInterval := m_trafficPollInterval r;
     m_devStatsPollInterval := m_devStatsPollInterval r;
     m_autoReconnectInterval := m_autoReconnectInterval r;
     m_autoReconnectTimerActive := m_autoReconnectTimerActive r;
     m_autoReconnectTries := m_autoReconnectTries r;
     m_totalIncomingTraffic := m_totalIncomingTraffic r;
     m_totalOutgoingTraffic := m_totalOutgoingTraffic r;
     m_totalIncomingRate := m_totalIncomingRate r;
     m_totalOutgoingRate := m_totalOutgoingRate r; m_configReply := m_configReply r;
     m_statusReply := m_statusReply r; m_connectionsReply := v;
     m_errorsReply := m_errorsReply r; m_eventsReply := m_eventsReply r;
     m_unreadNotifications := m_unreadNotifications r; m_hasConfig := m_hasConfig r;
     m_hasStatus := m_hasStatus r; m_dirs := m_dirs r; m_devs := m_devs r;
     m_syncedDirs := m_syncedDirs r; m_completedDirs := m_completedDirs r;
     m_configDir := m_configDir r; m_myId := m_myId r;
     m_lastConnectionsUpdate := m_lastConnectionsUpdate r; m_lastFileTime := m_lastFileTime r;
     m_lastErrorTime := m_lastErrorTime r; m_lastFileName := m_lastFileName r;
     m_lastFileDeleted := m_lastFileDeleted r; nextReply := nextReply r;
     emitted := emitted r |}.
Definition set_m_errorsReply (v : option ReplyId) (r : t) : t :=
  {| m_syncthingUrl := m_syncthingUrl r; m_apiKey := m_apiKey r; m_status := m_status r;
     m_keepPolling := m_keepPolling r; m_reconnecting := m_reconnecting r;
     m_lastEventId := m_lastEventId r; m_trafficPollInterval := m_trafficPollInterval r;
     m_devStatsPollInterval := m_devStatsPollInterval r;
     m_autoReconnectInterval := m_autoReconnectInterval r;
     m_autoReconnectTimerActive := m_autoReconnectTimerActive r;
     m_autoReconnectTries := m_autoReconnectTries r;
     m_totalIncomingTraffic := m_totalIncomingTraffic r;
     m_totalOutgoingTraffic := m_totalOutgoingTraffic r;
     m_totalIncomingRate := m_totalIncomingRate r;
     m_totalOutgoingRate := m_totalOutgoingRate r; m_configReply := m_configReply r;
     m_statusReply := m_statusReply r; m_connectionsReply := m_connectionsReply r;
     m_errorsReply := v; m_eventsReply := m_eventsReply r;
     m_unreadNotifications := m_unreadNotifications r; m_hasConfig := m_hasConfig r;
     m_hasStatus := m_hasStatus r; m_dirs := m_dirs r; m_devs := m_devs r;
     m_syncedDirs := m_syncedDirs r; m_completedDirs := m_completedDirs r;
     m_configDir := m_configDir r; m_myId := m_myId r;
     m_lastConnectionsUpdate := m_lastConnectionsUpdate r; m_lastFileTime := m_lastFileTime r;
     m_lastErrorTime := m_lastErrorTime r; m_lastFileName := m_lastFileName r;
     m_lastFileDeleted := m_lastFileDeleted r; nextReply := nextReply r;
     emitted := emitted r |}.
Definition set_m_eventsReply (v : option ReplyId) (r : t) : t :=
  {| m_syncthingUrl := m_syncthingUrl r; m_apiKey := m_apiKey r; m_status := m_status r;
     m_keepPolling := m_keepPolling r; m_reconnecting := m_reconnecting r;
     m_lastEventId := m_lastEventId r; m_trafficPollInterval := m_trafficPollInterval r;
     m_devStatsPollInterval := m_devStatsPollInterval r;
     m_autoReconnectInterval := m_autoReconnectInterval r;
     m_autoReconnectTimerActive := m_autoReconnectTimerActive r;
     m_autoReconnectTries := m_autoReconnectTries r;
     m_totalIncomingTraffic := m_totalIncomingTraffic r;
     m_totalOutgoingTraffic := m_totalOutgoingTraffic r;
     m_totalIncomingRate := m_totalIncomingRate r;
     m_totalOutgoingRate := m_totalOutgoingRate r; m_configReply := m_configReply r;
     m_statusReply := m_statusReply r; m_connectionsReply := m_connectionsReply r;
     m_errorsReply := m_errorsReply r; m_eventsReply := v;
     m_unreadNotifications := m_unreadNotifications r; m_hasConfig := m_hasConfig r;
     m_hasStatus := m_hasStatus r; m_dirs := m_dirs r; m_devs := m_devs r;
     m_syncedDirs := m_syncedDirs r; m_completedDirs := m_completedDirs r;
     m_configDir := m_configDir r; m_myId := m_myId r;
     m_lastConnectionsUpdate := m_lastConnectionsUpdate r; m_lastFileTime := m_lastFileTime r;
     m_lastErrorTime := m_lastErrorTime r; m_lastFileName := m_lastFileName r;
     m_lastFileDeleted := m_lastFileDeleted r; nextReply := nextReply r;
     emitted := emitted r |}.
Definition set_m_unreadNotifications (v : bool) (r : t) : t :=
  {| m_syncthingUrl := m_syncthingUrl r; m_apiKey := m_apiKey r; m_status := m_status r;
     m_keepPolling := m_keepPolling r; m_reconnecting := m_reconnecting r;
     m_lastEventId := m_lastEventId r; m_trafficPollInterval := m_trafficPollInterval r;
     m_devStatsPollInterval := m_devStatsPollInterval r;
     m_autoReconnectInterval := m_autoReconnectInterval r;
     m_autoReconnectTimerActive := m_autoReconnectTimerActive r;
     m_autoReconnectTries := m_autoReconnectTries r;
     m_totalIncomingTraffic := m_totalIncomingTraffic r;
     m_totalOutgoingTraffic := m_totalOutgoingTraffic r;
     m_totalIncomingRate := m_totalIncomingRate r;
     m_totalOutgoingRate := m_totalOutgoingRate r; m_configReply := m_configReply r;
     m_statusReply := m_statusReply r; m_connectionsReply := m_connectionsReply r;
     m_errorsReply := m_errorsReply r; m_eventsReply := m_eventsReply r;
     m_unreadNotifications := v; m_hasConfig := m_hasConfig r; m_hasStatus := m_hasStatus r;
     m_dirs := m_dirs r; m_devs := m_devs r; m_syncedDirs := m_syncedDirs r;
     m_completedDirs := m_completedDirs r; m_configDir := m_configDir r; m_myId := m_myId r;
     m_lastConnectionsUpdate := m_lastConnectionsUpdate r; m_lastFileTime := m_lastFileTime r;
     m_lastErrorTime := m_lastErrorTime r; m_lastFileName := m_lastFileName r;
     m_lastFileDeleted := m_lastFileDeleted r; nextReply := nextReply r;
     emitted := emitted r |}.
Definition set_m_hasConfig (v : bool) (r : t) : t :=
  {| m_syncthingUrl := m_syncthingUrl r; m_apiKey := m_apiKey r; m_status := m_status r;
     m_keepPolling := m_keepPolling r; m_reconnecting := m_reconnecting r;
     m_lastEventId := m_lastEventId r; m_trafficPollInterval := m_trafficPollInterval r;
     m_devStatsPollInterval := m_devStatsPollInterval r;
     m_autoReconnectInterval := m_autoReconnectInterval r;
     m_autoReconnectTimerActive := m_autoReconnectTimerActive r;
     m_autoReconnectTries := m_autoReconnectTries r;
     m_totalIncomingTraffic := m_totalIncomingTraffic r;
     m_totalOutgoingTraffic := m_totalOutgoingTraffic r;
     m_totalIncomingRate := m_totalIncomingRate r;
     m_totalOutgoingRate := m_totalOutgoingRate r; m_configReply := m_configReply r;
     m_statusReply := m_statusReply r; m_connectionsReply := m_connectionsReply r;
     m_errorsReply := m_errorsReply r; m_eventsReply := m_eventsReply r;
     m_unreadNotifications := m_unreadNotifications r; m_hasConfig := v;
     m_hasStatus := m_hasStatus r; m_dirs := m_dirs r; m_devs := m_devs r;
     m_syncedDirs := m_syncedDirs r; m_completedDirs := m_completedDirs r;
     m_configDir := m_configDir r; m_myId := m_myId r;
     m_lastConnectionsUpdate := m_lastConnectionsUpdate r; m_lastFileTime := m_lastFileTime r;
     m_lastErrorTime := m_lastErrorTime r; m_lastFileName := m_lastFileName r;
     m_lastFileDeleted := m_lastFileDeleted r; nextReply := nextReply r;
     emitted := emitted r |}.
Definition set_m_hasStatus (v : bool) (r : t) : t :=
  {| m_syncthingUrl := m_syncthingUrl r; m_apiKey := m_apiKey r; m_status := m_status r;
     m_keepPolling := m_keepPolling r; m_reconnecting := m_reconnecting r;
     m_lastEventId := m_lastEventId r; m_trafficPollInterval := m_trafficPollInterval r;
     m_devStatsPollInterval := m_devStatsPollInterval r;
     m_autoReconnectInterval := m_autoReconnectInterval r;
     m_autoReconnectTimerActive := m_autoReconnectTimerActive r;
     m_autoReconnectTries := m_autoReconnectTries r;
     m_totalIncomingTraffic := m_totalIncomingTraffic r;
     m_totalOutgoingTraffic := m_totalOutgoingTraffic r;
     m_totalIncomingRate := m_totalIncomingRate r;
     m_totalOutgoingRate := m_totalOutgoingRate r; m_configReply := m_configReply r;
     m_statusReply := m_statusReply r; m_connectionsReply := m_connectionsReply r;
     m_errorsReply := m_errorsReply r; m_eventsReply := m_eventsReply r;
     m_unreadNotifications := m_unreadNotifications r; m_hasConfig := m_hasConfig r;
     m_hasStatus := v; m_dirs := m_dirs r; m_devs := m_devs r; m_syncedDirs := m_syncedDirs r;
     m_completedDirs := m_completedDirs r; m_configDir := m_configDir r; m_myId := m_myId r;
     m_lastConnectionsUpdate := m_lastConnectionsUpdate r; m_lastFileTime := m_lastFileTime r;
     m_lastErrorTime := m_lastErrorTime r; m_lastFileName := m_lastFileName r;
     m_lastFileDeleted := m_lastFileDeleted r; nextReply := nextReply r;
     emitted := emitted r |}.
Definition set_m_dirs (v : list SyncthingDir.t) (r : t) : t :=
  {| m_syncthingUrl := m_syncthingUrl r; m_apiKey := m_apiKey r; m_status := m_status r;
     m_keepPolling := m_keepPolling r; m_reconnecting := m_reconnecting r;
     m_lastEventId := m_lastEventId r; m_trafficPollInterval := m_trafficPollInterval r;
     m_devStatsPollInterval := m_devStatsPollInterval r;
     m_autoReconnectInterval := m_autoReconnectInterval r;
     m_autoReconnectTimerActive := m_autoReconnectTimerActive r;
     m_autoReconnectTries := m_autoReconnectTries r;
     m_totalIncomingTraffic := m_totalIncomingTraffic r;
     m_totalOutgoingTraffic := m_totalOutgoingTraffic r;
     m_totalIncomingRate := m_totalIncomingRate r;
     m_totalOutgoingRate := m_totalOutgoingRate r; m_configReply := m_configReply r;
     m_statusReply := m_statusReply r; m_connectionsReply := m_connectionsReply r;
     m_errorsReply := m_errorsReply r; m_eventsReply := m_eventsReply r;
     m_unreadNotifications := m_unreadNotifications r; m_hasConfig := m_hasConfig r;
     m_hasStatus := m_hasStatus r; m_dirs := v; m_devs := m_devs r;
     m_syncedDirs := m_syncedDirs r; m_completedDirs := m_completedDirs r;
     m_configDir := m_configDir r; m_myId := m_myId r;
     m_lastConnectionsUpdate := m_lastConnectionsUpdate r; m_lastFileTime := m_lastFileTime r;
     m_lastErrorTime := m_lastErrorTime r; m_lastFileName := m_lastFileName r;
     m_lastFileDeleted := m_lastFileDeleted r; nextReply := nextReply r;
     emitted := emitted r |}.
Definition set_m_devs (v : list SyncthingDev.t) (r : t) : t :=
  {| m_syncthingUrl := m_syncthingUrl r; m_apiKey := m_apiKey r; m_status := m_status r;
     m_keepPolling := m_keepPolling r; m_reconnecting := m_reconnecting r;
     m_lastEventId := m_lastEventId r; m_trafficPollInterval := m_trafficPollInterval r;
     m_devStatsPollInterval := m_devStatsPollInterval r;
     m_autoReconnectInterval := m_autoReconnectInterval r;
     m_autoReconnectTimerActive := m_autoReconnectTimerActive r;
     m_autoReconnectTries := m_autoReconnectTries r;
     m_totalIncomingTraffic := m_totalIncomingTraffic r;
     m_totalOutgoingTraffic := m_totalOutgoingTraffic r;
     m_totalIncomingRate := m_totalIncomingRate r;
     m_totalOutgoingRate := m_totalOutgoingRate r; m_configReply := m_configReply r;
     m_statusReply := m_statusReply r; m_connectionsReply := m_connectionsReply r;
     m_errorsReply := m_errorsReply r; m_eventsReply := m_eventsReply r;
     m_unreadNotifications := m_unreadNotifications r; m_hasConfig := m_hasConfig r;
     m_hasStatus := m_hasStatus r; m_dirs := m_dirs r; m_devs := v;
     m_syncedDirs := m_syncedDirs r; m_completedDirs := m_completedDirs r;
     m_configDir := m_configDir r; m_myId := m_myId r;
     m_lastConnectionsUpdate := m_lastConnectionsUpdate r; m_lastFileTime := m_lastFileTime r;
     m_lastErrorTime := m_lastErrorTime r; m_lastFileName := m_lastFileName r;
     m_lastFileDeleted := m_lastFileDeleted r; nextReply := nextReply r;
     emitted := emitted r |}.
Definition set_m_syncedDirs (v : list nat) (r : t) : t :=
  {| m_syncthingUrl := m_syncthingUrl r; m_apiKey := m_apiKey r; m_status := m_status r;
     m_keepPolling := m_keepPolling r; m_reconnecting := m_reconnecting r;
     m_lastEventId := m_lastEventId r; m_trafficPollInterval := m_trafficPollInterval r;
     m_devStatsPollInterval := m_devStatsPollInterval r;
     m_autoReconnectInterval := m_autoReconnectInterval r;
     m_autoReconnectTimerActive := m_autoReconnectTimerActive r;
     m_autoReconnectTries := m_autoReconnectTries r;
     m_totalIncomingTraffic := m_totalIncomingTraffic r;
     m_totalOutgoingTraffic := m_totalOutgoingTraffic r;
     m_totalIncomingRate := m_totalIncomingRate r;
     m_totalOutgoingRate := m_totalOutgoingRate r; m_configReply := m_configReply r;
     m_statusReply := m_statusReply r; m_connectionsReply := m_connectionsReply r;
     m_errorsReply := m_errorsReply r; m_eventsReply := m_eventsReply r;
     m_unreadNotifications := m_unreadNotifications r; m_hasConfig := m_hasConfig r;
     m_hasStatus := m_hasStatus r; m_dirs := m_dirs r; m_devs := m_devs r; m_syncedDirs := v;
     m_completedDirs := m_completedDirs r; m_configDir := m_configDir r; m_myId := m_myId r;
     m_lastConnectionsUpdate := m_lastConnectionsUpdate r; m_lastFileTime := m_lastFileTime r;
     m_lastErrorTime := m_lastErrorTime r; m_lastFileName := m_lastFileName r;
     m_lastFileDeleted := m_lastFileDeleted r; nextReply := nextReply r;
     emitted := emitted r |}.
Definition set_m_completedDirs (v : list nat) (r : t) : t :=
  {| m_syncthingUrl := m_syncthingUrl r; m_apiKey := m_apiKey r; m_status := m_status r;
     m_keepPolling := m_keepPolling r; m_reconnecting := m_reconnecting r;
     m_lastEventId := m_lastEventId r; m_trafficPollInterval := m_trafficPollInterval r;
     m_devStatsPollInterval := m_devStatsPollInterval r;
     m_autoReconnectInterval := m_autoReconnectInterval r;
     m_autoReconnectTimerActive := m_autoReconnectTimerActive r;
     m_autoReconnectTries := m_autoReconnectTries r;
     m_totalIncomingTraffic := m_totalIncomingTraffic r;
     m_totalOutgoingTraffic := m_totalOutgoingTraffic r;
     m_totalIncomingRate := m_totalIncomingRate r;
     m_totalOutgoingRate := m_totalOutgoingRate r; m_configReply := m_configReply r;
     m_statusReply := m_statusReply r; m_connectionsReply := m_connectionsReply r;
     m_errorsReply := m_errorsReply r; m_eventsReply := m_eventsReply r;
     m_unreadNotifications := m_unreadNotifications r; m_hasConfig := m_hasConfig r;
     m_hasStatus := m_hasStatus r; m_dirs := m_dirs r; m_devs := m_devs r;
     m_syncedDirs := m_syncedDirs r; m_completedDirs := v; m_configDir := m_configDir r;
     m_myId := m_myId r; m_lastConnectionsUpdate := m_lastConnectionsUpdate r;
     m_lastFileTime := m_lastFileTime r; m_lastErrorTime := m_lastErrorTime r;
     m_lastFileName := m_lastFileName r; m_lastFileDeleted := m_lastFileDeleted r;
     nextReply := nextReply r; emitted := emitted r |}.
Definition set_m_configDir (v : string) (r : t) : t :=
  {| m_syncthingUrl := m_syncthingUrl r; m_apiKey := m_apiKey r; m_status := m_status r;
     m_keepPolling := m_keepPolling r; m_reconnecting := m_reconnecting r;
     m_lastEventId := m_lastEventId r; m_trafficPollInterval := m_trafficPollInterval r;
     m_devStatsPollInterval := m_devStatsPollInterval r;
     m_autoReconnectInterval := m_autoReconnectInterval r;
     m_autoReconnectTimerActive := m_autoReconnectTimerActive r;
     m_autoReconnectTries := m_autoReconnectTries r;
     m_totalIncomingTraffic := m_totalIncomingTraffic r;
     m_totalOutgoingTraffic := m_totalOutgoingTraffic r;
     m_totalIncomingRate := m_totalIncomingRate r;
     m_totalOutgoingRate := m_totalOutgoingRate r; m_configReply := m_configReply r;
     m_statusReply := m_statusReply r; m_connectionsReply := m_connectionsReply r;
     m_errorsReply := m_errorsReply r; m_eventsReply := m_eventsReply r;
     m_unreadNotifications := m_unreadNotifications r; m_hasConfig := m_hasConfig r;
     m_hasStatus := m_hasStatus r; m_dirs := m_dirs r; m_devs := m_devs r;
     m_syncedDirs := m_syncedDirs r; m_completedDirs := m_completedDirs r; m_configDir := v;
     m_myId := m_myId r; m_lastConnectionsUpdate := m_lastConnectionsUpdate r;
     m_lastFileTime := m_lastFileTime r; m_lastErrorTime := m_lastErrorTime r;
     m_lastFileName := m_lastFileName r; m_lastFileDeleted := m_lastFileDeleted r;
     nextReply := nextReply r; emitted := emitted r |}.
Definition set_m_myId (v : string) (r : t) : t :=
  {| m_syncthingUrl := m_syncthingUrl r; m_apiKey := m_apiKey r; m_status := m_status r;
     m_keepPolling := m_keepPolling r; m_reconnecting := m_reconnecting r;
     m_lastEventId := m_lastEventId r; m_trafficPollInterval := m_trafficPollInterval r;
     m_devStatsPollInterval := m_devStatsPollInterval r;
     m_autoReconnectInterval := m_autoReconnectInterval r;
     m_autoReconnectTimerActive := m_autoReconnectTimerActive r;
     m_autoReconnectTries := m_autoReconnectTries r;
     m_totalIncomingTraffic := m_totalIncomingTraffic r;
     m_totalOutgoingTraffic := m_totalOutgoingTraffic r;
     m_totalIncomingRate := m_totalIncomingRate r;
     m_totalOutgoingRate := m_totalOutgoingRate r; m_configReply := m_configReply r;
     m_statusReply := m_statusReply r; m_connectionsReply := m_connectionsReply r;
     m_errorsReply := m_errorsReply r; m_eventsReply := m_eventsReply r;
     m_unreadNotifications := m_unreadNotifications r; m_hasConfig := m_hasConfig r;
     m_hasStatus := m_hasStatus r; m_dirs := m_dirs r; m_devs := m_devs r;
     m_syncedDirs := m_syncedDirs r; m_completedDirs := m_completedDirs r;
     m_configDir := m_configDir r; m_myId := v;
     m_lastConnectionsUpdate := m_lastConnectionsUpdate r; m_lastFileTime := m_lastFileTime r;
     m_lastErrorTime := m_lastErrorTime r; m_lastFileName := m_lastFileName r;
     m_lastFileDeleted := m_lastFileDeleted r; nextReply := nextReply r;
     emitted := emitted r |}.
Definition set_m_lastConnectionsUpdate (v : DateTime) (r : t) : t :=
  {| m_syncthingUrl := m_syncthingUrl r; m_apiKey := m_apiKey r; m_status := m_status r;
     m_keepPolling := m_keepPolling r; m_reconnecting := m_reconnecting r;
     m_lastEventId := m_lastEventId r; m_trafficPollInterval := m_trafficPollInterval r;
     m_devStatsPollInterval := m_devStatsPollInterval r;
     m_autoReconnectInterval := m_autoReconnectInterval r;
     m_autoReconnectTimerActive := m_autoReconnectTimerActive r;
     m_autoReconnectTries := m_autoReconnectTries r;
     m_totalIncomingTraffic := m_totalIncomingTraffic r;
     m_totalOutgoingTraffic := m_totalOutgoingTraffic r;
     m_totalIncomingRate := m_totalIncomingRate r;
     m_totalOutgoingRate := m_totalOutgoingRate r; m_configReply := m_configReply r;
     m_statusReply := m_statusReply r; m_connectionsReply := m_connectionsReply r;
     m_errorsReply := m_errorsReply r; m_eventsReply := m_eventsReply r;
     m_unreadNotifications := m_unreadNotifications r; m_hasConfig := m_hasConfig r;
     m_hasStatus := m_hasStatus r; m_dirs := m_dirs r; m_devs := m_devs r;
     m_syncedDirs := m_syncedDirs r; m_completedDirs := m_completedDirs r;
     m_configDir := m_configDir r; m_myId := m_myId r; m_lastConnectionsUpdate := v;
     m_lastFileTime := m_lastFileTime r; m_lastErrorTime := m_lastErrorTime r;
     m_lastFileName := m_lastFileName r; m_lastFileDeleted := m_lastFileDeleted r;
     nextReply := nextReply r; emitted := emitted r |}.
Definition set_m_lastFileTime (v : DateTime) (r : t) : t :=
  {| m_syncthingUrl := m_syncthingUrl r; m_apiKey := m_apiKey r; m_status := m_status r;
     m_keepPolling := m_keepPolling r; m_reconnecting := m_reconnecting r;
     m_lastEventId := m_lastEventId r; m_trafficPollInterval := m_trafficPollInterval r;
     m_devStatsPollInterval := m_devStatsPollInterval r;
     m_autoReconnectInterval := m_autoReconnectInterval r;
     m_autoReconnectTimerActive := m_autoReconnectTimerActive r;
     m_autoReconnectTries := m_autoReconnectTries r;
     m_totalIncomingTraffic := m_totalIncomingTraffic r;
     m_totalOutgoingTraffic := m_totalOutgoingTraffic r;
     m_totalIncomingRate := m_totalIncomingRate r;
     m_totalOutgoingRate := m_totalOutgoingRate r; m_configReply := m_configReply r;
     m_statusReply := m_statusReply r; m_connectionsReply := m_connectionsReply r;
     m_errorsReply := m_errorsReply r; m_eventsReply := m_eventsReply r;
     m_unreadNotifications := m_unreadNotifications r; m_hasConfig := m_hasConfig r;
     m_hasStatus := m_hasStatus r; m_dirs := m_dirs r; m_devs := m_devs r;
     m_syncedDirs := m_syncedDirs r; m_completedDirs := m_completedDirs r;
     m_configDir := m_configDir r; m_myId := m_myId r;
     m_lastConnectionsUpdate := m_lastConnectionsUpdate r; m_lastFileTime := v;
     m_lastErrorTime := m_lastErrorTime r; m_lastFileName := m_lastFileName r;
     m_lastFileDeleted := m_lastFileDeleted r; nextReply := nextReply r;
     emitted := emitted r |}.
Definition set_m_lastErrorTime (v : DateTime) (r : t) : t :=
  {| m_syncthingUrl := m_syncthingUrl r; m_apiKey := m_apiKey r; m_status := m_status r;
     m_keepPolling := m_keepPolling r; m_reconnecting := m_reconnecting r;
     m_lastEventId := m_lastEventId r; m_trafficPollInterval := m_trafficPollInterval r;
     m_devStatsPollInterval := m_devStatsPollInterval r;
     m_autoReconnectInterval := m_autoReconnectInterval r;
     m_autoReconnectTimerActive := m_autoReconnectTimerActive r;
     m_autoReconnectTries := m_autoReconnectTries r;
     m_totalIncomingTraffic := m_totalIncomingTraffic r;
     m_totalOutgoingTraffic := m_totalOutgoingTraffic r;
     m_totalIncomingRate := m_totalIncomingRate r;
     m_totalOutgoingRate := m_totalOutgoingRate r; m_configReply := m_configReply r;
     m_statusReply := m_statusReply r; m_connectionsReply := m_connectionsReply r;
     m_errorsReply := m_errorsReply r; m_eventsReply := m_eventsReply r;
     m_unreadNotifications := m_unreadNotifications r; m_hasConfig := m_hasConfig r;
     m_hasStatus := m_hasStatus r; m_dirs := m_dirs r; m_devs := m_devs r;
     m_syncedDirs := m_syncedDirs r; m_completedDirs := m_completedDirs r;
     m_configDir := m_configDir r; m_myId := m_myId r;
     m_lastConnectionsUpdate := m_lastConnectionsUpdate r; m_lastFileTime := m_lastFileTime r;
     m_lastErrorTime := v; m_lastFileName := m_lastFileName r;
     m_lastFileDeleted := m_lastFileDeleted r; nextReply := nextReply r;
     emitted := emitted r |}.
Definition set_m_lastFileName (v : string) (r : t) : t :=
  {| m_syncthingUrl := m_syncthingUrl r; m_apiKey := m_apiKey r; m_status := m_status r;
     m_keepPolling := m_keepPolling r; m_reconnecting := m_reconnecting r;
     m_lastEventId := m_lastEventId r; m_trafficPollInterval := m_trafficPollInterval r;
     m_devStatsPollInterval := m_devStatsPollInterval r;
     m_autoReconnectInterval := m_autoReconnectInterval r;
     m_autoReconnectTimerActive := m_autoReconnectTimerActive r;
     m_autoReconnectTries := m_autoReconnectTries r;
     m_totalIncomingTraffic := m_totalIncomingTraffic r;
     m_totalOutgoingTraffic := m_totalOutgoingTraffic r;
     m_totalIncomingRate := m_totalIncomingRate r;
     m_totalOutgoingRate := m_totalOutgoingRate r; m_configReply := m_configReply r;
     m_statusReply := m_statusReply r; m_connectionsReply := m_connectionsReply r;
     m_errorsReply := m_errorsReply r; m_eventsReply := m_eventsReply r;
     m_unreadNotifications := m_unreadNotifications r; m_hasConfig := m_hasConfig r;
     m_hasStatus := m_hasStatus r; m_dirs := m_dirs r; m_devs := m_devs r;
     m_syncedDirs := m_syncedDirs r; m_completedDirs := m_completedDirs r;
     m_configDir := m_configDir r; m_myId := m_myId r;
     m_lastConnectionsUpdate := m_lastConnectionsUpdate r; m_lastFileTime := m_lastFileTime r;
     m_lastErrorTime := m_lastErrorTime r; m_lastFileName := v;
     m_lastFileDeleted := m_lastFileDeleted r; nextReply := nextReply r;
     emitted := emitted r |}.
Definition set_m_lastFileDeleted (v : bool) (r : t) : t :=
  {| m_syncthingUrl := m_syncthingUrl r; m_apiKey := m_apiKey r; m_status := m_status r;
     m_keepPolling := m_keepPolling r; m_reconnecting := m_reconnecting r;
     m_lastEventId := m_lastEventId r; m_trafficPollInterval := m_trafficPollInterval r;
     m_devStatsPollInterval := m_devStatsPollInterval r;
     m_autoReconnectInterval := m_autoReconnectInterval r;
     m_autoReconnectTimerActive := m_autoReconnectTimerActive r;
     m_autoReconnectTries := m_autoReconnectTries r;
     m_totalIncomingTraffic := m_totalIncomingTraffic r;
     m_totalOutgoingTraffic := m_totalOutgoingTraffic r;
     m_totalIncomingRate := m_totalIncomingRate r;
     m_totalOutgoingRate := m_totalOutgoingRate r; m_configReply := m_configReply r;
     m_statusReply := m_statusReply r; m_connectionsReply := m_connectionsReply r;
     m_errorsReply := m_errorsReply r; m_eventsReply := m_eventsReply r;
     m_unreadNotifications := m_unreadNotifications r; m_hasConfig := m_hasConfig r;
     m_hasStatus := m_hasStatus r; m_dirs := m_dirs r; m_devs := m_devs r;
     m_syncedDirs := m_syncedDirs r; m_completedDirs := m_completedDirs r;
     m_configDir := m_configDir r; m_myId := m_myId r;
     m_lastConnectionsUpdate := m_lastConnectionsUpdate r; m_lastFileTime := m_lastFileTime r;
     m_lastErrorTime := m_lastErrorTime r; m_lastFileName := m_lastFileName r;
     m_lastFileDeleted := v; nextReply := nextReply r; emitted := emitted r |}.
Definition set_nextReply (v : ReplyId) (r : t) : t :=
  {| m_syncthingUrl := m_syncthingUrl r; m_apiKey := m_apiKey r; m_status := m_status r;
     m_keepPolling := m_keepPolling r; m_reconnecting := m_reconnecting r;
     m_lastEventId := m_lastEventId r; m_trafficPollInterval := m_trafficPollInterval r;
     m_devStatsPollInterval := m_devStatsPollInterval r;
     m_autoReconnectInterval := m_autoReconnectInterval r;
     m_autoReconnectTimerActive := m_autoReconnectTimerActive r;
     m_autoReconnectTries := m_autoReconnectTries r;
     m_totalIncomingTraffic := m_totalIncomingTraffic r;
     m_totalOutgoingTraffic := m_totalOutgoingTraffic r;
     m_totalIncomingRate := m_totalIncomingRate r;
     m_totalOutgoingRate := m_totalOutgoingRate r; m_configReply := m_configReply r;
     m_statusReply := m_statusReply r; m_connectionsReply := m_connectionsReply r;
     m_errorsReply := m_errorsReply r; m_eventsReply := m_eventsReply r;
     m_unreadNotifications := m_unreadNotifications r; m_hasConfig := m_hasConfig r;
     m_hasStatus := m_hasStatus r; m_dirs := m_dirs r; m_devs := m_devs r;
     m_syncedDirs := m_syncedDirs r; m_completedDirs := m_completedDirs r;
     m_configDir := m_configDir r; m_myId := m_myId r;
     m_lastConnectionsUpdate := m_lastConnectionsUpdate r; m_lastFileTime := m_lastFileTime r;
     m_lastErrorTime := m_lastErrorTime r; m_lastFileName := m_lastFileName r;
     m_lastFileDeleted := m_lastFileDeleted r; nextReply := v; emitted := emitted r |}.
Definition set_emitted (v : list Signal.t) (r : t) : t :=
  {| m_syncthingUrl := m_syncthingUrl r; m_apiKey := m_apiKey r; m_status := m_status r;
     m_keepPolling := m_keepPolling r; m_reconnecting := m_reconnecting r;
     m_lastEventId := m_lastEventId r; m_trafficPollInterval := m_trafficPollInterval r;
     m_devStatsPollInterval := m_devStatsPollInterval r;
     m_autoReconnectInterval := m_autoReconnectInterval r;
     m_autoReconnectTimerActive := m_autoReconnectTimerActive r;
     m_autoReconnectTries := m_autoReconnectTries r;
     m_totalIncomingTraffic := m_totalIncomingTraffic r;
     m_totalOutgoingTraffic := m_totalOutgoingTraffic r;
     m_totalIncomingRate := m_totalIncomingRate r;
     m_totalOutgoingRate := m_totalOutgoingRate r; m_configReply := m_configReply r;
     m_statusReply := m_statusReply r; m_connectionsReply := m_connectionsReply r;
     m_errorsReply := m_errorsReply r; m_eventsReply := m_eventsReply r;
     m_unreadNotifications := m_unreadNotifications r; m_hasConfig := m_hasConfig r;
     m_hasStatus := m_hasStatus r; m_dirs := m_dirs r; m_devs := m_devs r;
     m_syncedDirs := m_syncedDirs r; m_completedDirs := m_completedDirs r;
     m_configDir := m_configDir r; m_myId := m_myId r;
     m_lastConnectionsUpdate := m_lastConnectionsUpdate r; m_lastFileTime := m_lastFileTime r;
     m_lastErrorTime := m_lastErrorTime r; m_lastFileName := m_lastFileName r;
     m_lastFileDeleted := m_lastFileDeleted r; nextReply := nextReply r; emitted := v |}.

End Conn.


(** A [SyncthingDir] that has been moved from: the move constructor takes
    the strings and vectors away and copies the scalar members. *)
Definition movedFromDir (d : SyncthingDir.t) : SyncthingDir.t :=
  SyncthingDir.set_id ""
    (SyncthingDir.set_label ""
      (SyncthingDir.set_path ""
        (SyncthingDir.set_devices []
          (SyncthingDir.set_errors []
            (SyncthingDir.set_previousErrors []
              (SyncthingDir.set_lastFileName ""
                (SyncthingDir.set_downloadingItems []
                  (SyncthingDir.set_downloadLabel "" d)))))))).

Definition movedFromDev (d : SyncthingDev.t) : SyncthingDev.t :=
  SyncthingDev.set_id ""
    (SyncthingDev.set_name ""
      (SyncthingDev.set_addresses []
        (SyncthingDev.set_compression ""
          (SyncthingDev.set_certName ""
            (SyncthingDev.set_connectionAddress ""
              (SyncthingDev.set_connectionType ""
                (SyncthingDev.set_clientVersion "" d))))))).

(** ** Replies *)

Inductive NetworkError : Type :=
| NoError
| OperationCanceledError
| TimeoutError
| OtherNetworkError.

(** What [QJsonDocument::fromJson] makes of a reply's body. *)
Inductive QJsonDocument : Type :=
| DocObject (o : QJsonObject)
| DocArray (a : QJsonArray).

Definition docObject (d : QJsonDocument) : QJsonObject :=
  match d with DocObject o => o | DocArray _ => [] end.

Definition docArray (d : QJsonDocument) : QJsonArray :=
  match d with DocArray a => a | DocObject _ => [] end.

Record Reply : Type := mkReply {
  replyId : ReplyId;
  replyError : NetworkError;
  errorString : string;
  (** [inl] the parser's error string, [inr] the document *)
  fromJson : string + QJsonDocument
}.

Definition canceled (r : ReplyId) : Reply :=
  mkReply r OperationCanceledError "Operation canceled" (inl "").

(** [QString::number] *)
Definition number (z : Z) : string := NilZero.string_of_int (Z.to_int z).

(** [m_xReply = nullptr] when the finished reply is the stored one. *)
Definition isReply (stored : option ReplyId) (r : Reply) : bool :=
  match stored with
  | Some i => Nat.eqb i (replyId r)
  | None => false
  end.

(** A range-based [for] over a vector of [n] elements whose body works on
    the connection state and reaches the element through its index. *)
Definition forEachIndex (n : nat) (body : nat -> Conn.t -> Conn.t) (c : Conn.t) : Conn.t :=
  fold_left (fun c index => body index c) (seq 0 n) c.

Definition emit (s : Signal.t) (c : Conn.t) : Conn.t :=
  Conn.set_emitted (Conn.emitted c ++ [s]) c.

(** Writes through a [SyncthingDir *] or [SyncthingDev *]. *)
Definition updateDir (row : nat) (f : SyncthingDir.t -> SyncthingDir.t) (c : Conn.t) : Conn.t :=
  Conn.set_m_dirs (alter f row (Conn.m_dirs c)) c.

Definition updateDev (row : nat) (f : SyncthingDev.t -> SyncthingDev.t) (c : Conn.t) : Conn.t :=
  Conn.set_m_devs (alter f row (Conn.m_devs c)) c.

(** Writes through the pointer [&v.back()]. *)
Definition updateBack {A : Type} (f : A -> A) (v : list A) : list A :=
  alter f (Nat.pred (length v)) v.

(** Modelled from the spec: [isConnected()] is declared inline in the
    header [syncthingconnection.h], which is not among the sources.  The
    specification treats Disconnected and Reconnecting as the two states
    without an established connection. *)
Definition isConnected (c : Conn.t) : bool :=
  negb (SyncthingStatus.eqb (Conn.m_status c) SyncthingStatus.Disconnected)
  && negb (SyncthingStatus.eqb (Conn.m_status c) SyncthingStatus.Reconnecting).

(** The state a freshly constructed connection object is in. *)
Definition SyncthingConnection (syncthingUrl apiKey : string) : Conn.t :=
  {| Conn.m_syncthingUrl := syncthingUrl; Conn.m_apiKey := apiKey;
     Conn.m_status := SyncthingStatus.Disconnected;
     Conn.m_keepPolling := false; Conn.m_reconnecting := false;
     Conn.m_lastEventId := 0;
     Conn.m_trafficPollInterval := 2000; Conn.m_devStatsPollInterval := 60000;
     Conn.m_autoReconnectInterval := 0; Conn.m_autoReconnectTimerActive := false;
     Conn.m_autoReconnectTries := 0;
     Conn.m_totalIncomingTraffic := 0; Conn.m_totalOutgoingTraffic := 0;
     Conn.m_totalIncomingRate := 0%float; Conn.m_totalOutgoingRate := 0%float;
     Conn.m_configReply := None; Conn.m_statusReply := None;
     Conn.m_connectionsReply := None; Conn.m_errorsReply := None;
     Conn.m_eventsReply := None;
     Conn.m_unreadNotifications := false;
     Conn.m_hasConfig := false; Conn.m_hasStatus := false;
     Conn.m_dirs := []; Conn.m_devs := [];
     Conn.m_syncedDirs := []; Conn.m_completedDirs := [];
     Conn.m_configDir := ""; Conn.m_myId := "";
     Conn.m_lastConnectionsUpdate := Chrono.null; Conn.m_lastFileTime := Chrono.null;
     Conn.m_lastErrorTime := Chrono.null;
     Conn.m_lastFileName := ""; Conn.m_lastFileDeleted := false;
     Conn.nextReply := 0%nat; Conn.emitted := [] |}.

(** ** Lookup of entities *)

(** [findDirInfo]: the row of the first directory with the given id; the
    pointer the C++ function returns is the address of that row. *)
Fixpoint findDirInfo (dirId : string) (dirs : list SyncthingDir.t) : option nat :=
  match dirs with
  | [] => None
  | d :: rest =>
      if String.eqb (SyncthingDir.id d) dirId then Some 0%nat
      else S <$> findDirInfo dirId rest
  end.

Fixpoint findDevInfo (devId : string) (devs : list SyncthingDev.t) : option nat :=
  match devs with
  | [] => None
  | d :: rest =>
      if String.eqb (SyncthingDev.id d) devId then Some 0%nat
      else S <$> findDevInfo devId rest
  end.

(** ** Requests *)

Definition requestData (path : string) (query : list (string * string)) (c : Conn.t)
  : ReplyId * Conn.t :=
  let r := Conn.nextReply c in
  (r, emit (Signal.httpGet r path query) (Conn.set_nextReply (S r) c)).

Definition requestConfig (c : Conn.t) : Conn.t :=
  let '(r, c) := requestData "system/config" [] c in
  Conn.set_m_configReply (Some r) c.

Definition requestStatus (c : Conn.t) : Conn.t :=
  let '(r, c) := requestData "system/status" [] c in
  Conn.set_m_statusReply (Some r) c.

Definition requestConnections (c : Conn.t) : Conn.t :=
  let '(r, c) := requestData "system/connections" [] c in
  Conn.set_m_connectionsReply (Some r) c.

Definition requestErrors (c : Conn.t) : Conn.t :=
  let '(r, c) := requestData "system/error" [] c in
  Conn.set_m_errorsReply (Some r) c.

Definition requestDirStatistics (c : Conn.t) : Conn.t :=
  snd (requestData "stats/folder" [] c).

Definition requestDeviceStatistics (c : Conn.t) : Conn.t :=
  snd (requestData "stats/device" [] c).

Definition requestEvents (c : Conn.t) : Conn.t :=
  let query :=
    if Conn.m_lastEventId c =? 0 then []
    else [("since", number (Conn.m_lastEventId c))] in
  let '(r, c) := requestData "events" query c in
  Conn.set_m_eventsReply (Some r) c.

(** ** The overall status *)

(** The loop of [setStatus] over the directories: which of them scan or
    synchronise, and the rows of the synchronising ones that join
    [m_syncedDirs]. *)
Fixpoint checkDirs (dirs : list SyncthingDir.t) (row : nat)
    (scanning synchronizing : bool) (syncedDirs : list nat) : bool * bool * list nat :=
  match dirs with
  | [] => (scanning, synchronizing, syncedDirs)
  | dir :: rest =>
      if SyncthingDirStatus.eqb (SyncthingDir.status dir) SyncthingDirStatus.Synchronizing then
        checkDirs rest (S row) scanning true
          (if bool_decide (row ∈ syncedDirs) then syncedDirs else syncedDirs ++ [row])
      else if SyncthingDirStatus.eqb (SyncthingDir.status dir) SyncthingDirStatus.Scanning then
        checkDirs rest (S row) true synchronizing syncedDirs
      else
        checkDirs rest (S row) scanning synchronizing syncedDirs
  end.

(** The loop of [setStatus] over the devices, left at the first paused one. *)
Fixpoint anyDevPaused (devs : list SyncthingDev.t) : bool :=
  match devs with
  | [] => false
  | dev :: rest => if SyncthingDev.paused dev then true else anyDevPaused rest
  end.

Definition setStatus (status : SyncthingStatus.t) (c : Conn.t) : Conn.t :=
  if SyncthingStatus.eqb (Conn.m_status c) SyncthingStatus.BeingDestroyed then c
  else
    let '(status, c) :=
      match status with
      | SyncthingStatus.Disconnected | SyncthingStatus.Reconnecting =>
          (status, Conn.set_m_syncedDirs [] c)
      | _ =>
          let c := Conn.set_m_autoReconnectTries 0 c in
          let '(scanning, synchronizing, syncedDirs) :=
            checkDirs (Conn.m_dirs c) 0 false false (Conn.m_syncedDirs c) in
          let c := Conn.set_m_syncedDirs syncedDirs c in
          let '(status, c) :=
            if synchronizing then (SyncthingStatus.Synchronizing, c)
            else if scanning then (SyncthingStatus.Scanning, c)
            else if anyDevPaused (Conn.m_devs c)
              then (SyncthingStatus.Paused, Conn.set_m_syncedDirs [] c)
              else (SyncthingStatus.Idle, c) in
          if SyncthingStatus.eqb status SyncthingStatus.Synchronizing then (status, c)
          else
            (status,
             Conn.set_m_syncedDirs [] (Conn.set_m_completedDirs (Conn.m_syncedDirs c) c))
      end in
    if SyncthingStatus.eqb (Conn.m_status c) status then c
    else emit (Signal.statusChanged status) (Conn.set_m_status status c).

Definition emitNotification (when : DateTime) (msg : string) (c : Conn.t) : Conn.t :=
  let c := Conn.set_m_unreadNotifications true c in
  let c := setStatus (Conn.m_status c) c in
  emit (Signal.newNotification when msg) c.

(** ** The connection *)

Section Connection.

#[local] Set Default Proof Using "Type".

(** What the connection code takes from the headers [syncthingdir.h] and
    [syncthingdev.h], which this development does not embed: the
    constructors of the entity structs, the two overloads of
    [SyncthingDir::assignStatus] (which report whether the status changed)
    and the size of a block. *)
Variable newSyncthingDir : string -> SyncthingDir.t.
Variable newSyncthingDev : string -> SyncthingDev.t.
Variable newItemDownloadProgress :
  string -> string -> QJsonObject -> SyncthingItemDownloadProgress.t.
Variable assignStatusString : string -> DateTime -> SyncthingDir.t -> bool * SyncthingDir.t.
Variable assignStatus :
  SyncthingDirStatus.t -> DateTime -> SyncthingDir.t -> bool * SyncthingDir.t.
Variable syncthingBlockSize : Z.

(** Functions of c++utilities: the parsers of ISO time stamps, which throw
    a [ConversionException] ([None] here), and the formatter of data sizes. *)
Variable fromIsoStringGmt : string -> option DateTime.
Variable fromIsoStringLocal : string -> option DateTime.
Variable dataSizeToString : Z -> string.

(** *** Connecting *)

Definition continueConnecting (c : Conn.t) : Conn.t :=
  if Conn.m_keepPolling c && Conn.m_hasConfig c && Conn.m_hasStatus c then
    let c := requestConnections c in
    let c := requestDirStatistics c in
    let c := requestDeviceStatistics c in
    let c := requestErrors c in
    let c := Conn.set_m_lastEventId 0 c in
    requestEvents c
  else c.

Definition insufficient : Signal.t :=
  Signal.error "Connection configuration is insufficient." OverallConnection.

Definition connect (c : Conn.t) : Conn.t :=
  let c := Conn.set_m_autoReconnectTimerActive false c in
  let c := Conn.set_m_autoReconnectTries 0 c in
  if negb (isConnected c) then
    let c := Conn.set_m_reconnecting false
               (Conn.set_m_hasConfig false (Conn.set_m_hasStatus false c)) in
    if isEmpty (Conn.m_apiKey c) || isEmpty (Conn.m_syncthingUrl c) then
      emit insufficient c
    else
      let c := requestConfig c in
      let c := requestStatus c in
      Conn.set_m_keepPolling true c
  else c.

Definition continueReconnecting (c : Conn.t) : Conn.t :=
  let c := emit (Signal.newConfig []) c in
  let c := setStatus SyncthingStatus.Reconnecting c in
  let c := Conn.set_m_keepPolling true c in
  let c := Conn.set_m_reconnecting false c in
  let c := Conn.set_m_lastEventId 0 c in
  let c := Conn.set_m_configDir "" c in
  let c := Conn.set_m_myId "" c in
  let c := Conn.set_m_totalIncomingTraffic 0 c in
  let c := Conn.set_m_totalOutgoingTraffic 0 c in
  let c := Conn.set_m_totalIncomingRate 0%float c in
  let c := Conn.set_m_totalOutgoingRate 0%float c in
  let c := Conn.set_m_unreadNotifications false c in
  let c := Conn.set_m_hasConfig false c in
  let c := Conn.set_m_hasStatus false c in
  let c := Conn.set_m_dirs [] c in
  let c := Conn.set_m_devs [] c in
  let c := Conn.set_m_lastConnectionsUpdate Chrono.null c in
  let c := Conn.set_m_lastFileTime Chrono.null c in
  let c := Conn.set_m_lastErrorTime Chrono.null c in
  let c := Conn.set_m_lastFileName "" c in
  let c := Conn.set_m_lastFileDeleted false c in
  if isEmpty (Conn.m_apiKey c) || isEmpty (Conn.m_syncthingUrl c) then
    emit insufficient c
  else
    let c := requestConfig c in
    requestStatus c.

Definition autoReconnect (c : Conn.t) : Conn.t :=
  let tmp := Conn.m_autoReconnectTries c in
  let c := connect c in
  Conn.set_m_autoReconnectTries (wrap_int32 (tmp + 1)) c.

(** [if(m_autoReconnectTimer.interval()) m_autoReconnectTimer.start();] *)
Definition armAutoReconnect (c : Conn.t) : Conn.t :=
  if Conn.m_autoReconnectInterval c =? 0 then c
  else Conn.set_m_autoReconnectTimerActive true c.

(** *** Reading the configuration *)

(** [addDirInfo]: [None] stands for the null pointer; otherwise the vector
    has grown by the record the returned pointer designates, its last one.
    A recycled record is moved out of [m_dirs]. *)
Definition addDirInfo (dirs : list SyncthingDir.t) (dirId : string) (c : Conn.t)
  : option (list SyncthingDir.t * Conn.t) :=
  if isEmpty dirId then None
  else
    match findDirInfo dirId (Conn.m_dirs c) with
    | Some row =>
        match Conn.m_dirs c !! row with
        | Some existingDirInfo =>
            Some (dirs ++ [existingDirInfo], updateDir row movedFromDir c)
        | None => Some (dirs ++ [newSyncthingDir dirId], c)
        end
    | None => Some (dirs ++ [newSyncthingDir dirId], c)
    end.

Definition addDevInfo (devs : list SyncthingDev.t) (devId : string) (c : Conn.t)
  : option (list SyncthingDev.t * Conn.t) :=
  if isEmpty devId then None
  else
    match findDevInfo devId (Conn.m_devs c) with
    | Some row =>
        match Conn.m_devs c !! row with
        | Some existingDevInfo =>
            Some (devs ++ [existingDevInfo], updateDev row movedFromDev c)
        | None => Some (devs ++ [newSyncthingDev devId], c)
        end
    | None => Some (devs ++ [newSyncthingDev devId], c)
    end.

(** The ids of the devices a folder of the payload is shared with. *)
Fixpoint readDirDevices (devs : QJsonArray) (devices : list string) : list string :=
  match devs with
  | [] => devices
  | dev :: rest =>
      let devId := Json.toString (Json.value (Json.toObject dev) "deviceID") in
      readDirDevices rest (if isEmpty devId then devices else devices ++ [devId])
  end.

(** The assignments [readDirs] makes to the record of one folder. *)
Definition assignDirConfig (dirObj : QJsonObject) (dirItem : SyncthingDir.t) : SyncthingDir.t :=
  let dirItem := SyncthingDir.set_label (Json.toString (Json.value dirObj "label")) dirItem in
  let dirItem := SyncthingDir.set_path (Json.toString (Json.value dirObj "path")) dirItem in
  let dirItem :=
    SyncthingDir.set_devices
      (readDirDevices (Json.toArray (Json.value dirObj "devices")) []) dirItem in
  let dirItem :=
    SyncthingDir.set_readOnly (Json.toBool (Json.value dirObj "readOnly") false) dirItem in
  let dirItem :=
    SyncthingDir.set_rescanInterval (Json.toInt (Json.value dirObj "rescanIntervalS") (-1))
      dirItem in
  let dirItem :=
    SyncthingDir.set_ignorePermissions (Json.toBool (Json.value dirObj "ignorePerms") false)
      dirItem in
  let dirItem :=
    SyncthingDir.set_autoNormalize (Json.toBool (Json.value dirObj "autoNormalize") false)
      dirItem in
  SyncthingDir.set_minDiskFreePercentage
    (Json.toInt (Json.value dirObj "minDiskFreePct") (-1)) dirItem.

(** One turn of the loop of [readDirs]. *)
Definition readDir (acc : list SyncthingDir.t * Conn.t) (dirVal : QJsonValue)
  : list SyncthingDir.t * Conn.t :=
  let '(newDirs, c) := acc in
  let dirObj := Json.toObject dirVal in
  match addDirInfo newDirs (Json.toString (Json.value dirObj "id")) c with
  | Some (newDirs, c) => (updateBack (assignDirConfig dirObj) newDirs, c)
  | None => acc
  end.

(** [readDirs].  [m_dirs.swap(newDirs)] gives [m_dirs] the buffer of
    [newDirs], and the old buffer is freed with [newDirs] when the function
    returns.  The source leaves [m_syncedDirs] and [m_completedDirs] as they
    are (it only reserves room), so the pointers they hold dangle from then
    on; the model leaves its two lists of rows as they are too, but a row
    of them no longer stands for the pointer the source holds.  The lists
    stand for the pointers of the source in the runs in which both are
    empty when the collection is replaced, and between two replacements. *)
Definition readDirs (dirs : QJsonArray) (c : Conn.t) : Conn.t :=
  let '(newDirs, c) := fold_left readDir dirs ([], c) in
  let c := Conn.set_m_dirs newDirs c in
  emit Signal.newDirs c.

(** The assignments [readDevs] makes to the record of one device. *)
Definition assignDevConfig (myId : string) (devObj : QJsonObject) (devItem : SyncthingDev.t)
  : SyncthingDev.t :=
  let devItem := SyncthingDev.set_name (Json.toString (Json.value devObj "name")) devItem in
  let devItem :=
    SyncthingDev.set_addresses
      (map Json.toString (Json.toArray (Json.value devObj "addresses"))) devItem in
  let devItem :=
    SyncthingDev.set_compression (Json.toString (Json.value devObj "compression")) devItem in
  let devItem := SyncthingDev.set_certName (Json.toString (Json.value devObj "certName")) devItem in
  let devItem :=
    SyncthingDev.set_introducer (Json.toBool (Json.value devObj "introducer") false) devItem in
  SyncthingDev.set_status
    (if String.eqb (SyncthingDev.id devItem) myId
     then SyncthingDevStatus.OwnDevice else SyncthingDevStatus.Unknown) devItem.

Definition readDev (acc : list SyncthingDev.t * Conn.t) (devVal : QJsonValue)
  : list SyncthingDev.t * Conn.t :=
  let '(newDevs, c) := acc in
  let devObj := Json.toObject devVal in
  match addDevInfo newDevs (Json.toString (Json.value devObj "deviceID")) c with
  | Some (newDevs, c) => (updateBack (assignDevConfig (Conn.m_myId c) devObj) newDevs, c)
  | None => acc
  end.

Definition readDevs (devs : QJsonArray) (c : Conn.t) : Conn.t :=
  let '(newDevs, c) := fold_left readDev devs ([], c) in
  let c := Conn.set_m_devs newDevs c in
  emit Signal.newDevices c.

Definition readConfig (reply : Reply) (c : Conn.t) : Conn.t :=
  let c := if isReply (Conn.m_configReply c) reply then Conn.set_m_configReply None c else c in
  match replyError reply with
  | NoError =>
      match fromJson reply with
      | inr replyDoc =>
          let replyObj := docObject replyDoc in
          let c := emit (Signal.newConfig replyObj) c in
          let c := readDirs (Json.toArray (Json.value replyObj "folders")) c in
          let c := readDevs (Json.toArray (Json.value replyObj "devices")) c in
          let c := Conn.set_m_hasConfig true c in
          if negb (isConnected c) then continueConnecting c else c
      | inl jsonError =>
          emit (Signal.error ("Unable to parse Syncthing config: " +:+ jsonError) Parsing) c
      end
  | OperationCanceledError => c
  | _ =>
      let c := emit (Signal.error ("Unable to request Syncthing config: " +:+ errorString reply)
                       OverallConnection) c in
      let c := setStatus SyncthingStatus.Disconnected c in
      armAutoReconnect c
  end.

(** *** Reading the status *)

Definition readStatus (reply : Reply) (c : Conn.t) : Conn.t :=
  let c := if isReply (Conn.m_statusReply c) reply then Conn.set_m_statusReply None c else c in
  match replyError reply with
  | NoError =>
      match fromJson reply with
      | inr replyDoc =>
          let replyObj := docObject replyDoc in
          let myId := Json.toString (Json.value replyObj "myID") in
          let c :=
            if String.eqb myId (Conn.m_myId c) then c
            else
              let c := emit (Signal.myIdChanged myId) (Conn.set_m_myId myId c) in
              (* the loop stops at the first device with that id *)
              match findDevInfo (Conn.m_myId c) (Conn.m_devs c) with
              | Some index =>
                  let c :=
                    updateDev index (SyncthingDev.set_status SyncthingDevStatus.OwnDevice) c in
                  emit (Signal.devStatusChanged index) c
              | None => c
              end in
          let c := Conn.set_m_hasStatus true c in
          continueConnecting c
      | inl jsonError =>
          emit (Signal.error ("Unable to parse Syncthing status: " +:+ jsonError) Parsing) c
      end
  | OperationCanceledError => c
  | _ =>
      emit (Signal.error ("Unable to request Syncthing status: " +:+ errorString reply)
              OverallConnection) c
  end.

(** *** Reading the connections *)

(** The status a device gets from its entry of the connections. *)
Definition connectionStatus (status : SyncthingDevStatus.t) (connected : bool)
  : SyncthingDevStatus.t :=
  match status with
  | SyncthingDevStatus.OwnDevice => status
  | SyncthingDevStatus.Disconnected | SyncthingDevStatus.Unknown =>
      if connected then SyncthingDevStatus.Idle else SyncthingDevStatus.Disconnected
  | _ => if negb connected then SyncthingDevStatus.Disconnected else status
  end.

Definition readConnection (connectionsObj : QJsonObject) (index : nat) (c : Conn.t) : Conn.t :=
  match Conn.m_devs c !! index with
  | None => c
  | Some dev =>
      let connectionObj := Json.toObject (Json.value connectionsObj (SyncthingDev.id dev)) in
      if Json.isEmptyObject connectionObj then c
      else
        let connected := Json.toBool (Json.value connectionObj "connected") false in
        let assign (dev : SyncthingDev.t) : SyncthingDev.t :=
          let dev :=
            SyncthingDev.set_status (connectionStatus (SyncthingDev.status dev) connected) dev in
          let dev :=
            SyncthingDev.set_paused (Json.toBool (Json.value connectionObj "paused") false) dev in
          let dev :=
            SyncthingDev.set_totalIncomingTraffic
              (double_to_uint64 (Json.toDouble (Json.value connectionObj "inBytesTotal") 0%float))
              dev in
          let dev :=
            SyncthingDev.set_totalOutgoingTraffic
              (double_to_uint64 (Json.toDouble (Json.value connectionObj "outBytesTotal") 0%float))
              dev in
          let dev :=
            SyncthingDev.set_connectionAddress
              (Json.toString (Json.value connectionObj "address")) dev in
          let dev :=
            SyncthingDev.set_connectionType (Json.toString (Json.value connectionObj "type")) dev in
          SyncthingDev.set_clientVersion
            (Json.toString (Json.value connectionObj "clientVersion")) dev in
        emit (Signal.devStatusChanged index) (updateDev index assign c)
  end.

(** The [double] the literal [0.008] denotes. *)
Definition kbitPerByte : float := 0x1.0624dd2f1a9fcp-7%float.

(** The rate, in kbit/s, of [current - previous] bytes ([uint64]) in
    [transferTime] seconds. *)
Definition transferRate (current previous : Z) (transferTime : float) : float :=
  (double_of_Z (wrap_uint64 (current - previous)) * kbitPerByte / transferTime)%float.

(** [readConnections]; [now1] and [now2] are what the two calls of
    [DateTime::gmtNow()] return. *)
Definition readConnections (now1 now2 : DateTime) (reply : Reply) (c : Conn.t) : Conn.t :=
  let c :=
    if isReply (Conn.m_connectionsReply c) reply then Conn.set_m_connectionsReply None c else c in
  match replyError reply with
  | NoError =>
      match fromJson reply with
      | inr replyDoc =>
          let replyObj := docObject replyDoc in
          let totalObj := Json.toObject (Json.value replyObj "total") in
          let totalIncomingTraffic :=
            double_to_uint64 (Json.toDouble (Json.value totalObj "inBytesTotal") 0%float) in
          let totalOutgoingTraffic :=
            double_to_uint64 (Json.toDouble (Json.value totalObj "outBytesTotal") 0%float) in
          let transferTime := Chrono.secondsBetween now1 (Conn.m_lastConnectionsUpdate c) in
          let c :=
            if negb (Chrono.isNull (Conn.m_lastConnectionsUpdate c))
               && negb (PrimFloat.eqb transferTime 0%float)
            then
              let c :=
                Conn.set_m_totalIncomingRate
                  (transferRate totalIncomingTraffic (Conn.m_totalIncomingTraffic c) transferTime)
                  c in
              Conn.set_m_totalOutgoingRate
                (transferRate totalOutgoingTraffic (Conn.m_totalOutgoingTraffic c) transferTime) c
            else
              Conn.set_m_totalIncomingRate 0%float (Conn.set_m_totalOutgoingRate 0%float c) in
          let c := Conn.set_m_totalIncomingTraffic totalIncomingTraffic c in
          let c := Conn.set_m_totalOutgoingTraffic totalOutgoingTraffic c in
          let c := emit (Signal.trafficChanged totalIncomingTraffic totalOutgoingTraffic) c in
          let connectionsObj := Json.toObject (Json.value replyObj "connections") in
          let c := forEachIndex (length (Conn.m_devs c)) (readConnection connectionsObj) c in
          let c := Conn.set_m_lastConnectionsUpdate now2 c in
          if Conn.m_keepPolling c then
            emit (Signal.singleShot (Conn.m_trafficPollInterval c) requestConnectionsSlot) c
          else c
      | inl jsonError =>
          emit (Signal.error ("Unable to parse connections: " +:+ jsonError) Parsing) c
      end
  | OperationCanceledError => c
  | _ =>
      emit (Signal.error ("Unable to request connections: " +:+ errorString reply)
              OverallConnection) c
  end.

(** *** Reading the statistics and the errors *)

Definition readDirStatistic (replyObj : QJsonObject) (index : nat) (c : Conn.t) : Conn.t :=
  match Conn.m_dirs c !! index with
  | None => c
  | Some dirInfo =>
      let dirObj := Json.toObject (Json.value replyObj (SyncthingDir.id dirInfo)) in
      if Json.isEmptyObject dirObj then c
      else
        let '(modified, c) :=
          match fromIsoStringLocal (Json.toString (Json.value dirObj "lastScan")) with
          | Some t => (true, updateDir index (SyncthingDir.set_lastScanTime t) c)
          | None => (false, updateDir index (SyncthingDir.set_lastScanTime Chrono.null) c)
          end in
        let lastFileObj := Json.toObject (Json.value dirObj "lastFile") in
        let '(modified, c) :=
          if Json.isEmptyObject lastFileObj then (modified, c)
          else
            let lastFileName := Json.toString (Json.value lastFileObj "filename") in
            let c := updateDir index (SyncthingDir.set_lastFileName lastFileName) c in
            if isEmpty lastFileName then (true, c)
            else
              let lastFileDeleted := Json.toBool (Json.value lastFileObj "deleted") false in
              let c := updateDir index (SyncthingDir.set_lastFileDeleted lastFileDeleted) c in
              match fromIsoStringLocal (Json.toString (Json.value lastFileObj "at")) with
              | Some lastFileTime =>
                  let c := updateDir index (SyncthingDir.set_lastFileTime lastFileTime) c in
                  if Conn.m_lastFileTime c <? lastFileTime then
                    (true,
                     Conn.set_m_lastFileDeleted lastFileDeleted
                       (Conn.set_m_lastFileName lastFileName
                          (Conn.set_m_lastFileTime lastFileTime c)))
                  else (true, c)
              | None => (true, updateDir index (SyncthingDir.set_lastFileTime Chrono.null) c)
              end in
        if modified then emit (Signal.dirStatusChanged index) c else c
  end.

Definition readDirStatistics (reply : Reply) (c : Conn.t) : Conn.t :=
  match replyError reply with
  | NoError =>
      match fromJson reply with
      | inr replyDoc =>
          forEachIndex (length (Conn.m_dirs c)) (readDirStatistic (docObject replyDoc)) c
      | inl jsonError =>
          emit (Signal.error ("Unable to parse directory statistics: " +:+ jsonError) Parsing) c
      end
  | OperationCanceledError => c
  | _ =>
      emit (Signal.error ("Unable to request directory statistics: " +:+ errorString reply)
              OverallConnection) c
  end.

Definition readDeviceStatistic (replyObj : QJsonObject) (index : nat) (c : Conn.t) : Conn.t :=
  match Conn.m_devs c !! index with
  | None => c
  | Some devInfo =>
      let devObj := Json.toObject (Json.value replyObj (SyncthingDev.id devInfo)) in
      if Json.isEmptyObject devObj then c
      else
        match fromIsoStringLocal (Json.toString (Json.value devObj "lastSeen")) with
        | Some t =>
            emit (Signal.devStatusChanged index) (updateDev index (SyncthingDev.set_lastSeen t) c)
        | None => updateDev index (SyncthingDev.set_lastSeen Chrono.null) c
        end
  end.

Definition readDeviceStatistics (reply : Reply) (c : Conn.t) : Conn.t :=
  match replyError reply with
  | NoError =>
      match fromJson reply with
      | inr replyDoc =>
          let c :=
            forEachIndex (length (Conn.m_devs c)) (readDeviceStatistic (docObject replyDoc)) c in
          if Conn.m_keepPolling c then
            emit (Signal.singleShot (Conn.m_devStatsPollInterval c) requestDeviceStatisticsSlot) c
          else c
      | inl jsonError =>
          emit (Signal.error ("Unable to parse device statistics: " +:+ jsonError) Parsing) c
      end
  | OperationCanceledError => c
  | _ =>
      emit (Signal.error ("Unable to request device statistics: " +:+ errorString reply)
              OverallConnection) c
  end.

Definition readError (c : Conn.t) (errorVal : QJsonValue) : Conn.t :=
  let errorObj := Json.toObject errorVal in
  if Json.isEmptyObject errorObj then c
  else
    match fromIsoStringLocal (Json.toString (Json.value errorObj "when")) with
    | Some when =>
        if Conn.m_lastErrorTime c <? when then
          emitNotification when (Json.toString (Json.value errorObj "message"))
            (Conn.set_m_lastErrorTime when c)
        else c
    | None => c
    end.

(** [readErrors]; [now] is what [DateTime::now()] returns. *)
Definition readErrors (now : DateTime) (reply : Reply) (c : Conn.t) : Conn.t :=
  let c := if isReply (Conn.m_errorsReply c) reply then Conn.set_m_errorsReply None c else c in
  let c :=
    if Chrono.isNull (Conn.m_lastErrorTime c) then Conn.set_m_lastErrorTime now c else c in
  match replyError reply with
  | NoError =>
      let c :=
        match fromJson reply with
        | inr replyDoc =>
            fold_left readError (Json.toArray (Json.value (docObject replyDoc) "errors")) c
        | inl jsonError =>
            emit (Signal.error ("Unable to parse errors: " +:+ jsonError) Parsing) c
        end in
      if Conn.m_keepPolling c then emit (Signal.singleShot 30000 requestErrorsSlot) c else c
  | OperationCanceledError => c
  | _ =>
      emit (Signal.error ("Unable to request errors: " +:+ errorString reply) OverallConnection) c
  end.

(** *** The handlers of the events *)

Definition readStartingEvent (eventData : QJsonObject) (c : Conn.t) : Conn.t :=
  let strValue := Json.toString (Json.value eventData "home") in
  let c :=
    if String.eqb strValue (Conn.m_configDir c) then c
    else emit (Signal.configDirChanged strValue) (Conn.set_m_configDir strValue c) in
  let strValue := Json.toString (Json.value eventData "myID") in
  if String.eqb strValue (Conn.m_myId c) then c
  else emit (Signal.configDirChanged strValue) (Conn.set_m_myId strValue c).

(** Calls a member function of the directory in row [index] that reports a
    boolean. *)
Definition callOnDir (index : nat) (f : SyncthingDir.t -> bool * SyncthingDir.t) (c : Conn.t)
  : bool * Conn.t :=
  match Conn.m_dirs c !! index with
  | Some dirInfo =>
      let '(changed, dirInfo) := f dirInfo in
      (changed, Conn.set_m_dirs (<[index := dirInfo]> (Conn.m_dirs c)) c)
  | None => (false, c)
  end.

(** [readStatusChangedEvent].  For a directory not yet known the source
    appends a record with [m_dirs.emplace_back(dir)]; when that makes the
    vector take a new buffer, the pointers held in [m_syncedDirs] and
    [m_completedDirs] dangle, as after [readDirs]. *)
Definition readStatusChangedEvent (eventTime : DateTime) (eventData : QJsonObject) (c : Conn.t)
  : Conn.t :=
  let dir := Json.toString (Json.value eventData "folder") in
  if isEmpty dir then c
  else
    let to := Json.toString (Json.value eventData "to") in
    match findDirInfo dir (Conn.m_dirs c) with
    | Some index =>
        let '(changed, c) := callOnDir index (assignStatusString to eventTime) c in
        if changed then emit (Signal.dirStatusChanged index) c else c
    | None =>
        let c :=
          Conn.set_m_dirs
            (Conn.m_dirs c ++ [snd (assignStatusString to eventTime (newSyncthingDir dir))]) c in
        requestConfig c
    end.

(** The body of the inner loop of [readDownloadProgressEvent]: one file of
    the payload. *)
Definition addDownloadingItem (dirInfo : SyncthingDir.t) (filePair : string * QJsonValue)
  : SyncthingDir.t :=
  let itemProgress :=
    newItemDownloadProgress (SyncthingDir.path dirInfo) (fst filePair)
      (Json.toObject (snd filePair)) in
  let dirInfo :=
    SyncthingDir.set_downloadingItems
      (SyncthingDir.downloadingItems dirInfo ++ [itemProgress]) dirInfo in
  let dirInfo :=
    SyncthingDir.set_blocksAlreadyDownloaded
      (wrap_int32 (SyncthingDir.blocksAlreadyDownloaded dirInfo
                   + SyncthingItemDownloadProgress.blocksAlreadyDownloaded itemProgress)) dirInfo in
  SyncthingDir.set_blocksToBeDownloaded
    (wrap_int32 (SyncthingDir.blocksToBeDownloaded dirInfo
                 + SyncthingItemDownloadProgress.totalNumberOfBlocks itemProgress)) dirInfo.

(** The percentage of the blocks downloaded, computed on [unsigned int]. *)
Definition computeDownloadPercentage (blocksAlreadyDownloaded blocksToBeDownloaded : Z) : Z :=
  if (0 <? blocksAlreadyDownloaded) && (0 <? blocksToBeDownloaded) then
    wrap_uint32 (wrap_uint32 blocksAlreadyDownloaded * 100) / wrap_uint32 blocksToBeDownloaded
  else 0.

Definition blocksToBytes (blocks : Z) : Z :=
  if 0 <? blocks then wrap_uint64 (wrap_uint64 blocks * syncthingBlockSize) else 0.

(** The body of the outer loop of [readDownloadProgressEvent]: one
    directory. *)
Definition readDownloadProgress (eventData : QJsonObject) (dirInfo : SyncthingDir.t)
  : SyncthingDir.t :=
  let dirInfo := SyncthingDir.set_downloadingItems [] dirInfo in
  let dirInfo :=
    SyncthingDir.set_blocksAlreadyDownloaded 0 (SyncthingDir.set_blocksToBeDownloaded 0 dirInfo) in
  let dirObj := Json.toObject (Json.value eventData (SyncthingDir.id dirInfo)) in
  let dirInfo :=
    if Json.isEmptyObject dirObj then dirInfo else fold_left addDownloadingItem dirObj dirInfo in
  let dirInfo :=
    SyncthingDir.set_downloadPercentage
      (computeDownloadPercentage (SyncthingDir.blocksAlreadyDownloaded dirInfo)
         (SyncthingDir.blocksToBeDownloaded dirInfo)) dirInfo in
  SyncthingDir.set_downloadLabel
    (dataSizeToString (blocksToBytes (SyncthingDir.blocksAlreadyDownloaded dirInfo))
     +:+ " / "
     +:+ dataSizeToString (blocksToBytes (SyncthingDir.blocksToBeDownloaded dirInfo))
     +:+ " - " +:+ number (SyncthingDir.downloadPercentage dirInfo) +:+ " %") dirInfo.

Definition readDownloadProgressEvent (eventTime : DateTime) (eventData : QJsonObject)
    (c : Conn.t) : Conn.t :=
  let c :=
    forEachIndex (length (Conn.m_dirs c))
      (fun index c => updateDir index (readDownloadProgress eventData) c) c in
  emit Signal.downloadProgressChanged c.

(** One error of a [FolderErrors] event. *)
Definition readFolderError (eventTime : DateTime) (index : nat) (c : Conn.t)
    (errorVal : QJsonValue) : Conn.t :=
  let error := Json.toObject errorVal in
  if Json.isEmptyObject error then c
  else
    match Conn.m_dirs c !! index with
    | None => c
    | Some dirInfo =>
        let dirError :=
          SyncthingDirError.mk (Json.toString (Json.value error "error"))
            (Json.toString (Json.value error "path")) in
        if bool_decide (dirError ∈ SyncthingDir.errors dirInfo) then c
        else
          let c :=
            updateDir index
              (fun d => SyncthingDir.set_errors (SyncthingDir.errors d ++ [dirError]) d) c in
          let c := snd (callOnDir index (assignStatus SyncthingDirStatus.OutOfSync eventTime) c) in
          match Conn.m_dirs c !! index with
          | None => c
          | Some dirInfo =>
              match last (SyncthingDir.errors dirInfo) with
              | Some back =>
                  if bool_decide (back ∈ SyncthingDir.previousErrors dirInfo) then c
                  else emitNotification eventTime (SyncthingDirError.message back) c
              | None => c
              end
          end
    end.

Definition readDirEvent (eventTime : DateTime) (eventType : string) (eventData : QJsonObject)
    (c : Conn.t) : Conn.t :=
  let dir := Json.toString (Json.value eventData "folder") in
  if isEmpty dir then c
  else
    match findDirInfo dir (Conn.m_dirs c) with
    | None => c
    | Some index =>
        if String.eqb eventType "FolderErrors" then
          let errors := Json.toArray (Json.value eventData "errors") in
          match errors with
          | [] => c
          | _ =>
              let c := fold_left (readFolderError eventTime index) errors c in
              emit (Signal.dirStatusChanged index) c
          end
        else if String.eqb eventType "FolderSummary" then
          let summary := Json.toObject (Json.value eventData "summary") in
          if Json.isEmptyObject summary then c
          else
            let int (key : string) : Z := Json.toInt (Json.value summary key) 0 in
            let assign (d : SyncthingDir.t) : SyncthingDir.t :=
              SyncthingDir.set_neededFiles (int "needFiles")
                (SyncthingDir.set_neededByted (int "needByted")
                  (SyncthingDir.set_localFiles (int "localFiles")
                    (SyncthingDir.set_localDeleted (int "localDeleted")
                      (SyncthingDir.set_localBytes (int "localBytes")
                        (SyncthingDir.set_globalFiles (int "globalFiles")
                          (SyncthingDir.set_globalDeleted (int "globalDeleted")
                            (SyncthingDir.set_globalBytes (int "globalBytes") d))))))) in
            emit (Signal.dirStatusChanged index) (updateDir index assign c)
        else if String.eqb eventType "FolderCompletion" then
          let percentage := Json.toInt (Json.value eventData "completion") 0 in
          let assign (d : SyncthingDir.t) : SyncthingDir.t :=
            if (0 <? percentage) && (percentage <? 100)
               && ((SyncthingDir.progressPercentage d <=? 0)
                   || (percentage <? SyncthingDir.progressPercentage d))
            then SyncthingDir.set_progressPercentage percentage d
            else d in
          updateDir index assign c
        else if String.eqb eventType "FolderScanProgress" then
          let current := Json.toInt (Json.value eventData "current") 0 in
          let total := Json.toInt (Json.value eventData "total") 0 in
          let rate := Json.toInt (Json.value eventData "rate") 0 in
          if (0 <? current) && (0 <? total) then
            let c :=
              updateDir index
                (fun d =>
                   SyncthingDir.set_progressRate rate
                     (SyncthingDir.set_progressPercentage
                        (Z.quot (wrap_int32 (current * 100)) total) d)) c in
            let c := snd (callOnDir index (assignStatus SyncthingDirStatus.Scanning eventTime) c) in
            emit (Signal.dirStatusChanged index) c
          else c
        else c
    end.

(** The status and the paused flag a device event asks for; [None] for the
    event types the handler leaves alone. *)
Definition deviceEventTarget (eventType : string) (status : SyncthingDevStatus.t)
    (paused : bool) : option (SyncthingDevStatus.t * bool) :=
  if String.eqb eventType "DeviceConnected" then Some (SyncthingDevStatus.Idle, paused)
  else if String.eqb eventType "DeviceDisconnected" then
    Some (SyncthingDevStatus.Disconnected, paused)
  else if String.eqb eventType "DevicePaused" then Some (status, true)
  else if String.eqb eventType "DeviceRejected" then Some (SyncthingDevStatus.Rejected, paused)
  else if String.eqb eventType "DeviceResumed" then Some (SyncthingDevStatus.Disconnected, false)
  else if String.eqb eventType "DeviceDiscovered" then
    Some (if SyncthingDevStatus.eqb status SyncthingDevStatus.Unknown
          then SyncthingDevStatus.Disconnected else status, paused)
  else None.

Definition readDeviceEvent (eventTime : DateTime) (eventType : string) (eventData : QJsonObject)
    (c : Conn.t) : Conn.t :=
  if Chrono.isNull eventTime && Chrono.isNull (Conn.m_lastConnectionsUpdate c)
     && (eventTime <? Conn.m_lastConnectionsUpdate c)
  then c
  else
    let dev := Json.toString (Json.value eventData "device") in
    if isEmpty dev then c
    else
      match findDevInfo dev (Conn.m_devs c) with
      | None => c
      | Some index =>
          match Conn.m_devs c !! index with
          | None => c
          | Some devInfo =>
              match deviceEventTarget eventType (SyncthingDev.status devInfo)
                      (SyncthingDev.paused devInfo) with
              | None => c
              | Some (status, paused) =>
                  if negb (SyncthingDevStatus.eqb (SyncthingDev.status devInfo) status)
                     || negb (Bool.eqb (SyncthingDev.paused devInfo) paused)
                  then
                    let assign (d : SyncthingDev.t) : SyncthingDev.t :=
                      let d :=
                        if negb (SyncthingDevStatus.eqb (SyncthingDev.status d)
                                   SyncthingDevStatus.OwnDevice)
                        then SyncthingDev.set_status status d else d in
                      SyncthingDev.set_paused paused d in
                    emit (Signal.devStatusChanged index) (updateDev index assign c)
                  else c
              end
          end
      end.

Definition readItemStarted (eventTime : DateTime) (eventData : QJsonObject) (c : Conn.t)
  : Conn.t := c.

Definition readItemFinished (eventTime : DateTime) (eventData : QJsonObject) (c : Conn.t)
  : Conn.t :=
  let dir := Json.toString (Json.value eventData "folder") in
  if isEmpty dir then c
  else
    match findDirInfo dir (Conn.m_dirs c) with
    | None => c
    | Some index =>
        match Conn.m_dirs c !! index with
        | None => c
        | Some dirInfo =>
            let error := Json.toString (Json.value eventData "error") in
            let item := Json.toString (Json.value eventData "item") in
            if isEmpty error then
              if Chrono.isNull (SyncthingDir.lastFileTime dirInfo)
                 || (eventTime <? SyncthingDir.lastFileTime dirInfo)
              then
                let lastFileDeleted := Json.neqLatin1 (Json.value eventData "action") "delete" in
                let c :=
                  updateDir index
                    (fun d =>
                       SyncthingDir.set_lastFileDeleted lastFileDeleted
                         (SyncthingDir.set_lastFileName item
                            (SyncthingDir.set_lastFileTime eventTime d))) c in
                let c :=
                  if Conn.m_lastFileTime c <? eventTime then
                    Conn.set_m_lastFileDeleted lastFileDeleted
                      (Conn.set_m_lastFileName item (Conn.set_m_lastFileTime eventTime c))
                  else c in
                emit (Signal.dirStatusChanged index) c
              else c
            else if SyncthingDirStatus.eqb (SyncthingDir.status dirInfo)
                      SyncthingDirStatus.OutOfSync
            then
              let c :=
                updateDir index
                  (fun d =>
                     SyncthingDir.set_status SyncthingDirStatus.OutOfSync
                       (SyncthingDir.set_errors
                          (SyncthingDir.errors d ++ [SyncthingDirError.mk error item]) d)) c in
              let c := emit (Signal.dirStatusChanged index) c in
              emitNotification eventTime error c
            else c
        end
    end.

(** *** Reading the events *)

(** One turn of the loop of [readEvents]. *)
Definition readEvent (c : Conn.t) (eventVal : QJsonValue) : Conn.t :=
  let event := Json.toObject eventVal in
  let c :=
    Conn.set_m_lastEventId (Json.toInt (Json.value event "id") (Conn.m_lastEventId c)) c in
  let eventTime :=
    match fromIsoStringGmt (Json.toString (Json.value event "time")) with
    | Some t => t
    | None => Chrono.null
    end in
  let eventType := Json.toString (Json.value event "type") in
  let eventData := Json.toObject (Json.value event "data") in
  if String.eqb eventType "Starting" then readStartingEvent eventData c
  else if String.eqb eventType "StateChanged" then readStatusChangedEvent eventTime eventData c
  else if String.eqb eventType "DownloadProgress" then
    readDownloadProgressEvent eventTime eventData c
  else if String.prefix "Folder" eventType then readDirEvent eventTime eventType eventData c
  else if String.prefix "Device" eventType then readDeviceEvent eventTime eventType eventData c
  else if String.eqb eventType "ItemStarted" then readItemStarted eventTime eventData c
  else if String.eqb eventType "ItemFinished" then readItemFinished eventTime eventData c
  else if String.eqb eventType "ConfigSaved" then requestConfig c
  else c.

(** What [readEvents] does after the [switch]. *)
Definition keepPollingEvents (c : Conn.t) : Conn.t :=
  if Conn.m_keepPolling c then setStatus SyncthingStatus.Idle (requestEvents c)
  else setStatus SyncthingStatus.Disconnected c.

Definition readEvents (reply : Reply) (c : Conn.t) : Conn.t :=
  let c := if isReply (Conn.m_eventsReply c) reply then Conn.set_m_eventsReply None c else c in
  match replyError reply with
  | NoError =>
      match fromJson reply with
      | inr replyDoc =>
          let replyArray := docArray replyDoc in
          let c := emit (Signal.newEvents replyArray) c in
          let c := fold_left readEvent replyArray c in
          keepPollingEvents c
      | inl jsonError =>
          let c :=
            emit (Signal.error ("Unable to parse Syncthing events: " +:+ jsonError) Parsing) c in
          let c := setStatus SyncthingStatus.Disconnected c in
          armAutoReconnect c
      end
  | TimeoutError => keepPollingEvents c
  | OperationCanceledError =>
      if Conn.m_reconnecting c then continueReconnecting c
      else setStatus SyncthingStatus.Disconnected c
  | OtherNetworkError =>
      let c :=
        emit (Signal.error ("Unable to request Syncthing events: " +:+ errorString reply)
                OverallConnection) c in
      let c := setStatus SyncthingStatus.Disconnected c in
      armAutoReconnect c
  end.

(** *** Disconnecting *)

(** [reply->abort()] finishes a pending reply at once with
    [OperationCanceledError], which runs the slot connected to it. *)
Definition abortReply (stored : option ReplyId) (slot : Reply -> Conn.t -> Conn.t)
    (c : Conn.t) : Conn.t :=
  match stored with
  | Some r => slot (canceled r) c
  | None => c
  end.

(** [abortAllRequests]; [now] is the time [readErrors] would read. *)
Definition abortAllRequests (now : DateTime) (c : Conn.t) : Conn.t :=
  let c := abortReply (Conn.m_configReply c) readConfig c in
  let c := abortReply (Conn.m_statusReply c) readStatus c in
  let c := abortReply (Conn.m_connectionsReply c) (readConnections now now) c in
  let c := abortReply (Conn.m_errorsReply c) (readErrors now) c in
  abortReply (Conn.m_eventsReply c) readEvents c.

Definition disconnect (now : DateTime) (c : Conn.t) : Conn.t :=
  let c :=
    Conn.set_m_reconnecting false (Conn.set_m_hasConfig false (Conn.set_m_hasStatus false c)) in
  let c := Conn.set_m_autoReconnectTries 0 c in
  abortAllRequests now c.

Definition reconnect (now : DateTime) (c : Conn.t) : Conn.t :=
  let c := Conn.set_m_autoReconnectTimerActive false c in
  let c := Conn.set_m_autoReconnectTries 0 c in
  if isConnected c then
    let c := Conn.set_m_reconnecting true c in
    let c := Conn.set_m_hasConfig false (Conn.set_m_hasStatus false c) in
    abortAllRequests now c
  else continueReconnecting c.

(** The destructor: from then on [setStatus] changes nothing. *)
Definition destroy (now : DateTime) (c : Conn.t) : Conn.t :=
  disconnect now (Conn.set_m_status SyncthingStatus.BeingDestroyed c).

(** ** Facts about the primitives *)

Lemma findDirInfo_lookup (dirId : string) (dirs : list SyncthingDir.t) (row : nat) :
  findDirInfo dirId dirs = Some row ->
  exists d, dirs !! row = Some d /\ SyncthingDir.id d = dirId.
Proof.
  revert row. induction dirs as [|d rest IH]; intros row H; simpl in H; [discriminate|].
  destruct (String.eqb (SyncthingDir.id d) dirId) eqn:E.
  - injection H as <-. exists d. split; [reflexivity|]. by apply String.eqb_eq.
  - destruct (findDirInfo dirId rest) as [r|]; simpl in H; [|discriminate].
    injection H as <-. destruct (IH r eq_refl) as (d' & Hd & Hid). by exists d'.
Qed.

Lemma findDevInfo_lookup (devId : string) (devs : list SyncthingDev.t) (row : nat) :
  findDevInfo devId devs = Some row ->
  exists d, devs !! row = Some d /\ SyncthingDev.id d = devId.
Proof.
  revert row. induction devs as [|d rest IH]; intros row H; simpl in H; [discriminate|].
  destruct (String.eqb (SyncthingDev.id d) devId) eqn:E.
  - injection H as <-. exists d. split; [reflexivity|]. by apply String.eqb_eq.
  - destruct (findDevInfo devId rest) as [r|]; simpl in H; [|discriminate].
    injection H as <-. destruct (IH r eq_refl) as (d' & Hd & Hid). by exists d'.
Qed.

(** ** The overall status is a function of the entities *)

Definition anyDirHasStatus (s : SyncthingDirStatus.t) (dirs : list SyncthingDir.t) : bool :=
  existsb (fun d => SyncthingDirStatus.eqb (SyncthingDir.status d) s) dirs.

(** The precedence rule in the words of the specification: Synchronizing
    before Scanning before Paused before Idle. *)
Definition aggregateStatus (dirs : list SyncthingDir.t) (devs : list SyncthingDev.t)
  : SyncthingStatus.t :=
  if anyDirHasStatus SyncthingDirStatus.Synchronizing dirs then SyncthingStatus.Synchronizing
  else if anyDirHasStatus SyncthingDirStatus.Scanning dirs then SyncthingStatus.Scanning
  else if existsb SyncthingDev.paused devs then SyncthingStatus.Paused
  else SyncthingStatus.Idle.

(** Whether a call of [setStatus] reaches the branch that derives the
    status from the entities. *)
Definition recomputes (requested : SyncthingStatus.t) (c : Conn.t) : bool :=
  negb (SyncthingStatus.eqb (Conn.m_status c) SyncthingStatus.BeingDestroyed)
  && negb (SyncthingStatus.eqb requested SyncthingStatus.Disconnected)
  && negb (SyncthingStatus.eqb requested SyncthingStatus.Reconnecting).

Lemma checkDirs_flags (dirs : list SyncthingDir.t) (row : nat) (scanning synchronizing : bool)
    (syncedDirs : list nat) :
  (checkDirs dirs row scanning synchronizing syncedDirs).1.1
    = scanning
      || (anyDirHasStatus SyncthingDirStatus.Scanning dirs)
  /\ (checkDirs dirs row scanning synchronizing syncedDirs).1.2
    = synchronizing || anyDirHasStatus SyncthingDirStatus.Synchronizing dirs.
Proof.
  revert row scanning synchronizing syncedDirs.
  induction dirs as [|d rest IH]; intros row sc sy sd; simpl.
  - by rewrite !orb_false_r.
  -     destruct (SyncthingDir.status d); simpl;
      destruct (IH (S row) sc sy sd) as [H1 H2];
      try (rewrite H1, H2; done).
    + destruct (IH (S row) true sy sd) as [H3 H4]. rewrite H3, H4.
      by rewrite orb_true_r.
    + match goal with |- context [checkDirs rest (S row) sc true ?l] =>
        destruct (IH (S row) sc true l) as [H3 H4] end.
      rewrite H3, H4. by rewrite orb_true_r.
Qed.

Lemma anyDevPaused_existsb (devs : list SyncthingDev.t) :
  anyDevPaused devs = existsb SyncthingDev.paused devs.
Proof.
  induction devs as [|d rest IH]; simpl; [done|].
  rewrite IH. by destruct (SyncthingDev.paused d).
Qed.

Lemma setStatus_entities (status : SyncthingStatus.t) (c : Conn.t) :
  Conn.m_dirs (setStatus status c) = Conn.m_dirs c
  /\ Conn.m_devs (setStatus status c) = Conn.m_devs c.
Proof.
  unfold setStatus.
  destruct (SyncthingStatus.eqb (Conn.m_status c) _); [done|].
  destruct status; simpl;
    repeat match goal with
      | |- context [checkDirs ?a ?b ?c ?d ?e] => destruct (checkDirs a b c d e) as [[? ?] ?]
      | |- context [if ?b then _ else _] => destruct b; simpl
      end; done.
Qed.

Lemma setStatus_recomputed (requested : SyncthingStatus.t) (c : Conn.t) :
  recomputes requested c = true ->
  Conn.m_status (setStatus requested c) = aggregateStatus (Conn.m_dirs c) (Conn.m_devs c).
Proof.
  unfold recomputes, setStatus, aggregateStatus. intros H.
  apply andb_true_iff in H as [H H3]. apply andb_true_iff in H as [H1 H2].
  apply negb_true_iff in H1. rewrite H1. clear H1.
  pose proof (checkDirs_flags (Conn.m_dirs c) 0 false false (Conn.m_syncedDirs c)) as [Hsc Hsy].
  rewrite <- anyDevPaused_existsb.
  rewrite !orb_false_l in Hsc, Hsy.
  destruct requested; try discriminate; cbn beta iota;
    destruct (checkDirs _ _ _ _ _) as [[sc sy] sd]; cbn [fst snd] in Hsc, Hsy;
    rewrite <- Hsc, <- Hsy;
    destruct sy, sc; cbn; destruct (anyDevPaused (Conn.m_devs c)); cbn;
    match goal with |- context [if SyncthingStatus.eqb ?a ?b then _ else _] =>
      destruct (SyncthingStatus.eqb a b) eqn:E; [|reflexivity] end;
    apply SyncthingStatus.status_eqb_eq in E; exact E.
Qed.





Lemma setStatus_being_destroyed (requested : SyncthingStatus.t) (c : Conn.t) :
  Conn.m_status c = SyncthingStatus.BeingDestroyed -> setStatus requested c = c.
Proof. intros H. unfold setStatus. by rewrite H. Qed.

Lemma recomputes_true (requested : SyncthingStatus.t) (c : Conn.t) :
  Conn.m_status c <> SyncthingStatus.BeingDestroyed ->
  requested <> SyncthingStatus.Disconnected ->
  requested <> SyncthingStatus.Reconnecting ->
  recomputes requested c = true.
Proof.
  intros H1 H2 H3. unfold recomputes.
  apply SyncthingStatus.status_eqb_neq in H1, H2, H3. by rewrite H1, H2, H3.
Qed.

Lemma anyDirHasStatus_true (s : SyncthingDirStatus.t) (dirs : list SyncthingDir.t) :
  anyDirHasStatus s dirs = true <-> exists d, d ∈ dirs /\ SyncthingDir.status d = s.
Proof.
  unfold anyDirHasStatus. rewrite existsb_exists. split.
  - intros (d & Hin & Hs). exists d. split; [by apply list_elem_of_In|].
    by apply SyncthingDirStatus.dirStatus_eqb_eq.
  - intros (d & Hin & Hs). exists d. split; [by apply list_elem_of_In|].
    by apply SyncthingDirStatus.dirStatus_eqb_eq.
Qed.

Lemma anyPaused_true (devs : list SyncthingDev.t) :
  existsb SyncthingDev.paused devs = true
  <-> exists dev, dev ∈ devs /\ SyncthingDev.paused dev = true.
Proof.
  rewrite existsb_exists. split; intros (d & Hin & Hp); exists d; split; auto;
    by apply list_elem_of_In.
Qed.

(** C1.  Whenever [setStatus] derives the overall status (the connection is
    not being destroyed and the requested status is neither Disconnected
    nor Reconnecting), the result is Synchronizing iff a directory is
    synchronizing, Scanning iff none is synchronizing and one is scanning,
    Paused iff none is scanning or synchronizing and a device is paused,
    and Idle in the remaining case. *)
Theorem setStatus_derives_overall_status (requested : SyncthingStatus.t) (c : Conn.t) :
  Conn.m_status c <> SyncthingStatus.BeingDestroyed ->
  requested <> SyncthingStatus.Disconnected ->
  requested <> SyncthingStatus.Reconnecting ->
  let c' := setStatus requested c in
  let some (s : SyncthingDirStatus.t) : Prop :=
    exists d, d ∈ Conn.m_dirs c' /\ SyncthingDir.status d = s in
  let paused : Prop :=
    exists dev, dev ∈ Conn.m_devs c' /\ SyncthingDev.paused dev = true in
  (Conn.m_status c' = SyncthingStatus.Synchronizing
     <-> some SyncthingDirStatus.Synchronizing)
  /\ (Conn.m_status c' = SyncthingStatus.Scanning
     <-> ~ some SyncthingDirStatus.Synchronizing /\ some SyncthingDirStatus.Scanning)
  /\ (Conn.m_status c' = SyncthingStatus.Paused
     <-> ~ some SyncthingDirStatus.Synchronizing /\ ~ some SyncthingDirStatus.Scanning
         /\ paused)
  /\ (Conn.m_status c' = SyncthingStatus.Idle
     <-> ~ some SyncthingDirStatus.Synchronizing /\ ~ some SyncthingDirStatus.Scanning
         /\ ~ paused).
Proof.
  intros H1 H2 H3 c' some paused. subst some paused c'.
  destruct (setStatus_entities requested c) as [-> ->].
  rewrite (setStatus_recomputed requested c (recomputes_true _ _ H1 H2 H3)).
  unfold aggregateStatus.
  rewrite <- !anyDirHasStatus_true, <- anyPaused_true.
  destruct (anyDirHasStatus SyncthingDirStatus.Synchronizing _),
    (anyDirHasStatus SyncthingDirStatus.Scanning _),
    (existsb SyncthingDev.paused _);
    (split; [|split; [|split]]); split;
    try discriminate; try reflexivity;
    try (intros [_ [H _]]; exfalso; first [discriminate H | by apply H]);
    try (intros [H _]; exfalso; first [discriminate H | by apply H]);
    try (intros [_ H]; exfalso; first [discriminate H | by apply H]);
    try (intros [_ [_ H]]; exfalso; first [discriminate H | by apply H]);
    try done.
Qed.

(** ** What [setStatus] touches *)

(** The members [setStatus] may assign, all at once. *)
Definition setStatusFootprint (status : SyncthingStatus.t) (synced completed : list nat)
    (tries : Z) (signals : list Signal.t) (c : Conn.t) : Conn.t :=
  Conn.set_emitted signals
    (Conn.set_m_autoReconnectTries tries
       (Conn.set_m_completedDirs completed
          (Conn.set_m_syncedDirs synced (Conn.set_m_status status c)))).

Ltac setStatus_cases :=
  repeat match goal with
    | |- context [checkDirs ?a ?b ?c ?d ?e] =>
        destruct (checkDirs a b c d e) as [[[] []] ?]; cbn
    | |- context [if anyDevPaused ?d then _ else _] => destruct (anyDevPaused d); cbn
    | |- context [if SyncthingStatus.eqb ?a ?b then _ else _] =>
        destruct (SyncthingStatus.eqb a b) eqn:?; cbn
    end.

Lemma setStatus_footprint (status : SyncthingStatus.t) (c : Conn.t) :
  let c' := setStatus status c in
  c' = setStatusFootprint (Conn.m_status c') (Conn.m_syncedDirs c') (Conn.m_completedDirs c')
         (Conn.m_autoReconnectTries c') (Conn.emitted c') c.
Proof.
  destruct c. unfold setStatus, setStatusFootprint.
  cbn [Conn.m_status Conn.m_dirs Conn.m_devs Conn.m_syncedDirs Conn.emitted].
  destruct (SyncthingStatus.eqb m_status SyncthingStatus.BeingDestroyed); [reflexivity|].
  destruct status; cbn; setStatus_cases; reflexivity.
Qed.

Lemma setStatus_emitted (status : SyncthingStatus.t) (c : Conn.t) :
  let c' := setStatus status c in
  Conn.emitted c' = Conn.emitted c
  \/ Conn.emitted c' = Conn.emitted c ++ [Signal.statusChanged (Conn.m_status c')].
Proof.
  unfold setStatus.
  destruct (SyncthingStatus.eqb (Conn.m_status c) SyncthingStatus.BeingDestroyed);
    [by left|].
  destruct status; cbn; setStatus_cases; first [by left | by right].
Qed.

(** The error notifications among the signals emitted so far. *)
Definition errorsEmitted (c : Conn.t) : list Signal.t :=
  List.filter Signal.isError (Conn.emitted c).

Definition requestsIssued (c : Conn.t) : list Signal.t :=
  List.filter Signal.isRequest (Conn.emitted c).

(** A step that raises no error notification and leaves both readiness
    flags as they are. *)
Definition silent (c c' : Conn.t) : Prop :=
  errorsEmitted c' = errorsEmitted c
  /\ Conn.m_hasConfig c' = Conn.m_hasConfig c
  /\ Conn.m_hasStatus c' = Conn.m_hasStatus c.

Lemma errorsEmitted_emit (s : Signal.t) (c : Conn.t) :
  errorsEmitted (emit s c)
  = errorsEmitted c ++ (if Signal.isError s then [s] else []).
Proof.
  unfold errorsEmitted, emit. cbn. rewrite List.filter_app. cbn.
  by destruct (Signal.isError s).
Qed.

Lemma setStatus_errorsEmitted (status : SyncthingStatus.t) (c : Conn.t) :
  errorsEmitted (setStatus status c) = errorsEmitted c.
Proof.
  unfold errorsEmitted.
  destruct (setStatus_emitted status c) as [-> | ->]; [done|].
  rewrite List.filter_app. cbn. by rewrite app_nil_r.
Qed.

Lemma setStatus_silent (status : SyncthingStatus.t) (c : Conn.t) :
  silent c (setStatus status c).
Proof.
  split; [apply setStatus_errorsEmitted|].
  by rewrite (setStatus_footprint status c).
Qed.

(** C6.  [connect()] on a connection that is not connected and lacks the
    URL or the API key emits one signal, the error of category
    OverallConnection; it leaves the status (Disconnected stays
    Disconnected) and the keep-polling flag as they were and starts no
    request. *)
Theorem connect_insufficient_configuration (c : Conn.t) :
  isConnected c = false ->
  isEmpty (Conn.m_apiKey c) = true \/ isEmpty (Conn.m_syncthingUrl c) = true ->
  let c' := connect c in
  Conn.emitted c'
    = Conn.emitted c
      ++ [Signal.error "Connection configuration is insufficient." OverallConnection]
  /\ Conn.m_status c' = Conn.m_status c
  /\ (Conn.m_status c = SyncthingStatus.Disconnected
      -> Conn.m_status c' = SyncthingStatus.Disconnected)
  /\ requestsIssued c' = requestsIssued c
  /\ Conn.nextReply c' = Conn.nextReply c
  /\ Conn.m_configReply c' = Conn.m_configReply c
  /\ Conn.m_statusReply c' = Conn.m_statusReply c
  /\ Conn.m_keepPolling c' = Conn.m_keepPolling c.
Proof.
  intros Hconn Hempty c'. subst c'. unfold connect.
  replace (isConnected _) with (isConnected c) by reflexivity.
  rewrite Hconn. cbn [negb].
  replace (isEmpty (Conn.m_apiKey _)) with (isEmpty (Conn.m_apiKey c)) by reflexivity.
  replace (isEmpty (Conn.m_syncthingUrl _)) with (isEmpty (Conn.m_syncthingUrl c))
    by reflexivity.
  assert (isEmpty (Conn.m_apiKey c) || isEmpty (Conn.m_syncthingUrl c) = true) as ->.
  { destruct Hempty as [-> | ->]; [done|]. by rewrite orb_true_r. }
  unfold requestsIssued. cbn. rewrite List.filter_app. cbn. rewrite app_nil_r.
  repeat split. done.
Qed.


(** ** Canceled requests *)

Lemma setStatus_credentials (status : SyncthingStatus.t) (c : Conn.t) :
  Conn.m_apiKey (setStatus status c) = Conn.m_apiKey c
  /\ Conn.m_syncthingUrl (setStatus status c) = Conn.m_syncthingUrl c.
Proof. by rewrite (setStatus_footprint status c). Qed.

Lemma continueReconnecting_restarts (c : Conn.t) :
  let c' := continueReconnecting c in
  Conn.m_hasConfig c' = false
  /\ Conn.m_hasStatus c' = false
  /\ errorsEmitted c'
     = errorsEmitted c
       ++ (if isEmpty (Conn.m_apiKey c) || isEmpty (Conn.m_syncthingUrl c)
           then [insufficient] else []).
Proof.
  unfold continueReconnecting.
  set (c1 := emit (Signal.newConfig []) c).
  pose proof (setStatus_credentials SyncthingStatus.Reconnecting c1) as [Hkey Hurl].
  pose proof (setStatus_errorsEmitted SyncthingStatus.Reconnecting c1) as Herr.
  set (c2 := setStatus SyncthingStatus.Reconnecting c1) in *.
  cbn [Conn.m_apiKey Conn.m_syncthingUrl Conn.set_m_keepPolling Conn.set_m_reconnecting
       Conn.set_m_lastEventId Conn.set_m_configDir Conn.set_m_myId
       Conn.set_m_totalIncomingTraffic Conn.set_m_totalOutgoingTraffic
       Conn.set_m_totalIncomingRate Conn.set_m_totalOutgoingRate
       Conn.set_m_unreadNotifications Conn.set_m_hasConfig Conn.set_m_hasStatus
       Conn.set_m_dirs Conn.set_m_devs Conn.set_m_lastConnectionsUpdate
       Conn.set_m_lastFileTime Conn.set_m_lastErrorTime Conn.set_m_lastFileName
       Conn.set_m_lastFileDeleted].
  rewrite Hkey, Hurl. change (Conn.m_apiKey c1) with (Conn.m_apiKey c).
  change (Conn.m_syncthingUrl c1) with (Conn.m_syncthingUrl c).
  assert (errorsEmitted c2 = errorsEmitted c) as Herr'.
  { rewrite Herr. unfold c1. rewrite errorsEmitted_emit. cbn. by rewrite app_nil_r. }
  destruct (isEmpty (Conn.m_apiKey c) || isEmpty (Conn.m_syncthingUrl c)).
  - repeat split. rewrite errorsEmitted_emit. cbn. by rewrite <- Herr'.
  - repeat split. rewrite app_nil_r, <- Herr'.
    unfold errorsEmitted, requestStatus, requestConfig, requestData, emit. cbn.
    rewrite !List.filter_app. cbn. by rewrite !app_nil_r.
Qed.

(** C5 (amended).  A canceled request is silent in the handlers of the
    configuration, the status, the connections, both statistics and the
    errors: no error notification, both readiness flags untouched.  The
    handler of the events is silent as well unless the connection is
    reconnecting; then it restarts the connection, which clears both flags
    and reports an insufficient configuration when the URL or the API key
    is empty. *)
Theorem canceled_requests_are_not_errors (now now1 now2 : DateTime) (reply : Reply)
    (c : Conn.t) :
  replyError reply = OperationCanceledError ->
  silent c (readConfig reply c)
  /\ silent c (readStatus reply c)
  /\ silent c (readConnections now1 now2 reply c)
  /\ silent c (readDirStatistics reply c)
  /\ silent c (readDeviceStatistics reply c)
  /\ silent c (readErrors now reply c)
  /\ (Conn.m_reconnecting c = false -> silent c (readEvents reply c))
  /\ (Conn.m_reconnecting c = true ->
      let c' := readEvents reply c in
      Conn.m_hasConfig c' = false
      /\ Conn.m_hasStatus c' = false
      /\ errorsEmitted c'
         = errorsEmitted c
           ++ (if isEmpty (Conn.m_apiKey c) || isEmpty (Conn.m_syncthingUrl c)
               then [insufficient] else [])).
Proof.
  intros Hcanceled.
  unfold readConfig, readStatus, readConnections, readDirStatistics, readDeviceStatistics,
    readErrors, readEvents.
  rewrite Hcanceled.
  refine (conj _ (conj _ (conj _ (conj _ (conj _ (conj _ (conj _ _))))))).
  1-6: try match goal with |- context [if isReply ?a ?b then _ else _] =>
         destruct (isReply a b) end;
       try match goal with |- context [if Chrono.isNull ?a then _ else _] =>
         destruct (Chrono.isNull a) end;
       by repeat split.
  - intros H.
    destruct (isReply _ _); cbn [Conn.m_reconnecting Conn.set_m_eventsReply]; rewrite H.
    + exact (setStatus_silent _ (Conn.set_m_eventsReply None c)).
    + apply setStatus_silent.
  - intros H.
    destruct (isReply _ _); cbn [Conn.m_reconnecting Conn.set_m_eventsReply]; rewrite H.
    + exact (continueReconnecting_restarts (Conn.set_m_eventsReply None c)).
    + apply continueReconnecting_restarts.
Qed.

(** ** The own device *)

Lemma forEachIndex_invariant (P : Conn.t -> Prop) (body : nat -> Conn.t -> Conn.t) (n : nat)
    (c : Conn.t) :
  (forall index c, P c -> P (body index c)) -> P c -> P (forEachIndex n body c).
Proof.
  intros Hbody. unfold forEachIndex. generalize (seq 0 n). intros l. revert c.
  induction l as [|i l IH]; intros c Hc; simpl; [done|]. apply IH. by apply Hbody.
Qed.

(** The device in row [index] has the id [devId] and is the own device. *)
Definition ownDeviceAt (index : nat) (devId : string) (c : Conn.t) : Prop :=
  exists dev, Conn.m_devs c !! index = Some dev
    /\ SyncthingDev.id dev = devId
    /\ SyncthingDev.status dev = SyncthingDevStatus.OwnDevice.

Lemma updateDev_ownDeviceAt (f : SyncthingDev.t -> SyncthingDev.t) (row index : nat)
    (devId : string) (c : Conn.t) :
  (forall d, SyncthingDev.status d = SyncthingDevStatus.OwnDevice ->
             SyncthingDev.status (f d) = SyncthingDevStatus.OwnDevice
             /\ SyncthingDev.id (f d) = SyncthingDev.id d) ->
  ownDeviceAt index devId c -> ownDeviceAt index devId (updateDev row f c).
Proof.
  intros Hf (dev & Hdev & Hid & Hown). unfold ownDeviceAt, updateDev. cbn.
  destruct (decide (row = index)) as [->|Hne].
  - exists (f dev). rewrite list_lookup_alter_eq, Hdev.
    destruct (Hf dev Hown) as [Hs Hi]. split; [reflexivity|]. split; [congruence|exact Hs].
  - exists dev. by rewrite list_lookup_alter_ne.
Qed.

Lemma readDeviceEvent_ownDeviceAt (eventTime : DateTime) (eventType : string)
    (eventData : QJsonObject) (index : nat) (devId : string) (c : Conn.t) :
  ownDeviceAt index devId c ->
  ownDeviceAt index devId (readDeviceEvent eventTime eventType eventData c).
Proof.
  intros Hown. unfold readDeviceEvent.
  repeat match goal with
    | |- ownDeviceAt _ _ (if ?b then _ else _) => destruct b
    | |- ownDeviceAt _ _ (match ?o with Some _ => _ | None => _ end) => destruct o
    | |- ownDeviceAt _ _ (let '(_, _) := ?p in _) => destruct p
    end; try assumption.
  apply (updateDev_ownDeviceAt _ _ _ _ c); [|exact Hown].
  intros d Hd. rewrite Hd. by cbn.
Qed.

Lemma readConnection_ownDeviceAt (connectionsObj : QJsonObject) (row index : nat)
    (devId : string) (c : Conn.t) :
  ownDeviceAt index devId c -> ownDeviceAt index devId (readConnection connectionsObj row c).
Proof.
  intros Hown. unfold readConnection.
  destruct (Conn.m_devs c !! row); [|done].
  destruct (Json.isEmptyObject _); [done|].
  apply (updateDev_ownDeviceAt _ _ _ _ c); [|exact Hown].
  intros d Hd. cbn. rewrite Hd. by cbn.
Qed.

Lemma readConnections_ownDeviceAt (now1 now2 : DateTime) (reply : Reply) (index : nat)
    (devId : string) (c : Conn.t) :
  ownDeviceAt index devId c -> ownDeviceAt index devId (readConnections now1 now2 reply c).
Proof.
  intros Hown. unfold readConnections.
  assert (ownDeviceAt index devId
            (if isReply (Conn.m_connectionsReply c) reply
             then Conn.set_m_connectionsReply None c else c)) as Hown'.
  { by destruct (isReply _ _). }
  revert Hown'. generalize (if isReply (Conn.m_connectionsReply c) reply
                            then Conn.set_m_connectionsReply None c else c).
  clear Hown c. intros c Hown.
  destruct (replyError reply); try exact Hown.
  destruct (fromJson reply) as [jsonError|replyDoc]; [exact Hown|].
  match goal with |- context [forEachIndex ?n ?body ?c0] =>
    assert (ownDeviceAt index devId (forEachIndex n body c0)) as Hloop
  end.
  { apply forEachIndex_invariant.
    - intros row c0. apply readConnection_ownDeviceAt.
    - by destruct (_ && _). }
  match goal with |- context [forEachIndex ?n ?body ?c0] =>
    revert Hloop; generalize (forEachIndex n body c0) end.
  intros c1 Hloop. cbn zeta.
  by destruct (Conn.m_keepPolling _).
Qed.

(** C7.  A device whose status is OwnDevice keeps that status (and its row
    and id) whatever device event or result of a connections poll is
    processed. *)
Theorem own_device_is_sticky (c : Conn.t) (index : nat) (dev : SyncthingDev.t) :
  Conn.m_devs c !! index = Some dev ->
  SyncthingDev.status dev = SyncthingDevStatus.OwnDevice ->
  (forall eventTime eventType eventData,
     ownDeviceAt index (SyncthingDev.id dev)
       (readDeviceEvent eventTime eventType eventData c))
  /\ (forall now1 now2 reply,
     ownDeviceAt index (SyncthingDev.id dev) (readConnections now1 now2 reply c)).
Proof.
  intros Hdev Hown.
  assert (ownDeviceAt index (SyncthingDev.id dev) c) as H by (by exists dev).
  split; intros.
  - by apply readDeviceEvent_ownDeviceAt.
  - by apply readConnections_ownDeviceAt.
Qed.

(** ** Finished items *)

(** Whether the finished item was a deletion: the event's action is the
    string "delete". *)
Definition isDeleteAction (eventData : QJsonObject) : bool :=
  match Json.value eventData "action" with
  | JString action => String.eqb action "delete"
  | _ => false
  end.

Lemma neqLatin1_delete (eventData : QJsonObject) :
  Json.neqLatin1 (Json.value eventData "action") "delete" = negb (isDeleteAction eventData).
Proof. unfold isDeleteAction. by destruct (Json.value eventData "action"). Qed.

(** The condition under which [readItemFinished] stores a successfully
    finished item as the folder's last file. *)
Definition storesLastFile (eventTime : DateTime) (dirInfo : SyncthingDir.t) : bool :=
  Chrono.isNull (SyncthingDir.lastFileTime dirInfo)
  || (eventTime <? SyncthingDir.lastFileTime dirInfo).

(** C10.  When a successfully finished item is stored as the last file of
    its folder, the folder's [lastFileDeleted] is the negation of "the
    action is delete", and so is the connection-wide flag whenever the
    item also becomes the connection's last file. *)
Theorem item_finished_deleted_flag (eventTime : DateTime) (eventData : QJsonObject)
    (c : Conn.t) (index : nat) (dirInfo : SyncthingDir.t) :
  isEmpty (Json.toString (Json.value eventData "folder")) = false ->
  findDirInfo (Json.toString (Json.value eventData "folder")) (Conn.m_dirs c) = Some index ->
  Conn.m_dirs c !! index = Some dirInfo ->
  isEmpty (Json.toString (Json.value eventData "error")) = true ->
  storesLastFile eventTime dirInfo = true ->
  let c' := readItemFinished eventTime eventData c in
  exists dirInfo',
    Conn.m_dirs c' !! index = Some dirInfo'
    /\ SyncthingDir.lastFileName dirInfo' = Json.toString (Json.value eventData "item")
    /\ SyncthingDir.lastFileTime dirInfo' = eventTime
    /\ SyncthingDir.lastFileDeleted dirInfo' = negb (isDeleteAction eventData)
    /\ (Conn.m_lastFileTime c < eventTime ->
        Conn.m_lastFileName c' = Json.toString (Json.value eventData "item")
        /\ Conn.m_lastFileDeleted c' = negb (isDeleteAction eventData)).
Proof.
  intros Hdir Hfind Hlookup Herror Hstores c'. subst c'.
  unfold readItemFinished. unfold storesLastFile in Hstores.
  rewrite Hdir, Hfind, Hlookup, Herror, Hstores, neqLatin1_delete.
  eexists. split.
  { unfold emit, updateDir.
    match goal with |- context [if ?b then _ else _] => destruct b end;
      cbn [Conn.m_dirs Conn.set_emitted Conn.set_m_dirs Conn.set_m_lastFileDeleted
           Conn.set_m_lastFileName Conn.set_m_lastFileTime];
      rewrite list_lookup_alter_eq, Hlookup; reflexivity. }
  split; [reflexivity|]. split; [reflexivity|]. split; [reflexivity|].
  intros Hlt. apply Z.ltb_lt in Hlt.
  change (Conn.m_lastFileTime (updateDir index _ c)) with (Conn.m_lastFileTime c).
  rewrite Hlt. by split.
Qed.

(** What the handler does with an item that finished successfully after
    the folder's last file: nothing. *)
Lemma readItemFinished_drops_newer_item (eventTime : DateTime) (eventData : QJsonObject)
    (c : Conn.t) (index : nat) (dirInfo : SyncthingDir.t) :
  findDirInfo (Json.toString (Json.value eventData "folder")) (Conn.m_dirs c) = Some index ->
  Conn.m_dirs c !! index = Some dirInfo ->
  isEmpty (Json.toString (Json.value eventData "error")) = true ->
  0 < SyncthingDir.lastFileTime dirInfo <= eventTime ->
  readItemFinished eventTime eventData c = c.
Proof.
  intros Hfind Hlookup Herror [Hpos Hle]. unfold readItemFinished.
  rewrite Hfind, Hlookup, Herror.
  destruct (isEmpty (Json.toString (Json.value eventData "folder"))); [reflexivity|].
  unfold Chrono.isNull.
  destruct (Z.eqb_spec (SyncthingDir.lastFileTime dirInfo) 0) as [?|_]; [lia|].
  destruct (Z.ltb_spec eventTime (SyncthingDir.lastFileTime dirInfo)); [lia|reflexivity].
Qed.

(** A failed item of a folder that is out of sync: the error is appended to
    the folder's errors and a notification is raised. *)
Lemma readItemFinished_failure (eventTime : DateTime) (eventData : QJsonObject)
    (c : Conn.t) (index : nat) (dirInfo : SyncthingDir.t) :
  isEmpty (Json.toString (Json.value eventData "folder")) = false ->
  findDirInfo (Json.toString (Json.value eventData "folder")) (Conn.m_dirs c) = Some index ->
  Conn.m_dirs c !! index = Some dirInfo ->
  isEmpty (Json.toString (Json.value eventData "error")) = false ->
  SyncthingDir.status dirInfo = SyncthingDirStatus.OutOfSync ->
  let c' := readItemFinished eventTime eventData c in
  let error := Json.toString (Json.value eventData "error") in
  (exists dirInfo',
     Conn.m_dirs c' !! index = Some dirInfo'
     /\ SyncthingDir.errors dirInfo'
        = SyncthingDir.errors dirInfo
          ++ [SyncthingDirError.mk error (Json.toString (Json.value eventData "item"))])
  /\ last (Conn.emitted c') = Some (Signal.newNotification eventTime error)
  /\ Conn.m_unreadNotifications c' = true.
Proof.
  intros Hdir Hfind Hlookup Herror Hstatus c' error. subst c' error.
  unfold readItemFinished. rewrite Hdir, Hfind, Hlookup, Herror, Hstatus.
  cbn [SyncthingDirStatus.eqb].
  unfold emitNotification.
  match goal with |- context [setStatus ?s ?c0] =>
    pose proof (setStatus_footprint s c0) as Hfp; pose proof (setStatus_entities s c0) as [Hd _];
    revert Hfp Hd; generalize (setStatus s c0) end.
  intros c1 Hfp Hd. cbn zeta in Hfp. split; [|split].
  - eexists. split.
    + unfold emit at 1. cbn [Conn.m_dirs Conn.set_emitted]. rewrite Hd.
      unfold emit, updateDir.
      cbn [Conn.m_dirs Conn.set_emitted Conn.set_m_dirs Conn.set_m_unreadNotifications].
      rewrite list_lookup_alter_eq, Hlookup. reflexivity.
    + reflexivity.
  - cbn. by rewrite last_snoc.
  - cbn. rewrite Hfp. reflexivity.
Qed.

(** ** Download progress *)

Lemma updateDir_loop_lookup (f : SyncthingDir.t -> SyncthingDir.t) (n a k : nat) (c : Conn.t) :
  Conn.m_dirs (fold_left (fun c index => updateDir index f c) (seq a n) c) !! k
  = if decide (a <= k < a + n)%nat then f <$> Conn.m_dirs c !! k else Conn.m_dirs c !! k.
Proof.
  revert a c. induction n as [|n IH]; intros a c; simpl.
  - case_decide; [lia|done].
  - rewrite IH.
    change (Conn.m_dirs (updateDir a f c)) with (alter f a (Conn.m_dirs c)).
    destruct (decide (a = k)) as [->|Hne].
    + rewrite list_lookup_alter_eq. repeat case_decide; try lia; done.
    + rewrite list_lookup_alter_ne by done. repeat case_decide; try lia; done.
Qed.

Lemma updateDir_forEachIndex (f : SyncthingDir.t -> SyncthingDir.t) (c : Conn.t) :
  Conn.m_dirs (forEachIndex (length (Conn.m_dirs c)) (fun index c => updateDir index f c) c)
  = f <$> Conn.m_dirs c.
Proof.
  apply list_eq. intros k. unfold forEachIndex.
  rewrite updateDir_loop_lookup, list_lookup_fmap.
  case_decide as Hk; [done|].
  rewrite (lookup_ge_None_2 (Conn.m_dirs c) k) by lia. done.
Qed.

Lemma wrap_int32_range (z : Z) : INT_MIN <= wrap_int32 z <= INT_MAX.
Proof.
  unfold wrap_int32, INT_MIN, INT_MAX.
  pose proof (Z.mod_pos_bound (z + 2 ^ 31) (2 ^ 32) ltac:(lia)). lia.
Qed.

Lemma wrap_uint32_id (z : Z) : 0 <= z <= INT_MAX -> wrap_uint32 z = z.
Proof. unfold wrap_uint32, INT_MAX. intros H. apply Z.mod_small. lia. Qed.

Definition blocksInRange (d : SyncthingDir.t) : Prop :=
  INT_MIN <= SyncthingDir.blocksAlreadyDownloaded d <= INT_MAX
  /\ INT_MIN <= SyncthingDir.blocksToBeDownloaded d <= INT_MAX.

Lemma addDownloadingItems_range (items : QJsonObject) (d : SyncthingDir.t) :
  blocksInRange d -> blocksInRange (fold_left addDownloadingItem items d).
Proof.
  revert d. induction items as [|item items IH]; intros d Hd; simpl; [done|].
  apply IH. unfold addDownloadingItem, blocksInRange.
  cbn [SyncthingDir.blocksAlreadyDownloaded SyncthingDir.blocksToBeDownloaded
       SyncthingDir.set_blocksAlreadyDownloaded SyncthingDir.set_blocksToBeDownloaded
       SyncthingDir.set_downloadingItems].
  split; apply wrap_int32_range.
Qed.

Lemma readDownloadProgress_percentage (eventData : QJsonObject) (d : SyncthingDir.t) :
  let d' := readDownloadProgress eventData d in
  blocksInRange d'
  /\ SyncthingDir.downloadPercentage d'
     = computeDownloadPercentage (SyncthingDir.blocksAlreadyDownloaded d')
         (SyncthingDir.blocksToBeDownloaded d').
Proof.
  unfold readDownloadProgress.
  set (d0 := SyncthingDir.set_blocksAlreadyDownloaded 0 _).
  assert (blocksInRange d0) as H0 by (unfold blocksInRange, INT_MIN, INT_MAX; cbn; lia).
  set (d1 := if Json.isEmptyObject _ then d0 else _).
  assert (blocksInRange d1) as H1.
  { unfold d1. destruct (Json.isEmptyObject _); [done|]. by apply addDownloadingItems_range. }
  split; [exact H1|reflexivity].
Qed.

Lemma computeDownloadPercentage_nonneg (a b : Z) : 0 <= computeDownloadPercentage a b.
Proof.
  unfold computeDownloadPercentage. destruct (_ && _); [|lia].
  unfold wrap_uint32.
  pose proof (Z.mod_pos_bound (a mod 2 ^ 32 * 100) (2 ^ 32) ltac:(lia)).
  pose proof (Z.mod_pos_bound b (2 ^ 32) ltac:(lia)).
  apply Z_div_nonneg_nonneg; lia.
Qed.

Lemma computeDownloadPercentage_zero (a b : Z) :
  a <= 0 \/ b <= 0 -> computeDownloadPercentage a b = 0.
Proof.
  intros H. unfold computeDownloadPercentage.
  destruct (Z.ltb_spec 0 a), (Z.ltb_spec 0 b); simpl; try reflexivity; lia.
Qed.

Lemma computeDownloadPercentage_le_100 (a b : Z) :
  a <= b -> b <= INT_MAX -> computeDownloadPercentage a b <= 100.
Proof.
  intros Hab Hb. unfold computeDownloadPercentage.
  destruct (Z.ltb_spec 0 a), (Z.ltb_spec 0 b); simpl; try lia.
  rewrite (wrap_uint32_id a), (wrap_uint32_id b) by lia.
  apply Z.div_le_upper_bound; [lia|].
  unfold wrap_uint32.
  pose proof (Z.mod_le (a * 100) (2 ^ 32) ltac:(lia) ltac:(lia)). lia.
Qed.

(** C9 (amended).  After a DownloadProgress event the download percentage
    of every directory is the quotient the handler computes from the two
    block counts: never negative, [0] when no blocks are to be downloaded
    (or none have been), and at most [100] whenever the blocks downloaded
    do not exceed the blocks to be downloaded. *)
Theorem download_percentage_bounds (eventTime : DateTime) (eventData : QJsonObject)
    (c : Conn.t) (index : nat) (dirInfo : SyncthingDir.t) :
  Conn.m_dirs (readDownloadProgressEvent eventTime eventData c) !! index = Some dirInfo ->
  0 <= SyncthingDir.downloadPercentage dirInfo
  /\ (SyncthingDir.blocksToBeDownloaded dirInfo <= 0
      -> SyncthingDir.downloadPercentage dirInfo = 0)
  /\ (SyncthingDir.blocksAlreadyDownloaded dirInfo <= 0
      -> SyncthingDir.downloadPercentage dirInfo = 0)
  /\ (SyncthingDir.blocksAlreadyDownloaded dirInfo <= SyncthingDir.blocksToBeDownloaded dirInfo
      -> SyncthingDir.downloadPercentage dirInfo <= 100).
Proof.
  unfold readDownloadProgressEvent, emit. cbn [Conn.m_dirs Conn.set_emitted].
  rewrite updateDir_forEachIndex, list_lookup_fmap.
  destruct (Conn.m_dirs c !! index) as [d|]; [|discriminate].
  intros [= <-].
  destruct (readDownloadProgress_percentage eventData d) as [[_ [_ Hb]] ->].
  split; [apply computeDownloadPercentage_nonneg|].
  split; [intros; apply computeDownloadPercentage_zero; by right|].
  split; [intros; apply computeDownloadPercentage_zero; by left|].
  intros. by apply computeDownloadPercentage_le_100.
Qed.

(** ** Transfer rates *)

Definition isFiniteDouble (d : float) : bool :=
  negb (PrimFloat.is_nan d) && negb (PrimFloat.is_infinity d).

Lemma readConnection_rates (connectionsObj : QJsonObject) (row : nat) (c : Conn.t) :
  Conn.m_totalIncomingRate (readConnection connectionsObj row c) = Conn.m_totalIncomingRate c
  /\ Conn.m_totalOutgoingRate (readConnection connectionsObj row c)
     = Conn.m_totalOutgoingRate c
  /\ Conn.m_totalIncomingTraffic (readConnection connectionsObj row c)
     = Conn.m_totalIncomingTraffic c
  /\ Conn.m_totalOutgoingTraffic (readConnection connectionsObj row c)
     = Conn.m_totalOutgoingTraffic c.
Proof.
  unfold readConnection.
  destruct (Conn.m_devs c !! row); [|done]. by destruct (Json.isEmptyObject _).
Qed.

(** The rates as [readConnections] computes them, on [uint64] and
    [double]. *)
Lemma readConnections_rates (now1 now2 : DateTime) (reply : Reply) (replyDoc : QJsonDocument)
    (c : Conn.t) :
  replyError reply = NoError ->
  fromJson reply = inr replyDoc ->
  let c' := readConnections now1 now2 reply c in
  let totalObj := Json.toObject (Json.value (docObject replyDoc) "total") in
  let currentIncoming :=
    double_to_uint64 (Json.toDouble (Json.value totalObj "inBytesTotal") 0%float) in
  let currentOutgoing :=
    double_to_uint64 (Json.toDouble (Json.value totalObj "outBytesTotal") 0%float) in
  let elapsedSeconds := Chrono.secondsBetween now1 (Conn.m_lastConnectionsUpdate c) in
  let measurable :=
    negb (Chrono.isNull (Conn.m_lastConnectionsUpdate c))
    && negb (PrimFloat.eqb elapsedSeconds 0%float) in
  (measurable = true ->
     Conn.m_totalIncomingRate c'
     = (double_of_Z (wrap_uint64 (currentIncoming - Conn.m_totalIncomingTraffic c))
        * kbitPerByte / elapsedSeconds)%float
     /\ Conn.m_totalOutgoingRate c'
        = (double_of_Z (wrap_uint64 (currentOutgoing - Conn.m_totalOutgoingTraffic c))
           * kbitPerByte / elapsedSeconds)%float)
  /\ (measurable = false ->
     Conn.m_totalIncomingRate c' = 0%float
     /\ Conn.m_totalOutgoingRate c' = 0%float
     /\ isFiniteDouble (Conn.m_totalIncomingRate c') = true
     /\ isFiniteDouble (Conn.m_totalOutgoingRate c') = true)
  /\ Conn.m_totalIncomingTraffic c' = currentIncoming
  /\ Conn.m_totalOutgoingTraffic c' = currentOutgoing.
Proof.
  intros Herror Hjson c' totalObj currentIncoming currentOutgoing elapsedSeconds measurable.
  subst c'. unfold readConnections. rewrite Herror, Hjson.
  fold totalObj. fold currentIncoming. fold currentOutgoing.
  assert (forall (r1 r2 : float) (c0 : Conn.t) body,
            (forall row c, body row c = readConnection
               (Json.toObject (Json.value (docObject replyDoc) "connections")) row c) ->
            Conn.m_totalIncomingRate c0 = r1 -> Conn.m_totalOutgoingRate c0 = r2 ->
            Conn.m_totalIncomingTraffic c0 = currentIncoming ->
            Conn.m_totalOutgoingTraffic c0 = currentOutgoing ->
            let c1 := Conn.set_m_lastConnectionsUpdate now2
                        (forEachIndex (length (Conn.m_devs c0)) body c0) in
            let c2 := if Conn.m_keepPolling c1
                      then emit (Signal.singleShot (Conn.m_trafficPollInterval c1)
                                   requestConnectionsSlot) c1
                      else c1 in
            Conn.m_totalIncomingRate c2 = r1 /\ Conn.m_totalOutgoingRate c2 = r2
            /\ Conn.m_totalIncomingTraffic c2 = currentIncoming
            /\ Conn.m_totalOutgoingTraffic c2 = currentOutgoing) as Hrest.
  { intros r1 r2 c0 body Hbody H1 H2 H3 H4 c1 c2.
    assert (Conn.m_totalIncomingRate c1 = r1 /\ Conn.m_totalOutgoingRate c1 = r2
            /\ Conn.m_totalIncomingTraffic c1 = currentIncoming
            /\ Conn.m_totalOutgoingTraffic c1 = currentOutgoing) as Hc1.
    { unfold c1.
      cbn [Conn.m_totalIncomingRate Conn.m_totalOutgoingRate Conn.m_totalIncomingTraffic
           Conn.m_totalOutgoingTraffic Conn.set_m_lastConnectionsUpdate].
      apply (forEachIndex_invariant
               (fun c => Conn.m_totalIncomingRate c = r1 /\ Conn.m_totalOutgoingRate c = r2
                         /\ Conn.m_totalIncomingTraffic c = currentIncoming
                         /\ Conn.m_totalOutgoingTraffic c = currentOutgoing)); [|done].
      intros row c3 (? & ? & ? & ?). rewrite Hbody.
      destruct (readConnection_rates
                  (Json.toObject (Json.value (docObject replyDoc) "connections")) row c3)
        as (-> & -> & -> & ->). done. }
    unfold c2. by destruct (Conn.m_keepPolling c1). }
  subst measurable elapsedSeconds.
  destruct (isReply (Conn.m_connectionsReply c) reply);
    cbn [Conn.m_lastConnectionsUpdate Conn.set_m_connectionsReply];
    destruct (negb (Chrono.isNull (Conn.m_lastConnectionsUpdate c))
              && negb (PrimFloat.eqb
                         (Chrono.secondsBetween now1 (Conn.m_lastConnectionsUpdate c))
                         0%float));
    match goal with |- context [forEachIndex ?n ?body ?cc] =>
      destruct (Hrest (Conn.m_totalIncomingRate cc) (Conn.m_totalOutgoingRate cc)
        cc body ltac:(reflexivity) eq_refl eq_refl eq_refl eq_refl) as (H1 & H2 & H3 & H4)
    end;
    cbn zeta in H1, H2, H3, H4;
    (split; [intros Hm; first [discriminate Hm | split; [exact H1|exact H2]]|]);
    (split; [intros Hm; first [discriminate Hm
                              | rewrite H1, H2; repeat split; reflexivity]|]);
    (split; [exact H3|exact H4]).
Qed.

(** The difference of two [uint64] counters: the plain difference while the
    counter has not fallen, and the difference plus [2 ^ 64] once it has. *)
Lemma wrap_uint64_difference (current previous : Z) :
  0 <= current < 2 ^ 64 -> 0 <= previous < 2 ^ 64 ->
  wrap_uint64 (current - previous)
  = if previous <=? current then current - previous else current - previous + 2 ^ 64.
Proof.
  intros Hc Hp. unfold wrap_uint64. destruct (Z.leb_spec previous current).
  - apply Z.mod_small. lia.
  - symmetry. apply (Z.mod_unique _ _ (-1)); lia.
Qed.

(** C8 (amended).  The byte totals of the reply are numbers that
    [static_cast<uint64>] converts, [currentIncoming] and
    [currentOutgoing].  When a previous poll is recorded and the seconds
    elapsed since are not zero, a successfully parsed result of a
    connections poll sets each rate to
    [(current - previous) * 0.008 / elapsed] as long as the counter has not
    fallen below the previous total; when it has fallen, the difference of
    the two [uint64] wraps and the rate is that of
    [current - previous + 2 ^ 64] bytes.  Otherwise both rates are set to
    zero, which is neither infinite nor NaN.  The totals of the reply are
    stored. *)
Theorem transfer_rates (now1 now2 : DateTime) (reply : Reply) (replyDoc : QJsonDocument)
    (c : Conn.t) (currentIncoming currentOutgoing : Z) :
  replyError reply = NoError ->
  fromJson reply = inr replyDoc ->
  let totalObj := Json.toObject (Json.value (docObject replyDoc) "total") in
  castsToUint64 (Json.toDouble (Json.value totalObj "inBytesTotal") 0%float) currentIncoming ->
  castsToUint64 (Json.toDouble (Json.value totalObj "outBytesTotal") 0%float) currentOutgoing ->
  0 <= Conn.m_totalIncomingTraffic c < 2 ^ 64 ->
  0 <= Conn.m_totalOutgoingTraffic c < 2 ^ 64 ->
  let c' := readConnections now1 now2 reply c in
  let elapsedSeconds := Chrono.secondsBetween now1 (Conn.m_lastConnectionsUpdate c) in
  let measurable :=
    negb (Chrono.isNull (Conn.m_lastConnectionsUpdate c))
    && negb (PrimFloat.eqb elapsedSeconds 0%float) in
  let rate (current previous : Z) : float :=
    (double_of_Z (if (previous <=? current)%Z then (current - previous)%Z
                  else (current - previous + 2 ^ 64)%Z)
     * kbitPerByte / elapsedSeconds)%float in
  (measurable = true ->
     Conn.m_totalIncomingRate c' = rate currentIncoming (Conn.m_totalIncomingTraffic c)
     /\ Conn.m_totalOutgoingRate c' = rate currentOutgoing (Conn.m_totalOutgoingTraffic c))
  /\ (measurable = false ->
     Conn.m_totalIncomingRate c' = 0%float
     /\ Conn.m_totalOutgoingRate c' = 0%float
     /\ isFiniteDouble (Conn.m_totalIncomingRate c') = true
     /\ isFiniteDouble (Conn.m_totalOutgoingRate c') = true)
  /\ Conn.m_totalIncomingTraffic c' = currentIncoming
  /\ Conn.m_totalOutgoingTraffic c' = currentOutgoing.
Proof.
  intros Herror Hjson totalObj Hincoming Houtgoing HpreviousIn HpreviousOut.
  cbn zeta.
  destruct (readConnections_rates now1 now2 reply replyDoc c Herror Hjson)
    as (Hrates & Hzero & HtotalIn & HtotalOut).
  cbn zeta in Hrates, Hzero, HtotalIn, HtotalOut. fold totalObj in Hrates, HtotalIn, HtotalOut.
  rewrite (double_to_uint64_defined _ _ Hincoming) in Hrates, HtotalIn.
  rewrite (double_to_uint64_defined _ _ Houtgoing) in Hrates, HtotalOut.
  rewrite (wrap_uint64_difference currentIncoming (Conn.m_totalIncomingTraffic c))
    in Hrates by (destruct Hincoming; assumption).
  rewrite (wrap_uint64_difference currentOutgoing (Conn.m_totalOutgoingTraffic c))
    in Hrates by (destruct Houtgoing; assumption).
  split; [exact Hrates|]. split; [exact Hzero|]. split; assumption.
Qed.
(** ** The last event id *)

(** Members that only [continueConnecting], [continueReconnecting] and the
    loop of [readEvents] assign keep their value in every other step. *)
Lemma setStatus_lastEventId (status : SyncthingStatus.t) (c : Conn.t) :
  Conn.m_lastEventId (setStatus status c) = Conn.m_lastEventId c.
Proof. by rewrite (setStatus_footprint status c). Qed.

Lemma emitNotification_lastEventId (when : DateTime) (msg : string) (c : Conn.t) :
  Conn.m_lastEventId (emitNotification when msg c) = Conn.m_lastEventId c.
Proof. unfold emitNotification. cbn. by rewrite setStatus_lastEventId. Qed.

Lemma callOnDir_lastEventId (index : nat) (f : SyncthingDir.t -> bool * SyncthingDir.t)
    (c : Conn.t) :
  Conn.m_lastEventId (callOnDir index f c).2 = Conn.m_lastEventId c.
Proof.
  unfold callOnDir. destruct (Conn.m_dirs c !! index); [|done]. by destruct (f _).
Qed.

Lemma fold_left_lastEventId {A : Type} (f : Conn.t -> A -> Conn.t) (l : list A) (c : Conn.t) :
  (forall c a, Conn.m_lastEventId (f c a) = Conn.m_lastEventId c) ->
  Conn.m_lastEventId (fold_left f l c) = Conn.m_lastEventId c.
Proof.
  intros Hf. revert c. induction l as [|a l IH]; intros c; simpl; [done|].
  by rewrite IH, Hf.
Qed.

Lemma forEachIndex_lastEventId (n : nat) (body : nat -> Conn.t -> Conn.t) (c : Conn.t) :
  (forall index c, Conn.m_lastEventId (body index c) = Conn.m_lastEventId c) ->
  Conn.m_lastEventId (forEachIndex n body c) = Conn.m_lastEventId c.
Proof. intros Hbody. unfold forEachIndex. by apply fold_left_lastEventId. Qed.

Lemma readStartingEvent_lastEventId (eventData : QJsonObject) (c : Conn.t) :
  Conn.m_lastEventId (readStartingEvent eventData c) = Conn.m_lastEventId c.
Proof. unfold readStartingEvent. cbn zeta. by repeat destruct (String.eqb _ _). Qed.

Lemma readStatusChangedEvent_lastEventId (eventTime : DateTime) (eventData : QJsonObject)
    (c : Conn.t) :
  Conn.m_lastEventId (readStatusChangedEvent eventTime eventData c) = Conn.m_lastEventId c.
Proof.
  unfold readStatusChangedEvent. cbn zeta.
  destruct (isEmpty _); [done|]. destruct (findDirInfo _ _) as [index|]; [|done].
  pose proof (callOnDir_lastEventId index
    (assignStatusString (Json.toString (Json.value eventData "to")) eventTime) c) as H.
  destruct (callOnDir _ _ _) as [[] c']; simpl in H; by rewrite <- H.
Qed.

Lemma readDownloadProgressEvent_lastEventId (eventTime : DateTime) (eventData : QJsonObject)
    (c : Conn.t) :
  Conn.m_lastEventId (readDownloadProgressEvent eventTime eventData c) = Conn.m_lastEventId c.
Proof.
  unfold readDownloadProgressEvent. cbn zeta.
  change (Conn.m_lastEventId (emit ?s ?c)) with (Conn.m_lastEventId c).
  by apply forEachIndex_lastEventId.
Qed.

Lemma readFolderError_lastEventId (eventTime : DateTime) (index : nat) (c : Conn.t)
    (errorVal : QJsonValue) :
  Conn.m_lastEventId (readFolderError eventTime index c errorVal) = Conn.m_lastEventId c.
Proof.
  unfold readFolderError. cbn zeta.
  destruct (Json.isEmptyObject _); [done|].
  destruct (Conn.m_dirs c !! index); [|done].
  destruct (bool_decide _); [done|].
  match goal with |- context [callOnDir ?i ?f ?c0] =>
    pose proof (callOnDir_lastEventId i f c0) as H; revert H;
    generalize (callOnDir i f c0).2 end.
  intros c1 H. change (Conn.m_lastEventId (updateDir ?i ?f c)) with (Conn.m_lastEventId c) in H.
  destruct (Conn.m_dirs c1 !! index); [|done].
  destruct (last _); [|done]. destruct (bool_decide _); [done|].
  by rewrite emitNotification_lastEventId.
Qed.

Lemma readDirEvent_lastEventId (eventTime : DateTime) (eventType : string)
    (eventData : QJsonObject) (c : Conn.t) :
  Conn.m_lastEventId (readDirEvent eventTime eventType eventData c) = Conn.m_lastEventId c.
Proof.
  unfold readDirEvent. cbn zeta.
  destruct (isEmpty _); [done|]. destruct (findDirInfo _ _) as [index|]; [|done].
  destruct (String.eqb eventType "FolderErrors").
  { destruct (Json.toArray _) as [|e errors] eqn:E; [done|].
    change (Conn.m_lastEventId (emit ?s ?c)) with (Conn.m_lastEventId c).
    apply fold_left_lastEventId. intros. apply readFolderError_lastEventId. }
  destruct (String.eqb eventType "FolderSummary").
  { by destruct (Json.isEmptyObject _). }
  destruct (String.eqb eventType "FolderCompletion"); [done|].
  destruct (String.eqb eventType "FolderScanProgress"); [|done].
  destruct (_ && _); [|done].
  change (Conn.m_lastEventId (emit ?s ?c)) with (Conn.m_lastEventId c).
  by rewrite callOnDir_lastEventId.
Qed.

Lemma readDeviceEvent_lastEventId (eventTime : DateTime) (eventType : string)
    (eventData : QJsonObject) (c : Conn.t) :
  Conn.m_lastEventId (readDeviceEvent eventTime eventType eventData c) = Conn.m_lastEventId c.
Proof.
  unfold readDeviceEvent. cbn zeta.
  repeat match goal with
    | |- Conn.m_lastEventId (if ?b then _ else _) = _ => destruct b
    | |- Conn.m_lastEventId (match ?o with Some _ => _ | None => _ end) = _ => destruct o
    | |- Conn.m_lastEventId (let '(_, _) := ?p in _) = _ => destruct p
    end; reflexivity.
Qed.

Lemma readItemFinished_lastEventId (eventTime : DateTime) (eventData : QJsonObject)
    (c : Conn.t) :
  Conn.m_lastEventId (readItemFinished eventTime eventData c) = Conn.m_lastEventId c.
Proof.
  unfold readItemFinished. cbn zeta.
  repeat match goal with
    | |- Conn.m_lastEventId (if ?b then _ else _) = _ => destruct b
    | |- Conn.m_lastEventId (match ?o with Some _ => _ | None => _ end) = _ => destruct o
    end; try reflexivity.
  - change (Conn.m_lastEventId (emit ?s ?c)) with (Conn.m_lastEventId c).
    by destruct (_ <? _).
  - by rewrite emitNotification_lastEventId.
Qed.

(** The id an event carries, when it carries one that is an [int]. *)
Definition eventId (eventVal : QJsonValue) : option Z :=
  Json.asInt (Json.value (Json.toObject eventVal) "id").

Lemma readEvent_lastEventId (c : Conn.t) (eventVal : QJsonValue) :
  Conn.m_lastEventId (readEvent c eventVal)
  = default (Conn.m_lastEventId c) (eventId eventVal).
Proof.
  unfold readEvent. cbn zeta.
  set (c1 := Conn.set_m_lastEventId _ c).
  assert (Conn.m_lastEventId c1 = default (Conn.m_lastEventId c) (eventId eventVal)) as <-.
  { unfold c1, Json.toInt, eventId. cbn. by destruct (Json.asInt _). }
  generalize c1. clear c1. intros c1.
  repeat match goal with
    | |- Conn.m_lastEventId (if ?b then _ else _) = _ => destruct b
    end;
    auto using readStartingEvent_lastEventId, readStatusChangedEvent_lastEventId,
      readDownloadProgressEvent_lastEventId, readDirEvent_lastEventId,
      readDeviceEvent_lastEventId, readItemFinished_lastEventId.
Qed.


Definition eventIds (events : QJsonArray) : list Z := omap eventId events.

(** The events of a reply that arrived and was parsed. *)
Definition parsedEvents (reply : Reply) : option QJsonArray :=
  match replyError reply, fromJson reply with
  | NoError, inr replyDoc => Some (docArray replyDoc)
  | _, _ => None
  end.

Definition replyEventIds (reply : Reply) : list Z :=
  match parsedEvents reply with
  | Some events => eventIds events
  | None => []
  end.

(** [readEvents] called for one reply after the other. *)
Definition readEventReplies (replies : list Reply) (c : Conn.t) : Conn.t :=
  fold_left (fun c reply => readEvents reply c) replies c.

Lemma last_default_irrelevant (l : list Z) (d d' : Z) :
  l <> [] -> List.last l d = List.last l d'.
Proof.
  induction l as [|x [|y l] IH]; intros Hl; [done|done|].
  change (List.last (y :: l) d = List.last (y :: l) d'). by apply IH.
Qed.

Lemma last_cons (x : Z) (l : list Z) (d : Z) : List.last (x :: l) d = List.last l x.
Proof.
  destruct l as [|y l]; [done|].
  change (List.last (y :: l) d = List.last (y :: l) x). by apply last_default_irrelevant.
Qed.

Lemma readEvent_loop_lastEventId (events : QJsonArray) (c : Conn.t) :
  Conn.m_lastEventId (fold_left readEvent events c)
  = List.last (eventIds events) (Conn.m_lastEventId c).
Proof.
  revert c. induction events as [|e events IH]; intros c; [done|].
  change (fold_left readEvent (e :: events) c) with (fold_left readEvent events (readEvent c e)).
  rewrite IH, readEvent_lastEventId. unfold eventIds.
  change (omap eventId (e :: events))
    with (match eventId e with
          | Some z => z :: omap eventId events
          | None => omap eventId events
          end).
  destruct (eventId e) as [z|]; [|done]. by rewrite last_cons.
Qed.

Lemma keepPollingEvents_lastEventId (c : Conn.t) :
  Conn.m_lastEventId (keepPollingEvents c) = Conn.m_lastEventId c.
Proof.
  unfold keepPollingEvents. destruct (Conn.m_keepPolling c); by rewrite setStatus_lastEventId.
Qed.

Lemma readEvents_lastEventId (reply : Reply) (events : QJsonArray) (c : Conn.t) :
  parsedEvents reply = Some events ->
  Conn.m_lastEventId (readEvents reply c)
  = List.last (eventIds events) (Conn.m_lastEventId c).
Proof.
  unfold parsedEvents, readEvents.
  destruct (replyError reply); try discriminate.
  destruct (fromJson reply) as [|replyDoc]; [discriminate|]. intros [= <-].
  rewrite keepPollingEvents_lastEventId, readEvent_loop_lastEventId.
  by destruct (isReply _ _).
Qed.

Lemma last_app_default (l1 l2 : list Z) (d : Z) :
  List.last (l1 ++ l2) d = List.last l2 (List.last l1 d).
Proof.
  revert d. induction l1 as [|x l1 IH]; intros d; [done|].
  change ((x :: l1) ++ l2) with (x :: (l1 ++ l2)). by rewrite !last_cons, IH.
Qed.

Lemma readEventReplies_lastEventId (replies : list Reply) (c : Conn.t) :
  Forall (fun reply => is_Some (parsedEvents reply)) replies ->
  Conn.m_lastEventId (readEventReplies replies c)
  = List.last (replies ≫= replyEventIds) (Conn.m_lastEventId c).
Proof.
  intros Hparsed. revert c.
  induction Hparsed as [|reply replies [events Hevents] _ IH]; intros c; [done|].
  change (readEventReplies (reply :: replies) c)
    with (readEventReplies replies (readEvents reply c)).
  rewrite IH, (readEvents_lastEventId reply events c Hevents).
  rewrite bind_cons, last_app_default.
  assert (replyEventIds reply = eventIds events) as ->; [|done].
  unfold replyEventIds. by rewrite Hevents.
Qed.

(** In a sequence in increasing order the last element is the maximum. *)
Lemma sorted_last_is_max (ids : list Z) (d : Z) :
  Sorted Z.le (d :: ids) -> List.last ids d = fold_left Z.max ids d.
Proof.
  revert d. induction ids as [|x ids IH]; intros d Hsorted; [done|].
  apply Sorted_inv in Hsorted as [Hsorted Hhd]. apply HdRel_inv in Hhd.
  rewrite last_cons, (IH x Hsorted). simpl. by rewrite Z.max_r.
Qed.

Lemma sorted_last_bounds (ids : list Z) (d : Z) :
  Sorted Z.le (d :: ids) ->
  d <= List.last ids d /\ Forall (fun id => id <= List.last ids d) ids.
Proof.
  revert d. induction ids as [|x ids IH]; intros d Hsorted; [split; [simpl; lia|done]|].
  apply Sorted_inv in Hsorted as [Hsorted Hhd]. apply HdRel_inv in Hhd.
  destruct (IH x Hsorted) as [Hx Hall]. rewrite last_cons.
  split; [lia|]. by constructor.
Qed.

Lemma last_elem_of (ids : list Z) (d : Z) : ids <> [] -> List.last ids d ∈ ids.
Proof.
  revert d. induction ids as [|x ids IH]; intros d Hne; [done|].
  rewrite last_cons. destruct ids as [|y ids]; [simpl; by left|].
  right. by apply IH.
Qed.

Lemma sorted_last_prefix (processed rest : list Z) (d : Z) :
  Sorted Z.le (d :: processed ++ rest) -> Sorted Z.le (List.last processed d :: rest).
Proof.
  revert d. induction processed as [|x processed IH]; intros d Hsorted; [done|].
  rewrite last_cons. apply IH. by apply Sorted_inv in Hsorted as [Hsorted _].
Qed.

(** The number an event carries as its id, whatever its size: the integer
    the JSON number of the member "id" holds.  [eventId] is that number
    when it fits an [int]. *)
Definition eventNumber (eventVal : QJsonValue) : option Z :=
  match Json.value (Json.toObject eventVal) "id" with
  | JDouble d => if double_is_integral d then double_trunc d else None
  | _ => None
  end.

Definition replyEventNumbers (reply : Reply) : list Z :=
  match parsedEvents reply with
  | Some events => omap eventNumber events
  | None => []
  end.

Lemma eventId_eventNumber (eventVal : QJsonValue) :
  eventId eventVal
  = match eventNumber eventVal with
    | Some z => if in_int_range z then Some z else None
    | None => None
    end.
Proof.
  unfold eventId, eventNumber, Json.asInt.
  destruct (Json.value (Json.toObject eventVal) "id"); try reflexivity.
  destruct (double_is_integral d), (double_trunc d); reflexivity.
Qed.

Lemma eventIds_in_int_range (events : QJsonArray) :
  eventIds events = List.filter in_int_range (omap eventNumber events).
Proof.
  unfold eventIds. induction events as [|e events IH]; [done|].
  cbn [omap list_omap]. rewrite eventId_eventNumber.
  destruct (eventNumber e) as [z|]; [|exact IH].
  cbn [List.filter]. destruct (in_int_range z); [by rewrite IH|exact IH].
Qed.

Lemma replyEventIds_in_int_range (replies : list Reply) :
  replies ≫= replyEventIds = List.filter in_int_range (replies ≫= replyEventNumbers).
Proof.
  induction replies as [|reply replies IH]; [done|].
  rewrite !bind_cons, List.filter_app, IH. f_equal.
  unfold replyEventIds, replyEventNumbers.
  destruct (parsedEvents reply); [apply eventIds_in_int_range|done].
Qed.

(** C4 (amended).  The ids that count are the numbers that fit an [int]:
    [readEvents] reads the id with [toInt], whose default is the id stored
    so far.  When the replies to the event requests are parsed and bring
    those ids in increasing order, the last-seen id stored afterwards is
    their maximum: one of them and an upper bound of all of them (the id
    stored before when there is none).  When they moreover continue the id
    stored before, the stored id never decreases, from the start and from
    one reply to the next.  An event whose id does not fit an [int] leaves
    the stored id as it is. *)
Theorem last_event_id_is_maximum (replies : list Reply) (c : Conn.t) :
  Forall (fun reply => is_Some (parsedEvents reply)) replies ->
  let numbers := replies ≫= replyEventNumbers in
  let ids := List.filter in_int_range numbers in
  Sorted Z.le ids ->
  let c' := readEventReplies replies c in
  (ids <> [] ->
     Conn.m_lastEventId c' ∈ ids /\ Forall (fun id => id <= Conn.m_lastEventId c') ids)
  /\ (ids = [] -> Conn.m_lastEventId c' = Conn.m_lastEventId c)
  /\ (Forall (fun id => Conn.m_lastEventId c <= id) ids ->
      Conn.m_lastEventId c' = fold_left Z.max ids (Conn.m_lastEventId c)
      /\ forall processed rest,
           replies = processed ++ rest ->
           Conn.m_lastEventId c <= Conn.m_lastEventId (readEventReplies processed c)
           /\ Conn.m_lastEventId (readEventReplies processed c) <= Conn.m_lastEventId c')
  /\ (forall eventVal c0,
        (forall z, eventNumber eventVal = Some z -> ~ (INT_MIN <= z <= INT_MAX)) ->
        Conn.m_lastEventId (readEvent c0 eventVal) = Conn.m_lastEventId c0).
Proof.
  intros Hparsed numbers ids. subst numbers ids.
  rewrite <- replyEventIds_in_int_range. intros Hsorted c'. subst c'.
  rewrite (readEventReplies_lastEventId replies c Hparsed).
  split; [|split; [|split]].
  - intros Hne. split; [by apply last_elem_of|].
    destruct (replies ≫= replyEventIds) as [|first ids]; [done|].
    rewrite last_cons. destruct (sorted_last_bounds ids first Hsorted) as [Hfirst Hall].
    by constructor.
  - by intros ->.
  - intros Hcontinue.
    assert (Sorted Z.le (Conn.m_lastEventId c :: (replies ≫= replyEventIds))) as Hall.
    { constructor; [done|]. destruct Hcontinue; by constructor. }
    split; [by apply sorted_last_is_max|].
    intros processed rest ->.
    apply Forall_app in Hparsed as [Hp Hr].
    rewrite (readEventReplies_lastEventId processed c Hp).
    rewrite bind_app in Hall |- *. rewrite last_app_default.
    split.
    + assert (Sorted Z.le (Conn.m_lastEventId c :: (processed ≫= replyEventIds))) as Hpre.
      { clear -Hall. revert Hall.
        generalize (Conn.m_lastEventId c) (processed ≫= replyEventIds)
          (rest ≫= replyEventIds).
        intros d l1 l2. revert d.
        induction l1 as [|x l1 IH]; intros d H; [by repeat constructor|].
        apply Sorted_inv in H as [H Hhd]. apply HdRel_inv in Hhd.
        constructor; [by apply IH|by constructor]. }
      by apply sorted_last_bounds in Hpre as [? _].
    + apply sorted_last_prefix in Hall. by apply sorted_last_bounds in Hall as [? _].
  - intros eventVal c0 Hout. rewrite readEvent_lastEventId, eventId_eventNumber.
    destruct (eventNumber eventVal) as [z|]; [|done].
    destruct (in_int_range z) eqn:Hrange; [|done].
    exfalso. apply (Hout z eq_refl). unfold in_int_range in Hrange.
    apply andb_true_iff in Hrange as [H1 H2]. lia.
Qed.

(** ** Reconciling the configuration: directories *)

Definition payloadDirId (dirVal : QJsonValue) : string :=
  Json.toString (Json.value (Json.toObject dirVal) "id").

(** The record [findDirInfo] points to. *)
Definition existingDir (dirId : string) (dirs : list SyncthingDir.t) : option SyncthingDir.t :=
  match findDirInfo dirId dirs with
  | Some row => dirs !! row
  | None => None
  end.

(** The row of the new collection that entry [k] of the payload fills:
    the number of entries before it that carry an id. *)
Definition newDirRow (k : nat) (dirs : QJsonArray) : nat :=
  length (List.filter (fun dirVal => negb (isEmpty (payloadDirId dirVal))) (take k dirs)).

Lemma existingDir_cons (dirId : string) (d : SyncthingDir.t) (rest : list SyncthingDir.t) :
  existingDir dirId (d :: rest)
  = if String.eqb (SyncthingDir.id d) dirId then Some d else existingDir dirId rest.
Proof.
  unfold existingDir. simpl. destruct (String.eqb _ _); [done|].
  by destruct (findDirInfo dirId rest).
Qed.

Lemma existingDir_moved (dirId : string) (row : nat) (dirs : list SyncthingDir.t) :
  isEmpty dirId = false ->
  (forall d, dirs !! row = Some d -> SyncthingDir.id d <> dirId) ->
  existingDir dirId (alter movedFromDir row dirs) = existingDir dirId dirs.
Proof.
  intros Hne. revert row. induction dirs as [|d rest IH]; intros row Hrow; [done|].
  destruct row as [|row].
  - change (alter movedFromDir 0%nat (d :: rest)) with (movedFromDir d :: rest).
    rewrite !existingDir_cons.
    assert (String.eqb (SyncthingDir.id d) dirId = false) as ->.
    { apply String.eqb_neq. by apply Hrow. }
    assert (String.eqb (SyncthingDir.id (movedFromDir d)) dirId = false) as ->; [|done].
    apply String.eqb_neq. cbn. intros <-. discriminate Hne.
  - change (alter movedFromDir (S row) (d :: rest)) with (d :: alter movedFromDir row rest).
    rewrite !existingDir_cons. destruct (String.eqb _ _); [done|]. apply IH. exact Hrow.
Qed.

Lemma updateBack_snoc {A : Type} (f : A -> A) (l : list A) (x : A) :
  updateBack f (l ++ [x]) = l ++ [f x].
Proof.
  unfold updateBack. rewrite length_app. simpl.
  replace (Nat.pred (length l + 1)) with (length l + 0)%nat by lia.
  by rewrite alter_app_r.
Qed.

(** One turn of the loop of [readDirs], by cases on the id of the entry. *)
Lemma readDir_step (newDirs : list SyncthingDir.t) (c : Conn.t) (dirVal : QJsonValue) :
  let dirId := payloadDirId dirVal in
  if isEmpty dirId then readDir (newDirs, c) dirVal = (newDirs, c)
  else
    exists c1,
      readDir (newDirs, c) dirVal
      = (newDirs
           ++ [assignDirConfig (Json.toObject dirVal)
                 (default (newSyncthingDir dirId) (existingDir dirId (Conn.m_dirs c)))],
         c1)
      /\ Conn.m_myId c1 = Conn.m_myId c
      /\ forall other, isEmpty other = false -> other <> dirId ->
           existingDir other (Conn.m_dirs c1) = existingDir other (Conn.m_dirs c).
Proof.
  intros dirId. unfold readDir, addDirInfo. fold (payloadDirId dirVal). fold dirId.
  destruct (isEmpty dirId) eqn:Hid; [done|].
  unfold existingDir.
  destruct (findDirInfo dirId (Conn.m_dirs c)) as [row|] eqn:Hfind.
  - destruct (findDirInfo_lookup _ _ _ Hfind) as (d & Hd & Hdid). rewrite Hd.
    eexists. rewrite updateBack_snoc. split; [reflexivity|]. split; [reflexivity|].
    intros other Hother Hne.
    change (Conn.m_dirs (updateDir row movedFromDir c))
      with (alter movedFromDir row (Conn.m_dirs c)).
    fold (existingDir other (alter movedFromDir row (Conn.m_dirs c))).
    fold (existingDir other (Conn.m_dirs c)).
    apply existingDir_moved; [done|]. intros d' Hd'. congruence.
  - eexists. rewrite updateBack_snoc. by repeat split.
Qed.

Lemma readDir_loop_prefix (dirs : QJsonArray) (newDirs : list SyncthingDir.t) (c : Conn.t) :
  exists added, (fold_left readDir dirs (newDirs, c)).1 = newDirs ++ added.
Proof.
  revert newDirs c. induction dirs as [|dirVal dirs IH]; intros newDirs c.
  - exists []. by rewrite app_nil_r.
  - change (fold_left readDir (dirVal :: dirs) (newDirs, c))
      with (fold_left readDir dirs (readDir (newDirs, c) dirVal)).
    pose proof (readDir_step newDirs c dirVal) as Hstep. cbn zeta in Hstep.
    destruct (isEmpty (payloadDirId dirVal)).
    + rewrite Hstep. apply IH.
    + destruct Hstep as (c1 & -> & _).
      match goal with |- context [fold_left readDir dirs (?l, c1)] =>
        destruct (IH l c1) as [added ->] end.
      eexists. by rewrite <- app_assoc.
Qed.

Lemma newDirRow_S (k : nat) (first : QJsonValue) (dirs : QJsonArray) :
  newDirRow (S k) (first :: dirs)
  = ((if isEmpty (payloadDirId first) then 0 else 1) + newDirRow k dirs)%nat.
Proof. unfold newDirRow. simpl. by destruct (isEmpty _). Qed.

Lemma readDir_loop_lookup (dirs : QJsonArray) (newDirs : list SyncthingDir.t) (c : Conn.t)
    (k : nat) (dirVal : QJsonValue) :
  dirs !! k = Some dirVal ->
  isEmpty (payloadDirId dirVal) = false ->
  payloadDirId dirVal ∉ (payloadDirId <$> take k dirs) ->
  (fold_left readDir dirs (newDirs, c)).1 !! (length newDirs + newDirRow k dirs)%nat
  = Some (assignDirConfig (Json.toObject dirVal)
            (default (newSyncthingDir (payloadDirId dirVal))
               (existingDir (payloadDirId dirVal) (Conn.m_dirs c)))).
Proof.
  revert newDirs c k. induction dirs as [|first dirs IH]; intros newDirs c k Hk Hid Hfresh;
    [done|].
  change (fold_left readDir (first :: dirs) (newDirs, c))
    with (fold_left readDir dirs (readDir (newDirs, c) first)).
  pose proof (readDir_step newDirs c first) as Hstep. cbn zeta in Hstep.
  destruct k as [|k].
  - injection Hk as ->. rewrite Hid in Hstep. destruct Hstep as (c1 & -> & _).
    match goal with |- context [fold_left readDir dirs (?l, c1)] =>
      destruct (readDir_loop_prefix dirs l c1) as [added ->] end.
    unfold newDirRow. simpl. rewrite Nat.add_0_r, <- app_assoc.
    rewrite lookup_app_r by lia. by rewrite Nat.sub_diag.
  - simpl in Hk.
    change (take (S k) (first :: dirs)) with (first :: take k dirs) in Hfresh.
    rewrite fmap_cons in Hfresh.
    apply not_elem_of_cons in Hfresh as [Hne Hfresh].
    rewrite newDirRow_S.
    destruct (isEmpty (payloadDirId first)) eqn:Hfirst.
    + rewrite Hstep. by apply IH.
    + destruct Hstep as (c1 & -> & _ & Hkeep).
      rewrite <- (Hkeep (payloadDirId dirVal) Hid Hne).
      match goal with |- context [fold_left readDir dirs (?l, c1)] =>
        replace (length newDirs + (1 + newDirRow k dirs))%nat
          with (length l + newDirRow k dirs)%nat by (rewrite length_app; simpl; lia)
      end.
      by apply IH.
Qed.

Lemma readDirs_lookup (dirs : QJsonArray) (c : Conn.t) (k : nat) (dirVal : QJsonValue) :
  dirs !! k = Some dirVal ->
  isEmpty (payloadDirId dirVal) = false ->
  payloadDirId dirVal ∉ (payloadDirId <$> take k dirs) ->
  Conn.m_dirs (readDirs dirs c) !! newDirRow k dirs
  = Some (assignDirConfig (Json.toObject dirVal)
            (default (newSyncthingDir (payloadDirId dirVal))
               (existingDir (payloadDirId dirVal) (Conn.m_dirs c)))).
Proof.
  intros Hk Hid Hfresh. unfold readDirs.
  pose proof (readDir_loop_lookup dirs [] c k dirVal Hk Hid Hfresh) as H.
  destruct (fold_left readDir dirs ([], c)) as [newDirs c1]. exact H.
Qed.

(** ** Reconciling the configuration: devices *)

Definition payloadDevId (devVal : QJsonValue) : string :=
  Json.toString (Json.value (Json.toObject devVal) "deviceID").

(** The record [findDevInfo] points to. *)
Definition existingDev (devId : string) (devs : list SyncthingDev.t) : option SyncthingDev.t :=
  match findDevInfo devId devs with
  | Some row => devs !! row
  | None => None
  end.

(** The row of the new collection that entry [k] of the payload fills:
    the number of entries before it that carry an id. *)
Definition newDevRow (k : nat) (devs : QJsonArray) : nat :=
  length (List.filter (fun devVal => negb (isEmpty (payloadDevId devVal))) (take k devs)).

Lemma existingDev_cons (devId : string) (d : SyncthingDev.t) (rest : list SyncthingDev.t) :
  existingDev devId (d :: rest)
  = if String.eqb (SyncthingDev.id d) devId then Some d else existingDev devId rest.
Proof.
  unfold existingDev. simpl. destruct (String.eqb _ _); [done|].
  by destruct (findDevInfo devId rest).
Qed.

Lemma existingDev_moved (devId : string) (row : nat) (devs : list SyncthingDev.t) :
  isEmpty devId = false ->
  (forall d, devs !! row = Some d -> SyncthingDev.id d <> devId) ->
  existingDev devId (alter movedFromDev row devs) = existingDev devId devs.
Proof.
  intros Hne. revert row. induction devs as [|d rest IH]; intros row Hrow; [done|].
  destruct row as [|row].
  - change (alter movedFromDev 0%nat (d :: rest)) with (movedFromDev d :: rest).
    rewrite !existingDev_cons.
    assert (String.eqb (SyncthingDev.id d) devId = false) as ->.
    { apply String.eqb_neq. by apply Hrow. }
    assert (String.eqb (SyncthingDev.id (movedFromDev d)) devId = false) as ->; [|done].
    apply String.eqb_neq. cbn. intros <-. discriminate Hne.
  - change (alter movedFromDev (S row) (d :: rest)) with (d :: alter movedFromDev row rest).
    rewrite !existingDev_cons. destruct (String.eqb _ _); [done|]. apply IH. exact Hrow.
Qed.

(** One turn of the loop of [readDevs], by cases on the id of the entry. *)
Lemma readDev_step (newDevs : list SyncthingDev.t) (c : Conn.t) (devVal : QJsonValue) :
  let devId := payloadDevId devVal in
  if isEmpty devId then readDev (newDevs, c) devVal = (newDevs, c)
  else
    exists c1,
      readDev (newDevs, c) devVal
      = (newDevs
           ++ [assignDevConfig (Conn.m_myId c) (Json.toObject devVal)
                 (default (newSyncthingDev devId) (existingDev devId (Conn.m_devs c)))],
         c1)
      /\ Conn.m_myId c1 = Conn.m_myId c
      /\ forall other, isEmpty other = false -> other <> devId ->
           existingDev other (Conn.m_devs c1) = existingDev other (Conn.m_devs c).
Proof.
  intros devId. unfold readDev, addDevInfo. fold (payloadDevId devVal). fold devId.
  destruct (isEmpty devId) eqn:Hid; [done|].
  unfold existingDev.
  destruct (findDevInfo devId (Conn.m_devs c)) as [row|] eqn:Hfind.
  - destruct (findDevInfo_lookup _ _ _ Hfind) as (d & Hd & Hdid). rewrite Hd.
    eexists. rewrite updateBack_snoc. split; [reflexivity|]. split; [reflexivity|].
    intros other Hother Hne.
    change (Conn.m_devs (updateDev row movedFromDev c))
      with (alter movedFromDev row (Conn.m_devs c)).
    fold (existingDev other (alter movedFromDev row (Conn.m_devs c))).
    fold (existingDev other (Conn.m_devs c)).
    apply existingDev_moved; [done|]. intros d' Hd'. congruence.
  - eexists. rewrite updateBack_snoc. by repeat split.
Qed.

Lemma readDev_loop_prefix (devs : QJsonArray) (newDevs : list SyncthingDev.t) (c : Conn.t) :
  exists added, (fold_left readDev devs (newDevs, c)).1 = newDevs ++ added.
Proof.
  revert newDevs c. induction devs as [|devVal devs IH]; intros newDevs c.
  - exists []. by rewrite app_nil_r.
  - change (fold_left readDev (devVal :: devs) (newDevs, c))
      with (fold_left readDev devs (readDev (newDevs, c) devVal)).
    pose proof (readDev_step newDevs c devVal) as Hstep. cbn zeta in Hstep.
    destruct (isEmpty (payloadDevId devVal)).
    + rewrite Hstep. apply IH.
    + destruct Hstep as (c1 & -> & _).
      match goal with |- context [fold_left readDev devs (?l, c1)] =>
        destruct (IH l c1) as [added ->] end.
      eexists. by rewrite <- app_assoc.
Qed.

Lemma newDevRow_S (k : nat) (first : QJsonValue) (devs : QJsonArray) :
  newDevRow (S k) (first :: devs)
  = ((if isEmpty (payloadDevId first) then 0 else 1) + newDevRow k devs)%nat.
Proof. unfold newDevRow. simpl. by destruct (isEmpty _). Qed.

Lemma readDev_loop_lookup (devs : QJsonArray) (newDevs : list SyncthingDev.t) (c : Conn.t)
    (k : nat) (devVal : QJsonValue) :
  devs !! k = Some devVal ->
  isEmpty (payloadDevId devVal) = false ->
  payloadDevId devVal ∉ (payloadDevId <$> take k devs) ->
  (fold_left readDev devs (newDevs, c)).1 !! (length newDevs + newDevRow k devs)%nat
  = Some (assignDevConfig (Conn.m_myId c) (Json.toObject devVal)
            (default (newSyncthingDev (payloadDevId devVal))
               (existingDev (payloadDevId devVal) (Conn.m_devs c)))).
Proof.
  revert newDevs c k. induction devs as [|first devs IH]; intros newDevs c k Hk Hid Hfresh;
    [done|].
  change (fold_left readDev (first :: devs) (newDevs, c))
    with (fold_left readDev devs (readDev (newDevs, c) first)).
  pose proof (readDev_step newDevs c first) as Hstep. cbn zeta in Hstep.
  destruct k as [|k].
  - injection Hk as ->. rewrite Hid in Hstep. destruct Hstep as (c1 & -> & _).
    match goal with |- context [fold_left readDev devs (?l, c1)] =>
      destruct (readDev_loop_prefix devs l c1) as [added ->] end.
    unfold newDevRow. simpl. rewrite Nat.add_0_r, <- app_assoc.
    rewrite lookup_app_r by lia. by rewrite Nat.sub_diag.
  - simpl in Hk.
    change (take (S k) (first :: devs)) with (first :: take k devs) in Hfresh.
    rewrite fmap_cons in Hfresh.
    apply not_elem_of_cons in Hfresh as [Hne Hfresh].
    rewrite newDevRow_S.
    destruct (isEmpty (payloadDevId first)) eqn:Hfirst.
    + rewrite Hstep. by apply IH.
    + destruct Hstep as (c1 & -> & HmyId & Hkeep).
      rewrite <- (Hkeep (payloadDevId devVal) Hid Hne), <- HmyId.
      match goal with |- context [fold_left readDev devs (?l, c1)] =>
        replace (length newDevs + (1 + newDevRow k devs))%nat
          with (length l + newDevRow k devs)%nat by (rewrite length_app; simpl; lia)
      end.
      by apply IH.
Qed.

Lemma readDevs_lookup (devs : QJsonArray) (c : Conn.t) (k : nat) (devVal : QJsonValue) :
  devs !! k = Some devVal ->
  isEmpty (payloadDevId devVal) = false ->
  payloadDevId devVal ∉ (payloadDevId <$> take k devs) ->
  Conn.m_devs (readDevs devs c) !! newDevRow k devs
  = Some (assignDevConfig (Conn.m_myId c) (Json.toObject devVal)
            (default (newSyncthingDev (payloadDevId devVal))
               (existingDev (payloadDevId devVal) (Conn.m_devs c)))).
Proof.
  intros Hk Hid Hfresh. unfold readDevs.
  pose proof (readDev_loop_lookup devs [] c k devVal Hk Hid Hfresh) as H.
  destruct (fold_left readDev devs ([], c)) as [newDevs c1]. exact H.
Qed.

(** ** Reconciling the configuration: what is kept and what is replaced *)

(** The members of a directory that come from the configuration. *)
Definition hasDirConfig (dirObj : QJsonObject) (r : SyncthingDir.t) : Prop :=
  SyncthingDir.label r = Json.toString (Json.value dirObj "label")
  /\ SyncthingDir.path r = Json.toString (Json.value dirObj "path")
  /\ SyncthingDir.devices r = readDirDevices (Json.toArray (Json.value dirObj "devices")) []
  /\ SyncthingDir.readOnly r = Json.toBool (Json.value dirObj "readOnly") false
  /\ SyncthingDir.rescanInterval r = Json.toInt (Json.value dirObj "rescanIntervalS") (-1)
  /\ SyncthingDir.ignorePermissions r = Json.toBool (Json.value dirObj "ignorePerms") false
  /\ SyncthingDir.autoNormalize r = Json.toBool (Json.value dirObj "autoNormalize") false
  /\ SyncthingDir.minDiskFreePercentage r
     = Json.toInt (Json.value dirObj "minDiskFreePct") (-1).

(** The members of a directory the configuration does not carry: id,
    status, errors, counters, progress and last file. *)
Definition keepsDirState (old r : SyncthingDir.t) : Prop :=
  SyncthingDir.id r = SyncthingDir.id old
  /\ SyncthingDir.status r = SyncthingDir.status old
  /\ SyncthingDir.lastStatusUpdate r = SyncthingDir.lastStatusUpdate old
  /\ SyncthingDir.errors r = SyncthingDir.errors old
  /\ SyncthingDir.previousErrors r = SyncthingDir.previousErrors old
  /\ (SyncthingDir.globalBytes r, SyncthingDir.globalDeleted r, SyncthingDir.globalFiles r)
     = (SyncthingDir.globalBytes old, SyncthingDir.globalDeleted old,
        SyncthingDir.globalFiles old)
  /\ (SyncthingDir.localBytes r, SyncthingDir.localDeleted r, SyncthingDir.localFiles r)
     = (SyncthingDir.localBytes old, SyncthingDir.localDeleted old,
        SyncthingDir.localFiles old)
  /\ (SyncthingDir.neededByted r, SyncthingDir.neededFiles r)
     = (SyncthingDir.neededByted old, SyncthingDir.neededFiles old)
  /\ (SyncthingDir.progressPercentage r, SyncthingDir.progressRate r)
     = (SyncthingDir.progressPercentage old, SyncthingDir.progressRate old)
  /\ (SyncthingDir.lastScanTime r, SyncthingDir.lastFileTime r, SyncthingDir.lastFileName r,
      SyncthingDir.lastFileDeleted r)
     = (SyncthingDir.lastScanTime old, SyncthingDir.lastFileTime old,
        SyncthingDir.lastFileName old, SyncthingDir.lastFileDeleted old)
  /\ (SyncthingDir.downloadingItems r, SyncthingDir.blocksAlreadyDownloaded r,
      SyncthingDir.blocksToBeDownloaded r, SyncthingDir.downloadPercentage r,
      SyncthingDir.downloadLabel r)
     = (SyncthingDir.downloadingItems old, SyncthingDir.blocksAlreadyDownloaded old,
        SyncthingDir.blocksToBeDownloaded old, SyncthingDir.downloadPercentage old,
        SyncthingDir.downloadLabel old).

(** The members of a device that come from the configuration, and the
    status [readDevs] assigns with them. *)
Definition hasDevConfig (myId : string) (devObj : QJsonObject) (r : SyncthingDev.t) : Prop :=
  SyncthingDev.name r = Json.toString (Json.value devObj "name")
  /\ SyncthingDev.addresses r
     = map Json.toString (Json.toArray (Json.value devObj "addresses"))
  /\ SyncthingDev.compression r = Json.toString (Json.value devObj "compression")
  /\ SyncthingDev.certName r = Json.toString (Json.value devObj "certName")
  /\ SyncthingDev.introducer r = Json.toBool (Json.value devObj "introducer") false
  /\ SyncthingDev.status r
     = if String.eqb (SyncthingDev.id r) myId
       then SyncthingDevStatus.OwnDevice else SyncthingDevStatus.Unknown.

(** The members of a device the configuration does not carry, the status
    apart. *)
Definition keepsDevState (old r : SyncthingDev.t) : Prop :=
  SyncthingDev.id r = SyncthingDev.id old
  /\ SyncthingDev.paused r = SyncthingDev.paused old
  /\ SyncthingDev.totalIncomingTraffic r = SyncthingDev.totalIncomingTraffic old
  /\ SyncthingDev.totalOutgoingTraffic r = SyncthingDev.totalOutgoingTraffic old
  /\ SyncthingDev.connectionAddress r = SyncthingDev.connectionAddress old
  /\ SyncthingDev.connectionType r = SyncthingDev.connectionType old
  /\ SyncthingDev.clientVersion r = SyncthingDev.clientVersion old
  /\ SyncthingDev.lastSeen r = SyncthingDev.lastSeen old.

Lemma assignDirConfig_spec (dirObj : QJsonObject) (d : SyncthingDir.t) :
  hasDirConfig dirObj (assignDirConfig dirObj d) /\ keepsDirState d (assignDirConfig dirObj d).
Proof. split; unfold hasDirConfig, keepsDirState, assignDirConfig; cbn; repeat split. Qed.

Lemma assignDevConfig_spec (myId : string) (devObj : QJsonObject) (d : SyncthingDev.t) :
  hasDevConfig myId devObj (assignDevConfig myId devObj d)
  /\ keepsDevState d (assignDevConfig myId devObj d).
Proof. split; unfold hasDevConfig, keepsDevState, assignDevConfig; cbn; repeat split. Qed.

(** C3 (amended).  Take an entry of the payload with a non-empty id that no
    earlier entry carries.  Its record in the new collection, at the row
    the entry has among the entries with an id, has the payload's label,
    path, sharing devices and flags (for a device: name, addresses,
    compression, certificate name and introducer flag).  When a record
    with that id existed, everything else is kept: for a directory the
    status, the errors and the counters, for a device everything but the
    status, which [readDevs] sets to OwnDevice when the id is the own id
    and to Unknown otherwise.  Without such a record the new one is built
    by the constructor. *)
Theorem configuration_reconciliation (c : Conn.t) :
  (forall (dirs : QJsonArray) (k : nat) (dirVal : QJsonValue),
     dirs !! k = Some dirVal ->
     isEmpty (payloadDirId dirVal) = false ->
     payloadDirId dirVal ∉ (payloadDirId <$> take k dirs) ->
     exists r,
       Conn.m_dirs (readDirs dirs c) !! newDirRow k dirs = Some r
       /\ hasDirConfig (Json.toObject dirVal) r
       /\ match existingDir (payloadDirId dirVal) (Conn.m_dirs c) with
          | Some old => SyncthingDir.id old = payloadDirId dirVal /\ keepsDirState old r
          | None =>
              r = assignDirConfig (Json.toObject dirVal)
                    (newSyncthingDir (payloadDirId dirVal))
          end)
  /\ (forall (devs : QJsonArray) (k : nat) (devVal : QJsonValue),
     devs !! k = Some devVal ->
     isEmpty (payloadDevId devVal) = false ->
     payloadDevId devVal ∉ (payloadDevId <$> take k devs) ->
     exists r,
       Conn.m_devs (readDevs devs c) !! newDevRow k devs = Some r
       /\ hasDevConfig (Conn.m_myId c) (Json.toObject devVal) r
       /\ match existingDev (payloadDevId devVal) (Conn.m_devs c) with
          | Some old => SyncthingDev.id old = payloadDevId devVal /\ keepsDevState old r
          | None =>
              r = assignDevConfig (Conn.m_myId c) (Json.toObject devVal)
                    (newSyncthingDev (payloadDevId devVal))
          end).
Proof.
  split.
  - intros dirs k dirVal Hk Hid Hfresh.
    eexists. split; [by apply readDirs_lookup|].
    split; [exact (proj1 (assignDirConfig_spec _ _))|].
    unfold existingDir.
    destruct (findDirInfo _ _) as [row|] eqn:Hfind; [|reflexivity].
    destruct (findDirInfo_lookup _ _ _ Hfind) as (old & -> & Hold).
    split; [exact Hold|exact (proj2 (assignDirConfig_spec _ _))].
  - intros devs k devVal Hk Hid Hfresh.
    eexists. split; [by apply readDevs_lookup|].
    split; [exact (proj1 (assignDevConfig_spec _ _ _))|].
    unfold existingDev.
    destruct (findDevInfo _ _) as [row|] eqn:Hfind; [|reflexivity].
    destruct (findDevInfo_lookup _ _ _ Hfind) as (old & -> & Hold).
    split; [exact Hold|exact (proj2 (assignDevConfig_spec _ _ _))].
Qed.

(** * More of the connection *)

(** ** Lookup of entities by id and by name *)

(** [findDevInfoByName]: the row of the first device with the given name. *)
Fixpoint findDevInfoByName (devName : string) (devs : list SyncthingDev.t) : option nat :=
  match devs with
  | [] => None
  | d :: rest =>
      if String.eqb (SyncthingDev.name d) devName then Some 0%nat
      else S <$> findDevInfoByName devName rest
  end.

(** Row [row] of [l] is the first one whose key is [k]. *)
Definition firstRow {A : Type} (key : A -> string) (k : string) (l : list A) (row : nat)
  : Prop :=
  (exists x, l !! row = Some x /\ key x = k)
  /\ forall j y, (j < row)%nat -> l !! j = Some y -> key y <> k.

(** The loop the three lookups share. *)
Fixpoint findRow {A : Type} (key : A -> string) (k : string) (l : list A) : option nat :=
  match l with
  | [] => None
  | x :: rest => if String.eqb (key x) k then Some 0%nat else S <$> findRow key k rest
  end.

Lemma findRow_Some {A : Type} (key : A -> string) (k : string) (l : list A) (row : nat) :
  findRow key k l = Some row <-> firstRow key k l row.
Proof.
  revert row. induction l as [|x rest IH]; intros row; simpl.
  - split; [discriminate|]. by intros [(y & Hy & _) _].
  - destruct (String.eqb (key x) k) eqn:E.
    + apply String.eqb_eq in E. split.
      * intros [= <-]. split; [by exists x|]. intros j y Hj. lia.
      * intros [(y & Hy & Hk) Hfirst]. destruct row as [|row]; [done|].
        exfalso. apply (Hfirst 0%nat x); [lia|done|done].
    + apply String.eqb_neq in E. split.
      * destruct (findRow key k rest) as [r|] eqn:Hr; simpl; [|discriminate].
        intros [= <-]. destruct (proj1 (IH r) eq_refl) as [Hx Hfirst]. split; [exact Hx|].
        intros [|j] y Hj Hy; [by injection Hy as <-|].
        apply (Hfirst j y); [lia|exact Hy].
      * intros [(y & Hy & Hk) Hfirst]. destruct row as [|row].
        { injection Hy as <-. done. }
        assert (findRow key k rest = Some row) as ->; [|done].
        apply IH. split; [by exists y|].
        intros j z Hj Hz. apply (Hfirst (S j) z); [lia|exact Hz].
Qed.

Lemma findRow_None {A : Type} (key : A -> string) (k : string) (l : list A) :
  findRow key k l = None <-> forall x, x ∈ l -> key x <> k.
Proof.
  induction l as [|x rest IH]; simpl.
  - split; [|done]. intros _ x Hx. by apply elem_of_nil in Hx.
  - destruct (String.eqb (key x) k) eqn:E.
    + apply String.eqb_eq in E. split; [discriminate|].
      intros H. exfalso. apply (H x); [by left|done].
    + apply String.eqb_neq in E. split.
      * destruct (findRow key k rest); [discriminate|]. intros _ y Hy.
        apply elem_of_cons in Hy as [-> | Hy]; [done|]. by apply IH.
      * intros H. assert (findRow key k rest = None) as ->; [|done].
        apply IH. intros y Hy. apply H. by right.
Qed.

Lemma findDirInfo_findRow (dirId : string) (dirs : list SyncthingDir.t) :
  findDirInfo dirId dirs = findRow SyncthingDir.id dirId dirs.
Proof. induction dirs as [|d rest IH]; simpl; [done|]. by rewrite IH. Qed.

Lemma findDevInfo_findRow (devId : string) (devs : list SyncthingDev.t) :
  findDevInfo devId devs = findRow SyncthingDev.id devId devs.
Proof. induction devs as [|d rest IH]; simpl; [done|]. by rewrite IH. Qed.

Lemma findDevInfoByName_findRow (devName : string) (devs : list SyncthingDev.t) :
  findDevInfoByName devName devs = findRow SyncthingDev.name devName devs.
Proof. induction devs as [|d rest IH]; simpl; [done|]. by rewrite IH. Qed.

(** X1.  [findDirInfo], [findDevInfo] and [findDevInfoByName] return the
    row of the first entity whose id (name) equals the key: the entity in
    that row matches and none before it does; they return nothing exactly
    when no entity of the collection matches. *)
Theorem lookups_return_first_match (k : string) (dirs : list SyncthingDir.t)
    (devs : list SyncthingDev.t) :
  (forall row, findDirInfo k dirs = Some row <-> firstRow SyncthingDir.id k dirs row)
  /\ (findDirInfo k dirs = None <-> forall d, d ∈ dirs -> SyncthingDir.id d <> k)
  /\ (forall row, findDevInfo k devs = Some row <-> firstRow SyncthingDev.id k devs row)
  /\ (findDevInfo k devs = None <-> forall d, d ∈ devs -> SyncthingDev.id d <> k)
  /\ (forall row,
        findDevInfoByName k devs = Some row <-> firstRow SyncthingDev.name k devs row)
  /\ (findDevInfoByName k devs = None <-> forall d, d ∈ devs -> SyncthingDev.name d <> k).
Proof.
  rewrite findDirInfo_findRow, findDevInfo_findRow, findDevInfoByName_findRow.
  refine (conj _ (conj _ (conj _ (conj _ (conj _ _)))));
    first [intros row; apply findRow_Some | apply findRow_None].
Qed.

(** ** The bookkeeping of [setStatus] *)

Lemma checkDirs_synced (dirs : list SyncthingDir.t) (row : nat) (scanning synchronizing : bool)
    (syncedDirs : list nat) :
  let synced' := (checkDirs dirs row scanning synchronizing syncedDirs).2 in
  (forall r, r ∈ synced' <->
     r ∈ syncedDirs
     \/ ((row <= r)%nat
         /\ exists d, dirs !! (r - row)%nat = Some d
              /\ SyncthingDir.status d = SyncthingDirStatus.Synchronizing))
  /\ (NoDup syncedDirs -> NoDup synced')
  /\ (anyDirHasStatus SyncthingDirStatus.Synchronizing dirs = false -> synced' = syncedDirs).
Proof.
  revert row scanning synchronizing syncedDirs.
  induction dirs as [|d rest IH]; intros row sc sy sd; cbn zeta.
  - simpl. split; [|done]. intros r. split; [by left|].
    intros [H | (_ & d & Hd & _)]; [done|discriminate].
  - assert (forall r d', (S row <= r)%nat ->
              (d :: rest) !! (r - row)%nat = Some d' <-> rest !! (r - S row)%nat = Some d')
      as Hshift.
    { intros r d' Hr. replace (r - row)%nat with (S (r - S row)) by lia. done. }
    simpl.
    destruct (SyncthingDirStatus.eqb (SyncthingDir.status d) SyncthingDirStatus.Synchronizing)
      eqn:Esync.
    + apply SyncthingDirStatus.dirStatus_eqb_eq in Esync.
      match goal with |- context [checkDirs rest (S row) sc true ?l] =>
        destruct (IH (S row) sc true l) as (Hin & Hnodup & _); set (sd1 := l) in * end.
      assert (forall r, r ∈ sd1 <-> r ∈ sd \/ r = row) as Hsd1.
      { intros r. unfold sd1. case_bool_decide as Hrow.
        - split; [by left|]. by intros [H | ->].
        - rewrite elem_of_app, list_elem_of_singleton. done. }
      split; [|split].
      * intros r. rewrite Hin, Hsd1. split.
        -- intros [[H | ->] | (Hr & d' & Hd' & Hs)].
           ++ by left.
           ++ right. split; [lia|]. exists d. by rewrite Nat.sub_diag.
           ++ right. split; [lia|]. exists d'. split; [|done]. by apply Hshift.
        -- intros [H | (Hr & d' & Hd' & Hs)]; [by left; left|].
           destruct (decide (r = row)) as [-> | Hne]; [by left; right|].
           right. split; [lia|]. exists d'. split; [|done]. apply Hshift; [lia|done].
      * intros Hnd. apply Hnodup. unfold sd1. case_bool_decide as Hrow; [done|].
        apply NoDup_app. split; [done|]. split; [|apply NoDup_singleton].
        intros x Hx Hx'. apply list_elem_of_singleton in Hx' as ->. done.
      * discriminate.
    + assert (SyncthingDir.status d <> SyncthingDirStatus.Synchronizing) as Hd.
      { by apply SyncthingDirStatus.dirStatus_eqb_neq. }
      assert (forall sc', let synced' := (checkDirs rest (S row) sc' sy sd).2 in
                (forall r, r ∈ synced' <->
                   r ∈ sd
                   \/ ((row <= r)%nat
                       /\ exists d', (d :: rest) !! (r - row)%nat = Some d'
                            /\ SyncthingDir.status d' = SyncthingDirStatus.Synchronizing))
                /\ (NoDup sd -> NoDup synced')
                /\ (anyDirHasStatus SyncthingDirStatus.Synchronizing rest = false
                    -> synced' = sd)) as Hrest.
      { intros sc'. destruct (IH (S row) sc' sy sd) as (Hin & Hnodup & Hnone).
        split; [|by split]. intros r. rewrite Hin. split.
        - intros [H | (Hr & d' & Hd' & Hs)]; [by left|].
          right. split; [lia|]. exists d'. split; [|done]. by apply Hshift.
        - intros [H | (Hr & d' & Hd' & Hs)]; [by left|].
          destruct (decide (r = row)) as [-> | Hne].
          { rewrite Nat.sub_diag in Hd'. injection Hd' as <-. done. }
          right. split; [lia|]. exists d'. split; [|done]. apply Hshift; [lia|done]. }
      destruct (SyncthingDirStatus.eqb (SyncthingDir.status d) SyncthingDirStatus.Scanning);
        apply Hrest.
Qed.

Lemma setStatus_signals (requested : SyncthingStatus.t) (c : Conn.t) :
  let c' := setStatus requested c in
  Conn.emitted c'
    = Conn.emitted c
      ++ (if SyncthingStatus.eqb (Conn.m_status c) (Conn.m_status c') then []
          else [Signal.statusChanged (Conn.m_status c')])
  /\ (Conn.m_status c' = SyncthingStatus.BeingDestroyed
      <-> Conn.m_status c = SyncthingStatus.BeingDestroyed).
Proof.
  unfold setStatus.
  destruct (SyncthingStatus.eqb (Conn.m_status c) SyncthingStatus.BeingDestroyed) eqn:Ebd.
  - cbn zeta. split; [|done].
    apply SyncthingStatus.status_eqb_eq in Ebd. rewrite Ebd. cbn. by rewrite app_nil_r.
  - apply SyncthingStatus.status_eqb_neq in Ebd.
    destruct requested; cbn; setStatus_cases;
      repeat match goal with
        | H : SyncthingStatus.eqb _ _ = true |- _ =>
            apply SyncthingStatus.status_eqb_eq in H
        | H : SyncthingStatus.eqb _ _ = false |- _ =>
            apply SyncthingStatus.status_eqb_neq in H
        end;
      (split; [|split; [try discriminate; done | by intros ?]]);
      try (by rewrite app_nil_r);
      try (match goal with H : Conn.m_status c = _ |- _ => rewrite H end; cbn;
           by rewrite app_nil_r);
      try (destruct (Conn.m_status c); cbn; done).
Qed.

(** X2.  [setStatus] emits [statusChanged] exactly when the stored status
    changes, once and with the new status, and emits nothing else; it
    neither enters nor leaves the status BeingDestroyed. *)
Theorem setStatus_announces_every_change (requested : SyncthingStatus.t) (c : Conn.t) :
  let c' := setStatus requested c in
  Conn.emitted c'
    = Conn.emitted c
      ++ (if SyncthingStatus.eqb (Conn.m_status c) (Conn.m_status c') then []
          else [Signal.statusChanged (Conn.m_status c')])
  /\ (Conn.m_status c' = SyncthingStatus.BeingDestroyed
      <-> Conn.m_status c = SyncthingStatus.BeingDestroyed).
Proof. exact (setStatus_signals requested c). Qed.

(** X3.  What [setStatus] does with the lists of synchronizing and of
    completed directories.  While the overall status is Synchronizing,
    [m_syncedDirs] collects the rows of the directories seen synchronizing
    (without repeating a row) and [m_completedDirs] is left alone.  When the
    status is derived as Scanning or Idle the collected rows become
    [m_completedDirs]; Paused discards them; Disconnected and Reconnecting
    clear [m_syncedDirs] only.  The number of reconnect tries is reset
    whenever the status is derived. *)
Theorem setStatus_tracks_synchronized_dirs (requested : SyncthingStatus.t) (c : Conn.t) :
  Conn.m_status c <> SyncthingStatus.BeingDestroyed ->
  let c' := setStatus requested c in
  match Conn.m_status c' with
  | SyncthingStatus.Disconnected | SyncthingStatus.Reconnecting =>
      Conn.m_syncedDirs c' = []
      /\ Conn.m_completedDirs c' = Conn.m_completedDirs c
      /\ Conn.m_autoReconnectTries c' = Conn.m_autoReconnectTries c
  | SyncthingStatus.Synchronizing =>
      (forall row, row ∈ Conn.m_syncedDirs c' <->
         row ∈ Conn.m_syncedDirs c
         \/ exists d, Conn.m_dirs c !! row = Some d
              /\ SyncthingDir.status d = SyncthingDirStatus.Synchronizing)
      /\ (NoDup (Conn.m_syncedDirs c) -> NoDup (Conn.m_syncedDirs c'))
      /\ Conn.m_completedDirs c' = Conn.m_completedDirs c
      /\ Conn.m_autoReconnectTries c' = 0
  | SyncthingStatus.Paused =>
      Conn.m_syncedDirs c' = [] /\ Conn.m_completedDirs c' = []
      /\ Conn.m_autoReconnectTries c' = 0
  | SyncthingStatus.Scanning | SyncthingStatus.Idle =>
      Conn.m_syncedDirs c' = [] /\ Conn.m_completedDirs c' = Conn.m_syncedDirs c
      /\ Conn.m_autoReconnectTries c' = 0
  | SyncthingStatus.BeingDestroyed => False
  end.
Proof.
  intros Hbd. apply SyncthingStatus.status_eqb_neq in Hbd.
  unfold setStatus. rewrite Hbd.
  pose proof (checkDirs_flags (Conn.m_dirs c) 0 false false (Conn.m_syncedDirs c))
    as [Hsc Hsy].
  pose proof (checkDirs_synced (Conn.m_dirs c) 0 false false (Conn.m_syncedDirs c))
    as (Hin & Hnodup & Hnone).
  rewrite !orb_false_l in Hsc, Hsy.
  assert (forall l : list nat,
            (forall r, r ∈ l <->
               r ∈ Conn.m_syncedDirs c
               \/ ((0 <= r)%nat
                   /\ exists d, Conn.m_dirs c !! (r - 0)%nat = Some d
                        /\ SyncthingDir.status d = SyncthingDirStatus.Synchronizing)) ->
            forall row, row ∈ l <->
              row ∈ Conn.m_syncedDirs c
              \/ exists d, Conn.m_dirs c !! row = Some d
                   /\ SyncthingDir.status d = SyncthingDirStatus.Synchronizing) as Hrows.
  { intros l Hl row. rewrite Hl, Nat.sub_0_r. split.
    - intros [H | [_ H]]; [by left|by right].
    - intros [H | H]; [by left|]. right. split; [lia|done]. }
  destruct requested; cbn;
    try (destruct (SyncthingStatus.eqb (Conn.m_status c) _) eqn:E; cbn;
         [apply SyncthingStatus.status_eqb_eq in E; rewrite E|]; done);
    destruct (checkDirs _ _ _ _ _) as [[sc sy] sd]; cbn [fst snd] in *;
    subst sc sy;
    destruct (anyDirHasStatus SyncthingDirStatus.Synchronizing (Conn.m_dirs c)) eqn:Esy;
    destruct (anyDirHasStatus SyncthingDirStatus.Scanning (Conn.m_dirs c)) eqn:Esc;
    cbn;
    try destruct (anyDevPaused (Conn.m_devs c)); cbn;
    try (rewrite (Hnone eq_refl));
    match goal with
    | |- context [if SyncthingStatus.eqb (Conn.m_status c) ?s then _ else _] =>
        destruct (SyncthingStatus.eqb (Conn.m_status c) s) eqn:E; cbn;
        [apply SyncthingStatus.status_eqb_eq in E; rewrite E|]
    end;
    first [done | by (split; [by apply Hrows|done])].
Qed.

(** ** What the handlers of the events leave alone *)

(** The members no handler of an event assigns, together with the error
    notifications raised so far, the requests issued so far other than
    those for the configuration, and whether the connection is being
    destroyed. *)
Definition isOtherRequest (s : Signal.t) : bool :=
  match s with
  | Signal.httpGet _ path _ => negb (String.eqb path "system/config")
  | _ => false
  end.

Definition session (c : Conn.t) :=
  (Conn.m_syncthingUrl c, Conn.m_apiKey c, Conn.m_keepPolling c, Conn.m_reconnecting c,
   Conn.m_hasConfig c, Conn.m_hasStatus c,
   (Conn.m_trafficPollInterval c, Conn.m_devStatsPollInterval c,
    Conn.m_autoReconnectInterval c, Conn.m_autoReconnectTimerActive c),
   (Conn.m_totalIncomingTraffic c, Conn.m_totalOutgoingTraffic c,
    Conn.m_totalIncomingRate c, Conn.m_totalOutgoingRate c),
   (Conn.m_statusReply c, Conn.m_connectionsReply c, Conn.m_errorsReply c,
    Conn.m_eventsReply c),
   (Conn.m_lastConnectionsUpdate c, Conn.m_lastErrorTime c),
   SyncthingStatus.eqb (Conn.m_status c) SyncthingStatus.BeingDestroyed,
   errorsEmitted c,
   List.filter isOtherRequest (Conn.emitted c)).

Lemma session_emit (s : Signal.t) (c : Conn.t) :
  Signal.isError s = false -> isOtherRequest s = false -> session (emit s c) = session c.
Proof.
  intros H1 H2. unfold session, errorsEmitted, emit. cbn.
  rewrite !List.filter_app. cbn. rewrite H1, H2. by rewrite !app_nil_r.
Qed.

Lemma session_setStatus (status : SyncthingStatus.t) (c : Conn.t) :
  session (setStatus status c) = session c.
Proof.
  pose proof (setStatus_signals status c) as [Hemitted Hbd].
  pose proof (setStatus_errorsEmitted status c) as Herr.
  unfold session. rewrite Herr.
  assert (SyncthingStatus.eqb (Conn.m_status (setStatus status c))
            SyncthingStatus.BeingDestroyed
          = SyncthingStatus.eqb (Conn.m_status c) SyncthingStatus.BeingDestroyed) as ->.
  { destruct (SyncthingStatus.eqb (Conn.m_status c) SyncthingStatus.BeingDestroyed) eqn:E.
    - apply SyncthingStatus.status_eqb_eq. apply Hbd.
      by apply SyncthingStatus.status_eqb_eq.
    - apply SyncthingStatus.status_eqb_neq. intros H. apply Hbd in H.
      by apply SyncthingStatus.status_eqb_neq in E. }
  assert (List.filter isOtherRequest (Conn.emitted (setStatus status c))
          = List.filter isOtherRequest (Conn.emitted c)) as ->.
  { rewrite Hemitted, List.filter_app.
    destruct (SyncthingStatus.eqb _ _); cbn; by rewrite app_nil_r. }
  by rewrite (setStatus_footprint status c).
Qed.

Lemma session_emitNotification (when : DateTime) (msg : string) (c : Conn.t) :
  session (emitNotification when msg c) = session c.
Proof.
  unfold emitNotification. cbn zeta.
  rewrite session_emit by reflexivity. by rewrite session_setStatus.
Qed.

Lemma session_callOnDir (index : nat) (f : SyncthingDir.t -> bool * SyncthingDir.t)
    (c : Conn.t) :
  session (callOnDir index f c).2 = session c.
Proof.
  unfold callOnDir. destruct (Conn.m_dirs c !! index); [|done]. by destruct (f _).
Qed.

Lemma session_requestConfig (c : Conn.t) : session (requestConfig c) = session c.
Proof.
  unfold requestConfig, requestData. cbn zeta.
  change (session (Conn.set_m_configReply ?r ?c)) with (session c).
  by rewrite session_emit by reflexivity.
Qed.

Lemma session_fold_left {A : Type} (f : Conn.t -> A -> Conn.t) (l : list A) (c : Conn.t) :
  (forall c a, session (f c a) = session c) -> session (fold_left f l c) = session c.
Proof.
  intros Hf. revert c. induction l as [|a l IH]; intros c; simpl; [done|].
  by rewrite IH, Hf.
Qed.

Lemma session_forEachIndex (n : nat) (body : nat -> Conn.t -> Conn.t) (c : Conn.t) :
  (forall index c, session (body index c) = session c) ->
  session (forEachIndex n body c) = session c.
Proof. intros Hbody. unfold forEachIndex. by apply session_fold_left. Qed.

Ltac session_cases :=
  repeat match goal with
    | |- session (if ?b then _ else _) = _ => destruct b
    | |- session (match ?o with Some _ => _ | None => _ end) = _ => destruct o
    | |- session (let '(_, _) := ?p in _) = _ => destruct p
    end.

Ltac session_setters :=
  first
    [ progress change (session (Conn.set_m_myId ?v ?c)) with (session c)
    | progress change (session (Conn.set_m_configDir ?v ?c)) with (session c)
    | progress change (session (Conn.set_m_lastFileDeleted ?v ?c)) with (session c)
    | progress change (session (Conn.set_m_lastFileName ?v ?c)) with (session c)
    | progress change (session (Conn.set_m_lastFileTime ?v ?c)) with (session c)
    | progress change (session (Conn.set_m_dirs ?v ?c)) with (session c)
    | progress change (session (Conn.set_m_devs ?v ?c)) with (session c)
    | progress change (session (updateDir ?i ?f ?c)) with (session c)
    | progress change (session (updateDev ?i ?f ?c)) with (session c)
    | progress change (session (Conn.set_m_unreadNotifications ?v ?c)) with (session c)
    | progress change (session (Conn.set_m_lastEventId ?v ?c)) with (session c) ].

Ltac session_solve :=
  repeat first
    [ reflexivity
    | session_setters
    | rewrite session_emit by reflexivity
    | rewrite session_emitNotification
    | rewrite session_setStatus
    | rewrite session_requestConfig
    | rewrite session_callOnDir ].

Lemma session_readStartingEvent (eventData : QJsonObject) (c : Conn.t) :
  session (readStartingEvent eventData c) = session c.
Proof.
  unfold readStartingEvent. cbn zeta.
  destruct (String.eqb _ (Conn.m_configDir c)); destruct (String.eqb _ _); session_solve.
Qed.

Lemma session_readStatusChangedEvent (eventTime : DateTime) (eventData : QJsonObject)
    (c : Conn.t) :
  session (readStatusChangedEvent eventTime eventData c) = session c.
Proof.
  unfold readStatusChangedEvent. cbn zeta.
  destruct (isEmpty _); [done|].
  destruct (findDirInfo _ _) as [index|]; [|by rewrite session_requestConfig].
  pose proof (session_callOnDir index
    (assignStatusString (Json.toString (Json.value eventData "to")) eventTime) c) as H.
  destruct (callOnDir _ _ _) as [[] c']; simpl in H; [|done].
  by rewrite session_emit by reflexivity.
Qed.

Lemma session_readDownloadProgressEvent (eventTime : DateTime) (eventData : QJsonObject)
    (c : Conn.t) :
  session (readDownloadProgressEvent eventTime eventData c) = session c.
Proof.
  unfold readDownloadProgressEvent. cbn zeta. rewrite session_emit by reflexivity.
  by apply session_forEachIndex.
Qed.

Lemma session_readFolderError (eventTime : DateTime) (index : nat) (c : Conn.t)
    (errorVal : QJsonValue) :
  session (readFolderError eventTime index c errorVal) = session c.
Proof.
  unfold readFolderError. cbn zeta.
  destruct (Json.isEmptyObject _); [done|].
  destruct (Conn.m_dirs c !! index); [|done].
  destruct (bool_decide _); [done|].
  match goal with |- context [callOnDir ?i ?f ?c0] =>
    pose proof (session_callOnDir i f c0) as H; revert H;
    generalize (callOnDir i f c0).2 end.
  intros c1 H. change (session (updateDir ?i ?f c)) with (session c) in H.
  destruct (Conn.m_dirs c1 !! index); [|done].
  destruct (last _); [|done]. destruct (bool_decide _); [done|].
  by rewrite session_emitNotification.
Qed.

Lemma session_readDirEvent (eventTime : DateTime) (eventType : string)
    (eventData : QJsonObject) (c : Conn.t) :
  session (readDirEvent eventTime eventType eventData c) = session c.
Proof.
  unfold readDirEvent. cbn zeta.
  destruct (isEmpty _); [done|]. destruct (findDirInfo _ _) as [index|]; [|done].
  destruct (String.eqb eventType "FolderErrors").
  { destruct (Json.toArray _) as [|e errors] eqn:E; [done|].
    rewrite session_emit by reflexivity.
    apply session_fold_left. intros. apply session_readFolderError. }
  destruct (String.eqb eventType "FolderSummary").
  { destruct (Json.isEmptyObject _); [done|]. by rewrite session_emit by reflexivity. }
  destruct (String.eqb eventType "FolderCompletion"); [done|].
  destruct (String.eqb eventType "FolderScanProgress"); [|done].
  destruct (_ && _); [|done].
  rewrite session_emit by reflexivity. by rewrite session_callOnDir.
Qed.

Lemma session_readDeviceEvent (eventTime : DateTime) (eventType : string)
    (eventData : QJsonObject) (c : Conn.t) :
  session (readDeviceEvent eventTime eventType eventData c) = session c.
Proof. unfold readDeviceEvent. cbn zeta. session_cases; session_solve. Qed.

Lemma session_readItemFinished (eventTime : DateTime) (eventData : QJsonObject)
    (c : Conn.t) :
  session (readItemFinished eventTime eventData c) = session c.
Proof.
  unfold readItemFinished. cbn zeta. session_cases; session_solve.
  by destruct (_ <? _).
Qed.

Lemma session_readEvent (c : Conn.t) (eventVal : QJsonValue) :
  session (readEvent c eventVal) = session c.
Proof.
  unfold readEvent. cbn zeta.
  set (c1 := Conn.set_m_lastEventId _ c).
  change (session c) with (session c1). generalize c1. clear c1. intros c1.
  repeat match goal with
    | |- session (if ?b then _ else _) = _ => destruct b
    end;
    auto using session_readStartingEvent, session_readStatusChangedEvent,
      session_readDownloadProgressEvent, session_readDirEvent,
      session_readDeviceEvent, session_readItemFinished, session_requestConfig.
Qed.

Lemma session_readEvent_loop (events : QJsonArray) (c : Conn.t) :
  session (fold_left readEvent events c) = session c.
Proof. apply session_fold_left. apply session_readEvent. Qed.

(** X4.  Processing the events of a reply changes none of the members
    listed in [session]: URL, API key, the flags for polling, reconnecting
    and readiness, the intervals and the reconnect timer, the traffic
    totals and rates, the handles of the status, connections, errors and
    events requests, the times of the last connections update and of the
    last error.  It raises no error notification, issues no request other
    than for the configuration, and does not change whether the connection
    is being destroyed. *)
Theorem events_leave_the_session_alone (events : QJsonArray) (c : Conn.t) :
  let c' := fold_left readEvent events c in
  session c' = session c
  /\ errorsEmitted c' = errorsEmitted c
  /\ (forall r path query,
        In (Signal.httpGet r path query) (Conn.emitted c') ->
        In (Signal.httpGet r path query) (Conn.emitted c) \/ path = "system/config")
  /\ (Conn.m_status c' = SyncthingStatus.BeingDestroyed
      <-> Conn.m_status c = SyncthingStatus.BeingDestroyed).
Proof.
  cbn zeta. pose proof (session_readEvent_loop events c) as H.
  split; [exact H|]. unfold session in H.
  injection H as _ _ _ _ _ _ _ _ _ _ _ _ _ _ _ _ _ _ _ _ Hbd Herr Hreq.
  split; [exact Herr|]. split.
  - intros r path query Hin.
    destruct (String.eqb path "system/config") eqn:E;
      [right; by apply String.eqb_eq|left].
    assert (In (Signal.httpGet r path query)
              (List.filter isOtherRequest (Conn.emitted (fold_left readEvent events c))))
      as Hin'.
    { apply List.filter_In. split; [exact Hin|]. cbn. by rewrite E. }
    rewrite Hreq in Hin'. by apply List.filter_In in Hin' as [Hin' _].
  - split; intros Hs; apply SyncthingStatus.status_eqb_eq;
      apply SyncthingStatus.status_eqb_eq in Hs; congruence.
Qed.

(** ** The events request *)

Lemma requestsIssued_emit (s : Signal.t) (c : Conn.t) :
  requestsIssued (emit s c) = requestsIssued c ++ (if Signal.isRequest s then [s] else []).
Proof.
  unfold requestsIssued, emit. cbn. rewrite List.filter_app. cbn.
  by destruct (Signal.isRequest s).
Qed.

Lemma setStatus_requestsIssued (status : SyncthingStatus.t) (c : Conn.t) :
  requestsIssued (setStatus status c) = requestsIssued c.
Proof.
  unfold requestsIssued.
  destruct (setStatus_emitted status c) as [-> | ->]; [done|].
  rewrite List.filter_app. cbn. by rewrite app_nil_r.
Qed.

(** The query of the events request: [since] is passed unless the last
    event id is 0. *)
Definition eventsQuery (lastEventId : Z) : list (string * string) :=
  if lastEventId =? 0 then [] else [("since", number lastEventId)].

Lemma requestEvents_spec (c : Conn.t) :
  let c' := requestEvents c in
  c' = Conn.set_m_eventsReply (Some (Conn.nextReply c))
         (emit (Signal.httpGet (Conn.nextReply c) "events" (eventsQuery (Conn.m_lastEventId c)))
            (Conn.set_nextReply (S (Conn.nextReply c)) c)).
Proof. reflexivity. Qed.

(** X5.  After the events of a successfully parsed reply are processed
    while polling is on, [readEvents] asks for the next events at once,
    passing the last event id as [since] (nothing when it is 0), keeps the
    handle of that request, raises no error notification, and leaves the
    overall status derived from the directories and devices as they are
    after the events. *)
Theorem readEvents_polls_again (reply : Reply) (doc : QJsonDocument) (c : Conn.t) :
  replyError reply = NoError ->
  fromJson reply = inr doc ->
  Conn.m_keepPolling c = true ->
  Conn.m_status c <> SyncthingStatus.BeingDestroyed ->
  let c' := readEvents reply c in
  Conn.m_status c' = aggregateStatus (Conn.m_dirs c') (Conn.m_devs c')
  /\ (exists r,
        Conn.m_eventsReply c' = Some r
        /\ Conn.nextReply c' = S r
        /\ last (requestsIssued c')
           = Some (Signal.httpGet r "events" (eventsQuery (Conn.m_lastEventId c'))))
  /\ errorsEmitted c' = errorsEmitted c.
Proof.
  intros Herror Hjson Hkeep Hbd. unfold readEvents. rewrite Herror, Hjson. cbn zeta.
  set (c0 := if isReply _ _ then _ else c).
  assert (Conn.m_keepPolling c0 = Conn.m_keepPolling c
          /\ Conn.m_status c0 = Conn.m_status c
          /\ errorsEmitted c0 = errorsEmitted c) as (Hkeep0 & Hstatus0 & Herr0).
  { unfold c0. by destruct (isReply _ _). }
  set (c2 := fold_left readEvent (docArray doc) (emit (Signal.newEvents (docArray doc)) c0)).
  pose proof (session_readEvent_loop (docArray doc) (emit (Signal.newEvents (docArray doc)) c0))
    as Hs.
  rewrite session_emit in Hs by reflexivity. fold c2 in Hs. unfold session in Hs.
  injection Hs as _ _ Hkeep2 _ _ _ _ _ _ _ _ _ _ _ _ _ _ _ _ _ Hbd2 Herr2 _.
  unfold keepPollingEvents. rewrite Hkeep2, Hkeep0, Hkeep.
  pose proof (requestEvents_spec c2) as Hc3. cbn zeta in Hc3.
  remember (requestEvents c2) as c3 eqn:E3 in *. clear E3.
  assert (Conn.m_status c3 <> SyncthingStatus.BeingDestroyed) as Hbd3.
  { rewrite Hc3. cbn. apply SyncthingStatus.status_eqb_neq. rewrite Hbd2, Hstatus0.
    by apply SyncthingStatus.status_eqb_neq. }
  destruct (setStatus_entities SyncthingStatus.Idle c3) as [-> ->].
  split.
  { apply setStatus_recomputed. by apply recomputes_true. }
  split.
  { exists (Conn.nextReply c2).
    rewrite setStatus_requestsIssued.
    split; [by rewrite (setStatus_footprint SyncthingStatus.Idle c3), Hc3|].
    split; [by rewrite (setStatus_footprint SyncthingStatus.Idle c3), Hc3|].
    rewrite setStatus_lastEventId. rewrite Hc3.
    change (requestsIssued (Conn.set_m_eventsReply ?r ?c)) with (requestsIssued c).
    rewrite requestsIssued_emit. cbn [Signal.isRequest]. by rewrite last_snoc. }
  rewrite setStatus_errorsEmitted, Hc3.
  change (errorsEmitted (Conn.set_m_eventsReply ?r ?c)) with (errorsEmitted c).
  rewrite errorsEmitted_emit. cbn. rewrite app_nil_r.
  change (errorsEmitted (Conn.set_nextReply ?r ?c)) with (errorsEmitted c).
  exact (eq_trans Herr2 Herr0).
Qed.

(** ** Failed requests *)

(** The step from [c] to [c'] reports [err] and gives the connection up:
    the status becomes Disconnected (announced if it was not), the list of
    synchronizing directories is cleared, the reconnect timer is started
    if its interval is not 0; nothing else is emitted and the entities
    stay. *)
Definition givesUp (err : Signal.t) (c c' : Conn.t) : Prop :=
  Conn.m_status c' = SyncthingStatus.Disconnected
  /\ Conn.emitted c'
     = Conn.emitted c ++ [err]
       ++ (if SyncthingStatus.eqb (Conn.m_status c) SyncthingStatus.Disconnected then []
           else [Signal.statusChanged SyncthingStatus.Disconnected])
  /\ Conn.m_autoReconnectTimerActive c'
     = (if Conn.m_autoReconnectInterval c =? 0 then Conn.m_autoReconnectTimerActive c
        else true)
  /\ Conn.m_syncedDirs c' = []
  /\ Conn.m_dirs c' = Conn.m_dirs c
  /\ Conn.m_devs c' = Conn.m_devs c
  /\ Conn.m_keepPolling c' = Conn.m_keepPolling c.

Lemma givesUp_intro (err : Signal.t) (c0 c : Conn.t) :
  Conn.m_status c <> SyncthingStatus.BeingDestroyed ->
  Conn.m_status c0 = Conn.m_status c ->
  Conn.emitted c0 = Conn.emitted c ->
  Conn.m_autoReconnectInterval c0 = Conn.m_autoReconnectInterval c ->
  Conn.m_autoReconnectTimerActive c0 = Conn.m_autoReconnectTimerActive c ->
  Conn.m_dirs c0 = Conn.m_dirs c ->
  Conn.m_devs c0 = Conn.m_devs c ->
  Conn.m_keepPolling c0 = Conn.m_keepPolling c ->
  givesUp err c (armAutoReconnect (setStatus SyncthingStatus.Disconnected (emit err c0))).
Proof.
  intros Hbd Hstatus Hemitted Hinterval Htimer Hdirs Hdevs Hkeep.
  rewrite <- Hstatus in Hbd. apply SyncthingStatus.status_eqb_neq in Hbd.
  unfold givesUp.
  rewrite <- Hinterval, <- Htimer, <- Hdirs, <- Hdevs, <- Hkeep, <- Hemitted, <- Hstatus.
  unfold armAutoReconnect, setStatus.
  cbn [emit Conn.m_status Conn.set_emitted]. rewrite Hbd. cbn.
  destruct (SyncthingStatus.eqb (Conn.m_status c0) SyncthingStatus.Disconnected) eqn:E; cbn;
    destruct (Conn.m_autoReconnectInterval c0 =? 0); cbn;
    rewrite <- ?app_assoc; repeat split; try done.
  all: by apply SyncthingStatus.status_eqb_eq in E.
Qed.

(** X6.  A failed request for the configuration (any transport error but
    the cancellation) and a failed or unparsable reply to the events
    request report one error and give the connection up: Disconnected,
    with the reconnect timer started exactly if its interval is not 0. *)
Theorem failed_config_or_events_request_disconnects (reply : Reply) (c : Conn.t) :
  Conn.m_status c <> SyncthingStatus.BeingDestroyed ->
  (replyError reply = TimeoutError \/ replyError reply = OtherNetworkError ->
   givesUp (Signal.error ("Unable to request Syncthing config: " +:+ errorString reply)
              OverallConnection) c (readConfig reply c))
  /\ (replyError reply = OtherNetworkError ->
      givesUp (Signal.error ("Unable to request Syncthing events: " +:+ errorString reply)
                 OverallConnection) c (readEvents reply c))
  /\ (forall jsonError,
        replyError reply = NoError -> fromJson reply = inl jsonError ->
        givesUp (Signal.error ("Unable to parse Syncthing events: " +:+ jsonError) Parsing)
          c (readEvents reply c)).
Proof.
  intros Hbd. split; [|split].
  - intros Herror. unfold readConfig.
    destruct Herror as [Herror | Herror]; rewrite Herror; cbn zeta;
      destruct (isReply _ _); by apply givesUp_intro.
  - intros Herror. unfold readEvents. rewrite Herror. cbn zeta.
    destruct (isReply _ _); by apply givesUp_intro.
  - intros jsonError Herror Hjson. unfold readEvents. rewrite Herror, Hjson. cbn zeta.
    destruct (isReply _ _); by apply givesUp_intro.
Qed.

(** The step from [c] to [c'] reports [err] and does nothing else that
    shows: no other signal, the status, the reconnect timer, the polling
    flag, the readiness flags and the entities as before. *)
Definition onlyReports (err : Signal.t) (c c' : Conn.t) : Prop :=
  Conn.emitted c' = Conn.emitted c ++ [err]
  /\ Conn.m_status c' = Conn.m_status c
  /\ Conn.m_autoReconnectTimerActive c' = Conn.m_autoReconnectTimerActive c
  /\ Conn.m_keepPolling c' = Conn.m_keepPolling c
  /\ Conn.m_hasConfig c' = Conn.m_hasConfig c
  /\ Conn.m_hasStatus c' = Conn.m_hasStatus c
  /\ Conn.m_dirs c' = Conn.m_dirs c
  /\ Conn.m_devs c' = Conn.m_devs c.

(** X7.  A failed request for the status, the connections, the directory
    statistics, the device statistics or the errors only reports the
    failure, category OverallConnection: the status stays, the reconnect
    timer is not started, and the request is not scheduled again.  An
    unparsable reply to the configuration, status, connections or
    statistics request only reports a Parsing error. *)
Theorem failed_polls_only_report (now now1 now2 : DateTime) (reply : Reply) (c : Conn.t) :
  (replyError reply = TimeoutError \/ replyError reply = OtherNetworkError ->
   let failure (what : string) : Signal.t :=
     Signal.error ("Unable to request " +:+ what +:+ ": " +:+ errorString reply)
       OverallConnection in
   onlyReports (failure "Syncthing status") c (readStatus reply c)
   /\ onlyReports (failure "connections") c (readConnections now1 now2 reply c)
   /\ onlyReports (failure "directory statistics") c (readDirStatistics reply c)
   /\ onlyReports (failure "device statistics") c (readDeviceStatistics reply c)
   /\ onlyReports (failure "errors") c (readErrors now reply c))
  /\ (forall jsonError,
        replyError reply = NoError -> fromJson reply = inl jsonError ->
        let failure (what : string) : Signal.t :=
          Signal.error ("Unable to parse " +:+ what +:+ ": " +:+ jsonError) Parsing in
        onlyReports (failure "Syncthing config") c (readConfig reply c)
        /\ onlyReports (failure "Syncthing status") c (readStatus reply c)
        /\ onlyReports (failure "connections") c (readConnections now1 now2 reply c)
        /\ onlyReports (failure "directory statistics") c (readDirStatistics reply c)
        /\ onlyReports (failure "device statistics") c (readDeviceStatistics reply c)).
Proof.
  split.
  - intros Herror. cbn zeta.
    unfold readStatus, readConnections, readDirStatistics, readDeviceStatistics, readErrors.
    destruct Herror as [-> | ->];
      refine (conj _ (conj _ (conj _ (conj _ _))));
      try match goal with |- context [if isReply ?a ?b then _ else _] =>
            destruct (isReply a b) end;
      try match goal with |- context [if Chrono.isNull ?a then _ else _] =>
            destruct (Chrono.isNull a) end;
      by repeat split.
  - intros jsonError Herror Hjson. cbn zeta.
    unfold readConfig, readStatus, readConnections, readDirStatistics, readDeviceStatistics.
    rewrite Herror, Hjson.
    refine (conj _ (conj _ (conj _ (conj _ _))));
      try match goal with |- context [if isReply ?a ?b then _ else _] =>
            destruct (isReply a b) end;
      by repeat split.
Qed.

(** ** Establishing the connection *)

(** [readDirs] and [readDevs] assign the collection and emit their signal;
    no other member changes. *)
Lemma readDir_loop_footprint (dirs : QJsonArray) (newDirs : list SyncthingDir.t) (c : Conn.t) :
  let c' := (fold_left readDir dirs (newDirs, c)).2 in
  c' = Conn.set_m_dirs (Conn.m_dirs c') c.
Proof.
  revert newDirs c. induction dirs as [|dirVal dirs IH]; intros newDirs c; cbn zeta.
  - by destruct c.
  - change (fold_left readDir (dirVal :: dirs) (newDirs, c))
      with (fold_left readDir dirs (readDir (newDirs, c) dirVal)).
    assert (exists l c1, readDir (newDirs, c) dirVal = (l, c1)
                         /\ c1 = Conn.set_m_dirs (Conn.m_dirs c1) c) as (l & c1 & -> & Hc1).
    { unfold readDir, addDirInfo.
      destruct (isEmpty _); [do 2 eexists; split; [reflexivity|by destruct c]|].
      destruct (findDirInfo _ _) as [row|];
        [|do 2 eexists; split; [reflexivity|by destruct c]].
      destruct (Conn.m_dirs c !! row);
        do 2 eexists; (split; [reflexivity|by destruct c]). }
    rewrite (IH l c1) at 1. by rewrite Hc1 at 2.
Qed.

Lemma readDirs_footprint (dirs : QJsonArray) (c : Conn.t) :
  readDirs dirs c = emit Signal.newDirs (Conn.set_m_dirs (Conn.m_dirs (readDirs dirs c)) c).
Proof.
  unfold readDirs.
  pose proof (readDir_loop_footprint dirs [] c) as H. cbn zeta in H.
  destruct (fold_left readDir dirs ([], c)) as [newDirs c1]. cbn [snd] in H.
  by rewrite H.
Qed.

Lemma readDev_loop_footprint (devs : QJsonArray) (newDevs : list SyncthingDev.t) (c : Conn.t) :
  let c' := (fold_left readDev devs (newDevs, c)).2 in
  c' = Conn.set_m_devs (Conn.m_devs c') c.
Proof.
  revert newDevs c. induction devs as [|devVal devs IH]; intros newDevs c; cbn zeta.
  - by destruct c.
  - change (fold_left readDev (devVal :: devs) (newDevs, c))
      with (fold_left readDev devs (readDev (newDevs, c) devVal)).
    assert (exists l c1, readDev (newDevs, c) devVal = (l, c1)
                         /\ c1 = Conn.set_m_devs (Conn.m_devs c1) c) as (l & c1 & -> & Hc1).
    { unfold readDev, addDevInfo.
      destruct (isEmpty _); [do 2 eexists; split; [reflexivity|by destruct c]|].
      destruct (findDevInfo _ _) as [row|];
        [|do 2 eexists; split; [reflexivity|by destruct c]].
      destruct (Conn.m_devs c !! row);
        do 2 eexists; (split; [reflexivity|by destruct c]). }
    rewrite (IH l c1) at 1. by rewrite Hc1 at 2.
Qed.

Lemma readDevs_footprint (devs : QJsonArray) (c : Conn.t) :
  readDevs devs c = emit Signal.newDevices (Conn.set_m_devs (Conn.m_devs (readDevs devs c)) c).
Proof.
  unfold readDevs.
  pose proof (readDev_loop_footprint devs [] c) as H. cbn zeta in H.
  destruct (fold_left readDev devs ([], c)) as [newDevs c1]. cbn [snd] in H.
  by rewrite H.
Qed.

(** The requests [continueConnecting] issues, the first with reply [n]. *)
Definition pollingRequests (n : ReplyId) : list Signal.t :=
  [Signal.httpGet n "system/connections" [];
   Signal.httpGet (S n) "stats/folder" [];
   Signal.httpGet (S (S n)) "stats/device" [];
   Signal.httpGet (S (S (S n))) "system/error" [];
   Signal.httpGet (S (S (S (S n)))) "events" []].

(** What decides whether and how [continueConnecting] goes on. *)
Definition progress (c : Conn.t) :=
  (Conn.m_status c, Conn.m_keepPolling c, Conn.nextReply c, requestsIssued c).

Lemma continueConnecting_spec (c : Conn.t) :
  let c' := continueConnecting c in
  Conn.m_hasConfig c' = Conn.m_hasConfig c
  /\ Conn.m_hasStatus c' = Conn.m_hasStatus c
  /\ Conn.m_status c' = Conn.m_status c
  /\ if Conn.m_keepPolling c && Conn.m_hasConfig c && Conn.m_hasStatus c then
       requestsIssued c' = requestsIssued c ++ pollingRequests (Conn.nextReply c)
       /\ Conn.m_lastEventId c' = 0
     else c' = c.
Proof.
  unfold continueConnecting.
  destruct (Conn.m_keepPolling c && Conn.m_hasConfig c && Conn.m_hasStatus c); [|done].
  repeat split.
  unfold requestsIssued, pollingRequests. cbn. rewrite !List.filter_app. cbn.
  by rewrite <- !app_assoc.
Qed.

Lemma readConfig_success (reply : Reply) (doc : QJsonDocument) (c : Conn.t) :
  replyError reply = NoError -> fromJson reply = inr doc ->
  exists c2,
    readConfig reply c = (if negb (isConnected c) then continueConnecting c2 else c2)
    /\ progress c2 = progress c
    /\ Conn.m_lastEventId c2 = Conn.m_lastEventId c
    /\ Conn.m_hasStatus c2 = Conn.m_hasStatus c
    /\ Conn.m_hasConfig c2 = true.
Proof.
  intros Herror Hjson. unfold readConfig. rewrite Herror, Hjson. cbn zeta.
  set (c0 := if isReply _ _ then _ else c).
  assert (progress c0 = progress c /\ Conn.m_lastEventId c0 = Conn.m_lastEventId c
          /\ Conn.m_hasStatus c0 = Conn.m_hasStatus c) as (Hp & Hid & Hst).
  { unfold c0. by destruct (isReply _ _). }
  generalize dependent c0. intros c0 Hp Hid Hst.
  set (c1 := emit (Signal.newConfig (docObject doc)) c0).
  set (c2 := readDirs _ c1).
  set (c3 := readDevs _ c2).
  assert (progress c3 = progress c0 /\ Conn.m_lastEventId c3 = Conn.m_lastEventId c0
          /\ Conn.m_hasStatus c3 = Conn.m_hasStatus c0) as (Hp3 & Hid3 & Hst3).
  { unfold c3. rewrite readDevs_footprint. unfold c2. rewrite readDirs_footprint.
    unfold progress. cbn [emit Conn.m_status Conn.m_keepPolling Conn.nextReply
      Conn.set_emitted Conn.set_m_devs Conn.set_m_dirs Conn.m_lastEventId Conn.m_hasStatus].
    unfold requestsIssued. cbn. rewrite !List.filter_app. cbn. by rewrite !app_nil_r. }
  exists (Conn.set_m_hasConfig true c3). split.
  - assert (isConnected (Conn.set_m_hasConfig true c3) = isConnected c) as ->; [|done].
    unfold isConnected. cbn [Conn.m_status Conn.set_m_hasConfig].
    unfold progress in Hp, Hp3. congruence.
  - unfold progress in *. cbn [Conn.m_status Conn.set_m_hasConfig Conn.m_keepPolling
      Conn.nextReply Conn.m_lastEventId Conn.m_hasStatus Conn.m_hasConfig].
    change (requestsIssued (Conn.set_m_hasConfig true c3)) with (requestsIssued c3).
    repeat split; congruence.
Qed.

Lemma readStatus_success (reply : Reply) (doc : QJsonDocument) (c : Conn.t) :
  replyError reply = NoError -> fromJson reply = inr doc ->
  exists c2,
    readStatus reply c = continueConnecting c2
    /\ progress c2 = progress c
    /\ Conn.m_hasConfig c2 = Conn.m_hasConfig c
    /\ Conn.m_hasStatus c2 = true.
Proof.
  intros Herror Hjson. unfold readStatus. rewrite Herror, Hjson. cbn zeta.
  eexists. split; [reflexivity|].
  unfold progress, requestsIssued.
  destruct (isReply _ _); cbn; destruct (String.eqb _ _); cbn; try done;
    destruct (findDevInfo _ _); cbn; rewrite ?List.filter_app; cbn;
    by rewrite ?app_nil_r.
Qed.

Lemma connect_starts (c : Conn.t) :
  isConnected c = false ->
  isEmpty (Conn.m_apiKey c) = false ->
  isEmpty (Conn.m_syncthingUrl c) = false ->
  let n := Conn.nextReply c in
  let c1 := connect c in
  progress c1
  = (Conn.m_status c, true, S (S n),
     requestsIssued c
     ++ [Signal.httpGet n "system/config" []; Signal.httpGet (S n) "system/status" []])
  /\ Conn.m_hasConfig c1 = false
  /\ Conn.m_hasStatus c1 = false
  /\ Conn.m_configReply c1 = Some n
  /\ Conn.m_statusReply c1 = Some (S n).
Proof.
  intros Hconn Hkey Hurl. cbn zeta. unfold connect.
  replace (isConnected _) with (isConnected c) by reflexivity.
  rewrite Hconn. cbn [negb].
  replace (isEmpty (Conn.m_apiKey _)) with (isEmpty (Conn.m_apiKey c)) by reflexivity.
  replace (isEmpty (Conn.m_syncthingUrl _)) with (isEmpty (Conn.m_syncthingUrl c))
    by reflexivity.
  rewrite Hkey, Hurl. cbn [orb].
  unfold progress, requestsIssued. cbn. rewrite !List.filter_app. cbn.
  by rewrite <- !app_assoc.
Qed.

(** X8.  Connecting with a URL and an API key asks for the configuration
    and for the status.  Neither successful reply alone starts the
    polling; once both have been read, in either order, the connection
    asks for the connections, both statistics, the errors and the events,
    once, the events without [since] as the last event id is reset
    to 0. *)
Theorem polling_starts_once_config_and_status_are_read (configReply statusReply : Reply)
    (configDoc statusDoc : QJsonDocument) (c : Conn.t) :
  isConnected c = false ->
  isEmpty (Conn.m_apiKey c) = false ->
  isEmpty (Conn.m_syncthingUrl c) = false ->
  replyError configReply = NoError -> fromJson configReply = inr configDoc ->
  replyError statusReply = NoError -> fromJson statusReply = inr statusDoc ->
  let n := Conn.nextReply c in
  let c1 := connect c in
  requestsIssued c1
  = requestsIssued c
    ++ [Signal.httpGet n "system/config" []; Signal.httpGet (S n) "system/status" []]
  /\ requestsIssued (readConfig configReply c1) = requestsIssued c1
  /\ requestsIssued (readStatus statusReply c1) = requestsIssued c1
  /\ forall c2,
       c2 = readStatus statusReply (readConfig configReply c1)
       \/ c2 = readConfig configReply (readStatus statusReply c1) ->
       requestsIssued c2 = requestsIssued c1 ++ pollingRequests (S (S n))
       /\ Conn.m_lastEventId c2 = 0
       /\ Conn.m_hasConfig c2 = true
       /\ Conn.m_hasStatus c2 = true.
Proof.
  intros Hconn Hkey Hurl Hc1 Hc2 Hs1 Hs2. cbn zeta.
  destruct (connect_starts c Hconn Hkey Hurl) as (Hp & Hcfg & Hst & _).
  cbn zeta in Hp. remember (connect c) as c1 eqn:E1. clear E1.
  assert (forall c', progress c' = progress c1 -> isConnected c' = false) as Hnot.
  { intros c' H. rewrite Hp in H. unfold progress in H. injection H as H _ _ _.
    unfold isConnected. by rewrite H. }
  assert (forall c', progress c' = progress c1 ->
            Conn.m_keepPolling c' = true /\ Conn.nextReply c' = S (S (Conn.nextReply c))
            /\ requestsIssued c' = requestsIssued c1) as Hsame.
  { intros c' H. pose proof Hp as Hp'. rewrite <- H in Hp'. unfold progress in Hp', H.
    injection Hp' as _ -> -> _. by injection H as _ _ _ ->. }
  (* the configuration alone *)
  destruct (readConfig_success configReply configDoc c1 Hc1 Hc2)
    as (cA & HA & HpA & _ & HstA & HcfgA).
  rewrite (Hnot c1 eq_refl) in HA. cbn [negb] in HA.
  destruct (continueConnecting_spec cA) as (HcfgA' & HstA' & _ & HgoA).
  rewrite HcfgA, HstA, Hst, andb_false_r in HgoA. rewrite HgoA in HA.
  (* the status alone *)
  destruct (readStatus_success statusReply statusDoc c1 Hs1 Hs2)
    as (cB & HB & HpB & HcfgB & HstB).
  destruct (continueConnecting_spec cB) as (HcfgB' & HstB' & _ & HgoB).
  rewrite HcfgB, Hcfg, andb_false_r in HgoB. cbn [andb] in HgoB. rewrite HgoB in HB.
  split; [pose proof Hp as H; unfold progress in H; by injection H as _ _ _ ->|].
  split; [rewrite HA; by apply Hsame|].
  split; [rewrite HB; by apply Hsame|].
  intros c2 [-> | ->].
  - rewrite HA.
    destruct (readStatus_success statusReply statusDoc cA Hs1 Hs2)
      as (c3 & -> & Hp3 & Hcfg3 & Hst3).
    destruct (continueConnecting_spec c3) as (Hcfg3' & Hst3' & _ & Hgo3).
    destruct (Hsame c3 (eq_trans Hp3 HpA)) as (Hkeep3 & Hnext3 & Hreq3).
    rewrite Hkeep3, Hcfg3, HcfgA, Hst3 in Hgo3. cbn [andb] in Hgo3.
    destruct Hgo3 as [Hreq Hid]. rewrite Hreq, Hreq3, Hnext3, Hcfg3', Hst3'.
    repeat split; congruence.
  - rewrite HB.
    destruct (readConfig_success configReply configDoc cB Hc1 Hc2)
      as (c3 & -> & Hp3 & _ & Hst3 & Hcfg3).
    rewrite (Hnot cB HpB). cbn [negb].
    destruct (continueConnecting_spec c3) as (Hcfg3' & Hst3' & _ & Hgo3).
    destruct (Hsame c3 (eq_trans Hp3 HpB)) as (Hkeep3 & Hnext3 & Hreq3).
    rewrite Hkeep3, Hcfg3, Hst3, HstB in Hgo3. cbn [andb] in Hgo3.
    destruct Hgo3 as [Hreq Hid]. rewrite Hreq, Hreq3, Hnext3, Hcfg3', Hst3'.
    repeat split; congruence.
Qed.

(** X9.  An established connection is not started again: [connect()] only
    stops the reconnect timer and resets the tries, and a configuration
    read while connected (as after a ConfigSaved event) replaces the
    entities without issuing a request or touching the last event id. *)
Theorem established_connection_is_not_restarted (reply : Reply) (doc : QJsonDocument)
    (c : Conn.t) :
  isConnected c = true ->
  connect c = Conn.set_m_autoReconnectTries 0 (Conn.set_m_autoReconnectTimerActive false c)
  /\ (replyError reply = NoError -> fromJson reply = inr doc ->
      let c' := readConfig reply c in
      requestsIssued c' = requestsIssued c
      /\ Conn.nextReply c' = Conn.nextReply c
      /\ Conn.m_lastEventId c' = Conn.m_lastEventId c
      /\ Conn.m_status c' = Conn.m_status c
      /\ Conn.m_hasConfig c' = true).
Proof.
  intros Hconn. split.
  - unfold connect. replace (isConnected _) with (isConnected c) by reflexivity.
    by rewrite Hconn.
  - intros Herror Hjson. cbn zeta.
    destruct (readConfig_success reply doc c Herror Hjson) as (c2 & -> & Hp & Hid & _ & Hcfg).
    rewrite Hconn. cbn [negb]. unfold progress in Hp.
    injection Hp as Hstatus _ Hnext Hreq. by repeat split.
Qed.

(** ** The collections after a configuration *)

Lemma existingDir_id (dirId : string) (dirs : list SyncthingDir.t) (old : SyncthingDir.t) :
  existingDir dirId dirs = Some old -> SyncthingDir.id old = dirId.
Proof.
  unfold existingDir. destruct (findDirInfo dirId dirs) as [row|] eqn:Hfind; [|done].
  destruct (findDirInfo_lookup _ _ _ Hfind) as (d & Hd & Hid). congruence.
Qed.

Lemma existingDev_id (devId : string) (devs : list SyncthingDev.t) (old : SyncthingDev.t) :
  existingDev devId devs = Some old -> SyncthingDev.id old = devId.
Proof.
  unfold existingDev. destruct (findDevInfo devId devs) as [row|] eqn:Hfind; [|done].
  destruct (findDevInfo_lookup _ _ _ Hfind) as (d & Hd & Hid). congruence.
Qed.

(** The ids of the payload's entries that have one. *)
Definition payloadIds (payloadId : QJsonValue -> string) (entries : QJsonArray)
  : list string :=
  List.filter (fun entryId => negb (isEmpty entryId)) (map payloadId entries).

Lemma readDir_loop_ids (dirs : QJsonArray) (newDirs : list SyncthingDir.t) (c : Conn.t) :
  (forall dirId, SyncthingDir.id (newSyncthingDir dirId) = dirId) ->
  map SyncthingDir.id (fold_left readDir dirs (newDirs, c)).1
  = map SyncthingDir.id newDirs ++ payloadIds payloadDirId dirs.
Proof.
  intros Hnew. revert newDirs c.
  induction dirs as [|dirVal dirs IH]; intros newDirs c.
  - cbn. by rewrite app_nil_r.
  - change (fold_left readDir (dirVal :: dirs) (newDirs, c))
      with (fold_left readDir dirs (readDir (newDirs, c) dirVal)).
    pose proof (readDir_step newDirs c dirVal) as Hstep. cbn zeta in Hstep.
    unfold payloadIds. cbn [map List.filter].
    destruct (isEmpty (payloadDirId dirVal)) eqn:Hid; cbn [negb].
    + rewrite Hstep. apply IH.
    + destruct Hstep as (c1 & -> & _). rewrite IH, map_app, <- app_assoc. f_equal.
      cbn [map app]. f_equal.
      change (SyncthingDir.id (assignDirConfig ?o ?d)) with (SyncthingDir.id d).
      destruct (existingDir _ _) as [old|] eqn:Hold; cbn [default].
      * by apply existingDir_id in Hold.
      * apply Hnew.
Qed.

Lemma readDev_loop_ids (devs : QJsonArray) (newDevs : list SyncthingDev.t) (c : Conn.t) :
  (forall devId, SyncthingDev.id (newSyncthingDev devId) = devId) ->
  map SyncthingDev.id (fold_left readDev devs (newDevs, c)).1
  = map SyncthingDev.id newDevs ++ payloadIds payloadDevId devs.
Proof.
  intros Hnew. revert newDevs c.
  induction devs as [|devVal devs IH]; intros newDevs c.
  - cbn. by rewrite app_nil_r.
  - change (fold_left readDev (devVal :: devs) (newDevs, c))
      with (fold_left readDev devs (readDev (newDevs, c) devVal)).
    pose proof (readDev_step newDevs c devVal) as Hstep. cbn zeta in Hstep.
    unfold payloadIds. cbn [map List.filter].
    destruct (isEmpty (payloadDevId devVal)) eqn:Hid; cbn [negb].
    + rewrite Hstep. apply IH.
    + destruct Hstep as (c1 & -> & _). rewrite IH, map_app, <- app_assoc. f_equal.
      cbn [map app]. f_equal.
      change (SyncthingDev.id (assignDevConfig ?m ?o ?d)) with (SyncthingDev.id d).
      destruct (existingDev _ _) as [old|] eqn:Hold; cbn [default].
      * by apply existingDev_id in Hold.
      * apply Hnew.
Qed.

(** X10.  Provided the constructors of the entity structs store the id
    they are given, the collections [readDirs] and [readDevs] build hold
    one record per entry of the payload that has an id, in the order of the
    payload and under that id: entities the payload does not mention are
    dropped, entries without id are skipped, and ids the payload repeats
    are repeated. *)
Theorem configuration_replaces_the_collections (dirs devs : QJsonArray) (c : Conn.t) :
  (forall dirId, SyncthingDir.id (newSyncthingDir dirId) = dirId) ->
  (forall devId, SyncthingDev.id (newSyncthingDev devId) = devId) ->
  map SyncthingDir.id (Conn.m_dirs (readDirs dirs c)) = payloadIds payloadDirId dirs
  /\ map SyncthingDev.id (Conn.m_devs (readDevs devs c)) = payloadIds payloadDevId devs.
Proof.
  intros Hdir Hdev. split.
  - pose proof (readDir_loop_ids dirs [] c Hdir) as H. unfold readDirs.
    by destruct (fold_left readDir dirs ([], c)) as [newDirs c1].
  - pose proof (readDev_loop_ids devs [] c Hdev) as H. unfold readDevs.
    by destruct (fold_left readDev devs ([], c)) as [newDevs c1].
Qed.

Lemma readDev_loop_status (devs : QJsonArray) (newDevs : list SyncthingDev.t) (c : Conn.t)
    (P : SyncthingDev.t -> Prop) :
  (forall devObj base, P (assignDevConfig (Conn.m_myId c) devObj base)) ->
  Forall P newDevs ->
  Forall P (fold_left readDev devs (newDevs, c)).1.
Proof.
  revert newDevs c. induction devs as [|devVal devs IH]; intros newDevs c HP Hacc; [done|].
  change (fold_left readDev (devVal :: devs) (newDevs, c))
    with (fold_left readDev devs (readDev (newDevs, c) devVal)).
  pose proof (readDev_step newDevs c devVal) as Hstep. cbn zeta in Hstep.
  destruct (isEmpty (payloadDevId devVal)).
  - rewrite Hstep. by apply IH.
  - destruct Hstep as (c1 & -> & Hmy & _). apply IH.
    + by rewrite Hmy.
    + apply Forall_app. split; [done|]. apply Forall_singleton. apply HP.
Qed.

(** X11.  After [readDevs] every device of the collection is marked as the
    own device if its id is the own id and is of unknown status otherwise,
    whatever status a recycled record had. *)
Theorem readDevs_marks_the_own_device (devs : QJsonArray) (c : Conn.t) (dev : SyncthingDev.t) :
  dev ∈ Conn.m_devs (readDevs devs c) ->
  SyncthingDev.status dev
  = (if String.eqb (SyncthingDev.id dev) (Conn.m_myId c)
     then SyncthingDevStatus.OwnDevice else SyncthingDevStatus.Unknown).
Proof.
  intros Hin.
  pose proof (readDev_loop_status devs [] c
    (fun dev => SyncthingDev.status dev
                = (if String.eqb (SyncthingDev.id dev) (Conn.m_myId c)
                   then SyncthingDevStatus.OwnDevice else SyncthingDevStatus.Unknown))) as H.
  unfold readDevs in Hin.
  destruct (fold_left readDev devs ([], c)) as [newDevs c1]. cbn in Hin, H.
  assert (Forall (fun dev => SyncthingDev.status dev
                      = (if String.eqb (SyncthingDev.id dev) (Conn.m_myId c)
                         then SyncthingDevStatus.OwnDevice else SyncthingDevStatus.Unknown))
            newDevs) as HF.
  { apply H; [done|constructor]. }
  rewrite Forall_forall in HF. by apply HF.
Qed.

(** ** Events about devices *)

(** The condition under which [readDeviceEvent] returns at once. *)
Lemma outdated_device_event_guard (eventTime lastConnectionsUpdate : DateTime) :
  Chrono.isNull eventTime && Chrono.isNull lastConnectionsUpdate
  && (eventTime <? lastConnectionsUpdate) = false.
Proof.
  unfold Chrono.isNull.
  destruct (eventTime =? 0) eqn:E1; [|done].
  destruct (lastConnectionsUpdate =? 0) eqn:E2; [|done].
  apply Z.eqb_eq in E1, E2. subst. done.
Qed.

(** X12.  [readDeviceEvent] never discards an event as older than the last
    connections update: the test that guards its early return asks both
    times to be null and the one to be less than the other, which no two
    times satisfy.  So the handler does the same for every event time and
    every time of the last connections update. *)
Theorem device_events_are_applied_whatever_their_time (eventTime eventTime' update : DateTime)
    (eventType : string) (eventData : QJsonObject) (c : Conn.t) :
  readDeviceEvent eventTime eventType eventData c
  = readDeviceEvent eventTime' eventType eventData c
  /\ Conn.m_devs (readDeviceEvent eventTime eventType eventData
                    (Conn.set_m_lastConnectionsUpdate update c))
     = Conn.m_devs (readDeviceEvent eventTime eventType eventData c).
Proof.
  unfold readDeviceEvent. rewrite !outdated_device_event_guard. cbn.
  split; [reflexivity|].
  repeat match goal with
    | |- context [if isEmpty ?s then _ else _] => destruct (isEmpty s)
    | |- context [match findDevInfo ?a ?b with _ => _ end] => destruct (findDevInfo a b)
    | |- context [match ?l !! ?i with _ => _ end] => destruct (l !! i)
    | |- context [match deviceEventTarget ?a ?b ?c with _ => _ end] =>
        destruct (deviceEventTarget a b c) as [[? ?]|]
    | |- context [if ?a || ?b then _ else _] => destruct (a || b)
    end; reflexivity.
Qed.

(** What a device event may do to a device: assign the status and the
    paused flag. *)
Definition sameDeviceButStatus (dev dev' : SyncthingDev.t) : Prop :=
  dev' = SyncthingDev.set_paused (SyncthingDev.paused dev')
           (SyncthingDev.set_status (SyncthingDev.status dev') dev).

(** X13.  A device event changes at most one device, the first one with
    the id the event names, and of that device only the status and the
    paused flag; the directories stay.  [devStatusChanged] is emitted for
    that row or nothing is emitted. *)
Theorem device_event_touches_one_device (eventTime : DateTime) (eventType : string)
    (eventData : QJsonObject) (c : Conn.t) :
  let c' := readDeviceEvent eventTime eventType eventData c in
  let devId := Json.toString (Json.value eventData "device") in
  Conn.m_dirs c' = Conn.m_dirs c
  /\ length (Conn.m_devs c') = length (Conn.m_devs c)
  /\ (forall row dev, Conn.m_devs c !! row = Some dev ->
        exists dev', Conn.m_devs c' !! row = Some dev'
          /\ sameDeviceButStatus dev dev'
          /\ (findDevInfo devId (Conn.m_devs c) <> Some row -> dev' = dev))
  /\ (Conn.emitted c' = Conn.emitted c
      \/ exists index, findDevInfo devId (Conn.m_devs c) = Some index
           /\ Conn.emitted c' = Conn.emitted c ++ [Signal.devStatusChanged index]).
Proof.
  cbn zeta. unfold readDeviceEvent. rewrite outdated_device_event_guard.
  assert (forall dev : SyncthingDev.t, sameDeviceButStatus dev dev) as Hrefl.
  { intros dev. unfold sameDeviceButStatus. by destruct dev. }
  assert (Conn.m_dirs c = Conn.m_dirs c
          /\ length (Conn.m_devs c) = length (Conn.m_devs c)
          /\ (forall row dev, Conn.m_devs c !! row = Some dev ->
                exists dev', Conn.m_devs c !! row = Some dev'
                  /\ sameDeviceButStatus dev dev'
                  /\ (findDevInfo (Json.toString (Json.value eventData "device"))
                        (Conn.m_devs c) <> Some row -> dev' = dev))
          /\ (Conn.emitted c = Conn.emitted c
              \/ exists index,
                   findDevInfo (Json.toString (Json.value eventData "device")) (Conn.m_devs c)
                   = Some index
                   /\ Conn.emitted c = Conn.emitted c ++ [Signal.devStatusChanged index]))
    as Hsame.
  { split; [done|]. split; [done|]. split; [|by left].
    intros row dev Hdev. exists dev. by repeat split. }
  destruct (isEmpty _); [exact Hsame|].
  destruct (findDevInfo _ _) as [index|] eqn:Hfind; [|exact Hsame].
  destruct (Conn.m_devs c !! index) as [devInfo|] eqn:Hdev; [|exact Hsame].
  destruct (deviceEventTarget _ _ _) as [[status paused]|]; [|exact Hsame].
  destruct (_ || _); [|exact Hsame].
  cbn [emit updateDev Conn.m_dirs Conn.m_devs Conn.emitted Conn.set_emitted Conn.set_m_devs].
  split; [done|]. split; [by rewrite length_alter|]. split.
  - intros row dev Hrow. destruct (decide (row = index)) as [-> | Hne].
    + rewrite list_lookup_alter_eq, Hrow. cbn. eexists. split; [reflexivity|].
      split; [|done]. unfold sameDeviceButStatus.
      destruct dev. cbn. by destruct (SyncthingDevStatus.eqb _ _).
    + rewrite list_lookup_alter_ne by done. exists dev. split; [done|]. by split.
  - right. by exists index.
Qed.

(** ** The own id *)

(** X14.  A Starting event stores the configuration directory and the own
    id it reports.  Each of the two values that changed is announced by
    [configDirChanged], the own id too: [myIdChanged] is not emitted, and
    no device is marked as the own device. *)
Theorem starting_event_announces_the_own_id_as_config_dir (eventData : QJsonObject)
    (c : Conn.t) :
  let c' := readStartingEvent eventData c in
  let home := Json.toString (Json.value eventData "home") in
  let myId := Json.toString (Json.value eventData "myID") in
  Conn.m_configDir c' = home
  /\ Conn.m_myId c' = myId
  /\ Conn.emitted c'
     = Conn.emitted c
       ++ (if String.eqb home (Conn.m_configDir c) then [] else [Signal.configDirChanged home])
       ++ (if String.eqb myId (Conn.m_myId c) then [] else [Signal.configDirChanged myId])
  /\ Conn.m_devs c' = Conn.m_devs c.
Proof.
  cbn zeta. unfold readStartingEvent. cbn zeta.
  destruct (String.eqb _ (Conn.m_configDir c)) eqn:E1;
    cbn [Conn.m_myId emit Conn.set_emitted Conn.set_m_configDir];
    destruct (String.eqb _ (Conn.m_myId c)) eqn:E2; cbn;
    rewrite ?app_nil_r, <- ?app_assoc;
    try apply String.eqb_eq in E1; try apply String.eqb_eq in E2; by repeat split.
Qed.

Lemma continueConnecting_entities (c : Conn.t) :
  let c' := continueConnecting c in
  Conn.m_devs c' = Conn.m_devs c
  /\ Conn.m_dirs c' = Conn.m_dirs c
  /\ Conn.m_myId c' = Conn.m_myId c
  /\ Conn.m_hasStatus c' = Conn.m_hasStatus c
  /\ forall s, Signal.isRequest s = false -> In s (Conn.emitted c') <-> In s (Conn.emitted c).
Proof.
  unfold continueConnecting.
  destruct (_ && _); [|done].
  refine (conj eq_refl (conj eq_refl (conj eq_refl (conj eq_refl _)))).
  intros s Hs. cbn. rewrite !in_app_iff. cbn. split; [|intros K; repeat left; exact K].
  intros K.
  repeat (destruct K as [K | K];
          [|destruct K as [K | []]; rewrite <- K in Hs; discriminate Hs]).
  exact K.
Qed.

(** X15.  A successfully read status stores the own id of the reply and
    sets the status readiness flag.  If the id differs from the one known,
    [myIdChanged] is emitted and the first device with that id becomes the
    own device; if it is the same, the devices stay as they are. *)
Theorem readStatus_adopts_the_own_id (reply : Reply) (doc : QJsonDocument) (c : Conn.t) :
  replyError reply = NoError -> fromJson reply = inr doc ->
  let c' := readStatus reply c in
  let myId := Json.toString (Json.value (docObject doc) "myID") in
  Conn.m_myId c' = myId
  /\ Conn.m_hasStatus c' = true
  /\ Conn.m_dirs c' = Conn.m_dirs c
  /\ (myId = Conn.m_myId c ->
      Conn.m_devs c' = Conn.m_devs c
      /\ (In (Signal.myIdChanged myId) (Conn.emitted c')
          <-> In (Signal.myIdChanged myId) (Conn.emitted c)))
  /\ (myId <> Conn.m_myId c ->
      In (Signal.myIdChanged myId) (Conn.emitted c')
      /\ match findDevInfo myId (Conn.m_devs c) with
         | Some index =>
             Conn.m_devs c'
             = alter (SyncthingDev.set_status SyncthingDevStatus.OwnDevice) index
                 (Conn.m_devs c)
             /\ ownDeviceAt index myId c'
         | None => Conn.m_devs c' = Conn.m_devs c
         end).
Proof.
  intros Herror Hjson. cbn zeta. unfold ownDeviceAt, readStatus.
  rewrite Herror, Hjson. cbn zeta.
  set (c0 := if isReply _ _ then _ else c).
  assert (Conn.m_myId c0 = Conn.m_myId c /\ Conn.m_devs c0 = Conn.m_devs c
          /\ Conn.m_dirs c0 = Conn.m_dirs c /\ Conn.emitted c0 = Conn.emitted c)
    as (Hmy & Hdevs & Hdirs & Hemitted).
  { unfold c0. by destruct (isReply _ _). }
  generalize dependent c0. intros c0 Hmy Hdevs Hdirs Hemitted.
  match goal with |- context [continueConnecting ?x] =>
    destruct (continueConnecting_entities x) as (-> & -> & -> & -> & Hsignals);
    set (c1 := x) in * end.
  rewrite (Hsignals (Signal.myIdChanged _) eq_refl).
  rewrite <- Hmy, <- Hdevs, <- Hdirs, <- Hemitted. clear Hmy Hdevs Hdirs Hemitted Hsignals.
  unfold c1. clear c1.
  destruct (String.eqb _ (Conn.m_myId c0)) eqn:E.
  - apply String.eqb_eq in E. cbn. repeat split; try done.
  - apply String.eqb_neq in E. cbn [Conn.m_myId emit Conn.set_emitted Conn.set_m_myId
      Conn.m_devs Conn.emitted].
    destruct (findDevInfo _ _) as [index|] eqn:Hfind.
    + cbn. repeat split; try done.
      * rewrite !in_app_iff. cbn. left. right. by left.
      * destruct (findDevInfo_lookup _ _ _ Hfind) as (dev & Hdev & Hid).
        exists (SyncthingDev.set_status SyncthingDevStatus.OwnDevice dev).
        rewrite list_lookup_alter_eq, Hdev. by repeat split.
    + cbn. repeat split; try done. rewrite !in_app_iff. cbn. right. by left.
Qed.

(** ** Events about entities the connection does not know *)

(** X16.  Events naming no folder (device) or one that is not in the
    collection: [readDirEvent], [readItemFinished] and [readDeviceEvent]
    change nothing at all.  [readStatusChangedEvent] ignores an event
    without folder, but for an unknown folder it appends a new directory
    with the reported status and asks for the configuration again, without
    emitting a signal. *)
Theorem events_about_unknown_entities (eventTime : DateTime) (eventType : string)
    (eventData : QJsonObject) (c : Conn.t) :
  let folder := Json.toString (Json.value eventData "folder") in
  let device := Json.toString (Json.value eventData "device") in
  (isEmpty folder = true \/ findDirInfo folder (Conn.m_dirs c) = None ->
   readDirEvent eventTime eventType eventData c = c
   /\ readItemFinished eventTime eventData c = c)
  /\ (isEmpty device = true \/ findDevInfo device (Conn.m_devs c) = None ->
      readDeviceEvent eventTime eventType eventData c = c)
  /\ (isEmpty folder = true -> readStatusChangedEvent eventTime eventData c = c)
  /\ (isEmpty folder = false -> findDirInfo folder (Conn.m_dirs c) = None ->
      let c' := readStatusChangedEvent eventTime eventData c in
      Conn.m_dirs c'
      = Conn.m_dirs c
        ++ [(assignStatusString (Json.toString (Json.value eventData "to")) eventTime
               (newSyncthingDir folder)).2]
      /\ Conn.emitted c'
         = Conn.emitted c ++ [Signal.httpGet (Conn.nextReply c) "system/config" []]
      /\ Conn.m_configReply c' = Some (Conn.nextReply c)
      /\ Conn.m_devs c' = Conn.m_devs c).
Proof.
  cbn zeta. split; [|split; [|split]].
  - intros H. unfold readDirEvent, readItemFinished. cbn zeta.
    destruct (isEmpty _); [done|]. destruct H as [H | ->]; [discriminate|done].
  - intros H. unfold readDeviceEvent. rewrite outdated_device_event_guard. cbn zeta.
    destruct (isEmpty _); [done|]. destruct H as [H | ->]; [discriminate|done].
  - intros H. unfold readStatusChangedEvent. cbn zeta. by rewrite H.
  - intros Hfolder Hfind. unfold readStatusChangedEvent. cbn zeta.
    by rewrite Hfolder, Hfind.
Qed.

(** ** The completion of a folder *)

(** X17.  A FolderCompletion event changes at most the progress percentage
    of directories and emits no signal.  The percentage of the event is
    stored only if it lies strictly between 0 and 100 and is smaller than
    the stored one (or the stored one is not positive): a positive progress
    percentage never rises through these events. *)
Theorem folder_completion_keeps_the_smallest_percentage (eventTime : DateTime)
    (eventData : QJsonObject) (c : Conn.t) :
  let c' := readDirEvent eventTime "FolderCompletion" eventData c in
  let percentage := Json.toInt (Json.value eventData "completion") 0 in
  Conn.emitted c' = Conn.emitted c
  /\ Conn.m_devs c' = Conn.m_devs c
  /\ length (Conn.m_dirs c') = length (Conn.m_dirs c)
  /\ forall row d, Conn.m_dirs c !! row = Some d ->
       exists d', Conn.m_dirs c' !! row = Some d'
         /\ d' = SyncthingDir.set_progressPercentage (SyncthingDir.progressPercentage d') d
         /\ (SyncthingDir.progressPercentage d' = SyncthingDir.progressPercentage d
             \/ (SyncthingDir.progressPercentage d' = percentage
                 /\ 0 < percentage < 100
                 /\ (SyncthingDir.progressPercentage d <= 0
                     \/ percentage < SyncthingDir.progressPercentage d))).
Proof.
  cbn zeta. unfold readDirEvent. cbn zeta.
  assert (forall d : SyncthingDir.t,
            d = SyncthingDir.set_progressPercentage (SyncthingDir.progressPercentage d) d)
    as Hrefl.
  { intros d. by destruct d. }
  assert (Conn.emitted c = Conn.emitted c
          /\ Conn.m_devs c = Conn.m_devs c
          /\ length (Conn.m_dirs c) = length (Conn.m_dirs c)
          /\ forall row d, Conn.m_dirs c !! row = Some d ->
               exists d', Conn.m_dirs c !! row = Some d'
                 /\ d' = SyncthingDir.set_progressPercentage
                           (SyncthingDir.progressPercentage d') d
                 /\ (SyncthingDir.progressPercentage d' = SyncthingDir.progressPercentage d
                     \/ (SyncthingDir.progressPercentage d'
                         = Json.toInt (Json.value eventData "completion") 0
                         /\ 0 < Json.toInt (Json.value eventData "completion") 0 < 100
                         /\ (SyncthingDir.progressPercentage d <= 0
                             \/ Json.toInt (Json.value eventData "completion") 0
                                < SyncthingDir.progressPercentage d)))) as Hsame.
  { repeat split; try done. intros row d Hd. exists d. split; [done|]. split; [done|by left]. }
  destruct (isEmpty _); [exact Hsame|].
  destruct (findDirInfo _ _) as [index|]; [|exact Hsame].
  cbn [String.eqb Ascii.eqb Bool.eqb andb].
  cbn [updateDir Conn.emitted Conn.m_devs Conn.m_dirs Conn.set_m_dirs].
  split; [done|]. split; [done|]. split; [by rewrite length_alter|].
  intros row d Hd. destruct (decide (row = index)) as [-> | Hne].
  - rewrite list_lookup_alter_eq, Hd. cbn [fmap option_fmap option_map].
    eexists. split; [reflexivity|].
    destruct ((0 <? _) && (_ <? 100) && _) eqn:E.
    + split; [by destruct d|]. right. split; [done|].
      apply andb_true_iff in E as [E E3]. apply andb_true_iff in E as [E1 E2].
      apply orb_true_iff in E3. lia.
    + split; [done|by left].
  - rewrite list_lookup_alter_ne by done. exists d. split; [done|]. split; [done|by left].
Qed.

(** ** The progress of the downloads *)

(** A directory with the members describing its downloads blanked. *)
Definition withoutDownload (d : SyncthingDir.t) : SyncthingDir.t :=
  SyncthingDir.set_downloadLabel ""
    (SyncthingDir.set_downloadPercentage 0
       (SyncthingDir.set_blocksToBeDownloaded 0
          (SyncthingDir.set_blocksAlreadyDownloaded 0
             (SyncthingDir.set_downloadingItems [] d)))).

Lemma addDownloadingItems_footprint (items : QJsonObject) (d : SyncthingDir.t) :
  let d' := fold_left addDownloadingItem items d in
  withoutDownload d' = withoutDownload d
  /\ length (SyncthingDir.downloadingItems d')
     = (length (SyncthingDir.downloadingItems d) + length items)%nat.
Proof.
  revert d. induction items as [|item items IH]; intros d; cbn zeta.
  - cbn. split; [done|lia].
  - cbn [fold_left]. destruct (IH (addDownloadingItem d item)) as [-> ->].
    split; [reflexivity|]. unfold addDownloadingItem. cbn. rewrite length_app. cbn. lia.
Qed.

(** X18.  A DownloadProgress event rebuilds the download members of every
    directory and nothing else: a directory gets one downloading item per
    file the event lists under its id; a directory the event does not
    mention ends with no item, no blocks and 0 %.  One
    [downloadProgressChanged] is emitted. *)
Theorem download_progress_is_rebuilt_for_every_directory (eventTime : DateTime)
    (eventData : QJsonObject) (c : Conn.t) :
  let c' := readDownloadProgressEvent eventTime eventData c in
  Conn.emitted c' = Conn.emitted c ++ [Signal.downloadProgressChanged]
  /\ Conn.m_devs c' = Conn.m_devs c
  /\ length (Conn.m_dirs c') = length (Conn.m_dirs c)
  /\ forall row d, Conn.m_dirs c !! row = Some d ->
       let files := Json.toObject (Json.value eventData (SyncthingDir.id d)) in
       exists d', Conn.m_dirs c' !! row = Some d'
         /\ withoutDownload d' = withoutDownload d
         /\ length (SyncthingDir.downloadingItems d') = length files
         /\ (files = [] ->
             SyncthingDir.blocksAlreadyDownloaded d' = 0
             /\ SyncthingDir.blocksToBeDownloaded d' = 0
             /\ SyncthingDir.downloadPercentage d' = 0).
Proof.
  cbn zeta. unfold readDownloadProgressEvent. cbn zeta.
  set (body := fun index c => updateDir index (readDownloadProgress eventData) c).
  assert (Conn.emitted (forEachIndex (length (Conn.m_dirs c)) body c) = Conn.emitted c
          /\ Conn.m_devs (forEachIndex (length (Conn.m_dirs c)) body c) = Conn.m_devs c)
    as [Hemitted Hdevs].
  { apply (forEachIndex_invariant
             (fun c1 => Conn.emitted c1 = Conn.emitted c /\ Conn.m_devs c1 = Conn.m_devs c));
      [|done].
    intros index c1 H. exact H. }
  cbn [emit Conn.emitted Conn.set_emitted Conn.m_devs Conn.m_dirs].
  unfold body in *. rewrite updateDir_forEachIndex, Hemitted, Hdevs.
  split; [done|]. split; [done|]. split; [by rewrite length_fmap|].
  intros row d Hd. rewrite list_lookup_fmap, Hd. cbn [fmap option_fmap option_map].
  eexists. split; [reflexivity|].
  unfold readDownloadProgress. cbn zeta.
  change (SyncthingDir.id (SyncthingDir.set_blocksAlreadyDownloaded _ _))
    with (SyncthingDir.id d).
  destruct (Json.toObject (Json.value eventData (SyncthingDir.id d))) as [|file files] eqn:E.
  - cbn. by repeat split.
  - cbn [Json.isEmptyObject].
    match goal with |- context [fold_left addDownloadingItem ?items ?d0] =>
      destruct (addDownloadingItems_footprint items d0) as [Hframe Hlen];
      set (d1 := fold_left addDownloadingItem items d0) in * end.
    split; [|split; [|discriminate]].
    + transitivity (withoutDownload d1); [reflexivity|]. by rewrite Hframe.
    + cbn [SyncthingDir.downloadingItems SyncthingDir.set_downloadLabel
        SyncthingDir.set_downloadPercentage].
      rewrite Hlen. cbn. lia.
Qed.

(** ** The connections of the devices *)

(** A loop over the rows whose body rewrites its own row with [g]. *)
Lemma devs_loop_lookup (g : SyncthingDev.t -> SyncthingDev.t) (body : nat -> Conn.t -> Conn.t)
    (n a k : nat) (c : Conn.t) :
  (forall index c, Conn.m_devs (body index c) = alter g index (Conn.m_devs c)) ->
  Conn.m_devs (fold_left (fun c index => body index c) (seq a n) c) !! k
  = if decide (a <= k < a + n)%nat then g <$> Conn.m_devs c !! k else Conn.m_devs c !! k.
Proof.
  intros Hbody. revert a c. induction n as [|n IH]; intros a c; simpl.
  - case_decide; [lia|done].
  - rewrite IH, Hbody.
    destruct (decide (a = k)) as [->|Hne].
    + rewrite list_lookup_alter_eq. repeat case_decide; try lia; done.
    + rewrite list_lookup_alter_ne by done. repeat case_decide; try lia; done.
Qed.

Lemma devs_forEachIndex (g : SyncthingDev.t -> SyncthingDev.t)
    (body : nat -> Conn.t -> Conn.t) (c : Conn.t) :
  (forall index c, Conn.m_devs (body index c) = alter g index (Conn.m_devs c)) ->
  Conn.m_devs (forEachIndex (length (Conn.m_devs c)) body c) = g <$> Conn.m_devs c.
Proof.
  intros Hbody. apply list_eq. intros k. unfold forEachIndex.
  rewrite (devs_loop_lookup g body _ _ _ _ Hbody), list_lookup_fmap.
  case_decide as Hk; [done|].
  rewrite (lookup_ge_None_2 (Conn.m_devs c) k) by lia. done.
Qed.

(** The entry the object [connections] of the reply has for a device. *)
Definition connectionOf (connectionsObj : QJsonObject) (dev : SyncthingDev.t) : QJsonObject :=
  Json.toObject (Json.value connectionsObj (SyncthingDev.id dev)).

(** The assignments of the loop of [readConnections] to one device. *)
Definition assignedFromConnection (connectionsObj : QJsonObject) (dev dev' : SyncthingDev.t)
  : Prop :=
  let connectionObj := connectionOf connectionsObj dev in
  if Json.isEmptyObject connectionObj then dev' = dev
  else
    SyncthingDev.status dev'
    = connectionStatus (SyncthingDev.status dev)
        (Json.toBool (Json.value connectionObj "connected") false)
    /\ SyncthingDev.paused dev' = Json.toBool (Json.value connectionObj "paused") false
    /\ SyncthingDev.totalIncomingTraffic dev'
       = double_to_uint64 (Json.toDouble (Json.value connectionObj "inBytesTotal") 0%float)
    /\ SyncthingDev.totalOutgoingTraffic dev'
       = double_to_uint64 (Json.toDouble (Json.value connectionObj "outBytesTotal") 0%float)
    /\ SyncthingDev.connectionAddress dev' = Json.toString (Json.value connectionObj "address")
    /\ SyncthingDev.connectionType dev' = Json.toString (Json.value connectionObj "type")
    /\ SyncthingDev.clientVersion dev'
       = Json.toString (Json.value connectionObj "clientVersion")
    /\ SyncthingDev.id dev' = SyncthingDev.id dev
    /\ SyncthingDev.name dev' = SyncthingDev.name dev
    /\ SyncthingDev.addresses dev' = SyncthingDev.addresses dev
    /\ SyncthingDev.compression dev' = SyncthingDev.compression dev
    /\ SyncthingDev.certName dev' = SyncthingDev.certName dev
    /\ SyncthingDev.introducer dev' = SyncthingDev.introducer dev
    /\ SyncthingDev.lastSeen dev' = SyncthingDev.lastSeen dev.

Lemma readConnection_row (connectionsObj : QJsonObject) :
  exists g : SyncthingDev.t -> SyncthingDev.t,
    (forall dev, assignedFromConnection connectionsObj dev (g dev))
    /\ forall index c,
         Conn.m_devs (readConnection connectionsObj index c) = alter g index (Conn.m_devs c).
Proof.
  exists (fun dev =>
    let connectionObj := Json.toObject (Json.value connectionsObj (SyncthingDev.id dev)) in
    if Json.isEmptyObject connectionObj then dev
    else
      SyncthingDev.set_clientVersion (Json.toString (Json.value connectionObj "clientVersion"))
        (SyncthingDev.set_connectionType (Json.toString (Json.value connectionObj "type"))
           (SyncthingDev.set_connectionAddress
              (Json.toString (Json.value connectionObj "address"))
              (SyncthingDev.set_totalOutgoingTraffic
                 (double_to_uint64
                    (Json.toDouble (Json.value connectionObj "outBytesTotal") 0%float))
                 (SyncthingDev.set_totalIncomingTraffic
                    (double_to_uint64
                       (Json.toDouble (Json.value connectionObj "inBytesTotal") 0%float))
                    (SyncthingDev.set_paused
                       (Json.toBool (Json.value connectionObj "paused") false)
                       (SyncthingDev.set_status
                          (connectionStatus (SyncthingDev.status dev)
                             (Json.toBool (Json.value connectionObj "connected") false))
                          dev))))))).
  split.
  - intros dev. unfold assignedFromConnection, connectionOf. cbn zeta.
    destruct (Json.isEmptyObject _); [done|]. by repeat split.
  - intros index c. unfold readConnection. apply list_eq. intros k.
    destruct (Conn.m_devs c !! index) as [dev|] eqn:Hdev.
    + destruct (decide (k = index)) as [-> | Hne].
      * rewrite list_lookup_alter_eq, Hdev. cbn [fmap option_fmap option_map].
        destruct (Json.isEmptyObject _); [done|].
        cbn [emit updateDev Conn.m_devs Conn.set_emitted Conn.set_m_devs].
        by rewrite list_lookup_alter_eq, Hdev.
      * rewrite list_lookup_alter_ne by done.
        destruct (Json.isEmptyObject _); [done|].
        cbn [emit updateDev Conn.m_devs Conn.set_emitted Conn.set_m_devs].
        by rewrite list_lookup_alter_ne.
    + destruct (decide (k = index)) as [-> | Hne].
      * by rewrite list_lookup_alter_eq, Hdev.
      * by rewrite list_lookup_alter_ne.
Qed.

Lemma readConnection_frame (connectionsObj : QJsonObject) (index : nat) (c : Conn.t) :
  let c' := readConnection connectionsObj index c in
  Conn.m_dirs c' = Conn.m_dirs c
  /\ Conn.m_keepPolling c' = Conn.m_keepPolling c
  /\ Conn.m_status c' = Conn.m_status c
  /\ errorsEmitted c' = errorsEmitted c.
Proof.
  unfold readConnection. destruct (Conn.m_devs c !! index); [|done].
  destruct (Json.isEmptyObject _); [done|].
  rewrite errorsEmitted_emit. cbn. by rewrite app_nil_r.
Qed.

Lemma readConnections_success (now1 now2 : DateTime) (reply : Reply)
    (doc : QJsonDocument) (c : Conn.t) :
  replyError reply = NoError -> fromJson reply = inr doc ->
  let c' := readConnections now1 now2 reply c in
  let connectionsObj := Json.toObject (Json.value (docObject doc) "connections") in
  let totalObj := Json.toObject (Json.value (docObject doc) "total") in
  length (Conn.m_devs c') = length (Conn.m_devs c)
  /\ (forall row dev, Conn.m_devs c !! row = Some dev ->
        exists dev', Conn.m_devs c' !! row = Some dev'
          /\ assignedFromConnection connectionsObj dev dev')
  /\ Conn.m_lastConnectionsUpdate c' = now2
  /\ Conn.m_totalIncomingTraffic c'
     = double_to_uint64 (Json.toDouble (Json.value totalObj "inBytesTotal") 0%float)
  /\ Conn.m_totalOutgoingTraffic c'
     = double_to_uint64 (Json.toDouble (Json.value totalObj "outBytesTotal") 0%float)
  /\ Conn.m_dirs c' = Conn.m_dirs c
  /\ Conn.m_status c' = Conn.m_status c
  /\ errorsEmitted c' = errorsEmitted c.
Proof.
  intros Herror Hjson. cbn zeta. unfold readConnections. rewrite Herror, Hjson. cbn zeta.
  set (c0 := if isReply _ _ then _ else c).
  assert (Conn.m_devs c0 = Conn.m_devs c /\ Conn.m_dirs c0 = Conn.m_dirs c
          /\ Conn.m_status c0 = Conn.m_status c /\ errorsEmitted c0 = errorsEmitted c)
    as (Hdevs & Hdirs & Hstatus & Herrors).
  { unfold c0. by destruct (isReply _ _). }
  rewrite <- Hdevs, <- Hdirs, <- Hstatus, <- Herrors.
  generalize dependent c0. intros c0 _ _ _ _.
  match goal with |- context [forEachIndex ?n ?body ?x] => set (c1 := x) end.
  set (loop := forEachIndex _ _ c1).
  assert (Conn.m_devs c1 = Conn.m_devs c0 /\ Conn.m_dirs c1 = Conn.m_dirs c0
          /\ Conn.m_status c1 = Conn.m_status c0 /\ errorsEmitted c1 = errorsEmitted c0
          /\ Conn.m_totalIncomingTraffic c1
             = double_to_uint64
                 (Json.toDouble
                    (Json.value (Json.toObject (Json.value (docObject doc) "total"))
                       "inBytesTotal") 0%float)
          /\ Conn.m_totalOutgoingTraffic c1
             = double_to_uint64
                 (Json.toDouble
                    (Json.value (Json.toObject (Json.value (docObject doc) "total"))
                       "outBytesTotal") 0%float))
    as (Hdevs1 & Hdirs1 & Hstatus1 & Herrors1 & Hin1 & Hout1).
  { unfold c1. rewrite errorsEmitted_emit. cbn [Signal.isError]. rewrite app_nil_r.
    destruct (_ && _); by repeat split. }
  destruct (readConnection_row (Json.toObject (Json.value (docObject doc) "connections")))
    as (g & Hg & Hrow).
  assert (Conn.m_devs loop = g <$> Conn.m_devs c0) as Hloop.
  { unfold loop. rewrite <- Hdevs1. by apply devs_forEachIndex. }
  assert (Conn.m_dirs loop = Conn.m_dirs c0 /\ Conn.m_status loop = Conn.m_status c0
          /\ errorsEmitted loop = errorsEmitted c0
          /\ Conn.m_totalIncomingTraffic loop = Conn.m_totalIncomingTraffic c1
          /\ Conn.m_totalOutgoingTraffic loop = Conn.m_totalOutgoingTraffic c1)
    as (Hdirs2 & Hstatus2 & Herrors2 & Hin2 & Hout2).
  { unfold loop.
    apply (forEachIndex_invariant
             (fun c2 => Conn.m_dirs c2 = Conn.m_dirs c0 /\ Conn.m_status c2 = Conn.m_status c0
                        /\ errorsEmitted c2 = errorsEmitted c0
                        /\ Conn.m_totalIncomingTraffic c2 = Conn.m_totalIncomingTraffic c1
                        /\ Conn.m_totalOutgoingTraffic c2 = Conn.m_totalOutgoingTraffic c1));
      [|by repeat split].
    intros index c2 (H1 & H2 & H3 & H4 & H5).
    destruct (readConnection_frame
                (Json.toObject (Json.value (docObject doc) "connections")) index c2)
      as (-> & _ & -> & ->).
    destruct (readConnection_rates
                (Json.toObject (Json.value (docObject doc) "connections")) index c2)
      as (_ & _ & -> & ->).
    by repeat split. }
  generalize dependent loop. intros loop Hloop Hdirs2 Hstatus2 Herrors2 Hin2 Hout2.
  assert (forall c3 : Conn.t,
            Conn.m_devs c3 = Conn.m_devs loop ->
            Conn.m_dirs c3 = Conn.m_dirs loop ->
            Conn.m_status c3 = Conn.m_status loop ->
            Conn.m_totalIncomingTraffic c3 = Conn.m_totalIncomingTraffic loop ->
            Conn.m_totalOutgoingTraffic c3 = Conn.m_totalOutgoingTraffic loop ->
            errorsEmitted c3 = errorsEmitted loop ->
            Conn.m_lastConnectionsUpdate c3 = now2 ->
            length (Conn.m_devs c3) = length (Conn.m_devs c0)
            /\ (forall row dev, Conn.m_devs c0 !! row = Some dev ->
                  exists dev', Conn.m_devs c3 !! row = Some dev'
                    /\ assignedFromConnection
                         (Json.toObject (Json.value (docObject doc) "connections")) dev dev')
            /\ Conn.m_lastConnectionsUpdate c3 = now2
            /\ Conn.m_totalIncomingTraffic c3
               = double_to_uint64
                   (Json.toDouble
                      (Json.value (Json.toObject (Json.value (docObject doc) "total"))
                         "inBytesTotal") 0%float)
            /\ Conn.m_totalOutgoingTraffic c3
               = double_to_uint64
                   (Json.toDouble
                      (Json.value (Json.toObject (Json.value (docObject doc) "total"))
                         "outBytesTotal") 0%float)
            /\ Conn.m_dirs c3 = Conn.m_dirs c0
            /\ Conn.m_status c3 = Conn.m_status c0
            /\ errorsEmitted c3 = errorsEmitted c0) as Hfinal.
  { intros c3 -> -> -> -> -> -> ->.
    rewrite Hloop, length_fmap, Hin2, Hout2.
    repeat split; try done.
    intros row dev Hdev. exists (g dev). rewrite list_lookup_fmap, Hdev. by split. }
  destruct (Conn.m_keepPolling _).
  - apply Hfinal; try reflexivity.
    rewrite errorsEmitted_emit. cbn [Signal.isError]. by rewrite app_nil_r.
  - by apply Hfinal.
Qed.

(** What a successfully read reply makes of a device, said apart from the
    loop.  Without an entry under its id the device stays as it is.  With
    one: the own device keeps its status; any other device is Disconnected
    if the entry does not say connected; if it says connected, a device
    that was Disconnected or Unknown is Idle and any other keeps its
    status.  The paused flag, address, type and client version are the
    entry's, the two traffic counters are the entry's numbers wherever
    [static_cast<uint64>] converts them, and the members of the
    configuration and the time last seen stay. *)
Definition updatedFromConnections (connectionsObj : QJsonObject) (dev dev' : SyncthingDev.t)
  : Prop :=
  let connectionObj := connectionOf connectionsObj dev in
  let connected := Json.toBool (Json.value connectionObj "connected") false in
  let status := SyncthingDev.status dev in
  if Json.isEmptyObject connectionObj then dev' = dev
  else
    (status = SyncthingDevStatus.OwnDevice ->
     SyncthingDev.status dev' = SyncthingDevStatus.OwnDevice)
    /\ (status <> SyncthingDevStatus.OwnDevice -> connected = false ->
        SyncthingDev.status dev' = SyncthingDevStatus.Disconnected)
    /\ (status = SyncthingDevStatus.Disconnected \/ status = SyncthingDevStatus.Unknown ->
        connected = true -> SyncthingDev.status dev' = SyncthingDevStatus.Idle)
    /\ (status <> SyncthingDevStatus.Disconnected -> status <> SyncthingDevStatus.Unknown ->
        connected = true -> SyncthingDev.status dev' = status)
    /\ SyncthingDev.paused dev' = Json.toBool (Json.value connectionObj "paused") false
    /\ (forall bytes,
          castsToUint64 (Json.toDouble (Json.value connectionObj "inBytesTotal") 0%float) bytes ->
          SyncthingDev.totalIncomingTraffic dev' = bytes)
    /\ (forall bytes,
          castsToUint64 (Json.toDouble (Json.value connectionObj "outBytesTotal") 0%float) bytes ->
          SyncthingDev.totalOutgoingTraffic dev' = bytes)
    /\ SyncthingDev.connectionAddress dev' = Json.toString (Json.value connectionObj "address")
    /\ SyncthingDev.connectionType dev' = Json.toString (Json.value connectionObj "type")
    /\ SyncthingDev.clientVersion dev'
       = Json.toString (Json.value connectionObj "clientVersion")
    /\ SyncthingDev.id dev' = SyncthingDev.id dev
    /\ SyncthingDev.name dev' = SyncthingDev.name dev
    /\ SyncthingDev.addresses dev' = SyncthingDev.addresses dev
    /\ SyncthingDev.compression dev' = SyncthingDev.compression dev
    /\ SyncthingDev.certName dev' = SyncthingDev.certName dev
    /\ SyncthingDev.introducer dev' = SyncthingDev.introducer dev
    /\ SyncthingDev.lastSeen dev' = SyncthingDev.lastSeen dev.

Lemma assignedFromConnection_updated (connectionsObj : QJsonObject)
    (dev dev' : SyncthingDev.t) :
  assignedFromConnection connectionsObj dev dev' ->
  updatedFromConnections connectionsObj dev dev'.
Proof.
  unfold assignedFromConnection, updatedFromConnections. cbn zeta.
  destruct (Json.isEmptyObject _); [done|].
  intros (Hstatus & Hpaused & Hin & Hout & Hrest).
  unfold connectionStatus in Hstatus.
  split; [intros Hown; rewrite Hstatus, Hown; reflexivity|].
  split; [intros Hown Hconnected; rewrite Hstatus, Hconnected;
          destruct (SyncthingDev.status dev); try reflexivity; by destruct Hown|].
  split; [intros [Hs | Hs] Hconnected; rewrite Hstatus, Hs, Hconnected; reflexivity|].
  split; [intros Hd Hu Hconnected; rewrite Hstatus, Hconnected;
          destruct (SyncthingDev.status dev); try reflexivity;
          [by destruct Hu | by destruct Hd]|].
  split; [exact Hpaused|].
  split; [intros bytes Hbytes; rewrite Hin; by apply double_to_uint64_defined|].
  split; [intros bytes Hbytes; rewrite Hout; by apply double_to_uint64_defined|].
  exact Hrest.
Qed.

(** X19.  A successfully read connections reply updates every device from
    the entry the reply has under the device's id, each device on its own.
    The own device keeps its status; another device becomes Disconnected
    when its entry does not say connected, Idle when the entry says
    connected and the device was Disconnected or Unknown, and keeps its
    status otherwise.  Paused flag, address, type and client version come
    from the entry, the traffic counters too wherever the entry's number
    is one [static_cast<uint64>] converts; the configured members and the
    time last seen stay.  Devices without an entry are left as they are.
    The connection stores the totals of the reply (under the same
    condition) and the time of the update, and raises no error. *)
Theorem connections_update_each_device_from_its_entry (now1 now2 : DateTime) (reply : Reply)
    (doc : QJsonDocument) (c : Conn.t) :
  replyError reply = NoError -> fromJson reply = inr doc ->
  let c' := readConnections now1 now2 reply c in
  let connectionsObj := Json.toObject (Json.value (docObject doc) "connections") in
  let totalObj := Json.toObject (Json.value (docObject doc) "total") in
  length (Conn.m_devs c') = length (Conn.m_devs c)
  /\ (forall row dev, Conn.m_devs c !! row = Some dev ->
        exists dev', Conn.m_devs c' !! row = Some dev'
          /\ updatedFromConnections connectionsObj dev dev')
  /\ Conn.m_lastConnectionsUpdate c' = now2
  /\ (forall bytes,
        castsToUint64 (Json.toDouble (Json.value totalObj "inBytesTotal") 0%float) bytes ->
        Conn.m_totalIncomingTraffic c' = bytes)
  /\ (forall bytes,
        castsToUint64 (Json.toDouble (Json.value totalObj "outBytesTotal") 0%float) bytes ->
        Conn.m_totalOutgoingTraffic c' = bytes)
  /\ Conn.m_dirs c' = Conn.m_dirs c
  /\ Conn.m_status c' = Conn.m_status c
  /\ errorsEmitted c' = errorsEmitted c.
Proof.
  intros Herror Hjson. cbn zeta.
  destruct (readConnections_success now1 now2 reply doc c Herror Hjson)
    as (Hlength & Hdevs & Hupdate & Hin & Hout & Hdirs & Hstatus & Herrors).
  cbn zeta in Hlength, Hdevs, Hupdate, Hin, Hout, Hdirs, Hstatus, Herrors.
  split; [exact Hlength|].
  split.
  { intros row dev Hdev. destruct (Hdevs row dev Hdev) as (dev' & Hlookup & Hassigned).
    exists dev'. split; [exact Hlookup|]. by apply assignedFromConnection_updated. }
  split; [exact Hupdate|].
  split; [intros bytes Hbytes; rewrite Hin; by apply double_to_uint64_defined|].
  split; [intros bytes Hbytes; rewrite Hout; by apply double_to_uint64_defined|].
  split; [exact Hdirs|]. split; [exact Hstatus|exact Herrors].
Qed.

(** ** The errors Syncthing reports *)

(** The signal, if it is a notification, is for a time after [start] and
    not after [limit]. *)
Definition notifiedAfter (start limit : DateTime) (s : Signal.t) : Prop :=
  match s with
  | Signal.newNotification when _ => start < when <= limit
  | _ => True
  end.

Lemma emitNotification_emitted (when : DateTime) (msg : string) (c : Conn.t) :
  let c' := emitNotification when msg c in
  Conn.m_lastErrorTime c' = Conn.m_lastErrorTime c
  /\ exists announced,
       Conn.emitted c' = Conn.emitted c ++ announced ++ [Signal.newNotification when msg]
       /\ forall start limit, Forall (notifiedAfter start limit) announced.
Proof.
  unfold emitNotification. cbn zeta.
  set (c1 := Conn.set_m_unreadNotifications true c).
  pose proof (setStatus_emitted (Conn.m_status c1) c1) as H. cbn zeta in H.
  cbn [emit Conn.emitted Conn.set_emitted Conn.m_lastErrorTime].
  split; [by rewrite (setStatus_footprint (Conn.m_status c1) c1)|].
  destruct H as [-> | ->].
  - exists []. split; [done|]. intros. constructor.
  - eexists [_]. rewrite <- app_assoc. split; [done|]. intros.
    apply Forall_singleton. exact I.
Qed.

Lemma notifiedAfter_mono (start limit limit' : DateTime) (signals : list Signal.t) :
  limit <= limit' ->
  Forall (notifiedAfter start limit) signals -> Forall (notifiedAfter start limit') signals.
Proof.
  intros Hle Hall. eapply Forall_impl; [exact Hall|].
  intros [] H; cbn in *; try done. lia.
Qed.

(** X20.  [readErrors] notifies an error only if it is dated after the
    time of the last error notified, or after the time of the call when
    none was notified before, and moves that time to the error notified:
    so the time of the last error never goes back, no error is notified
    twice, and errors from before the connection are skipped.  Signals are
    only appended. *)
Theorem readErrors_notifies_newer_errors_only (now : DateTime) (reply : Reply) (c : Conn.t) :
  let start :=
    if Chrono.isNull (Conn.m_lastErrorTime c) then now else Conn.m_lastErrorTime c in
  let c' := readErrors now reply c in
  start <= Conn.m_lastErrorTime c'
  /\ exists added,
       Conn.emitted c' = Conn.emitted c ++ added
       /\ Forall (notifiedAfter start (Conn.m_lastErrorTime c')) added.
Proof.
  cbn zeta. unfold readErrors.
  set (start := if Chrono.isNull (Conn.m_lastErrorTime c) then now else Conn.m_lastErrorTime c).
  set (c0 := if isReply _ _ then _ else c).
  assert (Conn.m_lastErrorTime c0 = Conn.m_lastErrorTime c
          /\ Conn.emitted c0 = Conn.emitted c) as [Htime0 Hemitted0].
  { unfold c0. by destruct (isReply _ _). }
  cbn zeta. rewrite Htime0.
  set (c1 := if Chrono.isNull (Conn.m_lastErrorTime c) then _ else c0).
  assert (Conn.m_lastErrorTime c1 = start /\ Conn.emitted c1 = Conn.emitted c)
    as [Htime1 Hemitted1].
  { unfold c1, start. by destruct (Chrono.isNull _). }
  generalize dependent c1. intros c1 Htime1 Hemitted1. rewrite <- Hemitted1.
  clear c0 Htime0 Hemitted0.
  set (good := fun c2 : Conn.t =>
         start <= Conn.m_lastErrorTime c2
         /\ exists added,
              Conn.emitted c2 = Conn.emitted c1 ++ added
              /\ Forall (notifiedAfter start (Conn.m_lastErrorTime c2)) added).
  assert (good c1) as Hc1.
  { split; [lia|]. exists []. split; [by rewrite app_nil_r|constructor]. }
  assert (forall s c2, (forall w m, s <> Signal.newNotification w m) ->
            good c2 -> good (emit s c2)) as Hemit.
  { intros s c2 Hs (Hle & added & Hadded & Hall). split; [exact Hle|].
    exists (added ++ [s]). cbn. rewrite Hadded, <- app_assoc. split; [done|].
    apply Forall_app. split; [exact Hall|]. apply Forall_singleton.
    destruct s; try exact I. by destruct (Hs when msg). }
  assert (forall errors c2, good c2 -> good (fold_left readError errors c2)) as Hloop.
  { induction errors as [|errorVal errors IH]; intros c2 Hc2; [exact Hc2|].
    cbn [fold_left]. apply IH. unfold readError. cbn zeta.
    destruct (Json.isEmptyObject _); [exact Hc2|].
    destruct (fromIsoStringLocal _) as [when|]; [|exact Hc2].
    destruct (Conn.m_lastErrorTime c2 <? when) eqn:Hlt; [|exact Hc2].
    apply Z.ltb_lt in Hlt.
    destruct Hc2 as (Hle & added & Hadded & Hall).
    match goal with |- good (emitNotification ?w ?m ?x) =>
      destruct (emitNotification_emitted w m x) as (Htime & announced & Hemitted & Hann) end.
    cbn zeta in Htime, Hemitted.
    change (Conn.m_lastErrorTime (Conn.set_m_lastErrorTime when c2)) with when in Htime.
    change (Conn.emitted (Conn.set_m_lastErrorTime when c2)) with (Conn.emitted c2)
      in Hemitted.
    split; [rewrite Htime; lia|].
    exists (added ++ announced ++ [Signal.newNotification when
                                     (Json.toString
                                        (Json.value (Json.toObject errorVal) "message"))]).
    rewrite Hemitted, Htime, Hadded, <- !app_assoc. split; [done|].
    apply Forall_app. split.
    { apply (notifiedAfter_mono start (Conn.m_lastErrorTime c2)); [lia|exact Hall]. }
    apply Forall_app. split; [apply Hann|].
    apply Forall_singleton. cbn. lia. }
  match goal with |- _ <= Conn.m_lastErrorTime ?x /\ _ => change (good x) end.
  destruct (replyError reply); try exact Hc1; try (by apply Hemit).
  cbn zeta.
  assert (good match fromJson reply with
               | inl jsonError =>
                   emit (Signal.error ("Unable to parse errors: " +:+ jsonError) Parsing) c1
               | inr replyDoc =>
                   fold_left readError
                     (Json.toArray (Json.value (docObject replyDoc) "errors")) c1
               end) as Hread.
  { destruct (fromJson reply); [by apply Hemit|by apply Hloop]. }
  destruct (Conn.m_keepPolling _); [by apply Hemit|exact Hread].
Qed.

(** ** The last file *)

(** The time of the last file the connection holds is at least the time of
    the last file of every directory. *)
Definition dominated (limit : DateTime) (dirs : list SyncthingDir.t) : Prop :=
  forall d, d ∈ dirs -> SyncthingDir.lastFileTime d <= limit.

Definition lastFileTimeDominates (c : Conn.t) : Prop :=
  0 <= Conn.m_lastFileTime c /\ dominated (Conn.m_lastFileTime c) (Conn.m_dirs c).

Lemma dominated_alter (f : SyncthingDir.t -> SyncthingDir.t) (index : nat)
    (limit : DateTime) (dirs : list SyncthingDir.t) :
  (forall d, dirs !! index = Some d -> SyncthingDir.lastFileTime (f d) <= limit) ->
  dominated limit dirs -> dominated limit (alter f index dirs).
Proof.
  intros Hf Hdirs d Hd. apply list_elem_of_lookup in Hd as [k Hk].
  destruct (decide (k = index)) as [-> | Hne].
  - rewrite list_lookup_alter_eq in Hk.
    destruct (dirs !! index) as [d0|] eqn:Hd0; [|discriminate].
    injection Hk as <-. by apply Hf.
  - rewrite list_lookup_alter_ne in Hk by done. apply Hdirs.
    by apply list_elem_of_lookup_2 in Hk.
Qed.

Lemma dominated_alter_keep (f : SyncthingDir.t -> SyncthingDir.t) (index : nat)
    (limit : DateTime) (dirs : list SyncthingDir.t) :
  (forall d, SyncthingDir.lastFileTime (f d) = SyncthingDir.lastFileTime d) ->
  dominated limit dirs -> dominated limit (alter f index dirs).
Proof.
  intros Hf Hdirs. apply dominated_alter; [|exact Hdirs].
  intros d Hd. rewrite Hf. apply Hdirs. by apply list_elem_of_lookup_2 in Hd.
Qed.

Lemma dominated_mono (limit limit' : DateTime) (dirs : list SyncthingDir.t) :
  limit <= limit' -> dominated limit dirs -> dominated limit' dirs.
Proof. intros Hle Hdirs d Hd. specialize (Hdirs d Hd). lia. Qed.

Lemma readDirStatistic_lastFileTime (replyObj : QJsonObject) (index : nat) (c : Conn.t) :
  lastFileTimeDominates c -> lastFileTimeDominates (readDirStatistic replyObj index c).
Proof.
  intros [Hpos Hdom]. unfold readDirStatistic.
  destruct (Conn.m_dirs c !! index) as [dirInfo|]; [|by split].
  destruct (Json.isEmptyObject _); [by split|].
  assert (forall (modified : bool) (c1 : Conn.t),
            lastFileTimeDominates c1 ->
            lastFileTimeDominates (if modified then emit (Signal.dirStatusChanged index) c1
                                   else c1)) as Hemit.
  { intros [] c1 H; exact H. }
  assert (forall (modified : bool) (c1 : Conn.t),
            lastFileTimeDominates c1 ->
            lastFileTimeDominates
              (let '(modified, c2) :=
                 if Json.isEmptyObject
                      (Json.toObject
                         (Json.value
                            (Json.toObject (Json.value replyObj (SyncthingDir.id dirInfo)))
                            "lastFile"))
                 then (modified, c1)
                 else
                   let lastFileObj :=
                     Json.toObject
                       (Json.value
                          (Json.toObject (Json.value replyObj (SyncthingDir.id dirInfo)))
                          "lastFile") in
                   let lastFileName := Json.toString (Json.value lastFileObj "filename") in
                   let c2 := updateDir index (SyncthingDir.set_lastFileName lastFileName) c1 in
                   if isEmpty lastFileName then (true, c2)
                   else
                     let lastFileDeleted :=
                       Json.toBool (Json.value lastFileObj "deleted") false in
                     let c2 :=
                       updateDir index (SyncthingDir.set_lastFileDeleted lastFileDeleted) c2 in
                     match fromIsoStringLocal (Json.toString (Json.value lastFileObj "at")) with
                     | Some lastFileTime =>
                         let c2 :=
                           updateDir index (SyncthingDir.set_lastFileTime lastFileTime) c2 in
                         if Conn.m_lastFileTime c2 <? lastFileTime then
                           (true,
                            Conn.set_m_lastFileDeleted lastFileDeleted
                              (Conn.set_m_lastFileName lastFileName
                                 (Conn.set_m_lastFileTime lastFileTime c2)))
                         else (true, c2)
                     | None =>
                         (true, updateDir index (SyncthingDir.set_lastFileTime Chrono.null) c2)
                     end in
               if modified then emit (Signal.dirStatusChanged index) c2 else c2)) as Hfile.
  { intros modified c1 [Hpos1 Hdom1].
    destruct (Json.isEmptyObject _); [by apply Hemit|]. cbn zeta.
    destruct (isEmpty _).
    { split; [exact Hpos1|]. by apply dominated_alter_keep. }
    destruct (fromIsoStringLocal _) as [lastFileTime|].
    - cbn [Conn.m_lastFileTime updateDir Conn.set_m_dirs].
      destruct (Conn.m_lastFileTime c1 <? lastFileTime) eqn:Hlt.
      + apply Z.ltb_lt in Hlt. split; [cbn; lia|]. cbn.
        apply dominated_alter; [intros; cbn; lia|].
        do 2 (apply dominated_alter_keep; [done|]).
        apply (dominated_mono (Conn.m_lastFileTime c1)); [lia|exact Hdom1].
      + apply Z.ltb_ge in Hlt. split; [exact Hpos1|]. cbn.
        apply dominated_alter; [intros; cbn; lia|].
        by do 2 (apply dominated_alter_keep; [done|]).
    - split; [exact Hpos1|]. cbn.
      apply dominated_alter; [intros; cbn; unfold Chrono.null; lia|].
      by do 2 (apply dominated_alter_keep; [done|]). }
  destruct (fromIsoStringLocal _); apply Hfile;
    (split; [exact Hpos|by apply dominated_alter_keep]).
Qed.

(** X21.  The time of the last file the connection holds stays at least
    the time of the last file of every directory (and not negative) when
    the directory statistics are read and when an ItemFinished event is
    processed, whatever the reply or the event; a connection that starts
    to reconnect has the property. *)
Theorem last_file_time_dominates_the_directories (reply : Reply) (eventTime : DateTime)
    (eventData : QJsonObject) (c : Conn.t) :
  lastFileTimeDominates (continueReconnecting c)
  /\ (lastFileTimeDominates c ->
      lastFileTimeDominates (readDirStatistics reply c)
      /\ lastFileTimeDominates (readItemFinished eventTime eventData c)).
Proof.
  split.
  - unfold continueReconnecting, lastFileTimeDominates, dominated. cbn zeta.
    destruct (_ || _); cbn; (split; [done|]); intros d Hd; by apply elem_of_nil in Hd.
  - intros Hc. split.
    + unfold readDirStatistics.
      destruct (replyError reply); try exact Hc.
      destruct (fromJson reply); [exact Hc|].
      apply forEachIndex_invariant; [|exact Hc].
      intros index c1. apply readDirStatistic_lastFileTime.
    + destruct Hc as [Hpos Hdom]. unfold readItemFinished. cbn zeta.
      destruct (isEmpty _); [by split|].
      destruct (findDirInfo _ _) as [index|]; [|by split].
      destruct (Conn.m_dirs c !! index) as [dirInfo|]; [|by split].
      destruct (isEmpty _).
      * destruct (_ || _); [|by split].
        cbn [Conn.m_lastFileTime updateDir Conn.set_m_dirs].
        destruct (Conn.m_lastFileTime c <? eventTime) eqn:Hlt.
        -- apply Z.ltb_lt in Hlt. split; [cbn; lia|]. cbn.
           apply dominated_alter; [intros; cbn; lia|].
           apply (dominated_mono (Conn.m_lastFileTime c)); [lia|exact Hdom].
        -- apply Z.ltb_ge in Hlt. split; [exact Hpos|]. cbn.
           apply dominated_alter; [intros; cbn; lia|exact Hdom].
      * destruct (SyncthingDirStatus.eqb _ _); [|by split].
        unfold emitNotification. cbn zeta.
        match goal with |- lastFileTimeDominates (emit _ (setStatus ?s ?x)) =>
          unfold lastFileTimeDominates;
          cbn [emit Conn.m_lastFileTime Conn.m_dirs Conn.set_emitted];
          destruct (setStatus_entities s x) as [-> _];
          rewrite (setStatus_footprint s x) end.
        cbn. split; [exact Hpos|]. by apply dominated_alter_keep.
Qed.

(** ** Disconnecting, reconnecting, destroying *)

Lemma isReply_canceled (r : ReplyId) : isReply (Some r) (canceled r) = true.
Proof. cbn. apply Nat.eqb_refl. Qed.

Lemma abortReply_config (c : Conn.t) :
  abortReply (Conn.m_configReply c) readConfig c = Conn.set_m_configReply None c.
Proof.
  unfold abortReply. destruct (Conn.m_configReply c) as [r|] eqn:E; [|destruct c; cbn in E; by rewrite E].
  unfold readConfig. by rewrite E, isReply_canceled.
Qed.

Lemma abortReply_status (c : Conn.t) :
  abortReply (Conn.m_statusReply c) readStatus c = Conn.set_m_statusReply None c.
Proof.
  unfold abortReply. destruct (Conn.m_statusReply c) as [r|] eqn:E; [|destruct c; cbn in E; by rewrite E].
  unfold readStatus. by rewrite E, isReply_canceled.
Qed.

Lemma abortReply_connections (now : DateTime) (c : Conn.t) :
  abortReply (Conn.m_connectionsReply c) (readConnections now now) c
  = Conn.set_m_connectionsReply None c.
Proof.
  unfold abortReply.
  destruct (Conn.m_connectionsReply c) as [r|] eqn:E; [|destruct c; cbn in E; by rewrite E].
  unfold readConnections. by rewrite E, isReply_canceled.
Qed.

(** The canceled errors request still makes [readErrors] note the time. *)
Lemma abortReply_errors (now : DateTime) (c : Conn.t) :
  abortReply (Conn.m_errorsReply c) (readErrors now) c
  = match Conn.m_errorsReply c with
    | Some _ =>
        if Chrono.isNull (Conn.m_lastErrorTime c)
        then Conn.set_m_lastErrorTime now (Conn.set_m_errorsReply None c)
        else Conn.set_m_errorsReply None c
    | None => c
    end.
Proof.
  unfold abortReply. destruct (Conn.m_errorsReply c) as [r|] eqn:E; [|done].
  unfold readErrors. rewrite E, isReply_canceled. cbn.
  by destruct (Chrono.isNull _).
Qed.

Lemma abortReply_events (c : Conn.t) :
  abortReply (Conn.m_eventsReply c) readEvents c
  = match Conn.m_eventsReply c with
    | Some _ =>
        if Conn.m_reconnecting c then continueReconnecting (Conn.set_m_eventsReply None c)
        else setStatus SyncthingStatus.Disconnected (Conn.set_m_eventsReply None c)
    | None => c
    end.
Proof.
  unfold abortReply. destruct (Conn.m_eventsReply c) as [r|] eqn:E; [|done].
  unfold readEvents. by rewrite E, isReply_canceled.
Qed.

(** The state in which [abortAllRequests] calls the slot of the events
    request (or returns, if no such request is pending). *)
Definition requestsAborted (now : DateTime) (c : Conn.t) : Conn.t :=
  let c := Conn.set_m_configReply None c in
  let c := Conn.set_m_statusReply None c in
  let c := Conn.set_m_connectionsReply None c in
  match Conn.m_errorsReply c with
  | Some _ =>
      if Chrono.isNull (Conn.m_lastErrorTime c)
      then Conn.set_m_lastErrorTime now (Conn.set_m_errorsReply None c)
      else Conn.set_m_errorsReply None c
  | None => c
  end.

Lemma abortAllRequests_spec (now : DateTime) (c : Conn.t) :
  abortAllRequests now c
  = let c1 := requestsAborted now c in
    match Conn.m_eventsReply c with
    | Some _ =>
        if Conn.m_reconnecting c then continueReconnecting (Conn.set_m_eventsReply None c1)
        else setStatus SyncthingStatus.Disconnected (Conn.set_m_eventsReply None c1)
    | None => c1
    end.
Proof.
  unfold abortAllRequests. cbn zeta.
  rewrite abortReply_config, abortReply_status, abortReply_connections, abortReply_errors,
    abortReply_events.
  unfold requestsAborted. cbn zeta.
  cbn [Conn.m_errorsReply Conn.m_lastErrorTime Conn.set_m_configReply Conn.set_m_statusReply
       Conn.set_m_connectionsReply].
  destruct (Conn.m_errorsReply c); [destruct (Chrono.isNull _)|]; reflexivity.
Qed.

Lemma setStatus_Disconnected (c : Conn.t) :
  setStatus SyncthingStatus.Disconnected c
  = if SyncthingStatus.eqb (Conn.m_status c) SyncthingStatus.BeingDestroyed then c
    else if SyncthingStatus.eqb (Conn.m_status c) SyncthingStatus.Disconnected
    then Conn.set_m_syncedDirs [] c
    else emit (Signal.statusChanged SyncthingStatus.Disconnected)
           (Conn.set_m_status SyncthingStatus.Disconnected (Conn.set_m_syncedDirs [] c)).
Proof. reflexivity. Qed.

Lemma setStatus_Disconnected_fields (c : Conn.t) :
  let c' := setStatus SyncthingStatus.Disconnected c in
  (Conn.m_configReply c' = Conn.m_configReply c
   /\ Conn.m_statusReply c' = Conn.m_statusReply c
   /\ Conn.m_connectionsReply c' = Conn.m_connectionsReply c
   /\ Conn.m_errorsReply c' = Conn.m_errorsReply c
   /\ Conn.m_eventsReply c' = Conn.m_eventsReply c)
  /\ (Conn.m_hasConfig c' = Conn.m_hasConfig c
      /\ Conn.m_hasStatus c' = Conn.m_hasStatus c
      /\ Conn.m_reconnecting c' = Conn.m_reconnecting c
      /\ Conn.m_autoReconnectTries c' = Conn.m_autoReconnectTries c
      /\ Conn.m_keepPolling c' = Conn.m_keepPolling c)
  /\ Conn.m_status c'
     = (if SyncthingStatus.eqb (Conn.m_status c) SyncthingStatus.BeingDestroyed
        then SyncthingStatus.BeingDestroyed else SyncthingStatus.Disconnected).
Proof.
  cbn zeta. rewrite setStatus_Disconnected.
  destruct (SyncthingStatus.eqb (Conn.m_status c) SyncthingStatus.BeingDestroyed) eqn:Ebd.
  - apply SyncthingStatus.status_eqb_eq in Ebd. by repeat split.
  - destruct (SyncthingStatus.eqb (Conn.m_status c) SyncthingStatus.Disconnected) eqn:Ed;
      [apply SyncthingStatus.status_eqb_eq in Ed|]; by repeat split.
Qed.

(** What [abortAllRequests] leaves alone before it comes to the events
    request. *)
Definition lifecycleView (c : Conn.t) :=
  (Conn.m_status c, Conn.m_dirs c, Conn.m_devs c, Conn.m_keepPolling c,
   Conn.m_reconnecting c, Conn.m_hasConfig c, Conn.m_hasStatus c,
   Conn.m_autoReconnectTries c, Conn.m_autoReconnectTimerActive c,
   Conn.m_apiKey c, Conn.m_syncthingUrl c, Conn.nextReply c, Conn.emitted c,
   Conn.m_eventsReply c).

Lemma requestsAborted_spec (now : DateTime) (c : Conn.t) :
  let c' := requestsAborted now c in
  lifecycleView c' = lifecycleView c
  /\ Conn.m_configReply c' = None
  /\ Conn.m_statusReply c' = None
  /\ Conn.m_connectionsReply c' = None
  /\ Conn.m_errorsReply c' = None.
Proof.
  unfold requestsAborted. cbn zeta.
  cbn [Conn.m_errorsReply Conn.m_lastErrorTime Conn.set_m_configReply Conn.set_m_statusReply
       Conn.set_m_connectionsReply].
  destruct (Conn.m_errorsReply c) eqn:E; [destruct (Chrono.isNull _)|]; by repeat split.
Qed.

(** X22.  [disconnect()] aborts the pending requests without an error
    notification and without a new request: afterwards no reply of the
    five kept requests is pending, both readiness flags, the reconnecting
    flag and the reconnect tries are reset, and the entities and the
    polling flag are as before.  The status becomes Disconnected exactly if
    an events request was pending (and the connection is not being
    destroyed); otherwise it stays. *)
Theorem disconnect_aborts_silently (now : DateTime) (c : Conn.t) :
  let c' := disconnect now c in
  (Conn.m_configReply c' = None /\ Conn.m_statusReply c' = None
   /\ Conn.m_connectionsReply c' = None /\ Conn.m_errorsReply c' = None
   /\ Conn.m_eventsReply c' = None)
  /\ (Conn.m_hasConfig c' = false /\ Conn.m_hasStatus c' = false
      /\ Conn.m_reconnecting c' = false /\ Conn.m_autoReconnectTries c' = 0)
  /\ (errorsEmitted c' = errorsEmitted c /\ requestsIssued c' = requestsIssued c)
  /\ (Conn.m_dirs c' = Conn.m_dirs c /\ Conn.m_devs c' = Conn.m_devs c
      /\ Conn.m_keepPolling c' = Conn.m_keepPolling c)
  /\ Conn.m_status c'
     = match Conn.m_eventsReply c with
       | Some _ =>
           if SyncthingStatus.eqb (Conn.m_status c) SyncthingStatus.BeingDestroyed
           then SyncthingStatus.BeingDestroyed else SyncthingStatus.Disconnected
       | None => Conn.m_status c
       end.
Proof.
  cbn zeta. unfold disconnect. cbn zeta. rewrite abortAllRequests_spec. cbn zeta.
  match goal with |- context [requestsAborted now ?x] =>
    destruct (requestsAborted_spec now x) as (Hview & H1 & H2 & H3 & H4);
    set (c0 := x) in *; cbn zeta in Hview, H1, H2, H3, H4;
    remember (requestsAborted now c0) as c1 eqn:E1; clear E1 end.
  unfold lifecycleView in Hview.
  injection Hview as Hstatus Hdirs Hdevs Hkeep Hrec Hcfg Hst Htries _ _ _ _ Hemitted Hevents.
  unfold c0 in *. clear c0.
  cbn [Conn.m_status Conn.m_dirs Conn.m_devs Conn.m_keepPolling Conn.m_reconnecting
       Conn.m_hasConfig Conn.m_hasStatus Conn.m_autoReconnectTries Conn.emitted
       Conn.m_eventsReply Conn.set_m_autoReconnectTries Conn.set_m_reconnecting
       Conn.set_m_hasConfig Conn.set_m_hasStatus] in *.
  assert (errorsEmitted c1 = errorsEmitted c /\ requestsIssued c1 = requestsIssued c)
    as [Herrors Hrequests].
  { unfold errorsEmitted, requestsIssued. by rewrite Hemitted. }
  destruct (Conn.m_eventsReply c) as [r|] eqn:Er.
  - set (c2 := Conn.set_m_eventsReply None c1).
    rewrite setStatus_errorsEmitted, setStatus_requestsIssued.
    destruct (setStatus_entities SyncthingStatus.Disconnected c2) as [-> ->].
    change (errorsEmitted c2) with (errorsEmitted c1).
    change (requestsIssued c2) with (requestsIssued c1).
    destruct (setStatus_Disconnected_fields c2)
      as ((-> & -> & -> & -> & ->) & (-> & -> & -> & -> & ->) & ->).
    change (Conn.m_status c2) with (Conn.m_status c1). rewrite Hstatus.
    unfold c2.
    cbn [Conn.m_configReply Conn.m_statusReply Conn.m_connectionsReply
         Conn.m_errorsReply Conn.m_eventsReply Conn.m_hasConfig Conn.m_hasStatus
         Conn.m_reconnecting Conn.m_autoReconnectTries Conn.m_dirs Conn.m_devs
         Conn.m_keepPolling Conn.set_m_eventsReply].
    repeat split; first [assumption | reflexivity].
  - repeat split; assumption.
Qed.

(** X23.  Destroying the connection emits nothing, neither an error nor a
    change of status: the status is BeingDestroyed from the first step and
    [setStatus] leaves it.  The pending requests are aborted and the
    entities are still there. *)
Theorem destroy_emits_nothing (now : DateTime) (c : Conn.t) :
  let c' := destroy now c in
  Conn.emitted c' = Conn.emitted c
  /\ Conn.m_status c' = SyncthingStatus.BeingDestroyed
  /\ (Conn.m_configReply c' = None /\ Conn.m_statusReply c' = None
      /\ Conn.m_connectionsReply c' = None /\ Conn.m_errorsReply c' = None
      /\ Conn.m_eventsReply c' = None)
  /\ Conn.m_dirs c' = Conn.m_dirs c
  /\ Conn.m_devs c' = Conn.m_devs c.
Proof.
  cbn zeta. unfold destroy, disconnect. cbn zeta. rewrite abortAllRequests_spec. cbn zeta.
  match goal with |- context [requestsAborted now ?x] =>
    destruct (requestsAborted_spec now x) as (Hview & H1 & H2 & H3 & H4);
    set (c0 := x) in * end.
  cbn zeta in Hview, H1, H2, H3, H4.
  remember (requestsAborted now c0) as c1 eqn:E1. clear E1.
  unfold lifecycleView in Hview.
  injection Hview as Hstatus Hdirs Hdevs _ _ _ _ _ _ _ _ _ Hemitted Hevents.
  unfold c0 in *. clear c0.
  cbn [Conn.m_status Conn.m_dirs Conn.m_devs Conn.m_reconnecting Conn.emitted
       Conn.m_eventsReply Conn.set_m_autoReconnectTries Conn.set_m_reconnecting
       Conn.set_m_hasConfig Conn.set_m_hasStatus Conn.set_m_status] in *.
  destruct (Conn.m_eventsReply c) as [r|] eqn:Er.
  - rewrite setStatus_being_destroyed by exact Hstatus.
    cbn [Conn.m_configReply Conn.m_statusReply Conn.m_connectionsReply
         Conn.m_errorsReply Conn.m_eventsReply Conn.m_dirs Conn.m_devs Conn.m_status
         Conn.emitted Conn.set_m_eventsReply].
    repeat split; first [assumption | reflexivity].
  - repeat split; assumption.
Qed.

(** The step from [c] to [c'] starts the connection anew: the status is
    Reconnecting, the entities and the last event id are discarded, the
    flags are reset with polling on, and the configuration and the status
    are requested, without an error notification. *)
Definition restarted (c c' : Conn.t) : Prop :=
  Conn.m_status c' = SyncthingStatus.Reconnecting
  /\ (Conn.m_dirs c' = [] /\ Conn.m_devs c' = [] /\ Conn.m_lastEventId c' = 0
      /\ Conn.m_myId c' = "" /\ Conn.m_unreadNotifications c' = false)
  /\ (Conn.m_hasConfig c' = false /\ Conn.m_hasStatus c' = false
      /\ Conn.m_reconnecting c' = false /\ Conn.m_keepPolling c' = true)
  /\ (Conn.m_configReply c' = Some (Conn.nextReply c)
      /\ Conn.m_statusReply c' = Some (S (Conn.nextReply c)))
  /\ requestsIssued c'
     = requestsIssued c
       ++ [Signal.httpGet (Conn.nextReply c) "system/config" [];
           Signal.httpGet (S (Conn.nextReply c)) "system/status" []]
  /\ errorsEmitted c' = errorsEmitted c.

Lemma setStatus_Reconnecting (c : Conn.t) :
  Conn.m_status c <> SyncthingStatus.BeingDestroyed ->
  Conn.m_status (setStatus SyncthingStatus.Reconnecting c) = SyncthingStatus.Reconnecting.
Proof.
  intros Hbd. apply SyncthingStatus.status_eqb_neq in Hbd. unfold setStatus.
  rewrite Hbd. cbn.
  destruct (SyncthingStatus.eqb (Conn.m_status c) SyncthingStatus.Reconnecting) eqn:E; cbn;
    [by apply SyncthingStatus.status_eqb_eq in E|done].
Qed.

Lemma continueReconnecting_restarted (c0 c : Conn.t) :
  Conn.m_status c <> SyncthingStatus.BeingDestroyed ->
  isEmpty (Conn.m_apiKey c) = false ->
  isEmpty (Conn.m_syncthingUrl c) = false ->
  Conn.m_status c0 = Conn.m_status c ->
  Conn.m_apiKey c0 = Conn.m_apiKey c ->
  Conn.m_syncthingUrl c0 = Conn.m_syncthingUrl c ->
  Conn.nextReply c0 = Conn.nextReply c ->
  Conn.emitted c0 = Conn.emitted c ->
  restarted c (continueReconnecting c0)
  /\ Conn.m_autoReconnectTries (continueReconnecting c0) = Conn.m_autoReconnectTries c0
  /\ Conn.m_autoReconnectTimerActive (continueReconnecting c0)
     = Conn.m_autoReconnectTimerActive c0.
Proof.
  intros Hbd Hkey Hurl Hstatus Hkey0 Hurl0 Hnext Hemitted.
  rewrite <- Hstatus in Hbd. rewrite <- Hkey0 in Hkey. rewrite <- Hurl0 in Hurl.
  unfold restarted. rewrite <- Hnext.
  assert (requestsIssued c = requestsIssued c0 /\ errorsEmitted c = errorsEmitted c0)
    as [-> ->].
  { unfold requestsIssued, errorsEmitted. by rewrite Hemitted. }
  clear c Hstatus Hkey0 Hurl0 Hnext Hemitted.
  unfold continueReconnecting.
  set (c1 := emit (Signal.newConfig []) c0).
  pose proof (setStatus_Reconnecting c1 Hbd) as Hstatus2.
  pose proof (setStatus_requestsIssued SyncthingStatus.Reconnecting c1) as Hreq2.
  pose proof (setStatus_errorsEmitted SyncthingStatus.Reconnecting c1) as Herr2.
  assert (Conn.m_apiKey (setStatus SyncthingStatus.Reconnecting c1) = Conn.m_apiKey c0
          /\ Conn.m_syncthingUrl (setStatus SyncthingStatus.Reconnecting c1)
             = Conn.m_syncthingUrl c0
          /\ Conn.nextReply (setStatus SyncthingStatus.Reconnecting c1) = Conn.nextReply c0
          /\ Conn.m_autoReconnectTimerActive (setStatus SyncthingStatus.Reconnecting c1)
             = Conn.m_autoReconnectTimerActive c0) as (Hkey2 & Hurl2 & Hnext2 & Htimer2).
  { by rewrite (setStatus_footprint SyncthingStatus.Reconnecting c1). }
  assert (Conn.m_autoReconnectTries (setStatus SyncthingStatus.Reconnecting c1)
          = Conn.m_autoReconnectTries c0) as Htries2.
  { unfold setStatus. destruct (SyncthingStatus.eqb (Conn.m_status c1) _); [done|].
    cbn. by destruct (SyncthingStatus.eqb _ _). }
  assert (requestsIssued c1 = requestsIssued c0 /\ errorsEmitted c1 = errorsEmitted c0)
    as [Hreq1 Herr1].
  { unfold c1. rewrite requestsIssued_emit, errorsEmitted_emit. cbn.
    by rewrite !app_nil_r. }
  rewrite Hreq1 in Hreq2. rewrite Herr1 in Herr2.
  remember (setStatus SyncthingStatus.Reconnecting c1) as c2 eqn:E2. clear E2 c1 Hreq1 Herr1.
  cbn zeta.
  cbn [Conn.m_apiKey Conn.m_syncthingUrl Conn.set_m_keepPolling Conn.set_m_reconnecting
       Conn.set_m_lastEventId Conn.set_m_configDir Conn.set_m_myId
       Conn.set_m_totalIncomingTraffic Conn.set_m_totalOutgoingTraffic
       Conn.set_m_totalIncomingRate Conn.set_m_totalOutgoingRate
       Conn.set_m_unreadNotifications Conn.set_m_hasConfig Conn.set_m_hasStatus
       Conn.set_m_dirs Conn.set_m_devs Conn.set_m_lastConnectionsUpdate
       Conn.set_m_lastFileTime Conn.set_m_lastErrorTime Conn.set_m_lastFileName
       Conn.set_m_lastFileDeleted].
  rewrite Hkey2, Hurl2, Hkey, Hurl. cbn [orb].
  unfold requestStatus, requestConfig, requestData. cbn zeta.
  unfold requestsIssued, errorsEmitted in *. cbn.
  rewrite !List.filter_app, Hreq2, Herr2, Hnext2, Hstatus2, Htries2, Htimer2. cbn.
  rewrite !app_nil_r, <- !app_assoc. by repeat split.
Qed.

(** X24.  [reconnect()] on a connection with a URL and an API key starts
    the connection anew, whether it was connected (with its events request
    pending, whose abortion hands over to [continueReconnecting]) or not:
    Reconnecting, no entities, last event id 0, exactly the requests for
    the configuration and the status, no error notification, the reconnect
    timer stopped and the tries reset. *)
Theorem reconnect_restarts_the_connection (now : DateTime) (c : Conn.t) :
  Conn.m_status c <> SyncthingStatus.BeingDestroyed ->
  isEmpty (Conn.m_apiKey c) = false ->
  isEmpty (Conn.m_syncthingUrl c) = false ->
  (isConnected c = true -> Conn.m_eventsReply c <> None) ->
  let c' := reconnect now c in
  restarted c c'
  /\ Conn.m_autoReconnectTries c' = 0
  /\ Conn.m_autoReconnectTimerActive c' = false.
Proof.
  intros Hbd Hkey Hurl Hevents. cbn zeta. unfold reconnect. cbn zeta.
  replace (isConnected _) with (isConnected c) by reflexivity.
  destruct (isConnected c) eqn:Hconn.
  - rewrite abortAllRequests_spec. cbn zeta.
    match goal with |- context [requestsAborted now ?x] =>
      destruct (requestsAborted_spec now x) as (Hview & _);
      set (c0 := x) in * end.
    cbn zeta in Hview.
    remember (requestsAborted now c0) as c1 eqn:E1. clear E1.
    unfold lifecycleView in Hview.
    injection Hview as Hstatus _ _ _ _ _ _ Htries Htimer Hkey1 Hurl1 Hnext Hemitted _.
    unfold c0 in *. clear c0.
    cbn [Conn.m_status Conn.m_apiKey Conn.m_syncthingUrl Conn.nextReply Conn.emitted
         Conn.m_autoReconnectTries Conn.m_autoReconnectTimerActive Conn.m_eventsReply
         Conn.m_reconnecting
         Conn.set_m_autoReconnectTries Conn.set_m_autoReconnectTimerActive
         Conn.set_m_reconnecting Conn.set_m_hasConfig Conn.set_m_hasStatus] in *.
    destruct (Conn.m_eventsReply c) as [r|]; [|by destruct (Hevents eq_refl)].
    destruct (continueReconnecting_restarted (Conn.set_m_eventsReply None c1) c)
      as (Hrestarted & -> & ->); try assumption.
    by split.
  - destruct (continueReconnecting_restarted
                (Conn.set_m_autoReconnectTries 0
                   (Conn.set_m_autoReconnectTimerActive false c)) c)
      as (Hrestarted & -> & ->); try assumption; try reflexivity.
    by split.
Qed.

(** ** The tries to reconnect *)

(** One round of reconnecting automatically that fails: the timer expires
    and the request for the configuration fails. *)
Definition failedAttempt (c : Conn.t) (reply : Reply) : Conn.t :=
  readConfig reply (autoReconnect c).

Lemma failedAttempt_tries (c : Conn.t) (reply : Reply) :
  replyError reply = TimeoutError \/ replyError reply = OtherNetworkError ->
  Conn.m_autoReconnectTries (failedAttempt c reply)
  = wrap_int32 (Conn.m_autoReconnectTries c + 1).
Proof.
  intros Herror. unfold failedAttempt, readConfig.
  set (c1 := autoReconnect c).
  assert (Conn.m_autoReconnectTries c1 = wrap_int32 (Conn.m_autoReconnectTries c + 1)) as <-.
  { reflexivity. }
  set (c2 := if isReply _ _ then _ else c1).
  assert (Conn.m_autoReconnectTries c2 = Conn.m_autoReconnectTries c1) as <-.
  { unfold c2. by destruct (isReply _ _). }
  generalize c2. intros c3.
  assert (forall err,
            Conn.m_autoReconnectTries
              (armAutoReconnect (setStatus SyncthingStatus.Disconnected (emit err c3)))
            = Conn.m_autoReconnectTries c3) as H.
  { intros err. unfold armAutoReconnect.
    destruct (setStatus_Disconnected_fields (emit err c3)) as (_ & (_ & _ & _ & Ht & _) & _).
    destruct (_ =? 0); cbn; by rewrite Ht. }
  destruct Herror as [-> | ->]; apply H.
Qed.

(** X25.  Every round of reconnecting automatically that fails (the timer
    expires, [autoReconnect] calls [connect()], the request for the
    configuration fails) adds one to the reconnect tries, although
    [connect()] resets them: after [n] such rounds in a row the tries are
    [n] higher. *)
Theorem failed_reconnect_attempts_are_counted (replies : list Reply) (c : Conn.t) :
  Forall (fun reply =>
            replyError reply = TimeoutError \/ replyError reply = OtherNetworkError) replies ->
  0 <= Conn.m_autoReconnectTries c ->
  Conn.m_autoReconnectTries c + Z.of_nat (length replies) <= INT_MAX ->
  Conn.m_autoReconnectTries (fold_left failedAttempt replies c)
  = Conn.m_autoReconnectTries c + Z.of_nat (length replies).
Proof.
  revert c. induction replies as [|reply replies IH]; intros c Hfailed Hpos Hmax.
  - cbn. lia.
  - apply Forall_cons in Hfailed as [Hreply Hfailed].
    pose proof (failedAttempt_tries c reply Hreply) as Htries.
    assert (wrap_int32 (Conn.m_autoReconnectTries c + 1) = Conn.m_autoReconnectTries c + 1)
      as Hwrap.
    { unfold wrap_int32, INT_MAX in *. cbn [length] in Hmax.
      rewrite Z.mod_small; lia. }
    cbn [fold_left length]. rewrite IH; [|exact Hfailed|rewrite Htries, Hwrap; lia|].
    + rewrite Htries, Hwrap. lia.
    + rewrite Htries, Hwrap. cbn [length] in Hmax. lia.
Qed.

(** ** Commands *)

(** The commands post a request and connect the reply to a slot that
    acknowledges it by a signal.  They do not touch the members of the
    connection, so their requests and signals are kept apart from
    [Signal.t].  A request carries the dynamic properties the command sets
    on the reply; a property that was not set reads as an invalid
    [QVariant], which converts to the empty string and to [false]. *)
Inductive CommandSlot : Type :=
| readRescanSlot | readPauseResumeSlot | readRestartSlot | readShutdownSlot.

Record PostRequest : Type := mkPost {
  postPath : string;
  postQuery : list (string * string);
  devIdProperty : option string;
  resumeProperty : option bool;
  dirIdProperty : option string;
  postSlot : CommandSlot
}.

Record CommandReply : Type := mkCommandReply {
  commandRequest : PostRequest;
  commandError : NetworkError;
  commandErrorString : string
}.

Inductive Triggered : Type :=
| rescanTriggered (dirId : string)
| pauseTriggered (devId : string)
| resumeTriggered (devId : string)
| restartTriggered
| shutdownTriggered.

Definition propertyToString (v : option string) : string := default "" v.
Definition propertyToBool (v : option bool) : bool := default false v.

Definition pause (devId : string) : PostRequest :=
  mkPost "system/pause" [("device", devId)] (Some devId) (Some false) None readPauseResumeSlot.

Definition pauseAllDevs (c : Conn.t) : list PostRequest :=
  map (fun dev => pause (SyncthingDev.id dev)) (Conn.m_devs c).

Definition resume (devId : string) : PostRequest :=
  mkPost "system/resume" [("device", devId)] (Some devId) (Some true) None readPauseResumeSlot.

Definition resumeAllDevs (c : Conn.t) : list PostRequest :=
  map (fun dev => resume (SyncthingDev.id dev)) (Conn.m_devs c).

Definition rescan (dirId : string) : PostRequest :=
  mkPost "db/scan" [("folder", dirId)] None None (Some dirId) readRescanSlot.

Definition rescanAllDirs (c : Conn.t) : list PostRequest :=
  map (fun dir => rescan (SyncthingDir.id dir)) (Conn.m_dirs c).

Definition restart : PostRequest :=
  mkPost "system/restart" [] None None None readRestartSlot.

Definition shutdown : PostRequest :=
  mkPost "system/shutdown" [] None None None readShutdownSlot.

(** The slots: the signal each of them emits. *)
Definition commandFailed (what : string) (reply : CommandReply) : Signal.t + Triggered :=
  inl (Signal.error ("Unable to request " +:+ what +:+ ": " +:+ commandErrorString reply)
         SpecificRequest).

Definition readRescan (reply : CommandReply) : Signal.t + Triggered :=
  match commandError reply with
  | NoError => inr (rescanTriggered (propertyToString (dirIdProperty (commandRequest reply))))
  | _ => commandFailed "rescan" reply
  end.

Definition readPauseResume (reply : CommandReply) : Signal.t + Triggered :=
  match commandError reply with
  | NoError =>
      if propertyToBool (resumeProperty (commandRequest reply))
      then inr (resumeTriggered (propertyToString (devIdProperty (commandRequest reply))))
      else inr (pauseTriggered (propertyToString (devIdProperty (commandRequest reply))))
  | _ => commandFailed "pause/resume" reply
  end.

Definition readRestart (reply : CommandReply) : Signal.t + Triggered :=
  match commandError reply with
  | NoError => inr restartTriggered
  | _ => commandFailed "restart" reply
  end.

Definition readShutdown (reply : CommandReply) : Signal.t + Triggered :=
  match commandError reply with
  | NoError => inr shutdownTriggered
  | _ => commandFailed "shutdown" reply
  end.

(** The reply of a posted request finishes: the slot connected to it runs. *)
Definition finished (request : PostRequest) (error : NetworkError) (errorString : string)
  : Signal.t + Triggered :=
  let reply := mkCommandReply request error errorString in
  match postSlot request with
  | readRescanSlot => readRescan reply
  | readPauseResumeSlot => readPauseResume reply
  | readRestartSlot => readRestart reply
  | readShutdownSlot => readShutdown reply
  end.

(** X26.  The commands for all devices and for all directories post one
    request per entity, in the order of the collection, and when these
    succeed each is acknowledged for the entity it was posted for:
    [pauseTriggered], [resumeTriggered] and [rescanTriggered] carry the id
    the command was given.  A command whose request fails is reported as
    an error of category SpecificRequest whatever the failure, a canceled
    request included. *)
Theorem commands_are_acknowledged_for_their_entity (c : Conn.t) (errorString : string) :
  let succeed (request : PostRequest) := finished request NoError errorString in
  map succeed (pauseAllDevs c)
  = map (fun dev => inr (pauseTriggered (SyncthingDev.id dev))) (Conn.m_devs c)
  /\ map succeed (resumeAllDevs c)
     = map (fun dev => inr (resumeTriggered (SyncthingDev.id dev))) (Conn.m_devs c)
  /\ map succeed (rescanAllDirs c)
     = map (fun dir => inr (rescanTriggered (SyncthingDir.id dir))) (Conn.m_dirs c)
  /\ map postQuery (pauseAllDevs c)
     = map (fun dev => [("device", SyncthingDev.id dev)]) (Conn.m_devs c)
  /\ map postQuery (rescanAllDirs c)
     = map (fun dir => [("folder", SyncthingDir.id dir)]) (Conn.m_dirs c)
  /\ forall request,
       let fails (error : NetworkError) : Prop :=
         exists msg,
           finished request error errorString = inl (Signal.error msg SpecificRequest) in
       fails OperationCanceledError /\ fails TimeoutError /\ fails OtherNetworkError.
Proof.
  cbn zeta. unfold pauseAllDevs, resumeAllDevs, rescanAllDirs.
  rewrite !map_map. cbn.
  refine (conj eq_refl (conj eq_refl (conj eq_refl (conj eq_refl (conj eq_refl _))))).
  intros request. unfold finished, readRescan, readPauseResume, readRestart, readShutdown,
    commandFailed.
  cbn [commandError commandErrorString].
  destruct (postSlot request); repeat split; eexists; reflexivity.
Qed.
End Connection.


(** * The tray icon

    [TrayIcon] (tray/gui/trayicon.cpp) listens to the signals [error],
    [newNotification] and [statusChanged] of the connection and reads the
    connection when they arrive.  Its slots are functions of the
    connection as it is at that moment and of the state of the icon; what
    they do to the icon is recorded as a list of effects.  No translation
    is loaded: [tr] returns the source text. *)

(** [hasOutOfSyncDirs]: the loop returns at the first directory out of
    sync. *)
Fixpoint hasOutOfSyncDirs (dirs : list SyncthingDir.t) : bool :=
  match dirs with
  | [] => false
  | dir :: rest =>
      if SyncthingDirStatus.eqb (SyncthingDir.status dir) SyncthingDirStatus.OutOfSync
      then true else hasOutOfSyncDirs rest
  end.

Module StatusIcon.
Inductive t : Type :=
| Disconnected | Idling | Scanning | Notify | Pause | Sync | Error | ErrorSync.
End StatusIcon.

(** [QSystemTrayIcon::MessageIcon] *)
Inductive MessageIcon : Type := Information | Warning | Critical.

(** The D-Bus notifications the icon owns. *)
Inductive Notification : Type :=
| disconnectedNotification | internalErrorNotification
| syncthingNotification | syncCompleteNotification.

Inductive TrayEffect : Type :=
| setIcon (icon : StatusIcon.t)
| setToolTip (toolTip : string)
| showMessage (title msg : string) (icon : MessageIcon)
| notificationShow (n : Notification)
| notificationHide (n : Notification)
| notificationUpdate (n : Notification) (msg : string).

Module Settings.
(** What the tray icon reads of [Settings::values()]. *)
Record t : Type := mk {
  notifyOnDisconnect : bool;
  notifyOnInternalErrors : bool;
  notifyOnSyncComplete : bool;
  notifyOnSyncthingErrors : bool;
  dbusNotifications : bool
}.
End Settings.

Module TrayIcon.
Record t : Type := mk {
  m_initialized : bool;
  m_status : SyncthingStatus.t;
  effects : list TrayEffect
}.
End TrayIcon.

Definition effect (e : TrayEffect) (tray : TrayIcon.t) : TrayIcon.t :=
  TrayIcon.mk (TrayIcon.m_initialized tray) (TrayIcon.m_status tray)
    (TrayIcon.effects tray ++ [e]).

Definition newline : string := String (Ascii.ascii_of_nat 10) EmptyString.

Section TrayIcon.

#[local] Set Default Proof Using "Type".

(** Whether the icon is built with [QT_UTILITIES_SUPPORT_DBUS_NOTIFICATIONS],
    the settings, the name of the application, and
    [SyncthingDir::displayName] of the header [syncthingdir.h]. *)
Variable dbusSupport : bool.
Variable settings : Settings.t.
Variable applicationName : string.
Variable displayName : SyncthingDir.t -> string.

(** A message goes to the D-Bus notification if the build supports it and
    the settings ask for it, and to [showMessage] otherwise. *)
Definition notify (n : Notification) (viaDBus fallback : TrayEffect) (tray : TrayIcon.t)
  : TrayIcon.t :=
  if dbusSupport && Settings.dbusNotifications settings then effect viaDBus tray
  else effect fallback tray.

Definition showInternalError (errorMsg : string) (category : SyncthingErrorCategory)
    (c : Conn.t) (tray : TrayIcon.t) : TrayIcon.t :=
  if Settings.notifyOnInternalErrors settings
     && ((Conn.m_autoReconnectTries c <? 1)
         || negb (match category with OverallConnection => true | _ => false end))
  then
    notify internalErrorNotification
      (notificationUpdate internalErrorNotification errorMsg)
      (showMessage "Error" errorMsg Critical) tray
  else tray.

(** The pointers of a list point at directories of the collection: every
    row is one of [dirs].  The source takes the pointers from [m_dirs] in
    [setStatus]; they stay good as long as [m_dirs] keeps its buffer, that
    is until the configuration is read again ([readDirs] swaps the buffer)
    or a directory is appended. *)
Definition pointIntoDirs (dirs : list SyncthingDir.t) (rows : list nat) : Prop :=
  Forall (fun row => is_Some (dirs !! row)) rows.

(** [dir->displayName()] for a pointer of [m_completedDirs], read as the
    row it points to.  The source dereferences the pointer whatever it is;
    for a pointer that does not point into [m_dirs] that is undefined, and
    the empty string given here stands for no value of the program: what is
    proved of the names assumes [pointIntoDirs]. *)
Definition dirNameAt (dirs : list SyncthingDir.t) (row : nat) : string :=
  match dirs !! row with
  | Some dir => displayName dir
  | None => ""
  end.

Definition syncCompleteMessage (dirs : list SyncthingDir.t) (completedDirs : list nat)
  : string :=
  match completedDirs with
  | [front] => "Synchronization of " +:+ dirNameAt dirs front +:+ " complete"
  | _ =>
      "Synchronization of the following devices complete:" +:+ newline
      +:+ String.concat ", " (map (dirNameAt dirs) completedDirs)
  end.

Definition updateStatusIconAndText (status : SyncthingStatus.t) (c : Conn.t)
    (tray : TrayIcon.t) : TrayIcon.t :=
  if TrayIcon.m_initialized tray && SyncthingStatus.eqb (TrayIcon.m_status tray) status
  then tray
  else
    let tray :=
      match status with
      | SyncthingStatus.Disconnected =>
          let tray := effect (setIcon StatusIcon.Disconnected) tray in
          let tray :=
            if 0 <? Conn.m_autoReconnectInterval c then
              effect (setToolTip ("Not connected to Syncthing - trying to reconnect every "
                                  +:+ number (Conn.m_autoReconnectInterval c) +:+ " ms")) tray
            else effect (setToolTip "Not connected to Syncthing") tray in
          if TrayIcon.m_initialized tray && Settings.notifyOnDisconnect settings then
            notify disconnectedNotification (notificationShow disconnectedNotification)
              (showMessage applicationName "Disconnected from Syncthing" Warning) tray
          else tray
      | SyncthingStatus.Reconnecting =>
          effect (setToolTip "Reconnecting ...") (effect (setIcon StatusIcon.Disconnected) tray)
      | _ =>
          let tray :=
            if dbusSupport then effect (notificationHide disconnectedNotification) tray
            else tray in
          if hasOutOfSyncDirs (Conn.m_dirs c) then
            if SyncthingStatus.eqb status SyncthingStatus.Synchronizing then
              effect (setToolTip
                        "Synchronization is ongoing but at least one directory is out of sync")
                (effect (setIcon StatusIcon.ErrorSync) tray)
            else
              effect (setToolTip "At least one directory is out of sync")
                (effect (setIcon StatusIcon.Error) tray)
          else if Conn.m_unreadNotifications c then
            effect (setToolTip "Notifications available")
              (effect (setIcon StatusIcon.Notify) tray)
          else
            match status with
            | SyncthingStatus.Idle =>
                effect (setToolTip "Syncthing is idling")
                  (effect (setIcon StatusIcon.Idling) tray)
            | SyncthingStatus.Scanning =>
                effect (setToolTip "Syncthing is scanning")
                  (effect (setIcon StatusIcon.Scanning) tray)
            | SyncthingStatus.Paused =>
                effect (setToolTip "At least one device is paused")
                  (effect (setIcon StatusIcon.Pause) tray)
            | SyncthingStatus.Synchronizing =>
                effect (setToolTip "Synchronization is ongoing")
                  (effect (setIcon StatusIcon.Sync) tray)
            | _ => tray
            end
      end in
    let tray :=
      match status with
      | SyncthingStatus.Disconnected | SyncthingStatus.Reconnecting
      | SyncthingStatus.Synchronizing => tray
      | _ =>
          if SyncthingStatus.eqb (TrayIcon.m_status tray) SyncthingStatus.Synchronizing
             && Settings.notifyOnSyncComplete settings
          then
            match Conn.m_completedDirs c with
            | [] => tray
            | _ =>
                let message := syncCompleteMessage (Conn.m_dirs c) (Conn.m_completedDirs c) in
                notify syncCompleteNotification
                  (notificationUpdate syncCompleteNotification message)
                  (showMessage applicationName message Information) tray
            end
          else tray
      end in
    TrayIcon.mk (TrayIcon.m_initialized tray) status (TrayIcon.effects tray).

Definition showSyncthingNotification (when : DateTime) (message : string) (c : Conn.t)
    (tray : TrayIcon.t) : TrayIcon.t :=
  let tray :=
    if Settings.notifyOnSyncthingErrors settings then
      notify syncthingNotification (notificationUpdate syncthingNotification message)
        (showMessage "Syncthing notification - click to dismiss" message Warning) tray
    else tray in
  updateStatusIconAndText (TrayIcon.m_status tray) c tray.

(** The constructor, as far as the status is concerned: the icon of the
    disconnected state, then [m_initialized = true]. *)
Definition newTrayIcon (c : Conn.t) : TrayIcon.t :=
  let tray :=
    updateStatusIconAndText SyncthingStatus.Disconnected c
      (TrayIcon.mk false SyncthingStatus.Disconnected []) in
  TrayIcon.mk true (TrayIcon.m_status tray) (TrayIcon.effects tray).

(** ** Notifications and the icon *)

Lemma updateStatusIconAndText_same (c : Conn.t) (tray : TrayIcon.t) :
  TrayIcon.m_initialized tray = true ->
  updateStatusIconAndText (TrayIcon.m_status tray) c tray = tray.
Proof.
  intros Hinit. unfold updateStatusIconAndText. rewrite Hinit.
  assert (SyncthingStatus.eqb (TrayIcon.m_status tray) (TrayIcon.m_status tray) = true) as ->.
  { by destruct (TrayIcon.m_status tray). }
  reflexivity.
Qed.

(** X27.  Once the icon is initialized, the slot for a notification of
    Syncthing shows the message (if the settings ask for it) and nothing
    else: its call of [updateStatusIconAndText] with the status the icon
    already has returns at once, so neither the icon nor the tool tip
    changes, whether or not the connection has unread notifications. *)
Theorem notification_leaves_the_icon_alone (when : DateTime) (message : string) (c : Conn.t)
    (tray : TrayIcon.t) :
  TrayIcon.m_initialized tray = true ->
  let tray' := showSyncthingNotification when message c tray in
  TrayIcon.m_status tray' = TrayIcon.m_status tray
  /\ TrayIcon.m_initialized tray' = true
  /\ TrayIcon.effects tray'
     = TrayIcon.effects tray
       ++ (if Settings.notifyOnSyncthingErrors settings then
             [if dbusSupport && Settings.dbusNotifications settings
              then notificationUpdate syncthingNotification message
              else showMessage "Syncthing notification - click to dismiss" message Warning]
           else []).
Proof.
  intros Hinit. cbn zeta. unfold showSyncthingNotification, notify.
  destruct (Settings.notifyOnSyncthingErrors settings);
    [destruct (dbusSupport && Settings.dbusNotifications settings)|];
    rewrite updateStatusIconAndText_same by exact Hinit;
    cbn [effect TrayIcon.m_initialized TrayIcon.m_status TrayIcon.effects];
    rewrite ?app_nil_r; by repeat split.
Qed.

(** X28.  While reconnect tries are counted (at least one), the slot for
    errors of the connection shows nothing for an error of category
    OverallConnection, so the errors of repeated failing attempts to
    reconnect are not shown; errors of the other categories are shown
    whenever the settings ask for it.  A round of reconnecting that fails
    leaves at least one try counted. *)
Theorem reconnect_errors_are_not_shown (newSyncthingDir : string -> SyncthingDir.t)
    (newSyncthingDev : string -> SyncthingDev.t) (errorMsg : string)
    (category : SyncthingErrorCategory) (reply : Reply) (c : Conn.t) (tray : TrayIcon.t) :
  replyError reply = TimeoutError \/ replyError reply = OtherNetworkError ->
  0 <= Conn.m_autoReconnectTries c < INT_MAX ->
  let c' := failedAttempt newSyncthingDir newSyncthingDev c reply in
  1 <= Conn.m_autoReconnectTries c'
  /\ showInternalError errorMsg OverallConnection c' tray = tray
  /\ (category <> OverallConnection ->
      TrayIcon.effects (showInternalError errorMsg category c' tray)
      = TrayIcon.effects tray
        ++ (if Settings.notifyOnInternalErrors settings then
              [if dbusSupport && Settings.dbusNotifications settings
               then notificationUpdate internalErrorNotification errorMsg
               else showMessage "Error" errorMsg Critical]
            else [])).
Proof.
  intros Hfailed Htries. cbn zeta.
  pose proof (failedAttempt_tries newSyncthingDir newSyncthingDev c reply Hfailed) as H.
  assert (wrap_int32 (Conn.m_autoReconnectTries c + 1) = Conn.m_autoReconnectTries c + 1)
    as Hwrap.
  { unfold wrap_int32, INT_MAX in *. rewrite Z.mod_small; lia. }
  rewrite Hwrap in H. split; [lia|]. unfold showInternalError, notify. rewrite H.
  assert ((Conn.m_autoReconnectTries c + 1 <? 1) = false) as -> by lia.
  split.
  - by rewrite andb_false_r.
  - intros Hcategory. destruct category; [by destruct Hcategory| |];
      cbn; rewrite andb_true_r;
      (destruct (Settings.notifyOnInternalErrors settings);
       [destruct (dbusSupport && Settings.dbusNotifications settings)|]);
      cbn; by rewrite ?app_nil_r.
Qed.

(** ** The end of a synchronization *)

Lemma setStatus_after_synchronizing (requested : SyncthingStatus.t) (c : Conn.t) :
  Conn.m_status c = SyncthingStatus.Synchronizing ->
  requested <> SyncthingStatus.Disconnected ->
  requested <> SyncthingStatus.Reconnecting ->
  anyDirHasStatus SyncthingDirStatus.Synchronizing (Conn.m_dirs c) = false ->
  let c' := setStatus requested c in
  Conn.emitted c' = Conn.emitted c ++ [Signal.statusChanged (Conn.m_status c')]
  /\ Conn.m_dirs c' = Conn.m_dirs c
  /\ ((Conn.m_status c' = SyncthingStatus.Paused /\ Conn.m_completedDirs c' = [])
      \/ ((Conn.m_status c' = SyncthingStatus.Scanning
           \/ Conn.m_status c' = SyncthingStatus.Idle)
          /\ Conn.m_completedDirs c' = Conn.m_syncedDirs c)).
Proof.
  intros Hstatus Hd Hr Hsync. cbn zeta. unfold setStatus. rewrite Hstatus.
  pose proof (checkDirs_flags (Conn.m_dirs c) 0 false false (Conn.m_syncedDirs c))
    as [Hsc Hsy].
  pose proof (checkDirs_synced (Conn.m_dirs c) 0 false false (Conn.m_syncedDirs c))
    as (_ & _ & Hnone).
  rewrite !orb_false_l in Hsc, Hsy. rewrite Hsync in Hsy. specialize (Hnone Hsync).
  cbn zeta in Hnone.
  destruct requested; try (by destruct Hd); try (by destruct Hr); cbn;
    destruct (checkDirs _ _ _ _ _) as [[sc sy] sd]; cbn [fst snd] in *;
    subst sy sd;
    destruct sc; cbn; try destruct (anyDevPaused (Conn.m_devs c)); cbn;
    rewrite ?Hstatus; cbn; split; try done; split; try done; auto.
Qed.

(** The effect that announces the end of a synchronization. *)
Definition syncCompleteEffect (dirs : list SyncthingDir.t) (completedDirs : list nat)
  : TrayEffect :=
  if dbusSupport && Settings.dbusNotifications settings
  then notificationUpdate syncCompleteNotification (syncCompleteMessage dirs completedDirs)
  else showMessage applicationName (syncCompleteMessage dirs completedDirs) Information.

(** What the slot adds to the icon when a synchronization ends. *)
Lemma end_of_synchronization_effects (requested : SyncthingStatus.t) (c : Conn.t)
    (tray : TrayIcon.t) :
  Conn.m_status c = SyncthingStatus.Synchronizing ->
  TrayIcon.m_status tray = SyncthingStatus.Synchronizing ->
  TrayIcon.m_initialized tray = true ->
  requested <> SyncthingStatus.Disconnected ->
  requested <> SyncthingStatus.Reconnecting ->
  anyDirHasStatus SyncthingDirStatus.Synchronizing (Conn.m_dirs c) = false ->
  let c' := setStatus requested c in
  let tray' := updateStatusIconAndText (Conn.m_status c') c' tray in
  let announced (e : TrayEffect) : Prop :=
    exists msg, e = notificationUpdate syncCompleteNotification msg
                \/ e = showMessage applicationName msg Information in
  Conn.emitted c' = Conn.emitted c ++ [Signal.statusChanged (Conn.m_status c')]
  /\ TrayIcon.m_status tray' = Conn.m_status c'
  /\ exists added,
       TrayIcon.effects tray' = TrayIcon.effects tray ++ added
       /\ if Settings.notifyOnSyncComplete settings
             && negb (SyncthingStatus.eqb (Conn.m_status c') SyncthingStatus.Paused)
             && negb (bool_decide (Conn.m_syncedDirs c = []))
          then last added
               = Some (syncCompleteEffect (Conn.m_dirs c) (Conn.m_syncedDirs c))
          else Forall (fun e => ~ announced e) added.
Proof.
  intros Hstatus Htray Hinit Hd Hr Hsync. cbn zeta.
  destruct (setStatus_after_synchronizing requested c Hstatus Hd Hr Hsync)
    as (Hemitted & Hdirs & Hcases).
  cbn zeta in Hemitted, Hdirs, Hcases.
  remember (setStatus requested c) as c' eqn:E. clear E.
  split; [exact Hemitted|].
  destruct tray as [initialized status effects]. cbn in Hinit, Htray.
  rewrite Hinit, Htray. clear Hinit Htray initialized status.
  unfold updateStatusIconAndText, syncCompleteEffect, notify. rewrite Hdirs.
  cbn [TrayIcon.m_initialized TrayIcon.m_status TrayIcon.effects].
  assert (forall (P : TrayEffect -> Prop) (l : list TrayEffect) (e : TrayEffect),
            Forall P l -> P e -> Forall P (l ++ [e])) as Hsnoc.
  { intros P l e Hl He. apply Forall_app. split; [done|]. by apply Forall_singleton. }
  assert (forall icon, ~ (exists msg,
            setIcon icon = notificationUpdate syncCompleteNotification msg
            \/ setIcon icon = showMessage applicationName msg Information)) as Hicon.
  { intros icon (msg & [H | H]); discriminate. }
  assert (forall tip, ~ (exists msg,
            setToolTip tip = notificationUpdate syncCompleteNotification msg
            \/ setToolTip tip = showMessage applicationName msg Information)) as Htip.
  { intros tip (msg & [H | H]); discriminate. }
  assert (forall n, ~ (exists msg,
            notificationHide n = notificationUpdate syncCompleteNotification msg
            \/ notificationHide n = showMessage applicationName msg Information)) as Hhide.
  { intros n (msg & [H | H]); discriminate. }
  destruct Hcases as [[Hs Hcompleted] | [[Hs | Hs] Hcompleted]];
    rewrite Hs, Hcompleted; (split; [reflexivity|]);
    destruct dbusSupport, (hasOutOfSyncDirs (Conn.m_dirs c)),
      (Conn.m_unreadNotifications c'), (Settings.notifyOnSyncComplete settings),
      (Settings.dbusNotifications settings);
    destruct (Conn.m_syncedDirs c) as [|row rows];
    cbn; rewrite <- ?app_assoc; eexists; (split; [reflexivity|]);
    first [ reflexivity
          | repeat (apply Forall_cons; split;
                    [first [apply Hicon | apply Htip | apply Hhide]|]);
            apply Forall_nil_2 ].
Qed.

(** The text that announces the end of the synchronization of the
    directories of the given names. *)
Definition completionText (names : list string) : string :=
  match names with
  | [name] => "Synchronization of " +:+ name +:+ " complete"
  | _ =>
      "Synchronization of the following devices complete:" +:+ newline
      +:+ String.concat ", " names
  end.

(** [names] are the display names of the directories in the rows [rows],
    in the same order. *)
Definition namesOf (dirs : list SyncthingDir.t) (rows : list nat) (names : list string)
  : Prop :=
  Forall2 (fun row name => exists dir, dirs !! row = Some dir /\ name = displayName dir)
    rows names.

Lemma namesOf_dirNameAt (dirs : list SyncthingDir.t) (rows : list nat) :
  pointIntoDirs dirs rows -> namesOf dirs rows (map (dirNameAt dirs) rows).
Proof.
  unfold pointIntoDirs, namesOf. induction 1 as [|row rows [dir Hdir] _ IH]; [constructor|].
  cbn [map]. constructor; [|exact IH].
  exists dir. split; [exact Hdir|]. unfold dirNameAt. by rewrite Hdir.
Qed.

Lemma syncCompleteMessage_names (dirs : list SyncthingDir.t) (rows : list nat) :
  syncCompleteMessage dirs rows = completionText (map (dirNameAt dirs) rows).
Proof. destruct rows as [|row [|row' rows]]; reflexivity. Qed.

(** X29.  The end of a synchronization reaches the user.  The connection
    and the icon are in the status Synchronizing, the pointers collected
    in [m_syncedDirs] point at directories of [m_dirs], and [setStatus]
    derives the status with no directory synchronizing any more.  Then it
    emits [statusChanged]; the slot of the icon, run on the connection as
    it then is, takes the new status and, if the settings ask for it and
    the new status is not Paused, ends by announcing the directories
    collected, by their display names in the order collected: one name in
    a sentence, several in a list separated by commas.  If a device is
    paused, or no directory was collected, nothing is announced. *)
Theorem end_of_synchronization_is_announced (requested : SyncthingStatus.t) (c : Conn.t)
    (tray : TrayIcon.t) :
  Conn.m_status c = SyncthingStatus.Synchronizing ->
  TrayIcon.m_status tray = SyncthingStatus.Synchronizing ->
  TrayIcon.m_initialized tray = true ->
  requested <> SyncthingStatus.Disconnected ->
  requested <> SyncthingStatus.Reconnecting ->
  anyDirHasStatus SyncthingDirStatus.Synchronizing (Conn.m_dirs c) = false ->
  pointIntoDirs (Conn.m_dirs c) (Conn.m_syncedDirs c) ->
  let c' := setStatus requested c in
  let tray' := updateStatusIconAndText (Conn.m_status c') c' tray in
  let announced (e : TrayEffect) : Prop :=
    exists msg, e = notificationUpdate syncCompleteNotification msg
                \/ e = showMessage applicationName msg Information in
  Conn.emitted c' = Conn.emitted c ++ [Signal.statusChanged (Conn.m_status c')]
  /\ TrayIcon.m_status tray' = Conn.m_status c'
  /\ exists names added,
       namesOf (Conn.m_dirs c) (Conn.m_syncedDirs c) names
       /\ TrayIcon.effects tray' = TrayIcon.effects tray ++ added
       /\ if Settings.notifyOnSyncComplete settings
             && negb (SyncthingStatus.eqb (Conn.m_status c') SyncthingStatus.Paused)
             && negb (bool_decide (Conn.m_syncedDirs c = []))
          then last added
               = Some (if dbusSupport && Settings.dbusNotifications settings
                       then notificationUpdate syncCompleteNotification (completionText names)
                       else showMessage applicationName (completionText names) Information)
          else Forall (fun e => ~ announced e) added.
Proof.
  intros Hstatus Htray Hinit Hd Hr Hsync Hpointers. cbn zeta.
  destruct (end_of_synchronization_effects requested c tray Hstatus Htray Hinit Hd Hr Hsync)
    as (Hemitted & Hicon & added & Hadded & Hlast).
  cbn zeta in Hemitted, Hicon, Hadded, Hlast.
  split; [exact Hemitted|]. split; [exact Hicon|].
  exists (map (dirNameAt (Conn.m_dirs c)) (Conn.m_syncedDirs c)), added.
  split; [by apply namesOf_dirNameAt|]. split; [exact Hadded|].
  destruct (_ && _); [|exact Hlast].
  rewrite Hlast. unfold syncCompleteEffect. by rewrite syncCompleteMessage_names.
Qed.

End TrayIcon.
(** * The model at work

    The parameters of the model are instantiated here with plain
    stand-ins, so that the handlers can be run on concrete replies and
    events. *)

Definition plainDir (dirId : string) : SyncthingDir.t :=
  {| SyncthingDir.id := dirId; SyncthingDir.label := ""; SyncthingDir.path := "";
     SyncthingDir.devices := []; SyncthingDir.readOnly := false;
     SyncthingDir.ignorePermissions := false; SyncthingDir.autoNormalize := false;
     SyncthingDir.rescanInterval := 0; SyncthingDir.minDiskFreePercentage := 0;
     SyncthingDir.status := SyncthingDirStatus.Idle;
     SyncthingDir.lastStatusUpdate := Chrono.null;
     SyncthingDir.progressPercentage := 0; SyncthingDir.progressRate := 0;
     SyncthingDir.errors := []; SyncthingDir.previousErrors := [];
     SyncthingDir.globalBytes := 0; SyncthingDir.globalDeleted := 0;
     SyncthingDir.globalFiles := 0; SyncthingDir.localBytes := 0;
     SyncthingDir.localDeleted := 0; SyncthingDir.localFiles := 0;
     SyncthingDir.neededByted := 0; SyncthingDir.neededFiles := 0;
     SyncthingDir.lastScanTime := Chrono.null; SyncthingDir.lastFileTime := Chrono.null;
     SyncthingDir.lastFileName := ""; SyncthingDir.lastFileDeleted := false;
     SyncthingDir.downloadingItems := []; SyncthingDir.blocksAlreadyDownloaded := 0;
     SyncthingDir.blocksToBeDownloaded := 0; SyncthingDir.downloadPercentage := 0;
     SyncthingDir.downloadLabel := "" |}.

Definition plainDev (devId : string) : SyncthingDev.t :=
  {| SyncthingDev.id := devId; SyncthingDev.name := ""; SyncthingDev.addresses := [];
     SyncthingDev.compression := ""; SyncthingDev.certName := "";
     SyncthingDev.introducer := false; SyncthingDev.status := SyncthingDevStatus.Unknown;
     SyncthingDev.paused := false; SyncthingDev.totalIncomingTraffic := 0;
     SyncthingDev.totalOutgoingTraffic := 0; SyncthingDev.connectionAddress := "";
     SyncthingDev.connectionType := ""; SyncthingDev.clientVersion := "";
     SyncthingDev.lastSeen := Chrono.null |}.

(** An item whose block counts are the numbers "Pulled" and "Total" of the
    payload, taken as they come. *)
Definition plainItem (containingDirPath relativeItemPath : string) (values : QJsonObject)
  : SyncthingItemDownloadProgress.t :=
  SyncthingItemDownloadProgress.mk relativeItemPath (Json.toInt (Json.value values "Pulled") 0)
    (Json.toInt (Json.value values "Total") 0).

Definition plainAssignStatus (newStatus : SyncthingDirStatus.t) (time : DateTime)
    (d : SyncthingDir.t) : bool * SyncthingDir.t :=
  (negb (SyncthingDirStatus.eqb (SyncthingDir.status d) newStatus),
   SyncthingDir.set_lastStatusUpdate time (SyncthingDir.set_status newStatus d)).

Definition plainAssignStatusString (statusStr : string) (time : DateTime) (d : SyncthingDir.t)
  : bool * SyncthingDir.t :=
  plainAssignStatus
    (if String.eqb statusStr "scanning" then SyncthingDirStatus.Scanning
     else if String.eqb statusStr "syncing" then SyncthingDirStatus.Synchronizing
     else if String.eqb statusStr "error" then SyncthingDirStatus.OutOfSync
     else SyncthingDirStatus.Idle)
    time d.

Definition noTimeStamp (s : string) : option DateTime := None.

Definition run_readConfig : Reply -> Conn.t -> Conn.t := readConfig plainDir plainDev.

Definition run_readEvents : Reply -> Conn.t -> Conn.t :=
  readEvents plainDir plainItem plainAssignStatusString plainAssignStatus 131072
    noTimeStamp number.

Definition run_readEventReplies : list Reply -> Conn.t -> Conn.t :=
  readEventReplies plainDir plainItem plainAssignStatusString plainAssignStatus 131072
    noTimeStamp number.

Definition run_reconnect : DateTime -> Conn.t -> Conn.t :=
  reconnect plainDir plainDev plainItem plainAssignStatusString plainAssignStatus 131072
    noTimeStamp noTimeStamp number.

Definition run_readDownloadProgressEvent : DateTime -> QJsonObject -> Conn.t -> Conn.t :=
  readDownloadProgressEvent plainItem 131072 number.

Definition objectReply (r : ReplyId) (o : QJsonObject) : Reply :=
  mkReply r NoError "" (inr (DocObject o)).

Definition arrayReply (r : ReplyId) (a : QJsonArray) : Reply :=
  mkReply r NoError "" (inr (DocArray a)).

(** ** Numbers, as the handlers read them *)

Example toInt_reads_ints :
  Json.toInt (JDouble 5) 0 = 5
  /\ Json.toInt (JDouble 0x1.4p+1) 7 = 7
  /\ Json.toInt (JDouble 2147483648) 7 = 7
  /\ Json.toInt (JString "5") 7 = 7
  /\ Json.toInt JUndefined 7 = 7.
Proof. vm_compute. repeat split; reflexivity. Qed.

Example traffic_counters :
  double_to_uint64 (Json.toDouble (JDouble 2000) 0%float) = 2000
  /\ double_to_uint64 (Json.toDouble JNull 0%float) = 0
  /\ double_of_Z (2 ^ 53 + 1) = 9007199254740992%float.
Proof. vm_compute. repeat split; reflexivity. Qed.

(** ** A connection being established *)

Definition fresh : Conn.t := SyncthingConnection "http://localhost:8384" "key".

Definition configOfTwoFolders : QJsonObject :=
  [("devices", JArray [JObject [("deviceID", JString "dev1"); ("name", JString "desk")];
                       JObject [("deviceID", JString "dev2"); ("name", JString "phone")]]);
   ("folders", JArray [JObject [("id", JString "a"); ("label", JString "A")];
                       JObject [("id", JString "b"); ("label", JString "B")]])].

(** [connect()], then the configuration and the status arrive. *)
Definition connected : Conn.t :=
  let c := connect fresh in
  let c := run_readConfig (objectReply 0%nat configOfTwoFolders) c in
  readStatus (objectReply 1%nat [("myID", JString "dev1")]) c.

Example connected_requests :
  map (fun s => match s with Signal.httpGet _ path _ => path | _ => "" end)
    (requestsIssued connected)
  = ["system/config"; "system/status"; "system/connections"; "stats/folder";
     "stats/device"; "system/error"; "events"].
Proof. vm_compute. reflexivity. Qed.

Example connected_own_device :
  SyncthingDev.status <$> Conn.m_devs connected = [SyncthingDevStatus.OwnDevice;
                                                   SyncthingDevStatus.Unknown].
Proof. vm_compute. reflexivity. Qed.

Definition stateChanged (eventId : Z) (folder to : string) : QJsonValue :=
  JObject [("data", JObject [("folder", JString folder); ("to", JString to)]);
           ("id", JDouble (double_of_Z eventId)); ("type", JString "StateChanged")].

(** Folder "a" starts to synchronise and gets idle again. *)
Definition syncing : Conn.t :=
  run_readEvents (arrayReply 6%nat [stateChanged 5 "a" "syncing"]) connected.

Definition synced : Conn.t :=
  run_readEvents (arrayReply 7%nat [stateChanged 6 "a" "idle"]) syncing.

Example syncing_status :
  Conn.m_status syncing = SyncthingStatus.Synchronizing /\ Conn.m_syncedDirs syncing = [0%nat].
Proof. vm_compute. split; reflexivity. Qed.

Example synced_status :
  Conn.m_status synced = SyncthingStatus.Idle
  /\ Conn.m_completedDirs synced = [0%nat]
  /\ Conn.m_lastEventId synced = 6.
Proof. vm_compute. repeat split; reflexivity. Qed.

(** ** The overall status, on an instance *)

Definition busy : Conn.t :=
  Conn.set_m_devs [SyncthingDev.set_paused true (plainDev "dev2")]
    (Conn.set_m_dirs
       [SyncthingDir.set_status SyncthingDirStatus.Scanning (plainDir "a");
        SyncthingDir.set_status SyncthingDirStatus.Synchronizing (plainDir "b")]
       (Conn.set_m_status SyncthingStatus.Idle fresh)).

Lemma setStatus_derives_overall_status_witness :
  Conn.m_status (setStatus SyncthingStatus.Idle busy) = SyncthingStatus.Synchronizing
  <-> exists d, d ∈ Conn.m_dirs (setStatus SyncthingStatus.Idle busy)
        /\ SyncthingDir.status d = SyncthingDirStatus.Synchronizing.
Proof.
  exact (proj1 (setStatus_derives_overall_status SyncthingStatus.Idle busy
                  ltac:(vm_compute; discriminate) ltac:(discriminate) ltac:(discriminate))).
Defined.

(** ** Finished items, on instances *)

Definition folderWithLastFile : Conn.t :=
  Conn.set_m_lastFileName "old.txt"
    (Conn.set_m_lastFileTime 100
       (Conn.set_m_dirs
          [SyncthingDir.set_lastFileName "old.txt"
             (SyncthingDir.set_lastFileTime 100 (plainDir "a"))]
          connected)).

Definition itemFinished (item action : string) : QJsonObject :=
  [("action", JString action); ("error", JNull); ("folder", JString "a");
   ("item", JString item); ("type", JString "file")].

(** C2.  The folder's last file is "old.txt" of time 100.  An item that
    finishes successfully at the later time 200 is dropped: neither the
    folder's nor the connection's last file changes.  An item that
    finishes at the earlier time 50 replaces the folder's last file. *)
Theorem readItemFinished_compares_backwards :
  readItemFinished 200 (itemFinished "new.txt" "update") folderWithLastFile
  = folderWithLastFile
  /\ (SyncthingDir.lastFileName
        <$> Conn.m_dirs (readItemFinished 200 (itemFinished "new.txt" "update")
                           folderWithLastFile) !! 0%nat)
     = Some "old.txt"
  /\ (SyncthingDir.lastFileName
        <$> Conn.m_dirs (readItemFinished 50 (itemFinished "older.txt" "update")
                           folderWithLastFile) !! 0%nat)
     = Some "older.txt".
Proof. vm_compute. repeat split; reflexivity. Qed.

Lemma item_finished_deleted_flag_witness :
  exists dirInfo',
    Conn.m_dirs (readItemFinished 50 (itemFinished "gone.txt" "delete") folderWithLastFile)
      !! 0%nat = Some dirInfo'
    /\ SyncthingDir.lastFileName dirInfo' = "gone.txt"
    /\ SyncthingDir.lastFileTime dirInfo' = 50
    /\ SyncthingDir.lastFileDeleted dirInfo' = false.
Proof.
  destruct (item_finished_deleted_flag 50 (itemFinished "gone.txt" "delete")
              folderWithLastFile 0%nat
              (SyncthingDir.set_lastFileName "old.txt"
                 (SyncthingDir.set_lastFileTime 100 (plainDir "a")))
              eq_refl eq_refl eq_refl eq_refl eq_refl)
    as (dirInfo' & Hlookup & Hname & Htime & Hdeleted & _).
  exists dirInfo'. repeat split; assumption.
Defined.

(** ** Reconciliation, on instances *)

Definition knownEntities : Conn.t :=
  Conn.set_m_myId "me"
    (Conn.set_m_devs
       [SyncthingDev.set_paused true
          (SyncthingDev.set_status SyncthingDevStatus.Idle (plainDev "dev2"))]
       (Conn.set_m_dirs
          [SyncthingDir.set_globalFiles 7
             (SyncthingDir.set_errors [SyncthingDirError.mk "no space" "big.iso"]
                (SyncthingDir.set_status SyncthingDirStatus.OutOfSync (plainDir "a")))]
          fresh)).

Definition foldersPayload : QJsonArray :=
  [JObject [("id", JString "a"); ("label", JString "Documents"); ("path", JString "/docs")]].

Definition devicesPayload : QJsonArray :=
  [JObject [("deviceID", JString "dev2"); ("name", JString "phone")]].

(** C3, refuted for devices: the device dev2 is Idle before the
    configuration is read and Unknown afterwards. *)
Lemma readDevs_resets_device_status :
  exists old r,
    existingDev "dev2" (Conn.m_devs knownEntities) = Some old
    /\ Conn.m_devs (readDevs plainDev devicesPayload knownEntities) !! 0%nat = Some r
    /\ SyncthingDev.id r = "dev2"
    /\ SyncthingDev.status old = SyncthingDevStatus.Idle
    /\ SyncthingDev.status r = SyncthingDevStatus.Unknown
    /\ SyncthingDev.status r <> SyncthingDev.status old.
Proof.
  eexists _, _. split; [vm_compute; reflexivity|]. split; [vm_compute; reflexivity|].
  vm_compute. repeat split; discriminate.
Qed.

Lemma configuration_reconciliation_witness :
  exists r,
    Conn.m_dirs (readDirs plainDir foldersPayload knownEntities) !! 0%nat = Some r
    /\ SyncthingDir.label r = "Documents"
    /\ SyncthingDir.status r = SyncthingDirStatus.OutOfSync
    /\ SyncthingDir.errors r = [SyncthingDirError.mk "no space" "big.iso"]
    /\ SyncthingDir.globalFiles r = 7.
Proof.
  destruct (proj1 (configuration_reconciliation plainDir plainDev knownEntities)
              foldersPayload 0%nat
              (JObject [("id", JString "a"); ("label", JString "Documents");
                        ("path", JString "/docs")])
              eq_refl eq_refl ltac:(apply not_elem_of_nil))
    as (r & Hlookup & (Hlabel & _) & (_ & _ & Hstatus & _ & Herrors & _ & Hglobal & _)).
  injection Hglobal as _ _ Hglobal.
  exists r. repeat split; assumption.
Defined.

(** ** The last event id, on an instance *)

Definition twoBatches : list Reply :=
  [arrayReply 6%nat [stateChanged 5 "a" "syncing"];
   arrayReply 7%nat [stateChanged 6 "a" "idle"; stateChanged 9 "b" "scanning"]].

Lemma last_event_id_is_maximum_witness :
  Conn.m_lastEventId (run_readEventReplies twoBatches connected) = 9.
Proof.
  assert (Forall (fun reply => is_Some (parsedEvents reply)) twoBatches) as Hparsed.
  { repeat constructor; eexists; reflexivity. }
  assert (Sorted Z.le (List.filter in_int_range (twoBatches ≫= replyEventNumbers)))
    as Hsorted.
  { change (Sorted Z.le [5; 6; 9]). repeat constructor; discriminate. }
  assert (Forall (fun id => Conn.m_lastEventId connected <= id)
            (List.filter in_int_range (twoBatches ≫= replyEventNumbers))) as Hcontinue.
  { change (Forall (fun id => 0 <= id) [5; 6; 9]). repeat constructor; discriminate. }
  destruct (last_event_id_is_maximum plainDir plainItem plainAssignStatusString
              plainAssignStatus 131072 noTimeStamp number twoBatches connected
              Hparsed Hsorted) as (_ & _ & Hmax & _).
  destruct (Hmax Hcontinue) as [Hlast _]. exact Hlast.
Defined.

(** C4, refuted: three events whose ids increase beyond the largest [int].
    The ids 2147483648 and 2147483649 are not stored: the last-seen id
    stays at 2147483647 and is not the maximum of the ids processed. *)
Definition idsBeyondInt : list Reply :=
  [arrayReply 6%nat [stateChanged 2147483647 "a" "syncing"];
   arrayReply 7%nat [stateChanged 2147483648 "a" "idle";
                     stateChanged 2147483649 "b" "scanning"]].

Lemma last_event_id_stops_at_int_max :
  Forall (fun reply => is_Some (parsedEvents reply)) idsBeyondInt
  /\ idsBeyondInt ≫= replyEventNumbers = [2147483647; 2147483648; 2147483649]
  /\ Sorted Z.le (idsBeyondInt ≫= replyEventNumbers)
  /\ Conn.m_lastEventId (run_readEventReplies idsBeyondInt connected) = 2147483647
  /\ Conn.m_lastEventId (run_readEventReplies idsBeyondInt connected)
     <> fold_left Z.max (idsBeyondInt ≫= replyEventNumbers) (Conn.m_lastEventId connected).
Proof.
  split; [repeat constructor; eexists; reflexivity|].
  split; [vm_compute; reflexivity|].
  split; [change (Sorted Z.le [2147483647; 2147483648; 2147483649]);
          repeat constructor; discriminate|].
  split; [vm_compute; reflexivity|].
  vm_compute. discriminate.
Qed.

(** ** Canceled requests, on instances *)

(** The connection is established and polls for events; then the settings
    are applied with an empty API key and [reconnect()] is called.
    [reconnect()] marks the connection as reconnecting, clears the
    readiness flags and aborts the pending requests; the state below is
    the one in which the reply to the events request, aborted last, runs
    its handler. *)
Definition polling : Conn.t := run_readEvents (arrayReply 6%nat []) connected.

Definition reconnectingWithoutKey : Conn.t :=
  let c := Conn.set_m_apiKey "" polling in
  let c := Conn.set_m_autoReconnectTries 0 (Conn.set_m_autoReconnectTimerActive false c) in
  let c := Conn.set_m_reconnecting true c in
  let c := Conn.set_m_hasConfig false (Conn.set_m_hasStatus false c) in
  let c := abortReply (Conn.m_configReply c) run_readConfig c in
  let c := abortReply (Conn.m_statusReply c) readStatus c in
  let c := abortReply (Conn.m_connectionsReply c) (readConnections 0 0) c in
  abortReply (Conn.m_errorsReply c) (readErrors noTimeStamp 0) c.

Example polling_is_connected :
  Conn.m_status polling = SyncthingStatus.Idle /\ Conn.m_eventsReply polling = Some 7%nat.
Proof. vm_compute. split; reflexivity. Qed.

(** C5, refuted for the events: the canceled reply to the events request
    makes the handler emit an error notification. *)
Lemma canceled_events_request_reports_error :
  replyError (canceled 7%nat) = OperationCanceledError
  /\ errorsEmitted reconnectingWithoutKey = []
  /\ errorsEmitted (run_readEvents (canceled 7%nat) reconnectingWithoutKey)
     = [Signal.error "Connection configuration is insufficient." OverallConnection].
Proof. vm_compute. repeat split; reflexivity. Qed.

(** [reconnect()] ends with that call of the handler. *)
Example reconnect_without_key :
  run_reconnect 0 (Conn.set_m_apiKey "" polling)
  = run_readEvents (canceled 7%nat) reconnectingWithoutKey.
Proof. vm_compute. reflexivity. Qed.

Lemma canceled_requests_are_not_errors_witness :
  silent (connect fresh) (run_readConfig (canceled 0%nat) (connect fresh)).
Proof.
  exact (proj1 (canceled_requests_are_not_errors plainDir plainDev plainItem
                  plainAssignStatusString plainAssignStatus 131072 noTimeStamp noTimeStamp
                  number 0 0 0 (canceled 0%nat) (connect fresh) eq_refl)).
Defined.

(** Disconnecting while the request for the configuration is pending. *)
Example disconnect_while_config_pending :
  let c :=
    disconnect plainDir plainDev plainItem plainAssignStatusString plainAssignStatus 131072
      noTimeStamp noTimeStamp number 0 (connect fresh) in
  errorsEmitted c = [] /\ Conn.m_hasConfig c = false.
Proof. vm_compute. split; reflexivity. Qed.

(** ** Insufficient configuration, on an instance *)

Lemma connect_insufficient_configuration_witness :
  Conn.emitted (connect (SyncthingConnection "http://localhost:8384" ""))
  = [Signal.error "Connection configuration is insufficient." OverallConnection].
Proof.
  exact (proj1 (connect_insufficient_configuration
                  (SyncthingConnection "http://localhost:8384" "")
                  eq_refl (or_introl eq_refl))).
Defined.

(** ** The own device, on an instance *)

Lemma own_device_is_sticky_witness :
  ownDeviceAt 0%nat "dev1"
    (readDeviceEvent 0 "DeviceDisconnected" [("device", JString "dev1")] connected).
Proof.
  exact (proj1 (own_device_is_sticky connected 0%nat
                  (SyncthingDev.set_status SyncthingDevStatus.OwnDevice
                     (SyncthingDev.set_name "desk" (plainDev "dev1")))
                  eq_refl eq_refl)
           0 "DeviceDisconnected" [("device", JString "dev1")]).
Defined.

Example rejected_device :
  SyncthingDev.status
    <$> Conn.m_devs (readDeviceEvent 0 "DeviceRejected" [("device", JString "dev2")] connected)
  = [SyncthingDevStatus.OwnDevice; SyncthingDevStatus.Rejected].
Proof. vm_compute. reflexivity. Qed.

(** ** Transfer rates, on an instance *)

(** 1000 bytes had come in at second 1; 2000 are reported at second 11. *)
Definition polledBefore : Conn.t :=
  Conn.set_m_totalIncomingTraffic 1000
    (Conn.set_m_lastConnectionsUpdate (1 * Chrono.ticksPerSecond) connected).

Definition connectionsReply : Reply :=
  objectReply 2%nat
    [("connections", JObject []);
     ("total", JObject [("inBytesTotal", JDouble 2000); ("outBytesTotal", JDouble 0)])].

Lemma transfer_rates_witness :
  Conn.m_totalIncomingRate
    (readConnections (11 * Chrono.ticksPerSecond) (11 * Chrono.ticksPerSecond)
       connectionsReply polledBefore)
  = 0x1.999999999999ap-1%float.
Proof.
  destruct (transfer_rates (11 * Chrono.ticksPerSecond) (11 * Chrono.ticksPerSecond)
              connectionsReply
              (DocObject
                 [("connections", JObject []);
                  ("total", JObject [("inBytesTotal", JDouble 2000);
                                     ("outBytesTotal", JDouble 0)])])
              polledBefore 2000 0 eq_refl eq_refl
              ltac:(split; [vm_compute; reflexivity|lia])
              ltac:(split; [vm_compute; reflexivity|lia])
              ltac:(vm_compute; split; [discriminate|reflexivity])
              ltac:(vm_compute; split; [discriminate|reflexivity])) as [Hrate _].
  destruct (Hrate ltac:(vm_compute; reflexivity)) as [Hincoming _].
  rewrite Hincoming. vm_compute. reflexivity.
Defined.

(** C8, refuted for a counter that falls.  The first poll reports 1000
    bytes at second 1; Syncthing restarts and counts anew, and the poll at
    second 11 reports 500 bytes.  The rate is not that of -500 bytes in 10
    seconds, -0.4, but that of [2 ^ 64 - 500] bytes. *)
Definition trafficReply (r : ReplyId) (inBytesTotal : float) : Reply :=
  objectReply r
    [("connections", JObject []);
     ("total", JObject [("inBytesTotal", JDouble inBytesTotal);
                        ("outBytesTotal", JDouble 0)])].

Definition polledOnce : Conn.t :=
  readConnections (1 * Chrono.ticksPerSecond) (1 * Chrono.ticksPerSecond)
    (trafficReply 2%nat 1000) connected.

Definition counterFallen : Conn.t :=
  readConnections (11 * Chrono.ticksPerSecond) (11 * Chrono.ticksPerSecond)
    (trafficReply 7%nat 500) polledOnce.

Lemma rate_of_a_fallen_counter :
  Conn.m_totalIncomingTraffic polledOnce = 1000
  /\ Conn.m_totalIncomingTraffic counterFallen = 500
  /\ Chrono.secondsBetween (11 * Chrono.ticksPerSecond)
       (Conn.m_lastConnectionsUpdate polledOnce) = 10%float
  /\ Conn.m_totalIncomingRate counterFallen
     = (double_of_Z (2 ^ 64 - 500)%Z * kbitPerByte / 10)%float
  /\ Conn.m_totalIncomingRate counterFallen
     <> (double_of_Z (500 - 1000)%Z * kbitPerByte / 10)%float
  /\ PrimFloat.ltb 1e16%float (Conn.m_totalIncomingRate counterFallen) = true.
Proof.
  split; [vm_compute; reflexivity|]. split; [vm_compute; reflexivity|].
  split; [vm_compute; reflexivity|]. split; [vm_compute; reflexivity|].
  split; [|vm_compute; reflexivity].
  intros H. apply (f_equal (fun d => PrimFloat.ltb d 0%float)) in H.
  vm_compute in H. discriminate H.
Qed.

Example first_poll_has_no_rate :
  Conn.m_totalIncomingRate (readConnections 0 0 connectionsReply connected) = 0%float.
Proof. vm_compute. reflexivity. Qed.

(** ** Download progress, on instances *)

Definition progressPayload (pulled total : Z) : QJsonObject :=
  [("a", JObject [("file.bin", JObject [("Pulled", JDouble (double_of_Z pulled));
                                        ("Total", JDouble (double_of_Z total))])])].

(** C9, refuted: an item with five blocks pulled of two in total gives its
    directory a download percentage of 250. *)
Lemma download_percentage_above_100 :
  exists dirInfo,
    Conn.m_dirs (run_readDownloadProgressEvent 0 (progressPayload 5 2) connected) !! 0%nat
    = Some dirInfo
    /\ SyncthingDir.blocksToBeDownloaded dirInfo = 2
    /\ SyncthingDir.downloadPercentage dirInfo = 250
    /\ ~ (0 <= SyncthingDir.downloadPercentage dirInfo <= 100).
Proof.
  eexists. split; [vm_compute; reflexivity|]. vm_compute.
  repeat split. intros [_ H]. apply H. reflexivity.
Qed.

Definition quarterDownloaded : SyncthingDir.t :=
  default (plainDir "")
    (Conn.m_dirs (run_readDownloadProgressEvent 0 (progressPayload 1 4) connected) !! 0%nat).

Lemma download_percentage_bounds_witness :
  SyncthingDir.downloadPercentage quarterDownloaded = 25
  /\ 0 <= SyncthingDir.downloadPercentage quarterDownloaded <= 100.
Proof.
  destruct (download_percentage_bounds plainItem 131072 number 0 (progressPayload 1 4)
              connected 0%nat quarterDownloaded ltac:(vm_compute; reflexivity))
    as (Hnonneg & _ & _ & Hle).
  split; [vm_compute; reflexivity|]. split; [exact Hnonneg|].
  apply Hle. vm_compute. discriminate.
Defined.

(** * More of the connection, on instances *)

(** ** The bookkeeping of [setStatus] *)

Lemma setStatus_tracks_synchronized_dirs_witness :
  Conn.m_syncedDirs (setStatus SyncthingStatus.Disconnected syncing) = []
  /\ Conn.m_completedDirs (setStatus SyncthingStatus.Disconnected syncing)
     = Conn.m_completedDirs syncing
  /\ Conn.m_autoReconnectTries (setStatus SyncthingStatus.Disconnected syncing)
     = Conn.m_autoReconnectTries syncing.
Proof.
  exact (setStatus_tracks_synchronized_dirs SyncthingStatus.Disconnected syncing
           ltac:(vm_compute; discriminate)).
Defined.

(** ** Polling for events *)

Lemma readEvents_polls_again_witness :
  Conn.m_status syncing = aggregateStatus (Conn.m_dirs syncing) (Conn.m_devs syncing).
Proof.
  exact (proj1 (readEvents_polls_again plainDir plainItem plainAssignStatusString
                  plainAssignStatus 131072 noTimeStamp number
                  (arrayReply 6%nat [stateChanged 5 "a" "syncing"])
                  (DocArray [stateChanged 5 "a" "syncing"]) connected
                  eq_refl eq_refl ltac:(vm_compute; reflexivity)
                  ltac:(vm_compute; discriminate))).
Defined.

Definition refused (r : ReplyId) : Reply :=
  mkReply r OtherNetworkError "Connection refused" (inl "").

Lemma failed_config_or_events_request_disconnects_witness :
  givesUp (Signal.error "Unable to request Syncthing events: Connection refused"
             OverallConnection)
    connected (run_readEvents (refused 6%nat) connected).
Proof.
  exact (proj1 (proj2 (failed_config_or_events_request_disconnects plainDir plainDev plainItem
                         plainAssignStatusString plainAssignStatus 131072 noTimeStamp number
                         (refused 6%nat) connected ltac:(vm_compute; discriminate)))
           eq_refl).
Defined.

(** ** Establishing the connection *)

Lemma polling_starts_once_config_and_status_are_read_witness :
  requestsIssued (connect fresh)
  = requestsIssued fresh
    ++ [Signal.httpGet 0%nat "system/config" []; Signal.httpGet 1%nat "system/status" []].
Proof.
  exact (proj1 (polling_starts_once_config_and_status_are_read plainDir plainDev
                  (objectReply 0%nat configOfTwoFolders)
                  (objectReply 1%nat [("myID", JString "dev1")])
                  (DocObject configOfTwoFolders) (DocObject [("myID", JString "dev1")])
                  fresh eq_refl eq_refl eq_refl eq_refl eq_refl eq_refl eq_refl)).
Defined.

Lemma established_connection_is_not_restarted_witness :
  connect syncing
  = Conn.set_m_autoReconnectTries 0 (Conn.set_m_autoReconnectTimerActive false syncing).
Proof.
  exact (proj1 (established_connection_is_not_restarted plainDir plainDev
                  (objectReply 7%nat configOfTwoFolders) (DocObject configOfTwoFolders)
                  syncing ltac:(vm_compute; reflexivity))).
Defined.

(** ** The collections after a configuration *)

Lemma configuration_replaces_the_collections_witness :
  map SyncthingDir.id (Conn.m_dirs (readDirs plainDir foldersPayload knownEntities))
  = payloadIds payloadDirId foldersPayload.
Proof.
  exact (proj1 (configuration_replaces_the_collections plainDir plainDev foldersPayload
                  devicesPayload knownEntities (fun _ => eq_refl) (fun _ => eq_refl))).
Defined.

Lemma readDevs_marks_the_own_device_witness :
  SyncthingDev.status
    (assignDevConfig "me" [("deviceID", JString "dev2"); ("name", JString "phone")]
       (SyncthingDev.set_paused true
          (SyncthingDev.set_status SyncthingDevStatus.Idle (plainDev "dev2"))))
  = SyncthingDevStatus.Unknown.
Proof.
  exact (readDevs_marks_the_own_device plainDev devicesPayload knownEntities
           (assignDevConfig "me" [("deviceID", JString "dev2"); ("name", JString "phone")]
              (SyncthingDev.set_paused true
                 (SyncthingDev.set_status SyncthingDevStatus.Idle (plainDev "dev2"))))
           ltac:(vm_compute; apply list_elem_of_here)).
Defined.

Lemma readStatus_adopts_the_own_id_witness : Conn.m_myId connected = "dev1".
Proof.
  exact (proj1 (readStatus_adopts_the_own_id (objectReply 1%nat [("myID", JString "dev1")])
                  (DocObject [("myID", JString "dev1")])
                  (run_readConfig (objectReply 0%nat configOfTwoFolders) (connect fresh))
                  eq_refl eq_refl)).
Defined.

(** ** The connections of the devices *)

(** The phone, unknown so far, is reported as connected. *)
Definition phoneConnected : QJsonObject :=
  [("connections",
    JObject [("dev2", JObject [("address", JString "10.0.0.2:22000");
                               ("clientVersion", JString "v0.14.8");
                               ("connected", JBool true);
                               ("inBytesTotal", JDouble 1000);
                               ("outBytesTotal", JDouble 50);
                               ("paused", JBool false);
                               ("type", JString "TCP")])]);
   ("total", JObject [("inBytesTotal", JDouble 2000); ("outBytesTotal", JDouble 100)])].

Lemma connections_update_each_device_from_its_entry_witness :
  exists phone,
    Conn.m_devs (readConnections (11 * Chrono.ticksPerSecond) (11 * Chrono.ticksPerSecond)
                   (objectReply 2%nat phoneConnected) connected) !! 1%nat = Some phone
    /\ SyncthingDev.status phone = SyncthingDevStatus.Idle
    /\ SyncthingDev.totalIncomingTraffic phone = 1000
    /\ SyncthingDev.totalOutgoingTraffic phone = 50
    /\ SyncthingDev.connectionAddress phone = "10.0.0.2:22000"
    /\ SyncthingDev.name phone = "phone".
Proof.
  destruct (connections_update_each_device_from_its_entry
              (11 * Chrono.ticksPerSecond) (11 * Chrono.ticksPerSecond)
              (objectReply 2%nat phoneConnected) (DocObject phoneConnected)
              connected eq_refl eq_refl) as (_ & Hdevs & _).
  destruct (Hdevs 1%nat
              (SyncthingDev.set_name "phone" (plainDev "dev2"))
              eq_refl) as (phone & Hphone & Hupdated).
  exists phone. split; [exact Hphone|].
  destruct Hupdated
    as (_ & _ & Hidle & _ & _ & Hin & Hout & Haddress & _ & _ & _ & Hname & _).
  split; [apply Hidle; [right|]; reflexivity|].
  split; [apply Hin; split; [vm_compute; reflexivity|lia]|].
  split; [apply Hout; split; [vm_compute; reflexivity|lia]|].
  split; [exact Haddress|exact Hname].
Defined.

(** ** Reconnecting *)

Lemma reconnect_restarts_the_connection_witness :
  restarted syncing (run_reconnect 0 syncing).
Proof.
  exact (proj1 (reconnect_restarts_the_connection plainDir plainDev plainItem
                  plainAssignStatusString plainAssignStatus 131072 noTimeStamp noTimeStamp
                  number 0 syncing ltac:(vm_compute; discriminate) eq_refl eq_refl
                  ltac:(intros _; vm_compute; discriminate))).
Defined.

Lemma failed_reconnect_attempts_are_counted_witness :
  Conn.m_autoReconnectTries
    (fold_left (failedAttempt plainDir plainDev) [refused 0%nat; refused 2%nat] fresh)
  = 0 + 2.
Proof.
  exact (failed_reconnect_attempts_are_counted plainDir plainDev
           [refused 0%nat; refused 2%nat] fresh
           ltac:(repeat constructor; right; reflexivity)
           ltac:(vm_compute; discriminate) ltac:(vm_compute; discriminate)).
Defined.

(** ** The tray icon, on instances *)

Definition trayDefaults : Settings.t := Settings.mk true true true true false.

(** The icon while folder "a" synchronizes, and the connection when the
    folder has become idle and the status is not yet derived anew. *)
Definition synchronizingIcon : TrayIcon.t :=
  TrayIcon.mk true SyncthingStatus.Synchronizing [].

Definition finishing : Conn.t :=
  updateDir 0 (SyncthingDir.set_status SyncthingDirStatus.Idle) syncing.

Example completion_message :
  TrayIcon.effects
    (updateStatusIconAndText false trayDefaults "Syncthing Tray" SyncthingDir.label
       SyncthingStatus.Idle (setStatus SyncthingStatus.Idle finishing) synchronizingIcon)
  = [setIcon StatusIcon.Idling; setToolTip "Syncthing is idling";
     showMessage "Syncthing Tray" "Synchronization of A complete" Information].
Proof. vm_compute. reflexivity. Qed.

Lemma end_of_synchronization_is_announced_witness :
  exists added,
    TrayIcon.effects
      (updateStatusIconAndText false trayDefaults "Syncthing Tray" SyncthingDir.label
         (Conn.m_status (setStatus SyncthingStatus.Idle finishing))
         (setStatus SyncthingStatus.Idle finishing) synchronizingIcon)
    = added
    /\ last added
       = Some (showMessage "Syncthing Tray" "Synchronization of A complete" Information).
Proof.
  destruct (end_of_synchronization_is_announced false trayDefaults "Syncthing Tray"
              SyncthingDir.label SyncthingStatus.Idle finishing synchronizingIcon
              ltac:(vm_compute; reflexivity) eq_refl eq_refl
              ltac:(discriminate) ltac:(discriminate) ltac:(vm_compute; reflexivity)
              ltac:(vm_compute; repeat constructor; eexists; reflexivity))
    as (_ & _ & names & added & Hnames & Hadded & Hlast).
  exists added. split; [exact Hadded|].
  vm_compute in Hnames.
  inversion Hnames as [|row name rows names' (dir & Hdir & Hname) Hrest]. subst.
  inversion Hrest. subst.
  injection Hdir as <-. vm_compute in Hlast. exact Hlast.
Defined.

Lemma notification_leaves_the_icon_alone_witness :
  TrayIcon.m_status
    (showSyncthingNotification false trayDefaults "Syncthing Tray" SyncthingDir.label
       0 "disk full" connected synchronizingIcon)
  = SyncthingStatus.Synchronizing.
Proof.
  exact (proj1 (notification_leaves_the_icon_alone false trayDefaults "Syncthing Tray"
                  SyncthingDir.label 0 "disk full" connected synchronizingIcon eq_refl)).
Defined.

Lemma reconnect_errors_are_not_shown_witness :
  1 <= Conn.m_autoReconnectTries (failedAttempt plainDir plainDev fresh (refused 0%nat)).
Proof.
  exact (proj1 (reconnect_errors_are_not_shown false trayDefaults plainDir plainDev
                  "Unable to request Syncthing config: Connection refused" Parsing
                  (refused 0%nat) fresh synchronizingIcon
                  (or_intror eq_refl)
                  ltac:(vm_compute; split; [discriminate|reflexivity]))).
Defined.
